(** * Hybrid (BM25 + vector) search of PROJET_NLP_DIT: fusion, expansion, fail-soft

    A shallow embedding of the ranking core of the repository:
    - [final_code/search_engine.py] and [final_code/database.py]
      (module [FinalCode]),
    - [arxiv-search-engine/src/search_engine.py] (module [ArxivSearchEngine]),
    - [ArxIV/backend.py], function [expand_query_with_gemma] (module [ArxIV]),

    and of the code around it:
    - the index, the faceted search and the summary of arxiv-search-engine
      (modules [ArxivIndex], [Facets], [ArxivSummary]), and the chunks of
      its ingestion (module [Chunking]),
    - the summary, the ingestion and the facets of final_code (modules
      [FinalSummary], [Ingestion], [StoreFacets]),
    - the store of papers, the hybrid search and the indexing end point
      of [ArxIV/backend.py] (modules [Backend], [Indexing]).

    Conventions of the embedding.
    - A Python [str] is the list of its code points ([Py.str = list N]), so
      that [len] counts characters as Python does.
    - A Python [float] score is an exact rational ([Q]); rounding is not
      modelled.  Equality of scores is [Qeq] ([==]).
    - A Python [dict] whose iteration order is observable (the
      [combined_results] of the fusion loops) is an association list in
      insertion order.
    - A call that may raise returns [Py.result]; [try ... except Exception]
      is [Py.try_except].  [print] calls are not modelled.
    - External libraries (Ollama, requests, ChromaDB, rank_bm25, numpy, the
      [re] and Unicode tables, [json], [datetime], the arXiv client) are
      type classes: the code is verified for every implementation of them.
    - Module-level state (the globals of [ArxIV/backend.py]) is passed
      explicitly; a loop that may not end is run with a bound on the number
      of its iterations. *)

From Stdlib Require Import QArith Qminmax ZArith NArith List String Ascii Bool.
From Stdlib Require Import Lia Lqa Permutation Sorted.
From Stdlib Require Import DecimalString DecimalNat.
Import ListNotations.

Set Implicit Arguments.

(* ================================================================== *)
(** ** Python values *)
(* ================================================================== *)

Module Py.

(** [str]: a sequence of Unicode code points. *)
Definition str := list N.

(** An ASCII literal. *)
Definition lit (s : string) : str :=
  List.map N_of_ascii (list_ascii_of_string s).

Fixpoint eqb (a b : str) : bool :=
  match a, b with
  | [], [] => true
  | x :: a', y :: b' => N.eqb x y && eqb a' b'
  | _, _ => false
  end.

(** [len(s)] *)
Definition len (s : str) : Z := Z.of_nat (List.length s).

(** [str.isspace] on one character; the same set is [\s] of [re] on
    [str] patterns. *)
Definition isspace (c : N) : bool :=
  ((9 <=? c) && (c <=? 13) || (28 <=? c) && (c <=? 32)
   || (c =? 133) || (c =? 160) || (c =? 5760)
   || (8192 <=? c) && (c <=? 8202)
   || (c =? 8232) || (c =? 8233) || (c =? 8239) || (c =? 8287)
   || (c =? 12288))%N.

Fixpoint lstrip (s : str) : str :=
  match s with
  | c :: r => if isspace c then lstrip r else s
  | [] => []
  end.

Definition rstrip (s : str) : str := rev (lstrip (rev s)).

(** [s.strip()] *)
Definition strip (s : str) : str := rstrip (lstrip s).

Definition newline : N := 10.
Definition space : N := 32.

(** [s.replace] of every newline by a space. *)
Definition replace_newline_by_space (s : str) : str :=
  List.map (fun c => if N.eqb c newline then space else c) s.

(** The first item of [s.split] at newlines. *)
Fixpoint first_line (s : str) : str :=
  match s with
  | [] => []
  | c :: r => if N.eqb c newline then [] else c :: first_line r
  end.

(** Truth value of a [str] or a [list]: non-empty. *)
Definition truthy {A} (l : list A) : bool :=
  match l with [] => false | _ :: _ => true end.

(** [s.split()]: the maximal runs of non-whitespace characters; [cur] is
    the current run, reversed. *)
Fixpoint split_from (cur : str) (s : str) : list str :=
  match s with
  | [] => if truthy cur then [rev cur] else []
  | c :: r =>
      if isspace c
      then (if truthy cur then rev cur :: split_from [] r else split_from [] r)
      else split_from (c :: cur) r
  end.

Definition split (s : str) : list str := split_from [] s.

(** [join] with a single space as separator. *)
Fixpoint join_space (l : list str) : str :=
  match l with
  | [] => []
  | [s] => s
  | s :: r => s ++ space :: join_space r
  end.

(** [l[:k]] for an [int] [k]: the first [k] items, or all but the last
    [-k] when [k] is negative. *)
Definition slice_to {A} (k : Z) (l : list A) : list A :=
  if (0 <=? k)%Z then firstn (Z.to_nat k) l
  else firstn (List.length l - Z.to_nat (- k)) l.

(** [l[-k:]] for an [int] [k]: the last [k] items when [k > 0], the whole
    list when [k = 0], and [l[|k|:]] when [k < 0]. *)
Definition slice_last {A} (k : Z) (l : list A) : list A :=
  if (0 <? k)%Z then skipn (List.length l - Z.to_nat k) l
  else skipn (Z.to_nat (- k)) l.

(** Exceptions deriving from [Exception], with their message. *)
Inductive exn := Exception (msg : str).

Definition IndexError : exn := Exception (lit "IndexError").
Definition KeyError : exn := Exception (lit "KeyError").
Definition AttributeError : exn := Exception (lit "AttributeError").

Inductive result (A : Type) :=
| Ok (a : A)
| Raise (e : exn).
Arguments Ok {A} a.
Arguments Raise {A} e.

Definition bind {A B} (r : result A) (k : A -> result B) : result B :=
  match r with Ok a => k a | Raise e => Raise e end.

(** [try: return body  except Exception: return handler] *)
Definition try_except {A} (body : result A) (handler : exn -> A) : A :=
  match body with Ok a => a | Raise e => handler e end.

(** [l[i]] for [i >= 0]. *)
Definition getitem {A} (l : list A) (i : nat) : result A :=
  match nth_error l i with
  | Some x => Ok x
  | None => Raise IndexError
  end.

(** [max(...)] and [min(...)] over a non-empty iterable, first item [x]:
    the running extremum is replaced only by a strictly better item. *)
Definition max (x : Q) (xs : list Q) : Q :=
  fold_left (fun m y => if Qle_bool y m then m else y) xs x.

Definition min (x : Q) (xs : list Q) : Q :=
  fold_left (fun m y => if Qle_bool m y then m else y) xs x.

(** [x > 0] on scores. *)
Definition positive (x : Q) : bool := negb (Qle_bool x 0).

(** [list.sort(key=key, reverse=True)] and [sorted(..., reverse=True)]:
    a stable sort in descending key order (items with equal keys keep
    their original relative order). *)
Section Sort.
Variable A : Type.
Variable key : A -> Q.

Fixpoint insert_desc (x : A) (l : list A) : list A :=
  match l with
  | [] => [x]
  | y :: r =>
      if Qle_bool (key y) (key x) then x :: l
      else y :: insert_desc x r
  end.

Definition sort_desc (l : list A) : list A :=
  fold_right insert_desc [] l.
End Sort.

(** An insertion-ordered [dict] keyed by [str]. *)
Section Dict.
Variable V : Type.

Definition dict := list (str * V).

Fixpoint get (k : str) (d : dict) : option V :=
  match d with
  | [] => None
  | (k', v) :: r => if eqb k k' then Some v else get k r
  end.

(** [d[k] = v]: an existing key keeps its position. *)
Fixpoint set (k : str) (v : V) (d : dict) : dict :=
  match d with
  | [] => [(k, v)]
  | (k', v') :: r =>
      if eqb k k' then (k', v) :: r else (k', v') :: set k v r
  end.

Definition keys (d : dict) : list str := List.map fst d.
Definition values (d : dict) : list V := List.map snd d.
End Dict.

End Py.

Notation "x <- c1 ;; c2" := (Py.bind c1 (fun x => c2))
  (at level 61, c1 at next level, right associativity).

(* ================================================================== *)
(** ** Vocabulary for rankings *)
(* ================================================================== *)

Module Ranking.

Section Ranking.
Variable A : Type.
Variable key : A -> Q.

(** [desc a b]: [a] may stand before [b] in descending key order. *)
Definition desc (a b : A) : Prop := key b <= key a.

(** The items of [l] whose key is [q], in the order of [l]. *)
Definition with_key (q : Q) (l : list A) : list A :=
  filter (fun x => Qeq_bool (key x) q) l.

(** [before a b l]: [a] occurs in [l] at a position before one of [b]. *)
Definition before (a b : A) (l : list A) : Prop :=
  exists l1 l2 l3, l = l1 ++ a :: l2 ++ b :: l3.

End Ranking.

(** Python's order on [str]: lexicographic on the code points. *)
Fixpoint str_ltb (a b : Py.str) : bool :=
  match a, b with
  | _, [] => false
  | [], _ :: _ => true
  | x :: a', y :: b' => (x <? y)%N || (N.eqb x y && str_ltb a' b')
  end.

(** A score of the interval [0, 1]. *)
Definition unit_interval (q : Q) : Prop := 0 <= q <= 1.

End Ranking.

(* ================================================================== *)
(** ** The providers: Ollama over its client or over HTTP *)
(* ================================================================== *)

Module Provider.

(** The value found under the key [response] of a generation answer:
    absent ([KeyError]), not a [str] ([.strip()] raises
    [AttributeError]), or a text. *)
Inductive field :=
| Missing
| NotStr
| Str (s : Py.str).

(** A decoded answer: the keys [embedding] and [response]. *)
Record body := {
  embedding : option (list Q);
  response : field
}.

(** The lookup of the key [embedding]. *)
Definition get_embedding_field (b : body) : Py.result (list Q) :=
  match embedding b with
  | Some e => Py.Ok e
  | None => Py.Raise Py.KeyError
  end.

(** The lookup of the key [response], then [.strip()]. *)
Definition get_response_stripped (b : body) : Py.result Py.str :=
  match response b with
  | Missing => Py.Raise Py.KeyError
  | NotStr => Py.Raise Py.AttributeError
  | Str s => Py.Ok (Py.strip s)
  end.

(** A malformed generation answer: no text under the key [response]. *)
Definition no_text (b : body) : Prop :=
  response b = Missing \/ response b = NotStr.

(** The [options] of a generation call. *)
Record options := {
  temperature : Q;
  num_predict : Z
}.

(** [ollama.Client]: both calls may raise. *)
Class Ollama := {
  embeddings : Py.str -> Py.str -> Py.result body;
  generate : Py.str -> Py.str -> options -> Py.result body
}.

(** [requests.post(url, json=..., timeout=...)]. *)
Record request := {
  url : Py.str;
  model : Py.str;
  prompt : Py.str;
  stream : option bool;
  request_options : option options;
  timeout : option Z
}.

(** A [requests.Response]: [status_code] and [json()], which may raise. *)
Record reply := {
  status_code : Z;
  json : Py.result body
}.

Class Requests := {
  post : request -> Py.result reply
}.

End Provider.

(* ================================================================== *)
(** ** rank_bm25, numpy and the Unicode tables *)
(* ================================================================== *)

Module Lexical.

(** [lower] is [str.lower]; [get_scores corpus q] is
    [BM25Okapi(corpus).get_scores(q)]; [argsort] is [numpy.argsort];
    [findall_words s] is [re.findall] of the maximal words of [s];
    [list_of_set l] is [list(set(l))], whose order Python leaves
    unspecified. *)
Class Lib := {
  lower : Py.str -> Py.str;
  get_scores : list (list Py.str) -> list Py.str -> list Q;
  argsort : list Q -> list nat;
  findall_words : Py.str -> list Py.str;
  list_of_set : list Py.str -> list Py.str
}.

(** What numpy promises of [argsort scores]: the indices of [scores],
    each once, in ascending order of score. *)
Definition argsort_spec (scores : list Q) (idxs : list nat) : Prop :=
  Permutation idxs (seq 0 (List.length scores))
  /\ StronglySorted
       (fun i j => nth i scores 0 <= nth j scores 0) idxs.

(** What the two libraries promise: [argsort] sorts the indices, and
    [get_scores] returns one score per document of the corpus. *)
Definition lawful (lib : Lib) : Prop :=
  (forall scores, argsort_spec scores (argsort scores))
  /\ (forall corpus q,
        List.length (get_scores corpus q) = List.length corpus).

End Lexical.

(* ================================================================== *)
(** ** final_code: config.py, database.py and search_engine.py *)
(* ================================================================== *)

Module FinalCode.

Import Provider Lexical.

(** config.py *)
Definition EMBEDDING_MODEL : Py.str := Py.lit "nomic-embed-text".
Definition LLM_MODEL : Py.str := Py.lit "gemma2:2b".

(** A metadata dict of a stored document ([str] keys and values). *)
Definition metadata := list (Py.str * Py.str).

(** One row of [collection.query(...)]: the i-th items of the parallel
    lists [ids[0]], [documents[0]], [distances[0]], [metadatas[0]]. *)
Record row := {
  row_id : Py.str;
  row_document : Py.str;
  row_distance : Q;
  row_metadata : metadata
}.

(** [collection.get()]: the parallel lists of the store. *)
Record all_docs := {
  ids : list Py.str;
  documents : list Py.str;
  metadatas : list metadata
}.

(** The collection: its contents and its vector query, with [n_results]
    and the [where] clause ([None], or a dict from a key to the value
    its metadata must contain). *)
Class Chroma := {
  collection_get : all_docs;
  collection_query :
    list Q -> Z -> option (Py.dict Py.str) -> Py.result (list row)
}.

(** One formatted hit of [VectorDatabase.search]
    (keys [id], [document], [distance], [score], [metadata]). *)
Record hit := {
  hit_id : Py.str;
  hit_document : Py.str;
  hit_distance : Q;
  hit_score : Q;
  hit_metadata : metadata
}.

(** One item of [bm25_search] (keys [index], [bm25_score], [document]). *)
Record bm25_item := {
  index : nat;
  raw_bm25_score : Q;
  bm25_document : Py.str
}.

(** The [result] dict carried in [combined_results]: a vector hit, or the
    basic record built for a BM25-only document (no [distance] key). *)
Record result := {
  id : Py.str;
  document : Py.str;
  distance : option Q;
  score : Q;
  result_metadata : metadata
}.

Definition result_of_hit (h : hit) : result :=
  {| id := hit_id h; document := hit_document h;
     distance := Some (hit_distance h); score := hit_score h;
     result_metadata := hit_metadata h |}.

(** A value of [combined_results]. *)
Record scores := {
  semantic_score : Q;
  bm25_score : Q;
  scores_result : result
}.

(** An item of the returned list: [result.copy()] plus three keys. *)
Record final_result := {
  final : result;
  hybrid_score : Q;
  final_semantic_score : Q;
  final_bm25_score : Q
}.

(** *** database.py *)

Section Database.
Context {ollama : Ollama} {chroma : Chroma}.

(** [VectorDatabase.generate_embedding] *)
Definition generate_embedding (text : Py.str) : list Q :=
  Py.try_except
    (response <- embeddings EMBEDDING_MODEL text ;;
     get_embedding_field response)
    (fun _ => []).

(** The filter dict: a value is a [str] or [None]. *)
Definition filters := Py.dict (option Py.str).

(** Line 73: the value is used when it is truthy and is not [Tous]. *)
Definition filter_value_used (value : option Py.str) : bool :=
  match value with
  | None => false
  | Some v => Py.truthy v && negb (Py.eqb v (Py.lit "Tous"))
  end.

(** Lines 70-74 of database.py. *)
Definition where_clause (f : option filters) : Py.dict Py.str :=
  match f with
  | None => []
  | Some items =>
      fold_left
        (fun w kv =>
           match snd kv with
           | Some value =>
               if filter_value_used (Some value)
               then Py.set (fst kv) value w else w
           | None => w
           end)
        items []
  end.

Definition format_row (r : row) : hit :=
  {| hit_id := row_id r;
     hit_document := row_document r;
     hit_distance := row_distance r;
     hit_score := 1 - row_distance r;
     hit_metadata := row_metadata r |}.

(** [VectorDatabase.search] *)
Definition search (query : Py.str) (n_results : Z) (f : option filters)
    : Py.result (list hit) :=
  let embedding := generate_embedding query in
  if negb (Py.truthy embedding) then Py.Ok []
  else
    let w := where_clause f in
    results <- collection_query embedding n_results
                 (if Py.truthy w then Some w else None) ;;
    Py.Ok (List.map format_row results).

End Database.

(** *** search_engine.py: the fusion of [hybrid_search] *)

(** [max - min if max != min else 1] *)
Definition range (mx mn : Q) : Q :=
  if negb (Qeq_bool mx mn) then mx - mn else 1.

(** Lines 91-98: one iteration of the vector loop. *)
Definition add_vector (min_vector_score vector_range : Q)
    (combined : Py.dict scores) (r : hit) : Py.dict scores :=
  let doc_id := hit_id r in
  let normalized_score := (hit_score r - min_vector_score) / vector_range in
  Py.set doc_id
    {| semantic_score := normalized_score; bm25_score := 0;
       scores_result := result_of_hit r |} combined.

(** Lines 86-98. *)
Definition combine_vector (vector_results : list hit) : Py.dict scores :=
  match List.map hit_score vector_results with
  | [] => []
  | s :: ss =>
      let max_vector_score := Py.max s ss in
      let min_vector_score := Py.min s ss in
      let vector_range := range max_vector_score min_vector_score in
      fold_left (add_vector min_vector_score vector_range) vector_results []
  end.

(** Lines 107-126: one iteration of the BM25 loop. *)
Definition add_bm25 (docs : all_docs) (min_bm25_score bm25_range : Q)
    (combined : Py.dict scores) (b : bm25_item) : Py.dict scores :=
  let idx := index b in
  if (idx <? List.length (ids docs))%nat then
    let doc_id := nth idx (ids docs) [] in
    let normalized_score := (raw_bm25_score b - min_bm25_score) / bm25_range in
    match Py.get doc_id combined with
    | Some sc =>
        Py.set doc_id
          {| semantic_score := semantic_score sc;
             bm25_score := normalized_score;
             scores_result := scores_result sc |} combined
    | None =>
        Py.set doc_id
          {| semantic_score := 0;
             bm25_score := normalized_score;
             scores_result :=
               {| id := doc_id;
                  document := bm25_document b;
                  distance := None;
                  score := 0;
                  result_metadata :=
                    if (idx <? List.length (metadatas docs))%nat
                    then nth idx (metadatas docs) [] else [] |} |}
          combined
    end
  else combined.

(** Lines 101-126. *)
Definition combine_bm25 (docs : all_docs) (bm25_results : list bm25_item)
    (combined : Py.dict scores) : Py.dict scores :=
  match List.map raw_bm25_score bm25_results with
  | [] => combined
  | s :: ss =>
      let max_bm25_score := Py.max s ss in
      let min_bm25_score := Py.min s ss in
      let bm25_range := range max_bm25_score min_bm25_score in
      fold_left (add_bm25 docs min_bm25_score bm25_range) bm25_results combined
  end.

(** Lines 83-126. *)
Definition combined_results (docs : all_docs)
    (vector_results : list hit) (bm25_results : list bm25_item)
    : Py.dict scores :=
  combine_bm25 docs bm25_results (combine_vector vector_results).

(** Lines 130-138: one iteration of the scoring loop. *)
Definition finalize (semantic_weight : Q) (kv : Py.str * scores)
    : final_result :=
  let sc := snd kv in
  {| final := scores_result sc;
     hybrid_score := semantic_weight * semantic_score sc
                     + (1 - semantic_weight) * bm25_score sc;
     final_semantic_score := semantic_score sc;
     final_bm25_score := bm25_score sc |}.

(** Lines 129-141: [final_results] after the sort. *)
Definition final_results (semantic_weight : Q) (docs : all_docs)
    (vector_results : list hit) (bm25_results : list bm25_item)
    : list final_result :=
  Py.sort_desc hybrid_score
    (List.map (finalize semantic_weight)
       (combined_results docs vector_results bm25_results)).

(** Lines 82-143: the fusion part of [hybrid_search], from the two
    channel lists to the returned list. *)
Definition fuse (top_k : Z) (semantic_weight : Q) (docs : all_docs)
    (vector_results : list hit) (bm25_results : list bm25_item)
    : list final_result :=
  Py.slice_to top_k
    (final_results semantic_weight docs vector_results bm25_results).

(** *** search_engine.py: the engine *)

(** The attributes [documents_corpus] and [bm25] of the engine; the index
    is represented by the tokenized corpus it was built from. *)
Record engine := {
  documents_corpus : list Py.str;
  bm25 : option (list (list Py.str))
}.

Section Engine.
Context {ollama : Ollama} {chroma : Chroma} {lib : Lib}.

(** [HybridSearchEngine._build_bm25_index], from the initial attributes
    [None] and [[]] set by [__init__]. *)
Definition _build_bm25_index : engine :=
  let docs := documents collection_get in
  if Py.truthy docs then
    let tokenized_corpus := List.map (fun doc => Py.split (lower doc)) docs in
    {| documents_corpus := docs;
       bm25 := if Py.truthy tokenized_corpus
               then Some tokenized_corpus else None |}
  else {| documents_corpus := []; bm25 := None |}.

(** The prompt of [expand_query]. *)
Definition expansion_prompt (query : Py.str) : Py.str :=
  (Py.lit "Reformule cette requ" ++ [234]
   ++ Py.lit "te de recherche scientifique pour am" ++ [233]
   ++ Py.lit "liorer les r" ++ [233] ++ Py.lit "sultats. " ++ [10]
   ++ Py.lit "            Ajoute des synonymes et termes connexes pertinents."
   ++ [10] ++ Py.lit "            Requ" ++ [234] ++ Py.lit "te originale: "
   ++ query
   ++ [10] ++ Py.lit "            " ++ [10] ++ Py.lit "            Requ"
   ++ [234] ++ Py.lit "te " ++ [233]
   ++ Py.lit "tendue (une seule ligne):")%N.

Definition expansion_options : options :=
  {| temperature := 3 # 10; num_predict := 100 |}.

(** [HybridSearchEngine.expand_query] *)
Definition expand_query (query : Py.str) : Py.str :=
  Py.try_except
    (response <- generate LLM_MODEL (expansion_prompt query)
                   expansion_options ;;
     stripped <- get_response_stripped response ;;
     let expanded := Py.replace_newline_by_space stripped in
     Py.Ok (if Py.truthy expanded then expanded else query))
    (fun _ => query).

(** The loop of [bm25_search] over [top_indices]. *)
Fixpoint collect_bm25 (scores : list Q) (corpus : list Py.str)
    (top_indices : list nat) : Py.result (list bm25_item) :=
  match top_indices with
  | [] => Py.Ok []
  | idx :: rest =>
      s <- Py.getitem scores idx ;;
      if Py.positive s then
        d <- Py.getitem corpus idx ;;
        results <- collect_bm25 scores corpus rest ;;
        Py.Ok ({| index := idx; raw_bm25_score := s; bm25_document := d |}
                 :: results)
      else collect_bm25 scores corpus rest
  end.

(** [HybridSearchEngine.bm25_search] *)
Definition bm25_search (self : engine) (query : Py.str) (top_k : Z)
    : Py.result (list bm25_item) :=
  match bm25 self with
  | None => Py.Ok []
  | Some tokenized_corpus =>
      if negb (Py.truthy (documents_corpus self)) then Py.Ok []
      else
        let tokenized_query := Py.split (lower query) in
        let scores := get_scores tokenized_corpus tokenized_query in
        let top_indices := Py.slice_to top_k (rev (argsort scores)) in
        collect_bm25 scores (documents_corpus self) top_indices
  end.

(** [HybridSearchEngine.hybrid_search] *)
Definition hybrid_search (self : engine) (query : Py.str) (top_k : Z)
    (expand : bool) (semantic_weight : Q) (f : option filters)
    : Py.result (list final_result) :=
  let search_query := if expand then expand_query query else query in
  vector_results <- search search_query (top_k * 2) f ;;
  bm25_results <- bm25_search self search_query (top_k * 2) ;;
  Py.Ok (fuse top_k semantic_weight collection_get
           vector_results bm25_results).

End Engine.

(** *** Vocabulary of the statements about the fusion *)

(** The document id that the BM25 loop gives to an item: [ids[index]]
    when the index is in range (lines 108-110). *)
Definition bm25_doc_id (docs : all_docs) (b : bm25_item) : option Py.str :=
  nth_error (ids docs) (index b).

(** The document ids of the lexical channel. *)
Definition bm25_doc_ids (docs : all_docs) (bm25_results : list bm25_item)
    : list Py.str :=
  flat_map
    (fun b => match bm25_doc_id docs b with Some d => [d] | None => [] end)
    bm25_results.

(** The document ids of the semantic channel. *)
Definition vector_doc_ids (vector_results : list hit) : list Py.str :=
  List.map hit_id vector_results.

(** The document ids of a returned list, in order. *)
Definition doc_ids (l : list final_result) : list Py.str :=
  List.map (fun f => id (final f)) l.

(** The normalised score that lines 87-93 (and 102-111) give to the raw
    score [s] of a channel whose raw scores are [channel]. *)
Definition normalize (channel : list Q) (s : Q) : Q :=
  match channel with
  | [] => 0
  | s0 :: ss => (s - Py.min s0 ss) / range (Py.max s0 ss) (Py.min s0 ss)
  end.

(** The keys are pairwise distinct, and each entry carries its key. *)
Definition well_keyed (combined : Py.dict scores) : Prop :=
  NoDup (Py.keys combined)
  /\ Forall (fun kv => id (scores_result (snd kv)) = fst kv) combined.

(** The lexical items that the BM25 loop keeps, each with the document
    id it resolves to. *)
Definition resolved (docs : all_docs) (bm25_results : list bm25_item)
    : list (bm25_item * Py.str) :=
  flat_map
    (fun b => match bm25_doc_id docs b with
              | Some d => [(b, d)]
              | None => []
              end)
    bm25_results.

(** The entry that lines 117-126 create for a document found by the
    lexical channel only. *)
Definition lexical_only (docs : all_docs) (min_bm25_score bm25_range : Q)
    (bd : bm25_item * Py.str) : Py.str * scores :=
  let (b, d) := bd in
  (d, {| semantic_score := 0;
         bm25_score := (raw_bm25_score b - min_bm25_score) / bm25_range;
         scores_result :=
           {| id := d;
              document := bm25_document b;
              distance := None;
              score := 0;
              result_metadata :=
                if (index b <? List.length (metadatas docs))%nat
                then nth (index b) (metadatas docs) [] else [] |} |}).

(** What one iteration of the loop of [bm25_search] appends for an index
    that is in range. *)
Definition kept (scores : list Q) (corpus : list Py.str) (idx : nat)
    : list bm25_item :=
  if Py.positive (nth idx scores 0)
  then [ {| index := idx;
            raw_bm25_score := nth idx scores 0;
            bm25_document := nth idx corpus [] |} ]
  else [].

(** The embedding provider fails on [text]: the call raises, or its
    answer has no embedding. *)
Definition embedding_fails {ollama : Ollama} (text : Py.str) : Prop :=
  match embeddings EMBEDDING_MODEL text with
  | Py.Raise _ => True
  | Py.Ok b => embedding b = None
  end.

(** The generation provider fails on [query]: the call raises, or its
    answer is malformed. *)
Definition generation_fails {ollama : Ollama} (query : Py.str) : Prop :=
  match generate LLM_MODEL (expansion_prompt query) expansion_options with
  | Py.Raise _ => True
  | Py.Ok b => no_text b
  end.

(** The generation provider answers [query] with the text [s]. *)
Definition generation_says {ollama : Ollama} (query s : Py.str) : Prop :=
  exists b,
    generate LLM_MODEL (expansion_prompt query) expansion_options = Py.Ok b
    /\ response b = Str s.

(** The document ids of a list in which [d] stands before [d']. *)
Definition ranked_before (d d' : Py.str) (l : list final_result) : Prop :=
  exists f f',
    id (final f) = d /\ id (final f') = d' /\ Ranking.before f f' l.

(** The index of an engine was built from its corpus. *)
Definition engine_wf (self : engine) : Prop :=
  match bm25 self with
  | Some tokenized_corpus =>
      List.length tokenized_corpus = List.length (documents_corpus self)
  | None => True
  end.

(** The tie-break by document id: of two items with the same hybrid
    score, the one standing first does not have the greater id. *)
Definition ties_by_id (l : list final_result) : Prop :=
  forall l1 a l2 b l3,
    l = l1 ++ a :: l2 ++ b :: l3 ->
    hybrid_score a == hybrid_score b ->
    Ranking.str_ltb (id (final b)) (id (final a)) = false.

Definition unit_scores (kv : Py.str * scores) : Prop :=
  Ranking.unit_interval (semantic_score (snd kv))
  /\ Ranking.unit_interval (bm25_score (snd kv)).

End FinalCode.

(* ================================================================== *)
(** ** arxiv-search-engine/src/search_engine.py *)
(* ================================================================== *)

Module ArxivSearchEngine.

Import Provider Lexical.

(** The values read from [config.yaml] (the file is not part of the
    sources, so its values are parameters). *)
Class Config := {
  ollama_url : Py.str;
  embedding_model : Py.str;
  generation_model : Py.str;
  semantic_weight : Q;
  lexical_weight : Q
}.

Definition metadata := list (Py.str * Py.str).

(** One row of [collection.query(...)]. *)
Record row := {
  row_id : Py.str;
  row_document : Py.str;
  row_metadata : metadata;
  row_distance : Q
}.

Class Chroma := {
  collection_query : list Q -> Z -> Py.result (list row)
}.

(** The attributes set by [_init_bm25]; [bm25] is absent when the
    initialisation failed ([hasattr] is then false). *)
Record engine := {
  documents : list Py.str;
  metadatas : list metadata;
  ids : list Py.str;
  bm25 : option (list (list Py.str))
}.

(** An item of [semantic_search]. *)
Record semantic_item := {
  sem_id : Py.str;
  sem_document : Py.str;
  sem_metadata : metadata;
  sem_distance : Q;
  sem_semantic_score : Q
}.

(** An item of [lexical_search]. *)
Record lexical_item := {
  lex_id : Py.str;
  lex_document : Py.str;
  lex_metadata : metadata;
  lex_bm25_score : Q;
  lex_lexical_score : Q
}.

(** A value of [combined_results]: the keys of the item it was built
    from, with [semantic_score] and [lexical_score]. *)
Record entry := {
  id : Py.str;
  document : Py.str;
  entry_metadata : metadata;
  distance : option Q;
  bm25_score : option Q;
  semantic_score : Q;
  lexical_score : Q
}.

(** A returned item: the entry with its [hybrid_score]. *)
Record scored := {
  scored_entry : entry;
  hybrid_score : Q
}.

Section Engine.
Context {config : Config} {requests : Requests} {chroma : Chroma} {lib : Lib}.

(** The request of [get_embedding]. *)
Definition embedding_request (text : Py.str) : request :=
  {| url := ollama_url ++ Py.lit "/api/embeddings";
     model := embedding_model;
     prompt := text;
     stream := None;
     request_options := None;
     timeout := None |}.

(** [SearchEngine.get_embedding] *)
Definition get_embedding (text : Py.str) : list Q :=
  Py.try_except
    (response <- post (embedding_request text) ;;
     b <- json response ;;
     get_embedding_field b)
    (fun _ => repeat 0 768).

(** The prompt of [expand_query]. *)
Definition expansion_prompt (query : Py.str) : Py.str :=
  (Py.lit "Given the search query: " ++ [34] ++ query ++ [34; 10]
   ++ Py.lit "Generate 3-5 related terms or synonyms that would help find relevant scientific papers."
   ++ [10]
   ++ Py.lit "Return only the expanded terms separated by spaces, no explanation."
   ++ [10; 10] ++ Py.lit "Query: " ++ query
   ++ [10] ++ Py.lit "Expanded terms:")%N.

(** The request of [expand_query]. *)
Definition expansion_request (query : Py.str) : request :=
  {| url := ollama_url ++ Py.lit "/api/generate";
     model := generation_model;
     prompt := expansion_prompt query;
     stream := Some false;
     request_options := None;
     timeout := None |}.

(** [SearchEngine.expand_query] *)
Definition expand_query (query : Py.str) : Py.str :=
  Py.try_except
    (response <- post (expansion_request query) ;;
     b <- json response ;;
     expanded <- get_response_stripped b ;;
     let expanded_terms := findall_words (lower expanded) in
     let original_terms := findall_words (lower query) in
     let all_terms := list_of_set (original_terms ++ expanded_terms) in
     Py.Ok (Py.join_space all_terms))
    (fun _ => query).

Definition semantic_item_of_row (r : row) : semantic_item :=
  {| sem_id := row_id r;
     sem_document := row_document r;
     sem_metadata := row_metadata r;
     sem_distance := row_distance r;
     sem_semantic_score := 1 - row_distance r |}.

(** [SearchEngine.semantic_search] *)
Definition semantic_search (query : Py.str) (n_results : Z)
    : list semantic_item :=
  Py.try_except
    (let query_embedding := get_embedding query in
     results <- collection_query query_embedding n_results ;;
     Py.Ok (List.map semantic_item_of_row results))
    (fun _ => []).

(** The loop of [lexical_search] over [top_indices]. *)
Fixpoint collect_lexical (self : engine) (bm25_scores : list Q)
    (top_indices : list nat) : Py.result (list lexical_item) :=
  match top_indices with
  | [] => Py.Ok []
  | idx :: rest =>
      s <- Py.getitem bm25_scores idx ;;
      if Py.positive s then
        i <- Py.getitem (ids self) idx ;;
        d <- Py.getitem (documents self) idx ;;
        m <- Py.getitem (metadatas self) idx ;;
        results <- collect_lexical self bm25_scores rest ;;
        Py.Ok ({| lex_id := i; lex_document := d; lex_metadata := m;
                  lex_bm25_score := s; lex_lexical_score := s |} :: results)
      else collect_lexical self bm25_scores rest
  end.

(** [SearchEngine.lexical_search] *)
Definition lexical_search (self : engine) (query : Py.str) (n_results : Z)
    : list lexical_item :=
  match bm25 self with
  | None => []
  | Some tokenized_docs =>
      Py.try_except
        (let query_tokens := Py.split (lower query) in
         let bm25_scores := get_scores tokenized_docs query_tokens in
         let top_indices :=
           rev (Py.slice_last n_results (argsort bm25_scores)) in
         collect_lexical self bm25_scores top_indices)
        (fun _ => [])
  end.

(** Lines 160-166: one iteration of the semantic loop. *)
Definition add_semantic (combined : Py.dict entry) (r : semantic_item)
    : Py.dict entry :=
  Py.set (sem_id r)
    {| id := sem_id r; document := sem_document r;
       entry_metadata := sem_metadata r;
       distance := Some (sem_distance r); bm25_score := None;
       semantic_score := sem_semantic_score r;
       lexical_score := 0 |} combined.

(** Lines 169-178: one iteration of the lexical loop. *)
Definition add_lexical (combined : Py.dict entry) (r : lexical_item)
    : Py.dict entry :=
  let doc_id := lex_id r in
  match Py.get doc_id combined with
  | Some e =>
      Py.set doc_id
        {| id := id e; document := document e;
           entry_metadata := entry_metadata e;
           distance := distance e; bm25_score := bm25_score e;
           semantic_score := semantic_score e;
           lexical_score := lex_lexical_score r |} combined
  | None =>
      Py.set doc_id
        {| id := lex_id r; document := lex_document r;
           entry_metadata := lex_metadata r;
           distance := None; bm25_score := Some (lex_bm25_score r);
           semantic_score := 0;
           lexical_score := lex_lexical_score r |} combined
  end.

(** Lines 157-178. *)
Definition combined_results (semantic_results : list semantic_item)
    (lexical_results : list lexical_item) : Py.dict entry :=
  fold_left add_lexical lexical_results
    (fold_left add_semantic semantic_results []).

(** [min(x / 10.0, 1.0) if x > 0 else 0] *)
Definition lex_score (x : Q) : Q :=
  if Py.positive x
  then (if Qle_bool (x / 10) 1 then x / 10 else 1)
  else 0.

(** Lines 184-190: one iteration of the scoring loop. *)
Definition with_hybrid_score (e : entry) : scored :=
  let sem_score := semantic_score e in
  {| scored_entry := e;
     hybrid_score := semantic_weight * sem_score
                     + lexical_weight * lex_score (lexical_score e) |}.

(** Lines 156-197: [sorted_results]. *)
Definition sorted_results (semantic_results : list semantic_item)
    (lexical_results : list lexical_item) : list scored :=
  Py.sort_desc hybrid_score
    (List.map with_hybrid_score
       (Py.values (combined_results semantic_results lexical_results))).

(** [SearchEngine.hybrid_search] *)
Definition hybrid_search (self : engine) (query : Py.str) (n_results : Z)
    (use_expansion : bool) : list scored :=
  let expanded_query := if use_expansion then expand_query query else query in
  let semantic_results := semantic_search expanded_query (n_results * 2) in
  let lexical_results := lexical_search self expanded_query (n_results * 2) in
  Py.slice_to n_results (sorted_results semantic_results lexical_results).

End Engine.

(** *** Vocabulary of the statements about the fusion *)

Definition semantic_doc_ids (semantic_results : list semantic_item)
    : list Py.str :=
  List.map sem_id semantic_results.

Definition lexical_doc_ids (lexical_results : list lexical_item)
    : list Py.str :=
  List.map lex_id lexical_results.

(** The embedding provider fails on [text]: the request raises, its
    body cannot be decoded, or the body has no embedding. *)
Definition embedding_fails {config : Config} {requests : Provider.Requests}
    (text : Py.str) : Prop :=
  match Provider.post (embedding_request text) with
  | Py.Raise _ => True
  | Py.Ok response =>
      match Provider.json response with
      | Py.Raise _ => True
      | Py.Ok b => Provider.embedding b = None
      end
  end.

(** The generation provider fails on [query]: the request raises, its
    body cannot be decoded, or the body is malformed. *)
Definition generation_fails {config : Config} {requests : Provider.Requests}
    (query : Py.str) : Prop :=
  match Provider.post (expansion_request query) with
  | Py.Raise _ => True
  | Py.Ok response =>
      match Provider.json response with
      | Py.Raise _ => True
      | Py.Ok b => Provider.no_text b
      end
  end.

(** The document ids of a returned list, in order. *)
Definition doc_ids (l : list scored) : list Py.str :=
  List.map (fun r => id (scored_entry r)) l.

(** The keys are pairwise distinct, and each entry carries its key. *)
Definition well_keyed (combined : Py.dict entry) : Prop :=
  NoDup (Py.keys combined)
  /\ Forall (fun kv => id (snd kv) = fst kv) combined.

End ArxivSearchEngine.

(* ================================================================== *)
(** ** ArxIV/backend.py: query expansion *)
(* ================================================================== *)

Module ArxIV.

Import Provider.

Definition OLLAMA_BASE_URL : Py.str := Py.lit "http://localhost:11434".
Definition LLM_MODEL : Py.str := Py.lit "gemma:2b".

Definition star : N := 42.
Definition colon : N := 58.

(** The characters of the class of the second pattern: the double and
    the single quote. *)
Definition isquote (c : N) : bool := ((c =? 34) || (c =? 39))%N.

(** After an opening [**]: the number of characters matched by [.*?]
    before the first closing [**]; [.] does not match a newline. *)
Fixpoint close_offset (s : Py.str) : option nat :=
  match s with
  | [] => None
  | c :: r =>
      match r with
      | c' :: _ =>
          if (N.eqb c star && N.eqb c' star)%bool then Some O
          else if N.eqb c Py.newline then None
          else option_map S (close_offset r)
      | [] => None
      end
  end.

(** The length of the match of the first pattern at the head of [s]: two
    stars, the shortest run of characters up to two stars, an optional
    colon, then all the whitespace that follows. *)
Definition bold_match_length (s : Py.str) : option nat :=
  match s with
  | c :: c' :: r =>
      if (N.eqb c star && N.eqb c' star)%bool then
        match close_offset r with
        | Some j =>
            let after := skipn (j + 2) r in
            let k := match after with
                     | c'' :: _ => if N.eqb c'' colon then 1%nat else 0%nat
                     | [] => 0%nat
                     end in
            let rest := skipn k after in
            let w := (List.length rest - List.length (Py.lstrip rest))%nat in
            Some (2 + j + 2 + k + w)%nat
        | None => None
        end
      else None
  | _ => None
  end.

(** Line 127, [re.sub] of the first pattern by the empty text: the
    matches are removed from left to right; [skip] counts the characters
    of the current match still to be dropped. *)
Fixpoint remove_bold_from (skip : nat) (s : Py.str) : Py.str :=
  match s with
  | [] => []
  | c :: r =>
      match skip with
      | S k => remove_bold_from k r
      | O =>
          match bold_match_length s with
          | Some (S k) => remove_bold_from k r
          | _ => c :: remove_bold_from 0 r
          end
      end
  end.

Definition remove_bold (s : Py.str) : Py.str := remove_bold_from 0 s.

(** The second alternative of the second pattern: a quote at the end of
    the text, or just before a final newline. *)
Fixpoint remove_final_quote (s : Py.str) : Py.str :=
  match s with
  | [] => []
  | c :: r =>
      if (isquote c
          && (negb (Py.truthy r) || Py.eqb r [Py.newline]))%bool
      then r
      else c :: remove_final_quote r
  end.

(** Line 128, [re.sub] of the second pattern by the empty text: a quote
    at the very start, and a quote at the end. *)
Definition remove_quotes (s : Py.str) : Py.str :=
  match s with
  | c :: r => if isquote c then remove_final_quote r
              else remove_final_quote s
  | [] => []
  end.

(** Lines 125-129: the cleaning of the generated text. *)
Definition clean (response_stripped : Py.str) : Py.str :=
  Py.strip (Py.first_line (remove_quotes (remove_bold response_stripped))).

(** The prompt of [expand_query_with_gemma]. *)
Definition expansion_prompt (query : Py.str) : Py.str :=
  (Py.lit "Reformule cette requ" ++ [234]
   ++ Py.lit "te de recherche scientifique en ajoutant des termes similaires et synonymes pertinents. Donne SEULEMENT la requ"
   ++ [234] ++ Py.lit "te " ++ [233]
   ++ Py.lit "tendue, sans formatage ni explication." ++ [10; 10]
   ++ Py.lit "Requ" ++ [234] ++ Py.lit "te: " ++ query
   ++ [10; 10] ++ Py.lit "Requ" ++ [234] ++ Py.lit "te " ++ [233]
   ++ Py.lit "tendue:")%N.

(** The request of [expand_query_with_gemma]. *)
Definition expansion_request (query : Py.str) : request :=
  {| url := OLLAMA_BASE_URL ++ Py.lit "/api/generate";
     model := LLM_MODEL;
     prompt := expansion_prompt query;
     stream := Some false;
     request_options := Some {| temperature := 3 # 10; num_predict := 50 |};
     timeout := Some 30%Z |}.

(** Line 131: the acceptance test. *)
Definition accept (expanded query : Py.str) : bool :=
  ((Py.len query <? Py.len expanded) && (Py.len expanded <? 100))%Z.

Section Expansion.
Context {requests : Requests}.

(** [expand_query_with_gemma] *)
Definition expand_query_with_gemma (query : Py.str) : Py.str :=
  Py.try_except
    (response <- post (expansion_request query) ;;
     if (status_code response =? 200)%Z then
       b <- json response ;;
       stripped <- get_response_stripped b ;;
       let expanded := clean stripped in
       Py.Ok (if accept expanded query then expanded else query)
     else Py.Ok query)
    (fun _ => query).

End Expansion.

(** The generation provider fails on [query]: the request raises, the
    status is not 200, the body cannot be decoded, or it is malformed. *)
Definition generation_fails {requests : Requests} (query : Py.str) : Prop :=
  match post (expansion_request query) with
  | Py.Raise _ => True
  | Py.Ok response =>
      status_code response <> 200%Z
      \/ match json response with
         | Py.Raise _ => True
         | Py.Ok b => no_text b
         end
  end.

(** The generation provider answers [query] with status 200 and the
    text [s]. *)
Definition generation_says {requests : Requests} (query s : Py.str) : Prop :=
  exists reply b,
    post (expansion_request query) = Py.Ok reply
    /\ status_code reply = 200%Z
    /\ json reply = Py.Ok b
    /\ response b = Str s.

End ArxIV.

(* ================================================================== *)
(** ** Facts about the Python values *)
(* ================================================================== *)

(* ================================================================== *)
(** ** A small concrete world: three papers and stub providers *)
(* ================================================================== *)

Module Fixture.

Import Provider Lexical.

(** *** Stand-ins for rank_bm25, numpy and the text tables *)

Definition to_lower (c : N) : N :=
  if ((65 <=? c) && (c <=? 90))%N then (c + 32)%N else c.

Definition ascii_lower (s : Py.str) : Py.str := List.map to_lower s.

(** A term-overlap score: the number of query tokens present in the
    document. *)
Definition overlap (doc q : list Py.str) : Q :=
  inject_Z (Z.of_nat
    (List.length (filter (fun t => existsb (Py.eqb t) doc) q))).

Definition overlap_scores (corpus : list (list Py.str)) (q : list Py.str)
    : list Q :=
  List.map (fun doc => overlap doc q) corpus.

(** The indices in ascending order of score, stable. *)
Definition argsort_stable (scores : list Q) : list nat :=
  Py.sort_desc (fun i => - nth i scores 0) (seq 0 (List.length scores)).

Fixpoint dedup (l : list Py.str) : list Py.str :=
  match l with
  | [] => []
  | x :: r => if existsb (Py.eqb x) r then dedup r else x :: dedup r
  end.

Definition lib : Lib :=
  {| lower := ascii_lower;
     get_scores := overlap_scores;
     argsort := argsort_stable;
     findall_words := Py.split;
     list_of_set := dedup |}.

(** *** Stub Ollama clients *)

Definition connection_refused : Py.exn :=
  Py.Exception (Py.lit "connection refused").

(** Every call raises. *)
Definition ollama_down : Ollama :=
  {| embeddings := fun _ _ => Py.Raise connection_refused;
     generate := fun _ _ _ => Py.Raise connection_refused |}.

(** Embeddings are served; the generation answers [text]. *)
Definition ollama_saying (text : Py.str) : Ollama :=
  {| embeddings := fun _ _ =>
       Py.Ok {| embedding := Some [1]; response := Missing |};
     generate := fun _ _ _ =>
       Py.Ok {| embedding := None; response := Str text |} |}.

(** Embeddings are served; the generation model is unreachable. *)
Definition ollama_embedding_only : Ollama :=
  {| embeddings := fun _ _ =>
       Py.Ok {| embedding := Some [1]; response := Missing |};
     generate := fun _ _ _ => Py.Raise connection_refused |}.

(** *** Stub HTTP endpoints *)

Definition requests_down : Requests :=
  {| post := fun _ => Py.Raise connection_refused |}.

(** Every request is answered with status [status] and a body holding
    an embedding and the text [text]. *)
Definition requests_saying (status : Z) (text : Py.str) : Requests :=
  {| post := fun _ =>
       Py.Ok {| status_code := status;
                json := Py.Ok {| embedding := Some [1];
                                 response := Str text |} |} |}.

(** *** The store of final_code *)

Definition meta (title categories : string) : FinalCode.metadata :=
  [(Py.lit "title", Py.lit title); (Py.lit "categories", Py.lit categories)].

Definition store : FinalCode.all_docs :=
  {| FinalCode.ids := [Py.lit "a"; Py.lit "b"; Py.lit "c"];
     FinalCode.documents :=
       [Py.lit "Neural Network Pruning";
        Py.lit "Graph Neural Networks";
        Py.lit "Sparse Transformers"];
     FinalCode.metadatas :=
       [meta "Neural Network Pruning" "cs.LG";
        meta "Graph Neural Networks" "cs.CV";
        meta "Sparse Transformers" "cs.LG"] |}.

Fixpoint prefix (p s : Py.str) : bool :=
  match p, s with
  | [], _ => true
  | x :: p', y :: s' => N.eqb x y && prefix p' s'
  | _ :: _, [] => false
  end.

(** [needle in hay] *)
Fixpoint contains (needle hay : Py.str) : bool :=
  prefix needle hay
  || match hay with
     | [] => false
     | _ :: hay' => contains needle hay'
     end.

(** A metadata dict satisfies a [where] clause when, for each of its
    keys, the value stored under the key contains the requested text. *)
Definition satisfies (w : Py.dict Py.str) (m : FinalCode.metadata) : bool :=
  forallb
    (fun kv => match Py.get (fst kv) m with
               | Some x => contains (snd kv) x
               | None => false
               end) w.

Definition rows : list FinalCode.row :=
  [ {| FinalCode.row_id := Py.lit "a";
       FinalCode.row_document := Py.lit "Neural Network Pruning";
       FinalCode.row_distance := 1 # 10;
       FinalCode.row_metadata := meta "Neural Network Pruning" "cs.LG" |};
    {| FinalCode.row_id := Py.lit "b";
       FinalCode.row_document := Py.lit "Graph Neural Networks";
       FinalCode.row_distance := 3 # 10;
       FinalCode.row_metadata := meta "Graph Neural Networks" "cs.CV" |};
    {| FinalCode.row_id := Py.lit "c";
       FinalCode.row_document := Py.lit "Sparse Transformers";
       FinalCode.row_distance := 1 # 2;
       FinalCode.row_metadata := meta "Sparse Transformers" "cs.LG" |} ].

(** The vector query: the stored rows that satisfy the [where] clause,
    nearest first, at most [n]. *)
Definition query (_ : list Q) (n : Z) (w : option (Py.dict Py.str))
    : Py.result (list FinalCode.row) :=
  Py.Ok (Py.slice_to n
    (filter (fun r => match w with
                      | None => true
                      | Some w' => satisfies w' (FinalCode.row_metadata r)
                      end) rows)).

Definition chroma : FinalCode.Chroma :=
  {| FinalCode.collection_get := store;
     FinalCode.collection_query := query |}.

(** Two channel lists over the store: [a] is in both channels, [b] only
    in the semantic one, [c] only in the lexical one. *)
Definition hit_a : FinalCode.hit :=
  {| FinalCode.hit_id := Py.lit "a";
     FinalCode.hit_document := Py.lit "Neural Network Pruning";
     FinalCode.hit_distance := 1 # 10;
     FinalCode.hit_score := 9 # 10;
     FinalCode.hit_metadata := meta "Neural Network Pruning" "cs.LG" |}.

Definition hit_b : FinalCode.hit :=
  {| FinalCode.hit_id := Py.lit "b";
     FinalCode.hit_document := Py.lit "Graph Neural Networks";
     FinalCode.hit_distance := 3 # 10;
     FinalCode.hit_score := 7 # 10;
     FinalCode.hit_metadata := meta "Graph Neural Networks" "cs.CV" |}.

Definition vector_results : list FinalCode.hit := [hit_a; hit_b].

Definition item_a : FinalCode.bm25_item :=
  {| FinalCode.index := 0;
     FinalCode.raw_bm25_score := 2;
     FinalCode.bm25_document := Py.lit "Neural Network Pruning" |}.

Definition item_c : FinalCode.bm25_item :=
  {| FinalCode.index := 2;
     FinalCode.raw_bm25_score := 1;
     FinalCode.bm25_document := Py.lit "Sparse Transformers" |}.

Definition bm25_results : list FinalCode.bm25_item := [item_a; item_c].

(** The lexical channel of the query [pruning]: paper [a] alone. *)
Definition pruning_item : FinalCode.bm25_item :=
  {| FinalCode.index := 0;
     FinalCode.raw_bm25_score := 1;
     FinalCode.bm25_document := Py.lit "Neural Network Pruning" |}.

(** A lexical channel of two papers with the same raw score. *)
Definition tied_bm25_results : list FinalCode.bm25_item :=
  [ {| FinalCode.index := 0;
       FinalCode.raw_bm25_score := 2;
       FinalCode.bm25_document := Py.lit "Neural Network Pruning" |};
    {| FinalCode.index := 1;
       FinalCode.raw_bm25_score := 2;
       FinalCode.bm25_document := Py.lit "Graph Neural Networks" |} ].

(** A semantic channel of two papers at the same distance, [b] first. *)
Definition tied_vector_results : list FinalCode.hit :=
  [ {| FinalCode.hit_id := Py.lit "b";
       FinalCode.hit_document := Py.lit "Graph Neural Networks";
       FinalCode.hit_distance := 1 # 2;
       FinalCode.hit_score := 1 # 2;
       FinalCode.hit_metadata := meta "Graph Neural Networks" "cs.CV" |};
    {| FinalCode.hit_id := Py.lit "a";
       FinalCode.hit_document := Py.lit "Neural Network Pruning";
       FinalCode.hit_distance := 1 # 2;
       FinalCode.hit_score := 1 # 2;
       FinalCode.hit_metadata := meta "Neural Network Pruning" "cs.LG" |} ].

(** A semantic channel of a single paper. *)
Definition single_vector_results : list FinalCode.hit :=
  [ {| FinalCode.hit_id := Py.lit "a";
       FinalCode.hit_document := Py.lit "Neural Network Pruning";
       FinalCode.hit_distance := 1 # 10;
       FinalCode.hit_score := 9 # 10;
       FinalCode.hit_metadata := meta "Neural Network Pruning" "cs.LG" |} ].

(** The engine built over the store. *)
Definition engine : FinalCode.engine :=
  @FinalCode._build_bm25_index chroma lib.

(** *** The world of arxiv-search-engine *)

Definition config : ArxivSearchEngine.Config :=
  {| ArxivSearchEngine.ollama_url := Py.lit "http://localhost:11434";
     ArxivSearchEngine.embedding_model := Py.lit "nomic-embed-text";
     ArxivSearchEngine.generation_model := Py.lit "gemma:2b";
     ArxivSearchEngine.semantic_weight := 7 # 10;
     ArxivSearchEngine.lexical_weight := 3 # 10 |}.

(** A collection in the default (squared L2) space: one paper lies at
    distance 3/2 of the query. *)
Definition far_rows : list ArxivSearchEngine.row :=
  [ {| ArxivSearchEngine.row_id := Py.lit "a";
       ArxivSearchEngine.row_document := Py.lit "Neural Network Pruning";
       ArxivSearchEngine.row_metadata := meta "Neural Network Pruning" "cs.LG";
       ArxivSearchEngine.row_distance := 1 # 4 |};
    {| ArxivSearchEngine.row_id := Py.lit "c";
       ArxivSearchEngine.row_document := Py.lit "Sparse Transformers";
       ArxivSearchEngine.row_metadata := meta "Sparse Transformers" "cs.LG";
       ArxivSearchEngine.row_distance := 3 # 2 |} ].

Definition far_chroma : ArxivSearchEngine.Chroma :=
  {| ArxivSearchEngine.collection_query :=
       fun _ n => Py.Ok (Py.slice_to n far_rows) |}.

(** Channel lists of arxiv-search-engine: [a] in both channels, [b] only
    in the semantic one, [c] only in the lexical one. *)
Definition semantic_results : list ArxivSearchEngine.semantic_item :=
  [ {| ArxivSearchEngine.sem_id := Py.lit "a";
       ArxivSearchEngine.sem_document := Py.lit "Neural Network Pruning";
       ArxivSearchEngine.sem_metadata := meta "Neural Network Pruning" "cs.LG";
       ArxivSearchEngine.sem_distance := 1 # 4;
       ArxivSearchEngine.sem_semantic_score := 3 # 4 |};
    {| ArxivSearchEngine.sem_id := Py.lit "b";
       ArxivSearchEngine.sem_document := Py.lit "Graph Neural Networks";
       ArxivSearchEngine.sem_metadata := meta "Graph Neural Networks" "cs.CV";
       ArxivSearchEngine.sem_distance := 1 # 2;
       ArxivSearchEngine.sem_semantic_score := 1 # 2 |} ].

Definition lexical_results : list ArxivSearchEngine.lexical_item :=
  [ {| ArxivSearchEngine.lex_id := Py.lit "a";
       ArxivSearchEngine.lex_document := Py.lit "Neural Network Pruning";
       ArxivSearchEngine.lex_metadata := meta "Neural Network Pruning" "cs.LG";
       ArxivSearchEngine.lex_bm25_score := 2;
       ArxivSearchEngine.lex_lexical_score := 2 |};
    {| ArxivSearchEngine.lex_id := Py.lit "c";
       ArxivSearchEngine.lex_document := Py.lit "Sparse Transformers";
       ArxivSearchEngine.lex_metadata := meta "Sparse Transformers" "cs.LG";
       ArxivSearchEngine.lex_bm25_score := 1;
       ArxivSearchEngine.lex_lexical_score := 1 |} ].

Definition arxiv_engine : ArxivSearchEngine.engine :=
  {| ArxivSearchEngine.documents := FinalCode.documents store;
     ArxivSearchEngine.metadatas := FinalCode.metadatas store;
     ArxivSearchEngine.ids := FinalCode.ids store;
     ArxivSearchEngine.bm25 :=
       Some (List.map (fun doc => Py.split (ascii_lower doc))
               (FinalCode.documents store)) |}.

End Fixture.

(* ================================================================== *)
(** ** Vocabulary for the rest of the code *)
(* ================================================================== *)

Module Text.

(** A text without a newline. *)
Definition single_line (s : Py.str) : Prop := ~ In Py.newline s.

(** A text that neither starts nor ends with whitespace. *)
Definition trimmed (s : Py.str) : Prop :=
  (forall c r, s = c :: r -> Py.isspace c = false)
  /\ (forall r c, s = r ++ [c] -> Py.isspace c = false).

(** A token: a non-empty text without whitespace. *)
Definition token (s : Py.str) : Prop :=
  s <> [] /\ Forall (fun c => Py.isspace c = false) s.

End Text.

(** Further stubs for the concrete world. *)
Module World.

Definition store_error : Py.exn := Py.Exception (Py.lit "store unavailable").

(** The store of three papers, with a vector query that always raises. *)
Definition chroma_broken : FinalCode.Chroma :=
  {| FinalCode.collection_get := Fixture.store;
     FinalCode.collection_query := fun _ _ _ => Py.Raise store_error |}.

End World.

(* ================================================================== *)
(** ** arxiv-search-engine/src/search_engine.py: the lexical index *)
(* ================================================================== *)

Module ArxivIndex.

Import Lexical ArxivSearchEngine.

(** [collection.get()]: the parallel lists of the store. *)
Record all_docs := {
  get_ids : list Py.str;
  get_documents : list Py.str;
  get_metadatas : list metadata
}.

(** The store read by [_init_bm25], and the exception that the
    constructor [BM25Okapi] raises on a tokenized corpus, if any. *)
Class Store := {
  collection_get : Py.result all_docs;
  index_error : list (list Py.str) -> option Py.exn
}.

(** [BM25Okapi(tokenized_docs)]; the index is represented by the
    tokenized corpus it was built from. *)
Definition BM25Okapi {store : Store} (tokenized_docs : list (list Py.str))
    : Py.result (list (list Py.str)) :=
  match index_error tokenized_docs with
  | Some e => Py.Raise e
  | None => Py.Ok tokenized_docs
  end.

(** [SearchEngine._init_bm25] *)
Definition _init_bm25 {store : Store} {lib : Lib} : engine :=
  Py.try_except
    (results <- collection_get ;;
     let tokenized_docs :=
       List.map (fun doc => Py.split (lower doc)) (get_documents results) in
     index <- BM25Okapi tokenized_docs ;;
     Py.Ok {| documents := get_documents results;
              metadatas := get_metadatas results;
              ids := get_ids results;
              bm25 := Some index |})
    (fun _ => {| documents := []; metadatas := []; ids := []; bm25 := None |}).

(** The item that the loop of [lexical_search] builds at an index. *)
Definition item_at (self : engine) (bm25_scores : list Q) (idx : nat)
    : lexical_item :=
  {| lex_id := nth idx (ids self) [];
     lex_document := nth idx (documents self) [];
     lex_metadata := nth idx (metadatas self) [];
     lex_bm25_score := nth idx bm25_scores 0;
     lex_lexical_score := nth idx bm25_scores 0 |}.

(** What one iteration of the loop of [lexical_search] appends for an
    index that is in range. *)
Definition kept (self : engine) (bm25_scores : list Q) (idx : nat)
    : list lexical_item :=
  if Py.positive (nth idx bm25_scores 0)
  then [item_at self bm25_scores idx] else [].

(** The three lists of the engine are parallel, and the index was built
    from its documents. *)
Definition aligned (self : engine) : Prop :=
  List.length (ids self) = List.length (documents self)
  /\ List.length (metadatas self) = List.length (documents self)
  /\ match bm25 self with
     | Some tokenized_docs =>
         List.length tokenized_docs = List.length (documents self)
     | None => True
     end.

(** The generation provider answers [query] with the text [s]. *)
Definition generation_says {config : Config} {requests : Provider.Requests}
    (query s : Py.str) : Prop :=
  exists reply b,
    Provider.post (expansion_request query) = Py.Ok reply
    /\ Provider.json reply = Py.Ok b
    /\ Provider.response b = Provider.Str s.

(** What [re.findall] of the words and [list(set(...))] promise: a word
    is not empty and holds no whitespace; the list of a set holds each
    of its items once. *)
Definition words_lawful (lib : Lib) : Prop :=
  (forall s, Forall Text.token (findall_words s))
  /\ (forall l, NoDup (list_of_set l)
                /\ forall t, In t (list_of_set l) <-> In t l).

End ArxivIndex.

(** A store of arxiv-search-engine holding the three papers; the
    constructor of the index refuses an empty corpus. *)
Module ArxivWorld.

Definition empty_corpus : Py.exn := Py.Exception (Py.lit "division by zero").

Definition refuse_empty (tokenized_docs : list (list Py.str))
    : option Py.exn :=
  if Py.truthy tokenized_docs then None else Some empty_corpus.

Definition store : ArxivIndex.Store :=
  {| ArxivIndex.collection_get :=
       Py.Ok {| ArxivIndex.get_ids := FinalCode.ids Fixture.store;
                ArxivIndex.get_documents := FinalCode.documents Fixture.store;
                ArxivIndex.get_metadatas := FinalCode.metadatas Fixture.store |};
     ArxivIndex.index_error := refuse_empty |}.

Definition empty_store : ArxivIndex.Store :=
  {| ArxivIndex.collection_get :=
       Py.Ok {| ArxivIndex.get_ids := [];
                ArxivIndex.get_documents := [];
                ArxivIndex.get_metadatas := [] |};
     ArxivIndex.index_error := refuse_empty |}.

(** A candidate of semantic score 1/2 and of the given lexical score. *)
Definition candidate (lexical : Q) : ArxivSearchEngine.entry :=
  {| ArxivSearchEngine.id := Py.lit "a";
     ArxivSearchEngine.document := Py.lit "Neural Network Pruning";
     ArxivSearchEngine.entry_metadata :=
       Fixture.meta "Neural Network Pruning" "cs.LG";
     ArxivSearchEngine.distance := Some (1 # 2);
     ArxivSearchEngine.bm25_score := None;
     ArxivSearchEngine.semantic_score := 1 # 2;
     ArxivSearchEngine.lexical_score := lexical |}.

End ArxivWorld.

(* ================================================================== *)
(** ** arxiv-search-engine/src/search_engine.py: the faceted search *)
(* ================================================================== *)

Module Facets.

Import Lexical ArxivSearchEngine.

(** [s.startswith(p)] *)
Fixpoint startswith (p s : Py.str) : bool :=
  match p, s with
  | [], _ => true
  | x :: p', y :: s' => N.eqb x y && startswith p' s'
  | _ :: _, [] => false
  end.

(** [needle in hay] on [str]. *)
Fixpoint contains (needle hay : Py.str) : bool :=
  startswith needle hay
  || match hay with
     | [] => false
     | _ :: hay' => contains needle hay'
     end.

(** [s.replace] of every [Z] by [+00:00]. *)
Definition replace_Z (s : Py.str) : Py.str :=
  flat_map (fun c => if N.eqb c 90 then Py.lit "+00:00" else [c]) s.

(** A [datetime]: its place on the time line, and whether it carries an
    offset (aware) or not (naive). *)
Record datetime := {
  instant : Z;
  aware : bool
}.

Definition TypeError : Py.exn := Py.Exception (Py.lit "TypeError").

(** [a <= b] on [datetime]: the comparison of a naive with an aware one
    raises [TypeError]. *)
Definition le (a b : datetime) : Py.result bool :=
  if Bool.eqb (aware a) (aware b)
  then Py.Ok (instant a <=? instant b)%Z
  else Py.Raise TypeError.

(** [datetime.fromisoformat], which raises on a malformed text. *)
Class Clock := {
  fromisoformat : Py.str -> Py.result datetime
}.

(** A value of the filter dict: a text, or a pair of texts. *)
Inductive facet :=
| Text (s : Py.str)
| Range (start_date end_date : Py.str).

(** [value[i]] for [i >= 0]: an item of the pair, or a character of the
    text. *)
Definition item (value : facet) (i : nat) : Py.result Py.str :=
  match value with
  | Range a b =>
      match i with
      | O => Py.Ok a
      | S O => Py.Ok b
      | _ => Py.Raise Py.IndexError
      end
  | Text s =>
      match nth_error s i with
      | Some c => Py.Ok [c]
      | None => Py.Raise Py.IndexError
      end
  end.

(** [value.lower()]: a pair has no such method. *)
Definition lower_of {lib : Lib} (value : facet) : Py.result Py.str :=
  match value with
  | Text s => Py.Ok (lower s)
  | Range _ _ => Py.Raise Py.AttributeError
  end.

(** [metadata.get(key, '')] *)
Definition get_or_empty (key : string) (m : metadata) : Py.str :=
  match Py.get (Py.lit key) m with
  | Some v => v
  | None => []
  end.

Section Facets.
Context {config : Config} {requests : Provider.Requests} {chroma : Chroma}
        {lib : Lib} {clock : Clock}.

(** [SearchEngine._date_in_range]; the bare [except] catches every
    exception. *)
Definition _date_in_range (date_str : Py.str) (date_range : facet) : bool :=
  Py.try_except
    (pub_date <- fromisoformat (replace_Z date_str) ;;
     s <- item date_range 0 ;;
     start_date <- fromisoformat s ;;
     e <- item date_range 1 ;;
     end_date <- fromisoformat e ;;
     started <- le start_date pub_date ;;
     if started then le pub_date end_date else Py.Ok false)
    (fun _ => true).

(** Lines 215-232: one filter on the metadata of one result; [false]
    stands for the [break]. *)
Definition passes (m : metadata) (fv : Py.str * facet) : Py.result bool :=
  let (field, value) := fv in
  if Py.eqb field (Py.lit "date_range") then
    let pub_date := get_or_empty "published" m in
    Py.Ok (_date_in_range pub_date value)
  else if Py.eqb field (Py.lit "category") then
    let categories := lower (get_or_empty "categories" m) in
    v <- lower_of value ;;
    Py.Ok (contains v categories)
  else if Py.eqb field (Py.lit "author") then
    let authors := lower (get_or_empty "authors" m) in
    v <- lower_of value ;;
    Py.Ok (contains v authors)
  else Py.Ok true.

(** Lines 211-232: the inner loop, which stops at the first filter that
    the result does not pass. *)
Fixpoint included (m : metadata) (filters : Py.dict facet)
    : Py.result bool :=
  match filters with
  | [] => Py.Ok true
  | fv :: rest =>
      ok <- passes m fv ;;
      if ok then included m rest else Py.Ok false
  end.

(** Lines 208-235: the outer loop. *)
Fixpoint filtered_results (filters : Py.dict facet) (results : list scored)
    : Py.result (list scored) :=
  match results with
  | [] => Py.Ok []
  | result :: rest =>
      include <- included (entry_metadata (scored_entry result)) filters ;;
      tail <- filtered_results filters rest ;;
      Py.Ok (if include then result :: tail else tail)
  end.

(** [SearchEngine.faceted_search] *)
Definition faceted_search (self : engine) (query : Py.str)
    (filters : option (Py.dict facet)) (n_results : Z)
    : Py.result (list scored) :=
  let results := hybrid_search self query (n_results * 2) true in
  match filters with
  | None => Py.Ok (Py.slice_to n_results results)
  | Some fs =>
      if negb (Py.truthy fs) then Py.Ok (Py.slice_to n_results results)
      else
        filtered <- filtered_results fs results ;;
        Py.Ok (Py.slice_to n_results filtered)
  end.

End Facets.

(** The filters that the loop recognises have values of the expected
    kind: a text for [category] and [author]. *)
Definition text_valued (filters : Py.dict facet) : Prop :=
  Forall (fun fv =>
            (fst fv = Py.lit "category" \/ fst fv = Py.lit "author") ->
            exists s, snd fv = Text s) filters.

End Facets.

(** A clock that reads a year, naive, or a year followed by [+00:00],
    aware; and a store of two papers with their dates. *)
Module FacetWorld.

Definition digit (c : N) : bool := ((48 <=? c) && (c <=? 57))%N.

Definition number (s : Py.str) : Z :=
  fold_left (fun n c => (10 * n + (Z.of_N c - 48))%Z) s 0%Z.

Definition malformed : Py.exn := Py.Exception (Py.lit "Invalid isoformat string").

Definition read (s : Py.str) : Py.result Facets.datetime :=
  let year := firstn 4 s in
  let rest := skipn 4 s in
  if ((List.length year =? 4)%nat && forallb digit year)%bool then
    if Py.eqb rest [] then
      Py.Ok {| Facets.instant := number year; Facets.aware := false |}
    else if Py.eqb rest (Py.lit "+00:00") then
      Py.Ok {| Facets.instant := number year; Facets.aware := true |}
    else Py.Raise malformed
  else Py.Raise malformed.

Definition clock : Facets.Clock := {| Facets.fromisoformat := read |}.

Definition dated (published categories : string) : ArxivSearchEngine.metadata :=
  [(Py.lit "published", Py.lit published);
   (Py.lit "categories", Py.lit categories)].

Definition rows : list ArxivSearchEngine.row :=
  [ {| ArxivSearchEngine.row_id := Py.lit "a";
       ArxivSearchEngine.row_document := Py.lit "Neural Network Pruning";
       ArxivSearchEngine.row_metadata := dated "2021Z" "cs.LG";
       ArxivSearchEngine.row_distance := 1 # 4 |};
    {| ArxivSearchEngine.row_id := Py.lit "b";
       ArxivSearchEngine.row_document := Py.lit "Graph Neural Networks";
       ArxivSearchEngine.row_metadata := dated "2019" "cs.CV";
       ArxivSearchEngine.row_distance := 1 # 2 |} ].

Definition chroma : ArxivSearchEngine.Chroma :=
  {| ArxivSearchEngine.collection_query :=
       fun _ n => Py.Ok (Py.slice_to n rows) |}.

(** An engine without lexical index. *)
Definition engine : ArxivSearchEngine.engine :=
  {| ArxivSearchEngine.documents := [];
     ArxivSearchEngine.metadatas := [];
     ArxivSearchEngine.ids := [];
     ArxivSearchEngine.bm25 := None |}.

End FacetWorld.

(* ================================================================== *)
(** ** The summaries of the results *)
(* ================================================================== *)

Module PyText.

(** [str(n)] for an [int] [n >= 0]. *)
Definition str_of_nat (n : nat) : Py.str :=
  Py.lit (NilEmpty.string_of_uint (Nat.to_uint n)).

(** [sep.join(l)] *)
Fixpoint join (sep : Py.str) (l : list Py.str) : Py.str :=
  match l with
  | [] => []
  | [s] => s
  | s :: r => s ++ sep ++ join sep r
  end.

(** [enumerate(l)], counting from [i]. *)
Fixpoint enumerate_from {A} (i : nat) (l : list A) : list (nat * A) :=
  match l with
  | [] => []
  | x :: r => (i, x) :: enumerate_from (S i) r
  end.

(** [str(e)] of a caught exception. *)
Class Printer := {
  str_of_exn : Py.exn -> Py.str
}.

End PyText.

(** final_code/search_engine.py, [generate_summary] *)
Module FinalSummary.

Import Provider FinalCode PyText.

Definition no_results : Py.str :=
  (Py.lit "Aucun r" ++ [233] ++ Py.lit "sultat trouv" ++ [233]
   ++ Py.lit " pour g" ++ [233] ++ Py.lit "n" ++ [233]
   ++ Py.lit "rer un r" ++ [233] ++ Py.lit "sum" ++ [233] ++ Py.lit ".")%N.

Definition error_prefix : Py.str :=
  (Py.lit "Erreur lors de la g" ++ [233] ++ Py.lit "n" ++ [233]
   ++ Py.lit "ration du r" ++ [233] ++ Py.lit "sum" ++ [233]
   ++ Py.lit ": ")%N.

(** [result['metadata'].get('title', 'Titre non disponible')] *)
Definition title_of (result : final_result) : Py.str :=
  match Py.get (Py.lit "title") (result_metadata (final result)) with
  | Some title => title
  | None => Py.lit "Titre non disponible"
  end.

(** Line 153: one line of the context. *)
Definition context_line (i : nat) (title : Py.str) : Py.str :=
  str_of_nat (i + 1) ++ Py.lit ". " ++ title.

(** The prompt of [generate_summary]. *)
Definition summary_prompt (query context_text : Py.str) : Py.str :=
  (Py.lit "Bas" ++ [233] ++ Py.lit " sur ces articles scientifiques li"
   ++ [233] ++ Py.lit "s " ++ [224] ++ Py.lit " la requ" ++ [234]
   ++ Py.lit "te " ++ [34] ++ query ++ [34] ++ Py.lit ":" ++ [10; 10]
   ++ context_text ++ [10; 10]
   ++ Py.lit "G" ++ [233] ++ Py.lit "n" ++ [232] ++ Py.lit "re un r"
   ++ [233] ++ Py.lit "sum" ++ [233] ++ Py.lit " synth" ++ [233]
   ++ Py.lit "tique en fran" ++ [231] ++ Py.lit "ais qui:" ++ [10]
   ++ Py.lit "1. Identifie les th" ++ [232] ++ Py.lit "mes principaux"
   ++ [10] ++ Py.lit "2. Met en " ++ [233]
   ++ Py.lit "vidence les tendances communes" ++ [10]
   ++ Py.lit "3. Reste factuel et concis (max 200 mots)" ++ [10; 10]
   ++ Py.lit "R" ++ [233] ++ Py.lit "sum" ++ [233] ++ Py.lit ":")%N.

Definition summary_options : options :=
  {| temperature := 3 # 10; num_predict := 250 |}.

(** [HybridSearchEngine.generate_summary] *)
Definition generate_summary {ollama : Ollama} {printer : Printer}
    (results : list final_result) (query : Py.str) : Py.str :=
  if negb (Py.truthy results) then no_results
  else
    let context :=
      List.map (fun ir => context_line (fst ir) (title_of (snd ir)))
        (enumerate_from 0 (Py.slice_to 5 results)) in
    let context_text := join [Py.newline] context in
    Py.try_except
      (response <- generate LLM_MODEL (summary_prompt query context_text)
                     summary_options ;;
       get_response_stripped response)
      (fun e => error_prefix ++ str_of_exn e).

End FinalSummary.

(** arxiv-search-engine/src/search_engine.py, [generate_summary] *)
Module ArxivSummary.

Import Provider ArxivSearchEngine PyText.

Definition unavailable : Py.str :=
  (Py.lit "Impossible de g" ++ [233] ++ Py.lit "n" ++ [233]
   ++ Py.lit "rer un r" ++ [233] ++ Py.lit "sum" ++ [233]
   ++ Py.lit " pour le moment.")%N.

(** [result['metadata'].get('title', '')] *)
Definition title_of (result : scored) : Py.str :=
  match Py.get (Py.lit "title") (entry_metadata (scored_entry result)) with
  | Some title => title
  | None => []
  end.

(** [result['document'][:300]] *)
Definition excerpt_of (result : scored) : Py.str :=
  Py.slice_to 300 (document (scored_entry result)).

(** Line 257: one block of the context. *)
Definition context_block (title doc : Py.str) : Py.str :=
  Py.lit "Titre: " ++ title ++ [Py.newline] ++ Py.lit "Contenu: " ++ doc.

(** The prompt of [generate_summary]. *)
Definition summary_prompt (query context : Py.str) : Py.str :=
  (Py.lit "Based on the following research papers related to the query "
   ++ [34] ++ query ++ [34] ++ Py.lit ", " ++ [10]
   ++ Py.lit "provide a concise summary of the main findings and themes (max 200 words):"
   ++ [10; 10] ++ context ++ [10; 10] ++ Py.lit "Summary:")%N.

Section Summary.
Context {config : Config} {requests : Requests}.

(** The request of [generate_summary]. *)
Definition summary_request (query context : Py.str) : request :=
  {| url := ollama_url ++ Py.lit "/api/generate";
     model := generation_model;
     prompt := summary_prompt query context;
     stream := Some false;
     request_options := None;
     timeout := None |}.

(** [SearchEngine.generate_summary] *)
Definition generate_summary (results : list scored) (query : Py.str)
    : Py.str :=
  Py.try_except
    (let context_texts :=
       List.map (fun result =>
                   context_block (title_of result) (excerpt_of result))
         (Py.slice_to 5 results) in
     let context := join [Py.newline; Py.newline] context_texts in
     response <- post (summary_request query context) ;;
     b <- json response ;;
     get_response_stripped b)
    (fun _ => unavailable).

End Summary.

End ArxivSummary.

(** Results for the summaries: a paper with a title, at a given score. *)
Module SummaryWorld.

Definition printer : PyText.Printer :=
  {| PyText.str_of_exn := fun e => match e with Py.Exception msg => msg end |}.

Definition titled (title : string) (score : Q) : FinalCode.final_result :=
  {| FinalCode.final :=
       {| FinalCode.id := Py.lit "a";
          FinalCode.document := Py.lit title;
          FinalCode.distance := None;
          FinalCode.score := score;
          FinalCode.result_metadata := [(Py.lit "title", Py.lit title)] |};
     FinalCode.hybrid_score := score;
     FinalCode.final_semantic_score := score;
     FinalCode.final_bm25_score := 0 |}.

Definition paper (title document : string) (score : Q)
    : ArxivSearchEngine.scored :=
  {| ArxivSearchEngine.scored_entry :=
       {| ArxivSearchEngine.id := Py.lit "a";
          ArxivSearchEngine.document := Py.lit document;
          ArxivSearchEngine.entry_metadata := [(Py.lit "title", Py.lit title)];
          ArxivSearchEngine.distance := None;
          ArxivSearchEngine.bm25_score := None;
          ArxivSearchEngine.semantic_score := score;
          ArxivSearchEngine.lexical_score := 0 |};
     ArxivSearchEngine.hybrid_score := score |}.

End SummaryWorld.

(* ================================================================== *)
(** ** final_code: the ingestion of documents *)
(* ================================================================== *)

Module Ingestion.

Import Provider FinalCode PyText.

(** A document to ingest: the values under the keys that
    [add_documents] reads, [None] standing for a missing key. *)
Record paper := {
  paper_id : option Py.str;
  paper_title : option Py.str;
  paper_abstract : option Py.str;
  paper_authors : option (list Py.str);
  paper_categories : option (list Py.str);
  paper_published : option Py.str;
  paper_url : option Py.str
}.

(** [json.dumps] on a list of texts. *)
Class Json := {
  dumps : list Py.str -> Py.str
}.

(** [doc.get(key, '')] and [doc.get(key, [])] *)
Definition get_or_empty (value : option Py.str) : Py.str :=
  match value with Some v => v | None => [] end.

Definition get_or_nil (value : option (list Py.str)) : list Py.str :=
  match value with Some v => v | None => [] end.

(** Line 38 of database.py. *)
Definition doc_id (i : nat) (doc : paper) : Py.str :=
  Py.lit "doc_" ++ str_of_nat i ++ Py.lit "_"
  ++ get_or_empty (paper_id doc).

(** Line 39. *)
Definition text_content (doc : paper) : Py.str :=
  get_or_empty (paper_title doc) ++ [Py.space]
  ++ get_or_empty (paper_abstract doc).

(** Lines 47-54. *)
Definition metadata_of {json : Json} (doc : paper) : metadata :=
  [ (Py.lit "title", get_or_empty (paper_title doc));
    (Py.lit "authors", dumps (get_or_nil (paper_authors doc)));
    (Py.lit "categories", dumps (get_or_nil (paper_categories doc)));
    (Py.lit "published", get_or_empty (paper_published doc));
    (Py.lit "arxiv_id", get_or_empty (paper_id doc));
    (Py.lit "url", get_or_empty (paper_url doc)) ].

(** The four lists handed to [collection.add]. *)
Record batch := {
  batch_ids : list Py.str;
  batch_embeddings : list (list Q);
  batch_documents : list Py.str;
  batch_metadatas : list metadata
}.

(** [collection.add], which may raise. *)
Class Collection := {
  collection_add : batch -> Py.result unit
}.

Section Ingestion.
Context {ollama : Ollama} {chroma : Chroma} {json : Json}
        {collection : Collection}.

(** Lines 37-55: one iteration of the loop. *)
Definition add_document (b : batch) (idoc : nat * paper) : batch :=
  let i := fst idoc in
  let doc := snd idoc in
  let embedding := generate_embedding (text_content doc) in
  if Py.truthy embedding then
    {| batch_ids := batch_ids b ++ [doc_id i doc];
       batch_embeddings := batch_embeddings b ++ [embedding];
       batch_documents := batch_documents b ++ [text_content doc];
       batch_metadatas := batch_metadatas b ++ [metadata_of doc] |}
  else b.

(** Lines 32-55: the four lists after the loop. *)
Definition collect (documents : list paper) : batch :=
  fold_left add_document (enumerate_from 0 documents)
    {| batch_ids := []; batch_embeddings := [];
       batch_documents := []; batch_metadatas := [] |}.

(** [VectorDatabase.add_documents]; the value is the batch handed to
    [collection.add], if the call is made. *)
Definition add_documents (documents : list paper)
    : Py.result (option batch) :=
  let b := collect documents in
  if Py.truthy (batch_ids b) then
    _ <- collection_add b ;;
    Py.Ok (Some b)
  else Py.Ok None.

(** [ArxivIngestion.ingest_documents] of ingestion.py. *)
Definition ingest_documents (documents : list paper) : Py.result Z :=
  if Py.truthy documents then
    _ <- add_documents documents ;;
    Py.Ok (Z.of_nat (List.length documents))
  else Py.Ok 0%Z.

(** The number of documents handed to the store by [add_documents]. *)
Definition stored (documents : list paper) : nat :=
  List.length (batch_ids (collect documents)).

(** The document has an embedding. *)
Definition embedded (doc : paper) : Prop :=
  generate_embedding (text_content doc) <> [].

End Ingestion.

End Ingestion.

(** Documents to ingest, a store that accepts every batch, and a
    provider that embeds the texts longer than one character. *)
Module IngestionWorld.

Definition json : Ingestion.Json :=
  {| Ingestion.dumps := PyText.join (Py.lit ", ") |}.

Definition collection : Ingestion.Collection :=
  {| Ingestion.collection_add := fun _ => Py.Ok tt |}.

Definition ollama : Provider.Ollama :=
  {| Provider.embeddings := fun _ text =>
       match text with
       | _ :: _ :: _ =>
           Py.Ok {| Provider.embedding := Some [1];
                    Provider.response := Provider.Missing |}
       | _ => Py.Raise Fixture.connection_refused
       end;
     Provider.generate := fun _ _ _ => Py.Raise Fixture.connection_refused |}.

Definition entitled (id title : string) : Ingestion.paper :=
  {| Ingestion.paper_id := Some (Py.lit id);
     Ingestion.paper_title := Some (Py.lit title);
     Ingestion.paper_abstract := None;
     Ingestion.paper_authors := None;
     Ingestion.paper_categories := None;
     Ingestion.paper_published := None;
     Ingestion.paper_url := None |}.

(** Three documents; the second one has no title, and no embedding. *)
Definition documents : list Ingestion.paper :=
  [entitled "2101.1" "Pruning"; entitled "2101.2" ""; entitled "2101.1" "Sparsity"].

End IngestionWorld.

(* ================================================================== *)
(** ** ArxIV/backend.py: the store of papers and the hybrid search *)
(* ================================================================== *)

Module Backend.

Import Provider Lexical.

Definition EMBED_MODEL : Py.str := Py.lit "nomic-embed-text".

(** The request of [get_ollama_embedding]. *)
Definition embedding_request (text : Py.str) : request :=
  {| url := ArxIV.OLLAMA_BASE_URL ++ Py.lit "/api/embeddings";
     model := EMBED_MODEL;
     prompt := text;
     stream := None;
     request_options := None;
     timeout := Some 30%Z |}.

(** A paper as [fetch_arxiv_papers] builds it. *)
Record paper := {
  id : Py.str;
  title : Py.str;
  authors : list Py.str;
  summary : Py.str;
  published : Py.str;
  categories : list Py.str
}.

(** The [metadata] dict of a stored paper; the authors and the
    categories are JSON texts. *)
Record metadata := {
  meta_title : Py.str;
  meta_authors : Py.str;
  meta_published : Py.str;
  meta_categories : Py.str
}.

(** An entry of [papers_cache] (keys [id], [text], [metadata]). *)
Record cached := {
  cached_id : Py.str;
  text : Py.str;
  cached_metadata : metadata
}.

(** The arguments of [collection.add]. *)
Record batch := {
  batch_embeddings : list (list Q);
  batch_documents : list Py.str;
  batch_metadatas : list metadata;
  batch_ids : list Py.str
}.

(** The model [Paper] returned by the search. *)
Record Paper := {
  Paper_id : Py.str;
  Paper_title : Py.str;
  Paper_authors : list Py.str;
  Paper_summary : Py.str;
  Paper_published : Py.str;
  Paper_categories : list Py.str;
  score : Q;
  bm25_score : Q;
  semantic_score : Q
}.

(** [json.dumps] on a list of texts, and [json.loads] on the texts that
    the store holds, which decode to lists of texts or raise. *)
Class Json := {
  dumps : list Py.str -> Py.str;
  loads : Py.str -> Py.result (list Py.str)
}.

(** The collection; [collection_query] returns the rows of
    [ids[0]] and [distances[0]].  [index_error] is the exception that
    the constructor [BM25Okapi] raises on a corpus, if any. *)
Class Store := {
  collection_add : batch -> Py.result unit;
  collection_query : list Q -> Z -> Py.result (list (Py.str * Q));
  index_error : list (list Py.str) -> option Py.exn
}.

(** The word characters of [re] (the class [\w]). *)
Class Words := {
  isword : N -> bool
}.

(** The globals [papers_cache] and [bm25]; the index is represented by
    the corpus it was built from.  The global [collection] is taken as
    initialised, as the start-up event leaves it. *)
Record state := {
  papers_cache : list cached;
  bm25 : option (list (list Py.str))
}.

(** What [store_papers] returns: [None], or a [bool]. *)
Inductive outcome :=
| Nothing
| Done (success : bool).

Definition ValueError : Py.exn := Py.Exception (Py.lit "empty separator").

(** The truth value of an embedding that may be [None]. *)
Definition usable (embedding : option (list Q)) : bool :=
  match embedding with
  | Some e => Py.truthy e
  | None => false
  end.

(** [max(0.0, x)] *)
Definition max_zero (x : Q) : Q := if Qle_bool x 0 then 0 else x.

(** [s.split(sep, 1)[1]] when [sep] occurs in [s]: the text after the
    first occurrence. *)
Fixpoint after_first (sep s : Py.str) : option Py.str :=
  if Facets.startswith sep s then Some (skipn (List.length sep) s)
  else match s with
       | [] => None
       | _ :: r => after_first sep r
       end.

Section Backend.
Context {requests : Requests} {codec : Json} {store : Store} {lib : Lib}
        {words : Words}.

(** [get_ollama_embedding] *)
Definition get_ollama_embedding (text : Py.str) : option (list Q) :=
  Py.try_except
    (response <- post (embedding_request text) ;;
     if (status_code response =? 200)%Z then
       b <- json response ;;
       embedding <- get_embedding_field b ;;
       Py.Ok (Some embedding)
     else Py.Ok None)
    (fun _ => None).

(** [preprocess_text] *)
Definition preprocess_text (text : Py.str) : list Py.str :=
  let text := lower text in
  let text :=
    List.map (fun c => if (isword c || Py.isspace c)%bool then c
                       else Py.space) text in
  Py.split text.

(** Lines 187-204: the text, the metadata and the cache entry of a new
    paper. *)
Definition text_of (p : paper) : Py.str :=
  title p ++ [Py.space] ++ summary p.

Definition metadata_of (p : paper) : metadata :=
  {| meta_title := title p;
     meta_authors := dumps (authors p);
     meta_published := published p;
     meta_categories := dumps (categories p) |}.

Definition cache_entry (p : paper) : cached :=
  {| cached_id := id p; text := text_of p;
     cached_metadata := metadata_of p |}.

(** Lines 178-179. *)
Definition new_papers (cache : list cached) (papers : list paper)
    : list paper :=
  let existing_ids := List.map cached_id cache in
  filter (fun p => negb (existsb (Py.eqb (id p)) existing_ids)) papers.

(** Lines 209-217: [None] stands for the [return False]. *)
Fixpoint embed_all (documents : list Py.str) : option (list (list Q)) :=
  match documents with
  | [] => Some []
  | doc :: rest =>
      let embedding := get_ollama_embedding doc in
      if usable embedding then
        match embedding, embed_all rest with
        | Some e, Some es => Some (e :: es)
        | _, _ => None
        end
      else None
  end.

(** [store_papers]: the globals after the call, and what it returns. *)
Definition store_papers (st : state) (papers : list paper)
    : state * Py.result outcome :=
  let news := new_papers (papers_cache st) papers in
  if negb (Py.truthy news) then (st, Py.Ok Nothing)
  else
    let documents := List.map text_of news in
    let metadatas := List.map metadata_of news in
    let ids := List.map id news in
    let st1 := {| papers_cache := papers_cache st ++ List.map cache_entry news;
                  bm25 := bm25 st |} in
    match embed_all documents with
    | None => (st1, Py.Ok (Done false))
    | Some embeddings =>
        match collection_add {| batch_embeddings := embeddings;
                                batch_documents := documents;
                                batch_metadatas := metadatas;
                                batch_ids := ids |} with
        | Py.Raise _ => (st1, Py.Ok (Done false))
        | Py.Ok _ =>
            let corpus :=
              List.map (fun p => preprocess_text (text p))
                (papers_cache st1) in
            if Py.truthy corpus then
              match index_error corpus with
              | Some e => (st1, Py.Raise e)
              | None =>
                  ({| papers_cache := papers_cache st1;
                      bm25 := Some corpus |}, Py.Ok (Done true))
              end
            else (st1, Py.Ok (Done true))
        end
    end.

(** Lines 254-273: the rows of the semantic search. *)
Definition semantic_rows (st : state) (expanded_query : Py.str)
    (max_results : Z) : list (Py.str * Q) :=
  let query_embedding := get_ollama_embedding expanded_query in
  if usable query_embedding then
    match query_embedding with
    | Some e =>
        Py.try_except
          (collection_query e
             (Z.min (max_results * 2)
                (Z.of_nat (List.length (papers_cache st)))))
          (fun _ => [])
    | None => []
    end
  else [].

(** Lines 276-279. *)
Definition bm25_scores_of (st : state) (expanded_query : Py.str) : list Q :=
  match bm25 st with
  | Some corpus => get_scores corpus (preprocess_text expanded_query)
  | None => []
  end.

(** Lines 287-292. *)
Definition max_bm25_of (bm25_scores : list Q) : Q :=
  match bm25_scores with
  | [] => 0
  | s :: ss => Py.max s ss
  end.

(** Lines 298-299. *)
Definition bm25_normalized_at (bm25_scores : list Q) (i : nat) : Q :=
  let max_bm25 := max_bm25_of bm25_scores in
  let bm25_score :=
    if (i <? List.length bm25_scores)%nat then nth i bm25_scores 0 else 0 in
  if Py.positive max_bm25
  then bm25_score / (max_bm25 + (1 # 1000000)) else 0.

(** Lines 302-309. *)
Definition semantic_score_of (rows : list (Py.str * Q)) (paper_id : Py.str)
    : Q :=
  match find (fun r => Py.eqb paper_id (fst r)) rows with
  | Some r => max_zero (1 - snd r)
  | None => 0
  end.

(** Lines 325-327: the summary read back from the text of the entry. *)
Definition summary_of (p : cached) : Py.result Py.str :=
  let summary := text p in
  let title := meta_title (cached_metadata p) in
  if Facets.contains title summary then
    if Py.truthy title then
      match after_first title summary with
      | Some rest => Py.Ok (Py.strip rest)
      | None => Py.Raise Py.IndexError
      end
    else Py.Raise ValueError
  else Py.Ok summary.

(** Line 333. *)
Definition shorten (summary : Py.str) : Py.str :=
  if (500 <? Py.len summary)%Z
  then Py.slice_to 500 summary ++ Py.lit "..." else summary.

(** Lines 296-340: one iteration of the loop; [None] stands for the
    [continue]. *)
Definition paper_obj (rows : list (Py.str * Q)) (bm25_scores : list Q)
    (category : option Py.str) (i : nat) (p : cached)
    : Py.result (option Paper) :=
  let bm25_normalized := bm25_normalized_at bm25_scores i in
  let semantic := semantic_score_of rows (cached_id p) in
  let hybrid_score := (1 # 2) * bm25_normalized + (1 # 2) * semantic in
  let build :=
    summary <- summary_of p ;;
    authors <- loads (meta_authors (cached_metadata p)) ;;
    categories <- loads (meta_categories (cached_metadata p)) ;;
    Py.Ok (Some {| Paper_id := cached_id p;
                   Paper_title := meta_title (cached_metadata p);
                   Paper_authors := authors;
                   Paper_summary := shorten summary;
                   Paper_published := meta_published (cached_metadata p);
                   Paper_categories := categories;
                   score := hybrid_score;
                   bm25_score := bm25_normalized;
                   semantic_score := semantic |}) in
  match category with
  | Some c =>
      if Py.truthy c then
        categories <- loads (meta_categories (cached_metadata p)) ;;
        if existsb (Py.eqb c) categories then build else Py.Ok None
      else build
  | None => build
  end.

(** The loop over [enumerate(papers_cache)]. *)
Fixpoint collect_papers (rows : list (Py.str * Q)) (bm25_scores : list Q)
    (category : option Py.str) (cache : list (nat * cached))
    : Py.result (list Paper) :=
  match cache with
  | [] => Py.Ok []
  | (i, p) :: rest =>
      o <- paper_obj rows bm25_scores category i p ;;
      papers <- collect_papers rows bm25_scores category rest ;;
      Py.Ok (match o with Some x => x :: papers | None => papers end)
  end.

(** [hybrid_search] *)
Definition hybrid_search (st : state) (query : Py.str) (max_results : Z)
    (category : option Py.str) : Py.result (list Paper) :=
  if negb (Py.truthy (papers_cache st)) then Py.Ok []
  else
    let expanded_query := ArxIV.expand_query_with_gemma query in
    let rows := semantic_rows st expanded_query max_results in
    let bm25_scores := bm25_scores_of st expanded_query in
    papers <- collect_papers rows bm25_scores category
                (PyText.enumerate_from 0 (papers_cache st)) ;;
    Py.Ok (Py.slice_to max_results (Py.sort_desc score papers)).

End Backend.

(** The index of the state was built from its cache. *)
Definition aligned {lib : Lib} {words : Words} (st : state) : Prop :=
  match bm25 st with
  | Some corpus =>
      corpus = List.map (fun p => preprocess_text (text p)) (papers_cache st)
  | None => True
  end.

End Backend.

(** A world for the backend: a codec that writes every character of a
    text after the mark 1 and ends every text with the mark 0, a store
    that accepts every batch, and the ASCII letters and digits as word
    characters. *)
Module BackendWorld.

Definition unreadable : Py.exn := Py.Exception (Py.lit "Expecting value").

Fixpoint encode (l : list Py.str) : Py.str :=
  match l with
  | [] => []
  | s :: r => flat_map (fun c => [1%N; c]) s ++ 0%N :: encode r
  end.

(** [cur] is the text being read, reversed. *)
Fixpoint decode_from (cur : Py.str) (s : Py.str)
    : Py.result (list Py.str) :=
  match s with
  | [] => if Py.truthy cur then Py.Raise unreadable else Py.Ok []
  | m :: r =>
      if N.eqb m 0 then
        l <- decode_from [] r ;;
        Py.Ok (rev cur :: l)
      else
        match r with
        | c :: r' =>
            if N.eqb m 1 then decode_from (c :: cur) r'
            else Py.Raise unreadable
        | [] => Py.Raise unreadable
        end
  end.

Definition json : Backend.Json :=
  {| Backend.dumps := encode;
     Backend.loads := decode_from [] |}.

Definition store : Backend.Store :=
  {| Backend.collection_add := fun _ => Py.Ok tt;
     Backend.collection_query := fun _ _ => Py.Ok [(Py.lit "2101.1", 1 # 4)];
     Backend.index_error := fun _ => None |}.

Definition words : Backend.Words :=
  {| Backend.isword := fun c =>
       ((48 <=? c) && (c <=? 57) || (65 <=? c) && (c <=? 90)
        || (97 <=? c) && (c <=? 122) || (c =? 95))%N |}.

Definition pruning : Backend.paper :=
  {| Backend.id := Py.lit "2101.1";
     Backend.title := Py.lit "Neural Network Pruning";
     Backend.authors := [Py.lit "Ada"];
     Backend.summary := Py.lit "We prune networks.";
     Backend.published := Py.lit "2021-01-01";
     Backend.categories := [Py.lit "cs.LG"] |}.

Definition empty_state : Backend.state :=
  {| Backend.papers_cache := []; Backend.bm25 := None |}.

End BackendWorld.

(* ================================================================== *)
(** ** ArxIV/backend.py: the indexing end point *)
(* ================================================================== *)

Module Indexing.

Import Backend.

(** A result of the arXiv client: the attributes that
    [fetch_arxiv_papers] reads, the authors as [str(author)] and the
    date as [published.isoformat()]. *)
Record arxiv_result := {
  entry_id : Py.str;
  result_title : Py.str;
  result_authors : list Py.str;
  result_summary : Py.str;
  result_published : Py.str;
  result_categories : list Py.str
}.

(** [arxiv.Search(query, max_results, ...).results()], which may
    raise. *)
Class Arxiv := {
  results : Py.str -> Z -> Py.result (list arxiv_result)
}.

(** [s.split('/')[-1]]; [cur] is the current segment, reversed. *)
Fixpoint last_segment_from (cur s : Py.str) : Py.str :=
  match s with
  | [] => rev cur
  | c :: r =>
      if N.eqb c 47 then last_segment_from [] r
      else last_segment_from (c :: cur) r
  end.

Definition last_segment (s : Py.str) : Py.str := last_segment_from [] s.

(** What the end point answers: a message, or an HTTP error. *)
Inductive reply :=
| Message (text : Py.str)
| HTTPException (status_code : Z).

Section Indexing.
Context {requests : Provider.Requests} {codec : Json} {store : Store}
        {lib : Lexical.Lib} {words : Words} {arxiv : Arxiv}.

(** [fetch_arxiv_papers] *)
Definition fetch_arxiv_papers (query : Py.str) (max_results : Z)
    : Py.result (list paper) :=
  found <- results query max_results ;;
  Py.Ok (List.map
           (fun result =>
              {| id := last_segment (entry_id result);
                 title := result_title result;
                 authors := result_authors result;
                 summary := result_summary result;
                 published := result_published result;
                 categories := result_categories result |}) found).

(** The message of a successful indexing. *)
Definition indexed_message (n : nat) : Py.str :=
  (Py.lit "Index" ++ [233] ++ Py.lit " " ++ PyText.str_of_nat n
   ++ Py.lit " papiers avec Ollama embeddings")%N.

(** [index_papers]: the globals after the call, and the answer.  Every
    exception is turned into the error 500, and so is a result of
    [store_papers] that is not true. *)
Definition index_papers (st : state) (query : Py.str) (max_results : Z)
    : state * reply :=
  match fetch_arxiv_papers query max_results with
  | Py.Raise _ => (st, HTTPException 500)
  | Py.Ok papers =>
      let (st', success) := store_papers st papers in
      match success with
      | Py.Ok (Done true) =>
          (st', Message (indexed_message (List.length papers)))
      | _ => (st', HTTPException 500)
      end
  end.

End Indexing.

End Indexing.

(** An arXiv client that finds the paper on pruning. *)
Module IndexingWorld.

Definition arxiv : Indexing.Arxiv :=
  {| Indexing.results := fun _ _ =>
       Py.Ok [ {| Indexing.entry_id := Py.lit "http://arxiv.org/abs/2101.1";
                  Indexing.result_title := Py.lit "Neural Network Pruning";
                  Indexing.result_authors := [Py.lit "Ada"];
                  Indexing.result_summary := Py.lit "We prune networks.";
                  Indexing.result_published := Py.lit "2021-01-01";
                  Indexing.result_categories := [Py.lit "cs.LG"] |} ] |}.

End IndexingWorld.

(* ================================================================== *)
(** ** final_code/database.py: the facets of the store *)
(* ================================================================== *)

Module StoreFacets.

Import FinalCode.

(** [json.loads] on the texts of the store, which decode to lists of
    texts or raise; [c.isdigit()] on one character. *)
Class Tables := {
  loads : Py.str -> Py.result (list Py.str);
  isdigit : N -> bool
}.

(** [sorted(list(s))] for a set [s] of texts: the items in ascending
    order, each once.  [insert] adds an item to such a list. *)
Fixpoint insert (x : Py.str) (l : list Py.str) : list Py.str :=
  match l with
  | [] => [x]
  | y :: r =>
      if Ranking.str_ltb x y then x :: l
      else if Py.eqb x y then l
      else y :: insert x r
  end.

Definition sorted_set (items : list Py.str) : list Py.str :=
  fold_right insert [] items.

(** The returned dict (keys [authors], [categories], [years]). *)
Record facets := {
  authors : list Py.str;
  categories : list Py.str;
  years : list Py.str
}.

Section Facet.
Context {chroma : Chroma} {tables : Tables}.

(** Lines 104-109 and 111-116: the items that one metadata dict adds to
    a set; every exception is passed over. *)
Definition listed (key : string) (m : metadata) : list Py.str :=
  match Py.get (Py.lit key) m with
  | Some value =>
      if Py.truthy value
      then Py.try_except (loads value) (fun _ => [])
      else []
  | None => []
  end.

(** [year.isdigit()] *)
Definition isdigit_str (s : Py.str) : bool :=
  (Py.truthy s && forallb isdigit s)%bool.

(** Lines 118-124: the year that one metadata dict adds, if any. *)
Definition year_of (m : metadata) : list Py.str :=
  match Py.get (Py.lit "published") m with
  | Some value =>
      if Py.truthy value then
        let year := Py.slice_to 4 value in
        if isdigit_str year then [year] else []
      else []
  | None => []
  end.

(** [VectorDatabase.get_all_metadata] *)
Definition get_all_metadata : facets :=
  let all_results := collection_get in
  {| authors := sorted_set (flat_map (listed "authors") (metadatas all_results));
     categories :=
       sorted_set (flat_map (listed "categories") (metadatas all_results));
     years := rev (sorted_set (flat_map year_of (metadatas all_results))) |}.

End Facet.

(** Python's strict order on [str]. *)
Definition lt (a b : Py.str) : Prop := Ranking.str_ltb a b = true.

End StoreFacets.

(** Tables for the facets: the lists are written with the marks 1 and
    0, and the digits are the ASCII ones. *)
Module FacetTables.

Definition tables : StoreFacets.Tables :=
  {| StoreFacets.loads := BackendWorld.decode_from [];
     StoreFacets.isdigit := FacetWorld.digit |}.

Definition dated (published : string) (categories : list Py.str)
    : FinalCode.metadata :=
  [(Py.lit "published", Py.lit published);
   (Py.lit "categories", BackendWorld.encode categories)].

Definition chroma : FinalCode.Chroma :=
  {| FinalCode.collection_get :=
       {| FinalCode.ids := [Py.lit "a"; Py.lit "b"; Py.lit "c"];
          FinalCode.documents := [Py.lit "x"; Py.lit "y"; Py.lit "z"];
          FinalCode.metadatas :=
            [dated "2021-03-01" [Py.lit "cs.LG"];
             dated "2023-07-15" [Py.lit "cs.CV"; Py.lit "cs.LG"];
             dated "n.d." []] |};
     FinalCode.collection_query := Fixture.query |}.

End FacetTables.

(* ================================================================== *)
(** ** arxiv-search-engine/src/data_ingestion.py: the chunks *)
(* ================================================================== *)

Module Chunking.

(** The values [chunk_size] and [chunk_overlap] of [config.yaml]. *)
Class Config := {
  chunk_size : Z;
  chunk_overlap : Z
}.

(** [re.sub] of every run of whitespace by one space; [in_run] tells
    that the previous character was whitespace. *)
Fixpoint collapse_from (in_run : bool) (s : Py.str) : Py.str :=
  match s with
  | [] => []
  | c :: r =>
      if Py.isspace c
      then (if in_run then collapse_from true r
            else Py.space :: collapse_from true r)
      else c :: collapse_from false r
  end.

Definition collapse (s : Py.str) : Py.str := collapse_from false s.

(** The place in a list of length [n] that a slice bound [i] stands
    for: a negative bound counts from the end, and every bound is
    brought back into the list. *)
Definition bound (i : Z) (n : nat) : nat :=
  if (i <? 0)%Z then Z.to_nat (Z.max 0 (i + Z.of_nat n))
  else Nat.min (Z.to_nat i) n.

(** [l[a:b]] for two [int]s. *)
Definition slice {A} (a b : Z) (l : list A) : list A :=
  let n := List.length l in
  firstn (bound b n - bound a n) (skipn (bound a n) l).

Section Chunking.
Context {config : Config}.

(** The loop of [chunk_text], from the value [start]; it is run for at
    most [fuel] iterations, and [None] tells that it has not ended by
    then. *)
Fixpoint chunks_from (fuel : nat) (text : Py.str) (start : Z)
    : option (list Py.str) :=
  match fuel with
  | O => None
  | S fuel' =>
      if (start <? Py.len text)%Z then
        let end_ := Z.min (start + chunk_size) (Py.len text) in
        let chunk := slice start end_ text in
        match chunks_from fuel' text (start + (chunk_size - chunk_overlap)) with
        | Some chunks => Some (chunk :: chunks)
        | None => None
        end
      else Some []
  end.

(** The text that [chunk_text] cuts. *)
Definition cleaned (text : Py.str) : Py.str := Py.strip (collapse text).

(** [DataIngestion.chunk_text] *)
Definition chunk_text (fuel : nat) (text : Py.str) : option (list Py.str) :=
  chunks_from fuel (cleaned text) 0.

End Chunking.

End Chunking.

(** Two configurations: chunks of 4 characters that overlap by 1, and
    chunks of 4 characters with an overlap of 4. *)
Module ChunkingWorld.

Definition sane : Chunking.Config :=
  {| Chunking.chunk_size := 4; Chunking.chunk_overlap := 1 |}.

Definition stuck : Chunking.Config :=
  {| Chunking.chunk_size := 4; Chunking.chunk_overlap := 4 |}.

End ChunkingWorld.

(* ================================================================== *)
(** ** Vocabulary for the channels of a fusion *)
(* ================================================================== *)

Module Channel.

Section Channel.
Variable A : Type.
Variable key : A -> Q.

(** [x] has the greatest raw score of the channel [l], and the channel
    holds a smaller one. *)
Definition best (l : list A) (x : A) : Prop :=
  In x l /\ (forall y, In y l -> key y <= key x)
  /\ exists y, In y l /\ key y < key x.

(** [x] has the smallest raw score of the channel [l]. *)
Definition worst (l : list A) (x : A) : Prop :=
  In x l /\ forall y, In y l -> key x <= key y.

End Channel.

End Channel.

Unset Implicit Arguments.

Module PyFacts.

Lemma eqb_eq (a b : Py.str) : Py.eqb a b = true <-> a = b.
Proof.
  revert b; induction a as [|x a IH]; intros [|y b]; simpl;
    try (split; [discriminate | discriminate]); try tauto.
  rewrite andb_true_iff, N.eqb_eq, IH.
  split; [intros [-> ->]; reflexivity | intros H; inversion H; auto].
Qed.

Lemma eqb_refl (a : Py.str) : Py.eqb a a = true.
Proof. apply eqb_eq; reflexivity. Qed.

Lemma eqb_neq (a b : Py.str) : Py.eqb a b = false <-> a <> b.
Proof.
  rewrite <- eqb_eq. destruct (Py.eqb a b); split; congruence.
Qed.

(** *** [max] and [min] *)

Lemma max_fold_ge (xs : list Q) (m : Q) :
  m <= Py.max m xs /\ forall y, In y xs -> y <= Py.max m xs.
Proof.
  unfold Py.max. revert m.
  induction xs as [|x xs IH]; intros m; simpl.
  - split; [apply Qle_refl | intros y []].
  - destruct (Qle_bool x m) eqn:E.
    + apply Qle_bool_iff in E. destruct (IH m) as [H1 H2].
      split; [exact H1|]. intros y [<-|Hy]; [|auto].
      eapply Qle_trans; eauto.
    + assert (m <= x) as Hmx.
      { destruct (Qlt_le_dec m x) as [H|H]; [apply Qlt_le_weak; exact H|].
        apply Qle_bool_iff in H. congruence. }
      destruct (IH x) as [H1 H2].
      split; [eapply Qle_trans; eauto|].
      intros y [<-|Hy]; auto.
Qed.

Lemma min_fold_le (xs : list Q) (m : Q) :
  Py.min m xs <= m /\ forall y, In y xs -> Py.min m xs <= y.
Proof.
  unfold Py.min. revert m.
  induction xs as [|x xs IH]; intros m; simpl.
  - split; [apply Qle_refl | intros y []].
  - destruct (Qle_bool m x) eqn:E.
    + apply Qle_bool_iff in E. destruct (IH m) as [H1 H2].
      split; [exact H1|]. intros y [<-|Hy]; [|auto].
      eapply Qle_trans; eauto.
    + assert (x <= m) as Hmx.
      { destruct (Qlt_le_dec x m) as [H|H]; [apply Qlt_le_weak; exact H|].
        apply Qle_bool_iff in H. congruence. }
      destruct (IH x) as [H1 H2].
      split; [eapply Qle_trans; eauto|].
      intros y [<-|Hy]; auto.
Qed.

Lemma max_In (xs : list Q) (x : Q) : In (Py.max x xs) (x :: xs).
Proof.
  unfold Py.max. revert x. induction xs as [|y xs IH]; intros x; simpl.
  - left; reflexivity.
  - destruct (Qle_bool y x); destruct (IH x) as [H|H], (IH y) as [H'|H'];
      simpl in *; auto.
Qed.

Lemma min_In (xs : list Q) (x : Q) : In (Py.min x xs) (x :: xs).
Proof.
  unfold Py.min. revert x. induction xs as [|y xs IH]; intros x; simpl.
  - left; reflexivity.
  - destruct (Qle_bool x y); destruct (IH x) as [H|H], (IH y) as [H'|H'];
      simpl in *; auto.
Qed.

Lemma max_ge (x : Q) (xs : list Q) (y : Q) :
  In y (x :: xs) -> y <= Py.max x xs.
Proof.
  destruct (max_fold_ge xs x) as [H1 H2]. intros [<-|H]; auto.
Qed.

Lemma min_le (x : Q) (xs : list Q) (y : Q) :
  In y (x :: xs) -> Py.min x xs <= y.
Proof.
  destruct (min_fold_le xs x) as [H1 H2]. intros [<-|H]; auto.
Qed.

(** *** Slices *)

Lemma slice_to_prefix {A} (k : Z) (l : list A) :
  exists rest, l = Py.slice_to k l ++ rest.
Proof.
  unfold Py.slice_to. destruct (0 <=? k)%Z;
    eexists; symmetry; apply firstn_skipn.
Qed.

Lemma slice_to_In {A} (k : Z) (l : list A) (x : A) :
  In x (Py.slice_to k l) -> In x l.
Proof.
  destruct (slice_to_prefix k l) as [rest H]. intros Hx.
  rewrite H. apply in_or_app; left; exact Hx.
Qed.

Lemma slice_to_all {A} (k : Z) (l : list A) :
  (Z.of_nat (List.length l) <= k)%Z -> Py.slice_to k l = l.
Proof.
  intros H. unfold Py.slice_to.
  destruct (0 <=? k)%Z eqn:E.
  - apply firstn_all2. lia.
  - apply Z.leb_gt in E. lia.
Qed.

Lemma slice_to_map {A B} (f : A -> B) (k : Z) (l : list A) :
  List.map f (Py.slice_to k l) = Py.slice_to k (List.map f l).
Proof.
  unfold Py.slice_to. rewrite length_map.
  destruct (0 <=? k)%Z; symmetry; apply firstn_map.
Qed.

(** *** The stable descending sort *)

Section SortFacts.
Variable A : Type.
Variable key : A -> Q.

Local Abbreviation desc := (Ranking.desc key).
Local Abbreviation with_key := (Ranking.with_key key).
Local Abbreviation before := (@Ranking.before A).

Lemma insert_desc_perm (x : A) (l : list A) :
  Permutation (x :: l) (Py.insert_desc key x l).
Proof.
  induction l as [|y r IH]; simpl; [reflexivity|].
  destruct (Qle_bool (key y) (key x)); [reflexivity|].
  rewrite perm_swap. constructor. exact IH.
Qed.

Lemma sort_desc_perm (l : list A) : Permutation l (Py.sort_desc key l).
Proof.
  induction l as [|x l IH]; simpl; [constructor|].
  rewrite <- insert_desc_perm. constructor. exact IH.
Qed.

Lemma sort_desc_In (l : list A) (x : A) :
  In x (Py.sort_desc key l) <-> In x l.
Proof.
  split; apply Permutation_in;
    [symmetry|]; apply sort_desc_perm.
Qed.

Lemma insert_desc_sorted (x : A) (l : list A) :
  StronglySorted desc l -> StronglySorted desc (Py.insert_desc key x l).
Proof.
  induction l as [|y r IH]; intros Hs; simpl.
  - repeat constructor.
  - inversion Hs as [|? ? Hr Hy]; subst.
    destruct (Qle_bool (key y) (key x)) eqn:E.
    + apply Qle_bool_iff in E. constructor; [exact Hs|].
      constructor; [exact E|].
      eapply Forall_impl; [|exact Hy]. unfold desc; intros a Ha.
      eapply Qle_trans; eauto.
    + assert (key x <= key y) as Hxy.
      { destruct (Qlt_le_dec (key x) (key y)) as [H|H];
          [apply Qlt_le_weak; exact H|].
        apply Qle_bool_iff in H. congruence. }
      constructor; [apply IH; exact Hr|].
      apply Forall_forall. intros a Ha.
      apply (Permutation_in _ (Permutation_sym (insert_desc_perm x r))) in Ha.
      destruct Ha as [<-|Ha]; [exact Hxy|].
      rewrite Forall_forall in Hy. apply Hy; exact Ha.
Qed.

Lemma sort_desc_sorted (l : list A) : StronglySorted desc (Py.sort_desc key l).
Proof.
  induction l as [|x l IH]; simpl; [constructor|].
  apply insert_desc_sorted; exact IH.
Qed.

(** Stability: the items of one key value keep their original order. *)
Lemma insert_desc_stable (q : Q) (x : A) (l : list A) :
  with_key q (Py.insert_desc key x l) = with_key q (x :: l).
Proof.
  induction l as [|y r IH]; simpl; [reflexivity|].
  destruct (Qle_bool (key y) (key x)) eqn:E; [reflexivity|].
  simpl. simpl in IH. rewrite IH.
  destruct (Qeq_bool (key x) q) eqn:Ex; [|reflexivity].
  destruct (Qeq_bool (key y) q) eqn:Ey; [|reflexivity].
  apply Qeq_bool_iff in Ex, Ey.
  assert (Qle_bool (key y) (key x) = true) as H.
  { apply Qle_bool_iff. rewrite Ex, Ey. apply Qle_refl. }
  congruence.
Qed.

Lemma sort_desc_stable (q : Q) (l : list A) :
  with_key q (Py.sort_desc key l) = with_key q l.
Proof.
  induction l as [|x l IH]; simpl; [reflexivity|].
  rewrite insert_desc_stable. simpl. rewrite IH. reflexivity.
Qed.

(** A list that is already in descending order is left as it is. *)
Lemma sort_desc_sorted_id (l : list A) :
  StronglySorted desc l -> Py.sort_desc key l = l.
Proof.
  induction 1 as [|x l Hs IH Hx]; simpl; [reflexivity|].
  rewrite IH. destruct l as [|y r]; simpl; [reflexivity|].
  inversion Hx as [|? ? Hy _]; subst. unfold desc in Hy.
  apply Qle_bool_iff in Hy. rewrite Hy. reflexivity.
Qed.

Lemma before_cons (x a b : A) (l : list A) :
  before a b l -> before a b (x :: l).
Proof.
  intros (l1 & l2 & l3 & ->). exists (x :: l1), l2, l3. reflexivity.
Qed.

Lemma in_before_or (a b : A) (l : list A) :
  In a l -> In b l -> a <> b -> before a b l \/ before b a l.
Proof.
  induction l as [|x r IH]; intros Ha Hb Hab; [destruct Ha|].
  destruct Ha as [->|Ha], Hb as [->|Hb]; try congruence.
  - left. apply in_split in Hb. destruct Hb as (l2 & l3 & ->).
    exists [], l2, l3. reflexivity.
  - right. apply in_split in Ha. destruct Ha as (l2 & l3 & ->).
    exists [], l2, l3. reflexivity.
  - destruct (IH Ha Hb Hab); [left|right]; apply before_cons; assumption.
Qed.

Lemma sorted_before_desc (a b : A) (l : list A) :
  StronglySorted desc l -> before a b l -> key b <= key a.
Proof.
  intros Hs (l1 & l2 & l3 & ->).
  induction l1 as [|x l1 IH]; simpl in Hs.
  - inversion Hs as [|? ? _ Hx]; subst. rewrite Forall_forall in Hx.
    apply Hx. apply in_or_app; right; left; reflexivity.
  - inversion Hs; subst. apply IH; assumption.
Qed.

(** In a sorted list an item of strictly greater key comes first. *)
Lemma sorted_greater_before (a b : A) (l : list A) :
  StronglySorted desc l -> In a l -> In b l -> key b < key a ->
  before a b l.
Proof.
  intros Hs Ha Hb Hlt.
  assert (a <> b) as Hne by (intros ->; apply (Qlt_irrefl _ Hlt)).
  destruct (in_before_or a b l Ha Hb Hne) as [H|H]; [exact H|].
  apply (sorted_before_desc b a l Hs) in H.
  exfalso. apply (Qlt_not_le _ _ Hlt). exact H.
Qed.

End SortFacts.

(** *** The insertion-ordered dict *)

Section DictFacts.
Variable V : Type.
Implicit Types (d : Py.dict V) (k : Py.str) (v : V).

Lemma get_set_same k v d : Py.get k (Py.set k v d) = Some v.
Proof.
  induction d as [|[k' v'] r IH]; simpl.
  - rewrite eqb_refl; reflexivity.
  - destruct (Py.eqb k k') eqn:E; simpl; rewrite E; auto.
Qed.

Lemma get_set_other k k' v d :
  k' <> k -> Py.get k' (Py.set k v d) = Py.get k' d.
Proof.
  intros Hne. induction d as [|[k0 v0] r IH]; simpl.
  - apply eqb_neq in Hne. rewrite Hne; reflexivity.
  - destruct (Py.eqb k k0) eqn:E; simpl.
    + apply eqb_eq in E; subst k0.
      apply eqb_neq in Hne. rewrite Hne. reflexivity.
    + rewrite IH. reflexivity.
Qed.

Lemma get_In k v d : Py.get k d = Some v -> In (k, v) d.
Proof.
  induction d as [|[k' v'] r IH]; simpl; [discriminate|].
  destruct (Py.eqb k k') eqn:E.
  - apply eqb_eq in E; subst. intros [= ->]. left; reflexivity.
  - intros H; right; auto.
Qed.

Lemma get_None_keys k d : Py.get k d = None <-> ~ In k (Py.keys d).
Proof.
  induction d as [|[k' v'] r IH]; simpl; [tauto|].
  destruct (Py.eqb k k') eqn:E.
  - apply eqb_eq in E; subst. split; [discriminate|]. intros H; elim H; auto.
  - apply eqb_neq in E. rewrite IH. split.
    + intros H [H'|H']; [congruence|auto].
    + intros H H'; apply H; auto.
Qed.

Lemma get_Some_keys k d : In k (Py.keys d) <-> exists v, Py.get k d = Some v.
Proof.
  destruct (Py.get k d) as [v|] eqn:E.
  - split; [eauto|]. intros _. apply get_In in E.
    apply in_map with (f := fst) in E. exact E.
  - apply get_None_keys in E. split; [tauto|]. intros [v Hv]; discriminate.
Qed.

Lemma keys_set k v d :
  Py.keys (Py.set k v d) =
  match Py.get k d with
  | Some _ => Py.keys d
  | None => Py.keys d ++ [k]
  end.
Proof.
  unfold Py.keys.
  induction d as [|[k' v'] r IH]; simpl; [reflexivity|].
  destruct (Py.eqb k k') eqn:E; simpl; [reflexivity|].
  rewrite IH.
  destruct (Py.get k r); reflexivity.
Qed.

Lemma keys_set_In k k' v d :
  In k' (Py.keys (Py.set k v d)) <-> k' = k \/ In k' (Py.keys d).
Proof.
  rewrite keys_set. destruct (Py.get k d) as [v0|] eqn:E.
  - split; [tauto|]. intros [->|H]; [|exact H].
    apply get_Some_keys; eauto.
  - rewrite in_app_iff; simpl. split; [intros [H|[H|[]]]|intros [H|H]]; auto.
Qed.

Lemma keys_set_NoDup k v d :
  NoDup (Py.keys d) -> NoDup (Py.keys (Py.set k v d)).
Proof.
  intros H. rewrite keys_set. destruct (Py.get k d) eqn:E; [exact H|].
  apply get_None_keys in E.
  apply Permutation_NoDup with (l := k :: Py.keys d).
  - apply Permutation_cons_append.
  - constructor; assumption.
Qed.

Lemma set_In k v d k0 v0 :
  In (k0, v0) (Py.set k v d) -> (k0 = k /\ v0 = v) \/ In (k0, v0) d.
Proof.
  induction d as [|[k' v'] r IH]; simpl.
  - intros [[= <- <-]|[]]; auto.
  - destruct (Py.eqb k k') eqn:E; simpl.
    + apply eqb_eq in E; subst. intros [[= <- <-]|H]; auto.
    + intros [H|H]; auto. destruct (IH H); auto.
Qed.

Lemma set_Forall (P : Py.str * V -> Prop) k v d :
  P (k, v) -> Forall P d -> Forall P (Py.set k v d).
Proof.
  intros Hv Hd. apply Forall_forall. intros [k0 v0] Hin.
  apply set_In in Hin. destruct Hin as [[-> ->]|Hin]; [exact Hv|].
  rewrite Forall_forall in Hd. apply Hd; exact Hin.
Qed.

End DictFacts.

End PyFacts.

(* ================================================================== *)
(** ** final_code: facts about the fusion *)
(* ================================================================== *)

Module FusionFacts.

Import FinalCode Ranking.

Lemma fold_left_inv {A B} (P : A -> Prop) (f : A -> B -> A) (l : list B) :
  forall a, P a -> (forall a x, In x l -> P a -> P (f a x)) ->
  P (fold_left f l a).
Proof.
  induction l as [|x l IH]; intros a Ha Hf; simpl; [exact Ha|].
  apply IH.
  - apply Hf; [left; reflexivity | exact Ha].
  - intros a' x' Hx'. apply Hf. right; exact Hx'.
Qed.

(** *** Min-max normalisation *)

Lemma range_nonzero (mx mn : Q) : ~ range mx mn == 0.
Proof.
  unfold range. destruct (Qeq_bool mx mn) eqn:E; simpl.
  - intros H. discriminate H.
  - apply Qeq_bool_neq in E. intros H. apply E. lra.
Qed.

Lemma range_equal (mx mn : Q) : mx == mn -> range mx mn = 1.
Proof.
  intros H. unfold range. apply Qeq_bool_iff in H. rewrite H. reflexivity.
Qed.

Lemma range_positive (mx mn : Q) : mn <= mx -> 0 < range mx mn.
Proof.
  intros H. unfold range. destruct (Qeq_bool mx mn) eqn:E; simpl.
  - reflexivity.
  - apply Qeq_bool_neq in E.
    destruct (Qlt_le_dec mn mx) as [Hlt|Hle]; [lra|].
    elim E. apply Qle_antisym; assumption.
Qed.

Lemma range_le (mx mn : Q) : mn <= mx -> mx - mn <= range mx mn.
Proof.
  intros H. unfold range. destruct (Qeq_bool mx mn) eqn:E; simpl.
  - apply Qeq_bool_iff in E. lra.
  - lra.
Qed.

Lemma normalized_bounds (mx mn s : Q) :
  mn <= s -> s <= mx -> 0 <= (s - mn) / range mx mn <= 1.
Proof.
  intros H1 H2.
  assert (mn <= mx) as Hm by (eapply Qle_trans; eauto).
  pose proof (range_positive _ _ Hm) as Hpos.
  pose proof (range_le _ _ Hm) as Hle.
  split.
  - apply Qle_shift_div_l; [exact Hpos|]. lra.
  - apply Qle_shift_div_r; [exact Hpos|]. lra.
Qed.

Lemma normalized_equal (mx mn s : Q) :
  mx == mn -> mn <= s -> s <= mx -> (s - mn) / range mx mn == 0.
Proof.
  intros He H1 H2. rewrite (range_equal _ _ He).
  assert (s == mn) as -> by lra. field.
Qed.

Lemma normalized_lt (mx mn s1 s2 : Q) :
  mn <= s1 -> s1 < s2 -> s2 <= mx ->
  (s1 - mn) / range mx mn < (s2 - mn) / range mx mn.
Proof.
  intros H1 H2 H3.
  assert (mn <= mx) as Hm by lra.
  pose proof (range_positive _ _ Hm) as Hpos.
  unfold Qdiv. apply Qmult_lt_compat_r; [|lra].
  apply Qinv_lt_0_compat. exact Hpos.
Qed.

(** The extrema of a channel bound every raw score of the channel. *)
Lemma extrema_bound {A} (f : A -> Q) (l : list A) (s : Q) (ss : list Q) (x : A) :
  List.map f l = s :: ss -> In x l -> Py.min s ss <= f x /\ f x <= Py.max s ss.
Proof.
  intros E Hx. apply in_map with (f := f) in Hx. rewrite E in Hx.
  split; [apply PyFacts.min_le | apply PyFacts.max_ge]; exact Hx.
Qed.

(** *** Both components of every entry lie in [0, 1] *)

Lemma unit_zero : unit_interval 0.
Proof. unfold unit_interval; lra. Qed.

Lemma combine_vector_unit (vector_results : list hit) :
  Forall unit_scores (combine_vector vector_results).
Proof.
  unfold combine_vector.
  destruct (List.map hit_score vector_results) as [|s ss] eqn:E;
    [constructor|].
  apply fold_left_inv; [constructor|].
  intros acc h Hh Hacc. unfold add_vector.
  apply PyFacts.set_Forall; [|exact Hacc].
  destruct (extrema_bound _ _ _ _ _ E Hh) as [H1 H2].
  split; simpl; [|apply unit_zero].
  apply normalized_bounds; assumption.
Qed.

Lemma combine_bm25_unit (docs : all_docs) (bm25_results : list bm25_item)
    (combined : Py.dict scores) :
  Forall unit_scores combined ->
  Forall unit_scores (combine_bm25 docs bm25_results combined).
Proof.
  intros Hc. unfold combine_bm25.
  destruct (List.map raw_bm25_score bm25_results) as [|s ss] eqn:E;
    [exact Hc|].
  apply fold_left_inv; [exact Hc|].
  intros acc b Hb Hacc. unfold add_bm25.
  destruct (index b <? List.length (ids docs))%nat; [|exact Hacc].
  destruct (extrema_bound _ _ _ _ _ E Hb) as [H1 H2].
  pose proof (normalized_bounds _ _ _ H1 H2) as Hn.
  destruct (Py.get _ acc) as [sc|] eqn:G.
  - apply PyFacts.set_Forall; [|exact Hacc].
    apply PyFacts.get_In in G. rewrite Forall_forall in Hacc.
    apply Hacc in G. destruct G as [G1 _].
    split; simpl; [exact G1 | exact Hn].
  - apply PyFacts.set_Forall; [|exact Hacc].
    split; simpl; [apply unit_zero | exact Hn].
Qed.

Lemma combined_results_unit docs vector_results bm25_results :
  Forall unit_scores (combined_results docs vector_results bm25_results).
Proof.
  apply combine_bm25_unit, combine_vector_unit.
Qed.

(** Every returned item comes from one entry of [combined_results]. *)
Lemma final_results_In w docs vector_results bm25_results f :
  In f (final_results w docs vector_results bm25_results) <->
  exists kv, In kv (combined_results docs vector_results bm25_results)
             /\ f = finalize w kv.
Proof.
  unfold final_results. rewrite PyFacts.sort_desc_In, in_map_iff.
  split; intros (kv & H1 & H2); exists kv; auto.
Qed.

Lemma fuse_In top_k w docs vector_results bm25_results f :
  In f (fuse top_k w docs vector_results bm25_results) ->
  exists kv, In kv (combined_results docs vector_results bm25_results)
             /\ f = finalize w kv.
Proof.
  intros H. apply PyFacts.slice_to_In in H.
  apply final_results_In in H. exact H.
Qed.

(** The convex combination of two numbers of [0, 1]. *)
Lemma convex_unit (w a b : Q) :
  0 <= w <= 1 -> unit_interval a -> unit_interval b ->
  unit_interval (w * a + (1 - w) * b).
Proof.
  unfold unit_interval. intros [Hw0 Hw1] [Ha0 Ha1] [Hb0 Hb1].
  split; nra.
Qed.

Lemma fuse_hybrid_unit top_k w docs vector_results bm25_results f :
  0 <= w <= 1 ->
  In f (fuse top_k w docs vector_results bm25_results) ->
  hybrid_score f
    = w * final_semantic_score f + (1 - w) * final_bm25_score f
  /\ unit_interval (final_semantic_score f)
  /\ unit_interval (final_bm25_score f)
  /\ unit_interval (hybrid_score f).
Proof.
  intros Hw Hf. apply fuse_In in Hf. destruct Hf as (kv & Hkv & ->).
  pose proof (combined_results_unit docs vector_results bm25_results) as Hu.
  rewrite Forall_forall in Hu. destruct (Hu _ Hkv) as [Hs Hb].
  simpl. repeat split; try apply Hs; try apply Hb;
    apply convex_unit; assumption.
Qed.

(** *** The keys of [combined_results]: the union of the two channels *)

Lemma fold_add_vector_keys mn rg (vector_results : list hit) :
  forall acc d,
  In d (Py.keys (fold_left (add_vector mn rg) vector_results acc)) <->
  In d (Py.keys acc) \/ In d (vector_doc_ids vector_results).
Proof.
  induction vector_results as [|h l IH]; intros acc d; simpl; [tauto|].
  rewrite IH. unfold add_vector. rewrite PyFacts.keys_set_In.
  intuition congruence.
Qed.

Lemma combine_vector_keys vector_results d :
  In d (Py.keys (combine_vector vector_results)) <->
  In d (vector_doc_ids vector_results).
Proof.
  unfold combine_vector.
  destruct vector_results as [|h l]; [simpl; tauto|].
  change (List.map hit_score (h :: l))
    with (hit_score h :: List.map hit_score l). cbv iota beta.
  rewrite fold_add_vector_keys. simpl. tauto.
Qed.

(** The effect of one iteration of the BM25 loop. *)
Lemma add_bm25_skip docs mn rg acc b :
  bm25_doc_id docs b = None -> add_bm25 docs mn rg acc b = acc.
Proof.
  unfold bm25_doc_id, add_bm25. intros H.
  apply nth_error_None in H. cbv zeta.
  destruct (Nat.ltb_spec (index b) (List.length (ids docs))); [lia|].
  reflexivity.
Qed.

Lemma add_bm25_set docs mn rg acc b d :
  bm25_doc_id docs b = Some d ->
  exists e,
    add_bm25 docs mn rg acc b = Py.set d e acc
    /\ bm25_score e = (raw_bm25_score b - mn) / rg
    /\ match Py.get d acc with
       | Some sc => semantic_score e = semantic_score sc
                    /\ scores_result e = scores_result sc
       | None => semantic_score e = 0 /\ id (scores_result e) = d
                 /\ distance (scores_result e) = None
       end.
Proof.
  unfold bm25_doc_id, add_bm25. intros H.
  assert (index b < List.length (ids docs))%nat as Hlt
    by (apply nth_error_Some; congruence).
  cbv zeta.
  destruct (Nat.ltb_spec (index b) (List.length (ids docs))); [|lia].
  rewrite !(nth_error_nth (ids docs) (index b) (@nil N) H).
  destruct (Py.get d acc) as [sc|] eqn:G;
    eexists; (split; [reflexivity|]); simpl; auto.
Qed.

Lemma fold_add_bm25_keys docs mn rg (bm25_results : list bm25_item) :
  forall acc d,
  In d (Py.keys (fold_left (add_bm25 docs mn rg) bm25_results acc)) <->
  In d (Py.keys acc) \/ In d (bm25_doc_ids docs bm25_results).
Proof.
  induction bm25_results as [|b l IH]; intros acc d; simpl; [tauto|].
  rewrite IH, in_app_iff.
  destruct (bm25_doc_id docs b) as [d0|] eqn:E.
  - destruct (add_bm25_set docs mn rg acc b d0 E) as (e & -> & _).
    rewrite PyFacts.keys_set_In. simpl. intuition congruence.
  - rewrite (add_bm25_skip _ _ _ _ _ E). simpl. tauto.
Qed.

Lemma combine_bm25_keys docs bm25_results acc d :
  In d (Py.keys (combine_bm25 docs bm25_results acc)) <->
  In d (Py.keys acc) \/ In d (bm25_doc_ids docs bm25_results).
Proof.
  unfold combine_bm25.
  destruct bm25_results as [|b l]; [simpl; tauto|].
  change (List.map raw_bm25_score (b :: l))
    with (raw_bm25_score b :: List.map raw_bm25_score l). cbv iota beta.
  apply fold_add_bm25_keys.
Qed.

Lemma combined_results_keys docs vector_results bm25_results d :
  In d (Py.keys (combined_results docs vector_results bm25_results)) <->
  In d (vector_doc_ids vector_results)
  \/ In d (bm25_doc_ids docs bm25_results).
Proof.
  unfold combined_results. rewrite combine_bm25_keys, combine_vector_keys.
  tauto.
Qed.

Lemma well_keyed_set d e acc :
  id (scores_result e) = d -> well_keyed acc -> well_keyed (Py.set d e acc).
Proof.
  intros He [H1 H2]. split.
  - apply PyFacts.keys_set_NoDup; exact H1.
  - apply PyFacts.set_Forall; [exact He | exact H2].
Qed.

Lemma combine_vector_well_keyed vector_results :
  well_keyed (combine_vector vector_results).
Proof.
  unfold combine_vector.
  destruct (List.map hit_score vector_results) as [|s ss];
    [split; constructor|].
  apply fold_left_inv; [split; constructor|].
  intros acc h _ Hacc. apply well_keyed_set; [reflexivity | exact Hacc].
Qed.

Lemma add_bm25_well_keyed docs mn rg acc b :
  well_keyed acc -> well_keyed (add_bm25 docs mn rg acc b).
Proof.
  intros Hacc. destruct (bm25_doc_id docs b) as [d|] eqn:E.
  - destruct (add_bm25_set docs mn rg acc b d E) as (e & -> & _ & He).
    apply well_keyed_set; [|exact Hacc].
    destruct (Py.get d acc) as [sc|] eqn:G.
    + destruct He as [_ ->]. apply PyFacts.get_In in G.
      destruct Hacc as [_ H2]. rewrite Forall_forall in H2.
      apply (H2 _ G).
    + apply He.
  - rewrite (add_bm25_skip _ _ _ _ _ E). exact Hacc.
Qed.

Lemma combined_results_well_keyed docs vector_results bm25_results :
  well_keyed (combined_results docs vector_results bm25_results).
Proof.
  unfold combined_results, combine_bm25.
  destruct (List.map raw_bm25_score bm25_results) as [|s ss];
    [apply combine_vector_well_keyed|].
  apply fold_left_inv; [apply combine_vector_well_keyed|].
  intros acc b _ Hacc. apply add_bm25_well_keyed; exact Hacc.
Qed.

(** The ids of the ranked list are the keys, each once. *)
Lemma final_results_doc_ids w docs vector_results bm25_results :
  Permutation
    (Py.keys (combined_results docs vector_results bm25_results))
    (doc_ids (final_results w docs vector_results bm25_results)).
Proof.
  unfold doc_ids, final_results.
  rewrite <- (Permutation_map _ (PyFacts.sort_desc_perm _ hybrid_score _)).
  rewrite map_map. unfold Py.keys.
  destruct (combined_results_well_keyed docs vector_results bm25_results)
    as [_ H].
  induction H as [|kv l Hkv _ IH]; simpl; [constructor|].
  rewrite Hkv. constructor. exact IH.
Qed.

(** *** The component of the channel a document is missing from *)

Lemma combine_vector_bm25_zero vector_results :
  Forall (fun kv : Py.str * scores => bm25_score (snd kv) = 0)
    (combine_vector vector_results).
Proof.
  unfold combine_vector.
  destruct (List.map hit_score vector_results) as [|s ss]; [constructor|].
  apply fold_left_inv; [constructor|].
  intros acc h _ Hacc. apply PyFacts.set_Forall; [reflexivity | exact Hacc].
Qed.

Lemma pair_in_keys {V} (k : Py.str) (v : V) (d : Py.dict V) :
  In (k, v) d -> In k (Py.keys d).
Proof. intros H. apply in_map with (f := fst) in H. exact H. Qed.

Lemma bm25_doc_id_in docs bm25_results b d :
  In b bm25_results -> bm25_doc_id docs b = Some d ->
  In d (bm25_doc_ids docs bm25_results).
Proof.
  intros Hb Hd. unfold bm25_doc_ids. apply in_flat_map.
  exists b. split; [exact Hb|]. rewrite Hd. left; reflexivity.
Qed.

(** An entry whose key is not a key of the semantic channel has the
    semantic component 0 and no [distance]. *)
Lemma combine_bm25_semantic_zero docs bm25_results acc0 k sc :
  In (k, sc) (combine_bm25 docs bm25_results acc0) ->
  In k (Py.keys acc0)
  \/ (semantic_score sc = 0 /\ distance (scores_result sc) = None).
Proof.
  revert k sc. unfold combine_bm25.
  destruct (List.map raw_bm25_score bm25_results) as [|s ss].
  { intros k sc H. left. eapply pair_in_keys; eauto. }
  generalize (Py.min s ss), (range (Py.max s ss) (Py.min s ss)).
  intros mn rg.
  apply (fold_left_inv
    (fun acc => forall k sc, In (k, sc) acc ->
       In k (Py.keys acc0)
       \/ (semantic_score sc = 0 /\ distance (scores_result sc) = None))).
  { intros k sc H. left. eapply pair_in_keys; eauto. }
  intros acc b _ Hacc k sc Hin.
  destruct (bm25_doc_id docs b) as [d|] eqn:E.
  - destruct (add_bm25_set docs mn rg acc b d E) as (e & Heq & _ & He).
    rewrite Heq in Hin. apply PyFacts.set_In in Hin.
    destruct Hin as [[-> ->]|Hin]; [|auto].
    destruct (Py.get d acc) as [sc0|] eqn:G.
    + destruct He as [He1 He2]. rewrite He1, He2.
      apply Hacc. apply PyFacts.get_In; exact G.
    + right. tauto.
  - rewrite (add_bm25_skip _ _ _ _ _ E) in Hin. auto.
Qed.

(** An entry whose key is not a key of the lexical channel has the
    lexical component 0. *)
Lemma combine_bm25_bm25_zero docs bm25_results acc0 k sc :
  Forall (fun kv : Py.str * scores => bm25_score (snd kv) = 0) acc0 ->
  In (k, sc) (combine_bm25 docs bm25_results acc0) ->
  In k (bm25_doc_ids docs bm25_results) \/ bm25_score sc = 0.
Proof.
  intros H0. revert k sc. unfold combine_bm25.
  rewrite Forall_forall in H0.
  destruct (List.map raw_bm25_score bm25_results) as [|s ss].
  { intros k sc H. right. apply (H0 _ H). }
  generalize (Py.min s ss), (range (Py.max s ss) (Py.min s ss)).
  intros mn rg.
  apply (fold_left_inv
    (fun acc => forall k sc, In (k, sc) acc ->
       In k (bm25_doc_ids docs bm25_results) \/ bm25_score sc = 0)).
  { intros k sc H. right. apply (H0 _ H). }
  intros acc b Hb Hacc k sc Hin.
  destruct (bm25_doc_id docs b) as [d|] eqn:E.
  - destruct (add_bm25_set docs mn rg acc b d E) as (e & Heq & _ & _).
    rewrite Heq in Hin. apply PyFacts.set_In in Hin.
    destruct Hin as [[-> ->]|Hin]; [|auto].
    left. eapply bm25_doc_id_in; eauto.
  - rewrite (add_bm25_skip _ _ _ _ _ E) in Hin. auto.
Qed.

(** *** The value of the component of a channel the document is in *)

Lemma fold_add_vector_untouched mn rg (vector_results : list hit) :
  forall acc k, ~ In k (vector_doc_ids vector_results) ->
  Py.get k (fold_left (add_vector mn rg) vector_results acc) = Py.get k acc.
Proof.
  induction vector_results as [|h l IH]; intros acc k Hk; simpl;
    [reflexivity|].
  simpl in Hk. rewrite IH by tauto.
  unfold add_vector. apply PyFacts.get_set_other. intros ->. tauto.
Qed.

Lemma fold_add_vector_get mn rg (vector_results : list hit) :
  NoDup (vector_doc_ids vector_results) ->
  forall acc h, In h vector_results ->
  Py.get (hit_id h) (fold_left (add_vector mn rg) vector_results acc)
  = Some {| semantic_score := (hit_score h - mn) / rg;
            bm25_score := 0;
            scores_result := result_of_hit h |}.
Proof.
  induction vector_results as [|x l IH]; intros Hnd acc h Hh;
    [destruct Hh|].
  simpl in Hnd. inversion Hnd as [|? ? Hx Hl]; subst.
  destruct Hh as [->|Hh]; simpl.
  - rewrite fold_add_vector_untouched by exact Hx.
    unfold add_vector. apply PyFacts.get_set_same.
  - apply IH; assumption.
Qed.

Lemma add_bm25_semantic_kept docs mn rg acc b k sc :
  Py.get k acc = Some sc ->
  exists sc', Py.get k (add_bm25 docs mn rg acc b) = Some sc'
              /\ semantic_score sc' = semantic_score sc.
Proof.
  intros G. destruct (bm25_doc_id docs b) as [d|] eqn:E.
  - destruct (add_bm25_set docs mn rg acc b d E) as (e & -> & _ & He).
    destruct (Py.eqb k d) eqn:Ek.
    + apply PyFacts.eqb_eq in Ek; subst d. rewrite G in He.
      exists e. rewrite PyFacts.get_set_same. tauto.
    + apply PyFacts.eqb_neq in Ek.
      exists sc. rewrite PyFacts.get_set_other by exact Ek. auto.
  - rewrite (add_bm25_skip _ _ _ _ _ E). eauto.
Qed.

Lemma fold_add_bm25_semantic_kept docs mn rg (bm25_results : list bm25_item) :
  forall acc k sc, Py.get k acc = Some sc ->
  exists sc',
    Py.get k (fold_left (add_bm25 docs mn rg) bm25_results acc) = Some sc'
    /\ semantic_score sc' = semantic_score sc.
Proof.
  induction bm25_results as [|b l IH]; intros acc k sc G; simpl; [eauto|].
  destruct (add_bm25_semantic_kept docs mn rg acc b k sc G) as (sc1 & G1 & E1).
  destruct (IH _ _ _ G1) as (sc2 & G2 & E2).
  exists sc2. split; [exact G2 | congruence].
Qed.

Lemma fold_add_bm25_untouched docs mn rg (bm25_results : list bm25_item) :
  forall acc k, ~ In k (bm25_doc_ids docs bm25_results) ->
  Py.get k (fold_left (add_bm25 docs mn rg) bm25_results acc) = Py.get k acc.
Proof.
  induction bm25_results as [|b l IH]; intros acc k Hk; simpl;
    [reflexivity|].
  simpl in Hk. rewrite in_app_iff in Hk. rewrite IH by tauto.
  destruct (bm25_doc_id docs b) as [d|] eqn:E.
  - destruct (add_bm25_set docs mn rg acc b d E) as (e & -> & _).
    apply PyFacts.get_set_other. intros ->. apply Hk. left. left. reflexivity.
  - rewrite (add_bm25_skip _ _ _ _ _ E). reflexivity.
Qed.

Lemma fold_add_bm25_get docs mn rg (bm25_results : list bm25_item) :
  NoDup (bm25_doc_ids docs bm25_results) ->
  forall acc b d, In b bm25_results -> bm25_doc_id docs b = Some d ->
  exists sc,
    Py.get d (fold_left (add_bm25 docs mn rg) bm25_results acc) = Some sc
    /\ bm25_score sc = (raw_bm25_score b - mn) / rg.
Proof.
  induction bm25_results as [|x l IH]; intros Hnd acc b d Hb Hd;
    [destruct Hb|].
  simpl in Hnd. destruct Hb as [->|Hb]; simpl.
  - rewrite Hd in Hnd. simpl in Hnd. inversion Hnd as [|? ? Hx Hl]; subst.
    rewrite fold_add_bm25_untouched by exact Hx.
    destruct (add_bm25_set docs mn rg acc b d Hd) as (e & -> & He & _).
    exists e. rewrite PyFacts.get_set_same. auto.
  - apply IH; try assumption.
    apply NoDup_app_remove_l in Hnd. exact Hnd.
Qed.

Lemma combined_semantic_value docs vector_results bm25_results h :
  NoDup (vector_doc_ids vector_results) -> In h vector_results ->
  exists sc,
    Py.get (hit_id h) (combined_results docs vector_results bm25_results)
    = Some sc
    /\ semantic_score sc
       = normalize (List.map hit_score vector_results) (hit_score h).
Proof.
  intros Hnd Hh.
  assert (exists sc, Py.get (hit_id h) (combine_vector vector_results)
                     = Some sc
            /\ semantic_score sc
               = normalize (List.map hit_score vector_results) (hit_score h))
    as (sc & G & E).
  { unfold combine_vector, normalize.
    destruct (List.map hit_score vector_results) as [|s ss] eqn:Em.
    - destruct vector_results; [destruct Hh | discriminate].
    - eexists. split; [apply fold_add_vector_get; assumption|reflexivity]. }
  unfold combined_results, combine_bm25.
  destruct (List.map raw_bm25_score bm25_results) as [|s ss]; [eauto|].
  destruct (fold_add_bm25_semantic_kept docs (Py.min s ss)
              (range (Py.max s ss) (Py.min s ss)) bm25_results _ _ _ G)
    as (sc' & G' & E').
  exists sc'. split; [exact G' | congruence].
Qed.

Lemma combined_bm25_value docs vector_results bm25_results b d :
  NoDup (bm25_doc_ids docs bm25_results) ->
  In b bm25_results -> bm25_doc_id docs b = Some d ->
  exists sc,
    Py.get d (combined_results docs vector_results bm25_results) = Some sc
    /\ bm25_score sc
       = normalize (List.map raw_bm25_score bm25_results) (raw_bm25_score b).
Proof.
  intros Hnd Hb Hd. unfold combined_results, combine_bm25, normalize.
  destruct (List.map raw_bm25_score bm25_results) as [|s ss] eqn:Em.
  - destruct bm25_results; [destruct Hb | discriminate].
  - apply fold_add_bm25_get; assumption.
Qed.

(** *** Where the two components of an entry come from *)

Lemma combine_vector_cases vector_results k sc :
  In (k, sc) (combine_vector vector_results) ->
  (exists h, In h vector_results /\ hit_id h = k
             /\ semantic_score sc
                = normalize (List.map hit_score vector_results) (hit_score h))
  /\ bm25_score sc = 0.
Proof.
  unfold combine_vector, normalize. revert k sc.
  destruct (List.map hit_score vector_results) as [|s ss];
    [intros k sc []|].
  generalize (Py.min s ss), (range (Py.max s ss) (Py.min s ss)).
  intros mn rg.
  apply (fold_left_inv
    (fun acc => forall k sc, In (k, sc) acc ->
       (exists h, In h vector_results /\ hit_id h = k
                  /\ semantic_score sc = (hit_score h - mn) / rg)
       /\ bm25_score sc = 0)).
  - intros k sc [].
  - intros acc h Hh Hacc k sc Hin. unfold add_vector in Hin.
    apply PyFacts.set_In in Hin. destruct Hin as [[-> ->]|Hin]; [|auto].
    simpl. split; [exists h; auto | reflexivity].
Qed.

Lemma combined_results_cases docs vector_results bm25_results k sc :
  In (k, sc) (combined_results docs vector_results bm25_results) ->
  ((exists h, In h vector_results /\ hit_id h = k
              /\ semantic_score sc
                 = normalize (List.map hit_score vector_results)
                     (hit_score h))
   \/ semantic_score sc = 0)
  /\ ((exists b, In b bm25_results /\ bm25_doc_id docs b = Some k
                 /\ bm25_score sc
                    = normalize (List.map raw_bm25_score bm25_results)
                        (raw_bm25_score b))
      \/ bm25_score sc = 0).
Proof.
  unfold combined_results, combine_bm25, normalize at 2. revert k sc.
  destruct (List.map raw_bm25_score bm25_results) as [|s ss].
  { intros k sc H. apply combine_vector_cases in H.
    destruct H as [H1 H2]. split; [left; exact H1 | right; exact H2]. }
  generalize (Py.min s ss), (range (Py.max s ss) (Py.min s ss)).
  intros mn rg.
  apply (fold_left_inv
    (fun acc => forall k sc, In (k, sc) acc ->
       ((exists h, In h vector_results /\ hit_id h = k
                   /\ semantic_score sc
                      = normalize (List.map hit_score vector_results)
                          (hit_score h))
        \/ semantic_score sc = 0)
       /\ ((exists b, In b bm25_results /\ bm25_doc_id docs b = Some k
                      /\ bm25_score sc = (raw_bm25_score b - mn) / rg)
           \/ bm25_score sc = 0))).
  { intros k sc H. apply combine_vector_cases in H.
    destruct H as [H1 H2]. split; [left; exact H1 | right; exact H2]. }
  intros acc b Hb Hacc k sc Hin.
  destruct (bm25_doc_id docs b) as [d|] eqn:E.
  - destruct (add_bm25_set docs mn rg acc b d E) as (e & Heq & Hn & He).
    rewrite Heq in Hin. apply PyFacts.set_In in Hin.
    destruct Hin as [[-> ->]|Hin]; [|auto].
    split; [|left; exists b; auto].
    destruct (Py.get d acc) as [sc0|] eqn:G.
    + destruct He as [-> _]. apply PyFacts.get_In in G.
      apply (Hacc _ _ G).
    + right. apply He.
  - rewrite (add_bm25_skip _ _ _ _ _ E) in Hin. auto.
Qed.

(** A channel whose raw scores are all equal is normalised to 0. *)
Lemma normalize_constant (channel : list Q) (s : Q) :
  In s channel -> (forall x y, In x channel -> In y channel -> x == y) ->
  normalize channel s == 0.
Proof.
  intros Hs Heq. unfold normalize.
  destruct channel as [|s0 ss]; [destruct Hs|].
  apply normalized_equal.
  - apply Heq; [apply PyFacts.max_In | apply PyFacts.min_In].
  - apply PyFacts.min_le; exact Hs.
  - apply PyFacts.max_ge; exact Hs.
Qed.

Lemma normalize_lt (channel : list Q) (s1 s2 : Q) :
  In s1 channel -> In s2 channel -> s1 < s2 ->
  normalize channel s1 < normalize channel s2.
Proof.
  intros H1 H2 Hlt. unfold normalize.
  destruct channel as [|s0 ss]; [destruct H1|].
  apply normalized_lt;
    [apply PyFacts.min_le; exact H1 | exact Hlt
    | apply PyFacts.max_ge; exact H2].
Qed.

Lemma normalize_le (channel : list Q) (s1 s2 : Q) :
  In s1 channel -> In s2 channel -> s1 <= s2 ->
  normalize channel s1 <= normalize channel s2.
Proof.
  intros H1 H2 Hle. unfold normalize.
  destruct channel as [|s0 ss]; [destruct H1|].
  assert (Py.min s0 ss <= Py.max s0 ss) as Hm.
  { eapply Qle_trans; [apply PyFacts.min_le | apply PyFacts.max_ge];
      exact H1. }
  pose proof (range_positive _ _ Hm) as Hpos.
  unfold Qdiv. apply Qmult_le_compat_r; [lra|].
  apply Qlt_le_weak, Qinv_lt_0_compat. exact Hpos.
Qed.

End FusionFacts.

(* ================================================================== *)
(** ** arxiv-search-engine: facts about the fusion *)
(* ================================================================== *)

Module ArxivFacts.

Import ArxivSearchEngine Ranking.

Lemma add_lexical_set acc r :
  exists e,
    add_lexical acc r = Py.set (lex_id r) e acc
    /\ lexical_score e = lex_lexical_score r
    /\ match Py.get (lex_id r) acc with
       | Some e0 => semantic_score e = semantic_score e0 /\ id e = id e0
       | None => semantic_score e = 0 /\ id e = lex_id r
       end.
Proof.
  unfold add_lexical. cbv zeta.
  destruct (Py.get (lex_id r) acc) as [e0|];
    eexists; (split; [reflexivity|]); simpl; auto.
Qed.

Lemma fold_add_semantic_keys (semantic_results : list semantic_item) :
  forall acc d,
  In d (Py.keys (fold_left add_semantic semantic_results acc)) <->
  In d (Py.keys acc) \/ In d (semantic_doc_ids semantic_results).
Proof.
  induction semantic_results as [|h l IH]; intros acc d; simpl; [tauto|].
  rewrite IH. unfold add_semantic. rewrite PyFacts.keys_set_In.
  intuition congruence.
Qed.

Lemma fold_add_lexical_keys (lexical_results : list lexical_item) :
  forall acc d,
  In d (Py.keys (fold_left add_lexical lexical_results acc)) <->
  In d (Py.keys acc) \/ In d (lexical_doc_ids lexical_results).
Proof.
  induction lexical_results as [|h l IH]; intros acc d; simpl; [tauto|].
  rewrite IH. destruct (add_lexical_set acc h) as (e & -> & _).
  rewrite PyFacts.keys_set_In. intuition congruence.
Qed.

Lemma arxiv_combined_results_keys semantic_results lexical_results d :
  In d (Py.keys (combined_results semantic_results lexical_results)) <->
  In d (semantic_doc_ids semantic_results)
  \/ In d (lexical_doc_ids lexical_results).
Proof.
  unfold combined_results.
  rewrite fold_add_lexical_keys, fold_add_semantic_keys. simpl. tauto.
Qed.

Lemma arxiv_well_keyed_set d e acc :
  id e = d -> well_keyed acc -> well_keyed (Py.set d e acc).
Proof.
  intros He [H1 H2]. split.
  - apply PyFacts.keys_set_NoDup; exact H1.
  - apply PyFacts.set_Forall; [exact He | exact H2].
Qed.

Lemma arxiv_combined_results_well_keyed semantic_results lexical_results :
  well_keyed (combined_results semantic_results lexical_results).
Proof.
  unfold combined_results.
  apply FusionFacts.fold_left_inv.
  - apply FusionFacts.fold_left_inv; [split; constructor|].
    intros acc h _ Hacc. apply arxiv_well_keyed_set; [reflexivity | exact Hacc].
  - intros acc r _ Hacc.
    destruct (add_lexical_set acc r) as (e & -> & _ & He).
    apply arxiv_well_keyed_set; [|exact Hacc].
    destruct (Py.get (lex_id r) acc) as [e0|] eqn:G; [|apply He].
    destruct He as [_ ->]. apply PyFacts.get_In in G.
    destruct Hacc as [_ H2]. rewrite Forall_forall in H2. apply (H2 _ G).
Qed.

(** Every semantic component is a raw score of the channel under the
    same id, or 0; every lexical component of a key outside the lexical
    channel is 0. *)
Lemma combined_results_components semantic_results lexical_results k e :
  In (k, e) (combined_results semantic_results lexical_results) ->
  ((exists h, In h semantic_results /\ sem_id h = k
              /\ semantic_score e = sem_semantic_score h)
   \/ semantic_score e = 0)
  /\ (In k (lexical_doc_ids lexical_results) \/ lexical_score e = 0).
Proof.
  unfold combined_results. revert k e.
  apply (FusionFacts.fold_left_inv
    (fun acc => forall k e, In (k, e) acc ->
       ((exists h, In h semantic_results /\ sem_id h = k
                   /\ semantic_score e = sem_semantic_score h)
        \/ semantic_score e = 0)
       /\ (In k (lexical_doc_ids lexical_results) \/ lexical_score e = 0))).
  - apply (FusionFacts.fold_left_inv
      (fun acc => forall k e, In (k, e) acc ->
         ((exists h, In h semantic_results /\ sem_id h = k
                     /\ semantic_score e = sem_semantic_score h)
          \/ semantic_score e = 0)
         /\ (In k (lexical_doc_ids lexical_results)
             \/ lexical_score e = 0))).
    + intros k e [].
    + intros acc h Hh Hacc k e Hin. unfold add_semantic in Hin.
      apply PyFacts.set_In in Hin. destruct Hin as [[-> ->]|Hin]; [|auto].
      simpl. split; [left; exists h; auto | right; reflexivity].
  - intros acc r Hr Hacc k e Hin.
    destruct (add_lexical_set acc r) as (e' & Heq & Hl & He).
    rewrite Heq in Hin. apply PyFacts.set_In in Hin.
    destruct Hin as [[-> ->]|Hin]; [|auto].
    split; [|left; apply in_map; exact Hr].
    destruct (Py.get (lex_id r) acc) as [e0|] eqn:G.
    + destruct He as [-> _]. apply PyFacts.get_In in G.
      apply (Hacc _ _ G).
    + destruct He as [-> _]. right; reflexivity.
Qed.

Lemma sorted_results_In {config : Config} semantic_results lexical_results r :
  In r (sorted_results semantic_results lexical_results) <->
  exists kv, In kv (combined_results semantic_results lexical_results)
             /\ r = with_hybrid_score (snd kv).
Proof.
  unfold sorted_results, Py.values.
  rewrite PyFacts.sort_desc_In, map_map, in_map_iff.
  split; intros (kv & H1 & H2); exists kv; auto.
Qed.

Lemma sorted_results_doc_ids {config : Config}
    semantic_results lexical_results :
  Permutation
    (Py.keys (combined_results semantic_results lexical_results))
    (doc_ids (sorted_results semantic_results lexical_results)).
Proof.
  unfold doc_ids, sorted_results, Py.values.
  rewrite <- (Permutation_map _ (PyFacts.sort_desc_perm _ hybrid_score _)).
  rewrite !map_map. unfold Py.keys.
  destruct (arxiv_combined_results_well_keyed semantic_results lexical_results)
    as [_ H].
  induction H as [|kv l Hkv _ IH]; simpl; [constructor|].
  rewrite Hkv. constructor. exact IH.
Qed.

(** The fixed-scale lexical score lies in [0, 1] for every raw score. *)
Lemma lex_score_unit (x : Q) : unit_interval (lex_score x).
Proof.
  unfold lex_score, Py.positive, unit_interval.
  destruct (Qle_bool x 0) eqn:E; simpl; [lra|].
  assert (0 < x) as Hx.
  { destruct (Qlt_le_dec 0 x) as [H|H]; [exact H|].
    apply Qle_bool_iff in H. congruence. }
  destruct (Qle_bool (x / 10) 1) eqn:E1.
  - apply Qle_bool_iff in E1. split; [|exact E1].
    apply Qle_shift_div_l; lra.
  - lra.
Qed.

End ArxivFacts.

(* ================================================================== *)
(** ** The fused score and the candidate set *)
(* ================================================================== *)

(** C1, as the code has it.  In final_code, for every weight [w] of
    [0, 1] and every pair of channel lists, every returned item has
    [hybrid_score = w * semantic + (1 - w) * bm25], both normalised
    components lie in [0, 1], and so does the hybrid score.  In
    arxiv-search-engine the hybrid score is
    [semantic_weight * semantic_score + lexical_weight * lex_score], with
    the raw semantic score [1 - distance] and the fixed-scale lexical
    score; it lies in [0, 1] when the two configured weights are [w] and
    [1 - w] and every raw semantic score lies in [0, 1]. *)
Theorem C1_hybrid_score_in_unit_interval :
  (forall top_k w docs vector_results bm25_results f,
     0 <= w <= 1 ->
     In f (FinalCode.fuse top_k w docs vector_results bm25_results) ->
     FinalCode.hybrid_score f
       = w * FinalCode.final_semantic_score f
         + (1 - w) * FinalCode.final_bm25_score f
     /\ Ranking.unit_interval (FinalCode.final_semantic_score f)
     /\ Ranking.unit_interval (FinalCode.final_bm25_score f)
     /\ Ranking.unit_interval (FinalCode.hybrid_score f))
  /\
  (forall (config : ArxivSearchEngine.Config)
          semantic_results lexical_results r,
     0 <= ArxivSearchEngine.semantic_weight <= 1 ->
     ArxivSearchEngine.lexical_weight
       == 1 - ArxivSearchEngine.semantic_weight ->
     (forall h, In h semantic_results ->
        Ranking.unit_interval (ArxivSearchEngine.sem_semantic_score h)) ->
     In r (ArxivSearchEngine.sorted_results semantic_results lexical_results) ->
     ArxivSearchEngine.hybrid_score r
       = ArxivSearchEngine.semantic_weight
           * ArxivSearchEngine.semantic_score
               (ArxivSearchEngine.scored_entry r)
         + ArxivSearchEngine.lexical_weight
           * ArxivSearchEngine.lex_score
               (ArxivSearchEngine.lexical_score
                  (ArxivSearchEngine.scored_entry r))
     /\ Ranking.unit_interval (ArxivSearchEngine.hybrid_score r)).
Proof.
  split.
  - intros top_k w docs V B f Hw Hf.
    apply FusionFacts.fuse_hybrid_unit with (top_k := top_k) (docs := docs)
      (vector_results := V) (bm25_results := B); assumption.
  - intros config S L r Hw Hl HS Hr.
    apply ArxivFacts.sorted_results_In in Hr.
    destruct Hr as ([k e] & Hin & ->). simpl. split; [reflexivity|].
    apply ArxivFacts.combined_results_components in Hin.
    destruct Hin as [Hsem _].
    assert (Ranking.unit_interval (ArxivSearchEngine.semantic_score e)) as Hs.
    { destruct Hsem as [(h & Hh & _ & ->) | -> ];
        [apply HS; exact Hh | apply FusionFacts.unit_zero]. }
    pose proof (ArxivFacts.lex_score_unit (ArxivSearchEngine.lexical_score e))
      as Hx.
    unfold Ranking.unit_interval in *.
    rewrite Hl.
    apply (FusionFacts.convex_unit ArxivSearchEngine.semantic_weight);
      assumption.
Qed.

(** C1, an instance: the store of three papers at weight 3/5, and the
    arxiv-search-engine lists under the weights 7/10 and 3/10. *)
Lemma C1_hybrid_score_in_unit_interval_witness :
  Forall (fun f => Ranking.unit_interval (FinalCode.hybrid_score f))
    (FinalCode.fuse 10 (3 # 5) Fixture.store
       Fixture.vector_results Fixture.bm25_results)
  /\ Forall (fun r => Ranking.unit_interval (ArxivSearchEngine.hybrid_score r))
       (@ArxivSearchEngine.sorted_results Fixture.config
          Fixture.semantic_results Fixture.lexical_results).
Proof.
  split; apply Forall_forall.
  - intros f Hf.
    apply (proj1 C1_hybrid_score_in_unit_interval 10%Z (3 # 5) Fixture.store
             Fixture.vector_results Fixture.bm25_results f).
    + split; [discriminate | discriminate].
    + exact Hf.
  - intros r Hr.
    apply (proj2 C1_hybrid_score_in_unit_interval Fixture.config
             Fixture.semantic_results Fixture.lexical_results r).
    + split; [discriminate | discriminate].
    + reflexivity.
    + intros h [<-|[<-|[]]]; split; discriminate.
    + exact Hr.
Defined.

(** C1 fails on arxiv-search-engine: with the weights 7/10 and 3/10 and
    a paper at distance 3/2 of the query, the search returns an item whose
    hybrid score is negative. *)
Lemma C1_arxiv_hybrid_score_negative :
  0 <= @ArxivSearchEngine.semantic_weight Fixture.config <= 1
  /\ @ArxivSearchEngine.lexical_weight Fixture.config
     == 1 - @ArxivSearchEngine.semantic_weight Fixture.config
  /\ exists r,
       In r (@ArxivSearchEngine.hybrid_search Fixture.config
               (Fixture.requests_saying 200 (Py.lit "x"))
               Fixture.far_chroma Fixture.lib Fixture.arxiv_engine
               (Py.lit "pruning") 10 false)
       /\ ArxivSearchEngine.hybrid_score r == - (7 # 20)
       /\ ~ Ranking.unit_interval (ArxivSearchEngine.hybrid_score r).
Proof.
  split; [split; discriminate|]. split; [reflexivity|].
  eexists. split; [vm_compute; right; left; reflexivity|].
  split; [reflexivity|].
  intros [H _]. vm_compute in H. apply H. reflexivity.
Qed.

(** C2.  The fused candidate set is the union of the document ids of the
    two channels, each id once.  A document of the lexical channel that
    is absent from the semantic channel is in the ranked list with the
    semantic component 0, and a document of the semantic channel that is
    absent from the lexical one is in it with the lexical component 0.
    This holds for the ranked list of final_code and for that of
    arxiv-search-engine.  In final_code the id of a lexical item is the
    id stored at its index, which exists whenever the index is within
    the stored ids (line 109); the returned list is the first [top_k]
    items of the ranked list, hence the whole of it when there are at
    most [top_k] candidates. *)
Theorem C2_candidates_are_the_union :
  (forall w docs vector_results bm25_results,
     let ranked :=
       FinalCode.final_results w docs vector_results bm25_results in
     NoDup (FinalCode.doc_ids ranked)
     /\ (forall d,
           In d (FinalCode.doc_ids ranked) <->
           In d (FinalCode.vector_doc_ids vector_results)
           \/ In d (FinalCode.bm25_doc_ids docs bm25_results))
     /\ (forall d,
           In d (FinalCode.bm25_doc_ids docs bm25_results) ->
           ~ In d (FinalCode.vector_doc_ids vector_results) ->
           exists f, In f ranked /\ FinalCode.id (FinalCode.final f) = d
                     /\ FinalCode.final_semantic_score f = 0)
     /\ (forall d,
           In d (FinalCode.vector_doc_ids vector_results) ->
           ~ In d (FinalCode.bm25_doc_ids docs bm25_results) ->
           exists f, In f ranked /\ FinalCode.id (FinalCode.final f) = d
                     /\ FinalCode.final_bm25_score f = 0)
     /\ (forall b,
           In b bm25_results ->
           (FinalCode.index b < List.length (FinalCode.ids docs))%nat ->
           exists d, FinalCode.bm25_doc_id docs b = Some d
                     /\ In d (FinalCode.doc_ids ranked))
     /\ (forall top_k,
           (Z.of_nat (List.length ranked) <= top_k)%Z ->
           FinalCode.fuse top_k w docs vector_results bm25_results = ranked))
  /\
  (forall (config : ArxivSearchEngine.Config) semantic_results lexical_results,
     let ranked :=
       ArxivSearchEngine.sorted_results semantic_results lexical_results in
     NoDup (ArxivSearchEngine.doc_ids ranked)
     /\ (forall d,
           In d (ArxivSearchEngine.doc_ids ranked) <->
           In d (ArxivSearchEngine.semantic_doc_ids semantic_results)
           \/ In d (ArxivSearchEngine.lexical_doc_ids lexical_results))
     /\ (forall d,
           In d (ArxivSearchEngine.lexical_doc_ids lexical_results) ->
           ~ In d (ArxivSearchEngine.semantic_doc_ids semantic_results) ->
           exists r, In r ranked
             /\ ArxivSearchEngine.id (ArxivSearchEngine.scored_entry r) = d
             /\ ArxivSearchEngine.semantic_score
                  (ArxivSearchEngine.scored_entry r) = 0)
     /\ (forall d,
           In d (ArxivSearchEngine.semantic_doc_ids semantic_results) ->
           ~ In d (ArxivSearchEngine.lexical_doc_ids lexical_results) ->
           exists r, In r ranked
             /\ ArxivSearchEngine.id (ArxivSearchEngine.scored_entry r) = d
             /\ ArxivSearchEngine.lexical_score
                  (ArxivSearchEngine.scored_entry r) = 0)).
Proof.
  split.
  - intros w docs V B ranked.
    pose proof (FusionFacts.final_results_doc_ids w docs V B) as Hperm.
    pose proof (FusionFacts.combined_results_well_keyed docs V B)
      as [Hnd Hid].
    rewrite Forall_forall in Hid.
    assert (forall d,
              In d (FinalCode.doc_ids ranked) <->
              In d (FinalCode.vector_doc_ids V)
              \/ In d (FinalCode.bm25_doc_ids docs B)) as Hunion.
    { intros d. rewrite <- FusionFacts.combined_results_keys. split.
      - apply Permutation_in. symmetry. exact Hperm.
      - apply Permutation_in. exact Hperm. }
    assert (forall d,
              In d (FinalCode.vector_doc_ids V)
              \/ In d (FinalCode.bm25_doc_ids docs B) ->
              exists sc,
                In (d, sc) (FinalCode.combined_results docs V B)
                /\ In (FinalCode.finalize w (d, sc)) ranked
                /\ FinalCode.id (FinalCode.final (FinalCode.finalize w (d, sc)))
                   = d) as Hentry.
    { intros d Hd. apply FusionFacts.combined_results_keys in Hd.
      apply PyFacts.get_Some_keys in Hd. destruct Hd as [sc G].
      apply PyFacts.get_In in G. exists sc. split; [exact G|]. split.
      - apply FusionFacts.final_results_In. eauto.
      - apply (Hid _ G). }
    split; [eapply Permutation_NoDup; eauto|].
    split; [exact Hunion|]. split; [|split; [|split]].
    + intros d Hd Hn. destruct (Hentry d (or_intror Hd)) as (sc & G & Hf & Hi).
      eexists. split; [exact Hf|]. split; [exact Hi|]. simpl.
      apply FusionFacts.combine_bm25_semantic_zero in G.
      destruct G as [G|[G _]]; [|exact G].
      apply FusionFacts.combine_vector_keys in G. contradiction.
    + intros d Hd Hn. destruct (Hentry d (or_introl Hd)) as (sc & G & Hf & Hi).
      eexists. split; [exact Hf|]. split; [exact Hi|]. simpl.
      apply FusionFacts.combine_bm25_bm25_zero in G;
        [|apply FusionFacts.combine_vector_bm25_zero].
      destruct G as [G|G]; [contradiction | exact G].
    + intros b Hb Hlt. unfold FinalCode.bm25_doc_id.
      destruct (nth_error (FinalCode.ids docs) (FinalCode.index b))
        as [d|] eqn:E; [|apply nth_error_None in E; lia].
      exists d. split; [reflexivity|]. apply Hunion. right.
      apply (FusionFacts.bm25_doc_id_in docs B b d Hb E).
    + intros top_k Hk. apply PyFacts.slice_to_all. exact Hk.
  - intros config S L ranked.
    pose proof (ArxivFacts.sorted_results_doc_ids S L) as Hperm.
    pose proof (ArxivFacts.arxiv_combined_results_well_keyed S L) as [Hnd Hid].
    rewrite Forall_forall in Hid.
    assert (forall d,
              In d (ArxivSearchEngine.semantic_doc_ids S)
              \/ In d (ArxivSearchEngine.lexical_doc_ids L) ->
              exists e,
                In (d, e) (ArxivSearchEngine.combined_results S L)
                /\ In (ArxivSearchEngine.with_hybrid_score e) ranked
                /\ ArxivSearchEngine.id e = d) as Hentry.
    { intros d Hd. apply ArxivFacts.arxiv_combined_results_keys in Hd.
      apply PyFacts.get_Some_keys in Hd. destruct Hd as [e G].
      apply PyFacts.get_In in G. exists e. split; [exact G|]. split.
      - apply ArxivFacts.sorted_results_In. exists (d, e). auto.
      - apply (Hid _ G). }
    split; [eapply Permutation_NoDup; eauto|]. split; [|split].
    + intros d. rewrite <- ArxivFacts.arxiv_combined_results_keys. split.
      * apply Permutation_in. symmetry. exact Hperm.
      * apply Permutation_in. exact Hperm.
    + intros d Hd Hn. destruct (Hentry d (or_intror Hd)) as (e & G & Hr & Hi).
      eexists. split; [exact Hr|]. split; [exact Hi|]. simpl.
      apply ArxivFacts.combined_results_components in G.
      destruct G as [[(h & Hh & Hk & _)|G] _]; [|exact G].
      elim Hn. rewrite <- Hk. apply in_map. exact Hh.
    + intros d Hd Hn. destruct (Hentry d (or_introl Hd)) as (e & G & Hr & Hi).
      eexists. split; [exact Hr|]. split; [exact Hi|]. simpl.
      apply ArxivFacts.combined_results_components in G.
      destruct G as [_ [G|G]]; [contradiction | exact G].
Qed.

(** C2, an instance: over the store of three papers, [c] is only in the
    lexical channel and [b] only in the semantic one; both are returned. *)
Lemma C2_candidates_are_the_union_witness :
  (exists f,
     In f (FinalCode.final_results (3 # 5) Fixture.store
             Fixture.vector_results Fixture.bm25_results)
     /\ FinalCode.id (FinalCode.final f) = Py.lit "c"
     /\ FinalCode.final_semantic_score f = 0)
  /\ (exists f,
        In f (FinalCode.final_results (3 # 5) Fixture.store
                Fixture.vector_results Fixture.bm25_results)
        /\ FinalCode.id (FinalCode.final f) = Py.lit "b"
        /\ FinalCode.final_bm25_score f = 0)
  /\ FinalCode.fuse 10 (3 # 5) Fixture.store
       Fixture.vector_results Fixture.bm25_results
     = FinalCode.final_results (3 # 5) Fixture.store
         Fixture.vector_results Fixture.bm25_results.
Proof.
  destruct (proj1 C2_candidates_are_the_union (3 # 5) Fixture.store
              Fixture.vector_results Fixture.bm25_results)
    as (_ & _ & Hlex & Hsem & _ & Hall).
  split; [|split].
  - apply Hlex.
    + vm_compute. right; left; reflexivity.
    + vm_compute. intros [H|[H|[]]]; discriminate H.
  - apply Hsem.
    + vm_compute. right; left; reflexivity.
    + vm_compute. intros [H|[H|[]]]; discriminate H.
  - apply Hall. vm_compute. discriminate.
Defined.

(* ================================================================== *)
(** ** Normalisation of a constant channel, and the order of ties *)
(* ================================================================== *)

(** C3 fails: a semantic channel of a single candidate gives that
    candidate the normalised score 0, not 1. *)
Lemma C3_single_candidate_normalized_to_zero :
  exists f,
    FinalCode.fuse 10 (3 # 5) Fixture.store
      Fixture.single_vector_results [] = [f]
    /\ FinalCode.final_semantic_score f == 0
    /\ ~ FinalCode.final_semantic_score f == 1.
Proof.
  eexists. split; [vm_compute; reflexivity|].
  split; [reflexivity | discriminate].
Qed.

(** C3, as the code has it.  The range used by the normalisation is never
    0 (it is 1 when the extrema are equal), so nothing is divided by
    zero; and when a channel returns exactly one candidate, or candidates
    whose raw scores are all equal, the normalised score of that channel
    is 0 for every returned item. *)
Theorem C3_constant_channel_normalized_to_zero :
  (forall mx mn, ~ FinalCode.range mx mn == 0)
  /\ (forall mx mn, mx == mn -> FinalCode.range mx mn = 1)
  /\ (forall top_k w docs vector_results bm25_results f,
        (forall h h', In h vector_results -> In h' vector_results ->
           FinalCode.hit_score h == FinalCode.hit_score h') ->
        In f (FinalCode.fuse top_k w docs vector_results bm25_results) ->
        FinalCode.final_semantic_score f == 0)
  /\ (forall top_k w docs vector_results bm25_results f,
        (forall b b', In b bm25_results -> In b' bm25_results ->
           FinalCode.raw_bm25_score b == FinalCode.raw_bm25_score b') ->
        In f (FinalCode.fuse top_k w docs vector_results bm25_results) ->
        FinalCode.final_bm25_score f == 0).
Proof.
  split; [exact FusionFacts.range_nonzero|].
  split; [exact FusionFacts.range_equal|].
  split.
  - intros top_k w docs V B f Heq Hf.
    apply FusionFacts.fuse_In in Hf. destruct Hf as ([k sc] & Hin & ->).
    simpl. apply FusionFacts.combined_results_cases in Hin.
    destruct Hin as [[(h & Hh & _ & ->)| ->] _]; [|reflexivity].
    apply FusionFacts.normalize_constant.
    + apply in_map; exact Hh.
    + intros x y Hx Hy. apply in_map_iff in Hx, Hy.
      destruct Hx as (hx & <- & Hx), Hy as (hy & <- & Hy). auto.
  - intros top_k w docs V B f Heq Hf.
    apply FusionFacts.fuse_In in Hf. destruct Hf as ([k sc] & Hin & ->).
    simpl. apply FusionFacts.combined_results_cases in Hin.
    destruct Hin as [_ [(b & Hb & _ & ->)| ->]]; [|reflexivity].
    apply FusionFacts.normalize_constant.
    + apply in_map; exact Hb.
    + intros x y Hx Hy. apply in_map_iff in Hx, Hy.
      destruct Hx as (bx & <- & Hx), Hy as (by' & <- & Hy). auto.
Qed.

(** C3, an instance: the single-candidate channel, and a lexical channel
    of two candidates with the same raw score. *)
Lemma C3_constant_channel_normalized_to_zero_witness :
  FinalCode.range (9 # 10) (9 # 10) = 1
  /\ Forall (fun f => FinalCode.final_semantic_score f == 0)
       (FinalCode.fuse 10 (3 # 5) Fixture.store
          Fixture.single_vector_results Fixture.bm25_results)
  /\ Forall (fun f => FinalCode.final_bm25_score f == 0)
       (FinalCode.fuse 10 (3 # 5) Fixture.store Fixture.vector_results
          Fixture.tied_bm25_results).
Proof.
  destruct C3_constant_channel_normalized_to_zero as (_ & Hr & Hv & Hb).
  split; [apply Hr; reflexivity|].
  split; apply Forall_forall; intros f Hf.
  - apply (Hv 10%Z (3 # 5) Fixture.store Fixture.single_vector_results
             Fixture.bm25_results f); [|exact Hf].
    intros h h' [<-|[]] [<-|[]]. reflexivity.
  - apply (Hb 10%Z (3 # 5) Fixture.store Fixture.vector_results
             Fixture.tied_bm25_results f); [|exact Hf].
    intros b b' [<-|[<-|[]]] [<-|[<-|[]]]; reflexivity.
Defined.

Module OrderFacts.

Import FinalCode.

(** The semantic candidates are created in channel order. *)
Lemma fold_add_vector_keys_order mn rg (vector_results : list hit) :
  NoDup (vector_doc_ids vector_results) ->
  forall acc,
  (forall d, In d (vector_doc_ids vector_results) -> Py.get d acc = None) ->
  Py.keys (fold_left (add_vector mn rg) vector_results acc)
  = Py.keys acc ++ vector_doc_ids vector_results.
Proof.
  induction vector_results as [|h l IH]; intros Hnd acc Hacc; simpl.
  - rewrite app_nil_r. reflexivity.
  - simpl in Hnd. inversion Hnd as [|? ? Hh Hl]; subst.
    rewrite IH; [|exact Hl|].
    + unfold add_vector. rewrite PyFacts.keys_set.
      rewrite (Hacc (hit_id h)) by (left; reflexivity).
      rewrite <- app_assoc. reflexivity.
    + intros d Hd. unfold add_vector.
      rewrite PyFacts.get_set_other.
      * apply Hacc. right. exact Hd.
      * intros ->. contradiction.
Qed.

Lemma combine_vector_keys_order (vector_results : list hit) :
  NoDup (vector_doc_ids vector_results) ->
  Py.keys (combine_vector vector_results) = vector_doc_ids vector_results.
Proof.
  intros Hnd. unfold combine_vector.
  destruct vector_results as [|h l]; [reflexivity|].
  change (List.map hit_score (h :: l))
    with (hit_score h :: List.map hit_score l). cbv iota beta.
  rewrite fold_add_vector_keys_order; [reflexivity | exact Hnd |].
  intros d _. reflexivity.
Qed.

(** The BM25 loop only appends: the new keys are documents that the
    lexical channel alone has found. *)
Lemma fold_add_bm25_keys_append docs mn rg (bm25_results : list bm25_item) :
  forall acc,
  exists rest,
    Py.keys (fold_left (add_bm25 docs mn rg) bm25_results acc)
    = Py.keys acc ++ rest
    /\ forall d, In d rest ->
         ~ In d (Py.keys acc) /\ In d (bm25_doc_ids docs bm25_results).
Proof.
  induction bm25_results as [|b l IH]; intros acc.
  - exists []. simpl. rewrite app_nil_r. split; [reflexivity | intros d []].
  - change (bm25_doc_ids docs (b :: l))
      with (match bm25_doc_id docs b with Some d => [d] | None => [] end
            ++ bm25_doc_ids docs l).
    simpl fold_left.
    destruct (IH (add_bm25 docs mn rg acc b)) as (rest & Hk & Hr).
    destruct (bm25_doc_id docs b) as [d0|] eqn:E.
    + destruct (FusionFacts.add_bm25_set docs mn rg acc b d0 E)
        as (e & Heq & _).
      rewrite Heq in *. rewrite PyFacts.keys_set in Hk, Hr.
      destruct (Py.get d0 acc) as [sc|] eqn:G.
      * exists rest. split; [exact Hk|]. intros d Hd.
        destruct (Hr d Hd) as [H1 H2].
        split; [exact H1 | apply in_or_app; right; exact H2].
      * exists (d0 :: rest). rewrite <- app_assoc in Hk.
        split; [exact Hk|]. intros d [<-|Hd].
        -- split; [apply PyFacts.get_None_keys; exact G|].
           left. reflexivity.
        -- destruct (Hr d Hd) as [H1 H2].
           split; [|apply in_or_app; right; exact H2].
           intros H. apply H1. apply in_or_app. left. exact H.
    + rewrite (FusionFacts.add_bm25_skip _ _ _ _ _ E) in *.
      exists rest. split; [exact Hk|]. intros d Hd.
      destruct (Hr d Hd) as [H1 H2]. split; [exact H1 | exact H2].
Qed.

(** The candidates: the semantic channel in its order, then the
    documents that only the lexical channel has found. *)
Lemma combined_results_keys_order docs vector_results bm25_results :
  NoDup (vector_doc_ids vector_results) ->
  exists rest,
    Py.keys (combined_results docs vector_results bm25_results)
    = vector_doc_ids vector_results ++ rest
    /\ forall d, In d rest ->
         ~ In d (vector_doc_ids vector_results)
         /\ In d (bm25_doc_ids docs bm25_results).
Proof.
  intros Hnd. unfold combined_results, combine_bm25.
  rewrite <- (combine_vector_keys_order vector_results Hnd).
  destruct (List.map raw_bm25_score bm25_results) as [|s ss].
  - exists []. rewrite app_nil_r. split; [reflexivity | intros d []].
  - apply fold_add_bm25_keys_append.
Qed.

Lemma candidates_doc_ids w docs vector_results bm25_results :
  doc_ids (List.map (finalize w)
             (combined_results docs vector_results bm25_results))
  = Py.keys (combined_results docs vector_results bm25_results).
Proof.
  unfold doc_ids, Py.keys. rewrite map_map.
  destruct (FusionFacts.combined_results_well_keyed
              docs vector_results bm25_results) as [_ H].
  rewrite Forall_forall in H.
  apply map_ext_in. intros kv Hkv. simpl. apply (H _ Hkv).
Qed.

End OrderFacts.

(** C8 fails: two candidates with the same hybrid score are returned in
    the order in which the semantic channel listed them, here [b] before
    [a], not in the order of their ids. *)
Lemma C8_ties_not_ordered_by_id :
  FinalCode.doc_ids
    (FinalCode.fuse 10 (3 # 5) Fixture.store Fixture.tied_vector_results [])
  = [Py.lit "b"; Py.lit "a"]
  /\ Ranking.str_ltb (Py.lit "a") (Py.lit "b") = true
  /\ ~ FinalCode.ties_by_id
         (FinalCode.fuse 10 (3 # 5) Fixture.store
            Fixture.tied_vector_results []).
Proof.
  split; [vm_compute; reflexivity|]. split; [reflexivity|].
  intros H. unfold FinalCode.ties_by_id in H.
  specialize (H [] _ [] _ [] eq_refl). simpl in H.
  discriminate H. reflexivity.
Qed.

(** C8, as the code has it.  The ranked list is the list of candidates
    sorted in descending order of hybrid score by a stable sort: it is a
    permutation of the candidates, no item stands before an item of
    greater score, and the items of one score keep the order in which
    the fusion loops created them.  This holds for final_code and for
    arxiv-search-engine.  In final_code that order is the order of the
    semantic channel (its ids being distinct), followed by the documents
    that only the lexical channel has found. *)
Theorem C8_ranked_by_stable_descending_sort :
  (forall w docs vector_results bm25_results,
     let candidates :=
       List.map (FinalCode.finalize w)
         (FinalCode.combined_results docs vector_results bm25_results) in
     let ranked :=
       FinalCode.final_results w docs vector_results bm25_results in
     Permutation candidates ranked
     /\ StronglySorted (Ranking.desc FinalCode.hybrid_score) ranked
     /\ (forall q,
           Ranking.with_key FinalCode.hybrid_score q ranked
           = Ranking.with_key FinalCode.hybrid_score q candidates)
     /\ (NoDup (FinalCode.vector_doc_ids vector_results) ->
         exists rest,
           FinalCode.doc_ids candidates
           = FinalCode.vector_doc_ids vector_results ++ rest
           /\ forall d, In d rest ->
                ~ In d (FinalCode.vector_doc_ids vector_results)
                /\ In d (FinalCode.bm25_doc_ids docs bm25_results)))
  /\
  (forall (config : ArxivSearchEngine.Config) semantic_results lexical_results,
     let candidates :=
       List.map ArxivSearchEngine.with_hybrid_score
         (Py.values
            (ArxivSearchEngine.combined_results
               semantic_results lexical_results)) in
     let ranked :=
       ArxivSearchEngine.sorted_results semantic_results lexical_results in
     Permutation candidates ranked
     /\ StronglySorted (Ranking.desc ArxivSearchEngine.hybrid_score) ranked
     /\ (forall q,
           Ranking.with_key ArxivSearchEngine.hybrid_score q ranked
           = Ranking.with_key ArxivSearchEngine.hybrid_score q candidates)).
Proof.
  split.
  - intros w docs V B candidates ranked. split; [|split; [|split]].
    + apply PyFacts.sort_desc_perm.
    + apply PyFacts.sort_desc_sorted.
    + intros q. apply PyFacts.sort_desc_stable.
    + intros Hnd. subst candidates. rewrite OrderFacts.candidates_doc_ids.
      apply OrderFacts.combined_results_keys_order. exact Hnd.
  - intros config S L candidates ranked. split; [|split].
    + apply PyFacts.sort_desc_perm.
    + apply PyFacts.sort_desc_sorted.
    + intros q. apply PyFacts.sort_desc_stable.
Qed.

(** C8, an instance: the two tied papers keep the order [b], [a] of the
    semantic channel. *)
Lemma C8_ranked_by_stable_descending_sort_witness :
  exists rest,
    FinalCode.doc_ids
      (List.map (FinalCode.finalize (3 # 5))
         (FinalCode.combined_results Fixture.store
            Fixture.tied_vector_results Fixture.bm25_results))
    = [Py.lit "b"; Py.lit "a"] ++ rest
    /\ forall d, In d rest ->
         ~ In d [Py.lit "b"; Py.lit "a"]
         /\ In d (FinalCode.bm25_doc_ids Fixture.store Fixture.bm25_results).
Proof.
  destruct (proj1 C8_ranked_by_stable_descending_sort (3 # 5) Fixture.store
              Fixture.tied_vector_results Fixture.bm25_results)
    as (_ & _ & _ & H).
  apply H. repeat constructor; simpl; intuition discriminate.
Defined.

(* ================================================================== *)

Module EngineFacts.

Import Provider Lexical FinalCode Ranking.

(** *** Sorted lists *)

Lemma sorted_snoc {A} (R : A -> A -> Prop) (l : list A) (x : A) :
  StronglySorted R l -> Forall (fun y => R y x) l ->
  StronglySorted R (l ++ [x]).
Proof.
  induction 1 as [|y l Hl IH Hy]; intros Hx; simpl.
  - repeat constructor.
  - inversion Hx; subst. constructor; [apply IH; assumption|].
    apply Forall_app. split; [exact Hy | repeat constructor; assumption].
Qed.

Lemma sorted_rev {A} (R : A -> A -> Prop) (l : list A) :
  StronglySorted R l -> StronglySorted (fun a b => R b a) (rev l).
Proof.
  induction 1 as [|x l Hl IH Hx]; simpl; [constructor|].
  apply sorted_snoc; [exact IH|].
  apply Forall_rev. exact Hx.
Qed.

Lemma sorted_app_l {A} (R : A -> A -> Prop) (l1 l2 : list A) :
  StronglySorted R (l1 ++ l2) -> StronglySorted R l1.
Proof.
  induction l1 as [|x l1 IH]; simpl; intros H; [constructor|].
  inversion H as [|? ? Hl Hx]; subst. constructor; [apply IH; exact Hl|].
  apply Forall_app in Hx. apply Hx.
Qed.

Lemma sorted_flat_map {A B} (R : A -> A -> Prop) (R' : B -> B -> Prop)
    (f : A -> list B) (l : list A) :
  (forall a, exists o, f a = match o with Some b => [b] | None => [] end) ->
  (forall a a' b b', R a a' -> In b (f a) -> In b' (f a') -> R' b b') ->
  StronglySorted R l -> StronglySorted R' (flat_map f l).
Proof.
  intros Hf HR. induction 1 as [|x l Hl IH Hx]; simpl; [constructor|].
  destruct (Hf x) as [[b|] Hb]; rewrite Hb; simpl; [|exact IH].
  constructor; [exact IH|].
  apply Forall_forall. intros b' Hb'. apply in_flat_map in Hb'.
  destruct Hb' as (a' & Ha' & Hb').
  rewrite Forall_forall in Hx.
  apply (HR x a' b b'); [apply Hx; exact Ha' | rewrite Hb; left; reflexivity
                        | exact Hb'].
Qed.

Lemma sorted_map {A B} (R : A -> A -> Prop) (R' : B -> B -> Prop)
    (f : A -> B) (l : list A) :
  (forall a a', In a l -> In a' l -> R a a' -> R' (f a) (f a')) ->
  StronglySorted R l -> StronglySorted R' (List.map f l).
Proof.
  intros HR H. induction H as [|x l Hl IH Hx]; simpl; [constructor|].
  constructor.
  - apply IH. intros a a' Ha Ha'. apply HR; right; assumption.
  - apply Forall_forall. intros b Hb. apply in_map_iff in Hb.
    destruct Hb as (a & <- & Ha). rewrite Forall_forall in Hx.
    apply HR; [left; reflexivity | right; exact Ha | apply Hx; exact Ha].
Qed.

(** *** The dict: a new key is appended *)

Lemma set_absent {V} (k : Py.str) (v : V) (d : Py.dict V) :
  Py.get k d = None -> Py.set k v d = d ++ [(k, v)].
Proof.
  induction d as [|[k' v'] r IH]; simpl; [reflexivity|].
  destruct (Py.eqb k k'); [discriminate|].
  intros H. rewrite IH by exact H. reflexivity.
Qed.

Lemma get_app_None {V} (k : Py.str) (d1 d2 : Py.dict V) :
  Py.get k (d1 ++ d2) = None <-> Py.get k d1 = None /\ Py.get k d2 = None.
Proof.
  rewrite !PyFacts.get_None_keys. unfold Py.keys.
  rewrite map_app, in_app_iff. tauto.
Qed.

(** *** The BM25 loop over documents of the lexical channel only *)

Lemma bm25_doc_ids_resolved docs bm25_results :
  bm25_doc_ids docs bm25_results = List.map snd (resolved docs bm25_results).
Proof.
  unfold bm25_doc_ids, resolved.
  induction bm25_results as [|b l IH]; simpl; [reflexivity|].
  rewrite map_app, IH. destruct (bm25_doc_id docs b); reflexivity.
Qed.

Lemma add_bm25_new docs mn rg acc b d :
  bm25_doc_id docs b = Some d -> Py.get d acc = None ->
  add_bm25 docs mn rg acc b = acc ++ [lexical_only docs mn rg (b, d)].
Proof.
  intros Hd G. unfold add_bm25, bm25_doc_id in *. cbv zeta.
  assert (index b < List.length (ids docs))%nat as Hlt
    by (apply nth_error_Some; congruence).
  destruct (Nat.ltb_spec (index b) (List.length (ids docs))); [|lia].
  rewrite !(nth_error_nth (ids docs) (index b) (@nil N) Hd).
  rewrite G. apply set_absent. exact G.
Qed.

Lemma fold_add_bm25_new docs mn rg (bm25_results : list bm25_item) :
  NoDup (bm25_doc_ids docs bm25_results) ->
  forall acc,
  (forall d, In d (bm25_doc_ids docs bm25_results) -> Py.get d acc = None) ->
  fold_left (add_bm25 docs mn rg) bm25_results acc
  = acc ++ List.map (lexical_only docs mn rg) (resolved docs bm25_results).
Proof.
  induction bm25_results as [|b l IH]; intros Hnd acc Hacc; simpl.
  - rewrite app_nil_r. reflexivity.
  - simpl in Hnd, Hacc.
    destruct (bm25_doc_id docs b) as [d|] eqn:E; simpl in *.
    + inversion Hnd as [|? ? Hd Hl]; subst.
      rewrite (add_bm25_new docs mn rg acc b d E) by (apply Hacc; auto).
      rewrite IH; [rewrite <- app_assoc; reflexivity | exact Hl |].
      intros d' Hd'. apply get_app_None. split; [apply Hacc; auto|].
      simpl. destruct (Py.eqb d' d) eqn:Ed; [|reflexivity].
      apply PyFacts.eqb_eq in Ed; subst. contradiction.
    + rewrite (FusionFacts.add_bm25_skip _ _ _ _ _ E).
      apply IH; assumption.
Qed.

(** With an empty semantic channel, the candidates are the resolved
    lexical items, in channel order. *)
Lemma combined_results_lexical_only docs bm25_results :
  NoDup (bm25_doc_ids docs bm25_results) ->
  exists mn rg,
    combined_results docs [] bm25_results
    = List.map (lexical_only docs mn rg) (resolved docs bm25_results)
    /\ forall b, In b bm25_results ->
         (raw_bm25_score b - mn) / rg
         = normalize (List.map raw_bm25_score bm25_results)
             (raw_bm25_score b).
Proof.
  intros Hnd. unfold combined_results, combine_bm25, normalize. simpl.
  destruct (List.map raw_bm25_score bm25_results) as [|s ss] eqn:E.
  - destruct bm25_results; [|discriminate]. exists 0, 1.
    split; [reflexivity | intros b []].
  - exists (Py.min s ss), (range (Py.max s ss) (Py.min s ss)).
    split; [|reflexivity].
    rewrite fold_add_bm25_new; [reflexivity | exact Hnd | reflexivity].
Qed.

(** Distinct indices resolve to distinct ids when the ids are distinct. *)
Lemma bm25_doc_ids_NoDup docs bm25_results :
  NoDup (ids docs) -> NoDup (List.map index bm25_results) ->
  NoDup (bm25_doc_ids docs bm25_results).
Proof.
  intros Hids. unfold bm25_doc_ids.
  induction bm25_results as [|b l IH]; simpl; intros Hnd; [constructor|].
  inversion Hnd as [|? ? Hb Hl]; subst.
  destruct (bm25_doc_id docs b) as [d|] eqn:E; simpl; [|apply IH; exact Hl].
  constructor; [|apply IH; exact Hl].
  intros Hin. apply in_flat_map in Hin. destruct Hin as (b' & Hb' & Hd).
  destruct (bm25_doc_id docs b') as [d'|] eqn:E'; [|destruct Hd].
  destruct Hd as [->|[]]. unfold bm25_doc_id in *.
  apply Hb. replace (index b) with (index b'); [apply in_map; exact Hb'|].
  rewrite NoDup_nth_error in Hids. symmetry. apply Hids; [|congruence].
  apply nth_error_Some. congruence.
Qed.

End EngineFacts.

Module SearchFacts.

Import Provider Lexical FinalCode Ranking.

Section Search.
Context {ollama : Ollama} {chroma : Chroma} {lib : Lib}.

Lemma generate_embedding_fails (text : Py.str) :
  embedding_fails text -> generate_embedding text = [].
Proof.
  unfold embedding_fails, generate_embedding, get_embedding_field.
  destruct (embeddings EMBEDDING_MODEL text) as [b|e]; simpl;
    [|reflexivity].
  intros ->. reflexivity.
Qed.

Lemma search_fails (q : Py.str) (n : Z) (f : option filters) :
  embedding_fails q -> search q n f = Py.Ok [].
Proof.
  intros H. unfold search. rewrite (generate_embedding_fails q H).
  reflexivity.
Qed.

Lemma collect_bm25_ok (scores : list Q) (corpus : list Py.str)
    (idxs : list nat) :
  Forall (fun i => (i < List.length scores)%nat
                   /\ (i < List.length corpus)%nat) idxs ->
  collect_bm25 scores corpus idxs = Py.Ok (flat_map (kept scores corpus) idxs).
Proof.
  induction 1 as [|i l [Hs Hc] _ IH]; simpl; [reflexivity|].
  unfold Py.getitem, kept.
  destruct (nth_error scores i) as [x|] eqn:Ex;
    [|apply nth_error_None in Ex; lia].
  rewrite (nth_error_nth scores i 0 Ex). simpl.
  destruct (Py.positive x); [|exact IH].
  destruct (nth_error corpus i) as [d|] eqn:Ed;
    [|apply nth_error_None in Ed; lia].
  rewrite (nth_error_nth corpus i (@nil N) Ed). simpl.
  rewrite IH. reflexivity.
Qed.

Lemma kept_cases scores corpus i :
  exists o, kept scores corpus i
            = match o with Some b => [b] | None => [] end.
Proof.
  unfold kept. destruct (Py.positive _);
    [eexists (Some _) | exists None]; reflexivity.
Qed.

Lemma kept_In scores corpus i b :
  In b (kept scores corpus i) ->
  index b = i /\ raw_bm25_score b = nth i scores 0.
Proof.
  unfold kept. destruct (Py.positive _); [|intros []].
  intros [<-|[]]. split; reflexivity.
Qed.

Lemma kept_indices scores corpus (idxs : list nat) :
  NoDup idxs -> NoDup (List.map index (flat_map (kept scores corpus) idxs)).
Proof.
  induction 1 as [|i l Hi Hl IH]; simpl; [constructor|].
  rewrite map_app. destruct (kept_cases scores corpus i) as [[b|] Hb];
    rewrite Hb; simpl; [|exact IH].
  assert (In b (kept scores corpus i)) as Hin by (rewrite Hb; left; reflexivity).
  apply kept_In in Hin. destruct Hin as [-> _].
  constructor; [|exact IH].
  intros Hin. apply in_map_iff in Hin. destruct Hin as (b' & Hb' & Hin).
  apply in_flat_map in Hin. destruct Hin as (j & Hj & Hin).
  apply kept_In in Hin. destruct Hin as [Hin _]. congruence.
Qed.

(** With lawful libraries and a well-formed engine, the lexical channel
    never raises; its items are in descending order of raw score and
    have distinct indices. *)
Lemma bm25_search_ok (self : engine) (q : Py.str) (k : Z) :
  lawful lib -> engine_wf self ->
  exists B,
    bm25_search self q k = Py.Ok B
    /\ StronglySorted (desc raw_bm25_score) B
    /\ NoDup (List.map index B).
Proof.
  intros [Hsort Hlen] Hwf. unfold bm25_search, engine_wf in *.
  destruct (bm25 self) as [corpus|];
    [|exists []; repeat split; constructor].
  destruct (Py.truthy (documents_corpus self)); simpl;
    [|exists []; repeat split; constructor].
  set (scores := get_scores corpus (Py.split (lower q))).
  destruct (Hsort scores) as [Hperm Hasc].
  destruct (PyFacts.slice_to_prefix k (rev (argsort scores))) as [rest Hrest].
  set (idxs := Py.slice_to k (rev (argsort scores))) in *.
  assert (NoDup idxs) as Hnd.
  { apply NoDup_app_remove_r with (l' := rest). rewrite <- Hrest.
    apply NoDup_rev. apply (Permutation_NoDup (Permutation_sym Hperm)).
    apply seq_NoDup. }
  assert (StronglySorted (fun i j => nth j scores 0 <= nth i scores 0) idxs)
    as Hdesc.
  { apply EngineFacts.sorted_app_l with (l2 := rest). rewrite <- Hrest.
    apply (EngineFacts.sorted_rev _ _ Hasc). }
  assert (Forall (fun i => (i < List.length scores)%nat
                           /\ (i < List.length (documents_corpus self))%nat)
            idxs) as Hrange.
  { apply Forall_forall. intros i Hi.
    assert (In i (seq 0 (List.length scores))) as Hin.
    { apply (Permutation_in _ Hperm). apply in_rev. rewrite Hrest.
      apply in_or_app. left. exact Hi. }
    apply in_seq in Hin. unfold scores in *. rewrite Hlen in *. lia. }
  exists (flat_map (kept scores (documents_corpus self)) idxs).
  split; [apply collect_bm25_ok; exact Hrange|].
  split; [|apply kept_indices; exact Hnd].
  apply EngineFacts.sorted_flat_map
    with (R := fun i j => nth j scores 0 <= nth i scores 0);
    [apply kept_cases | | exact Hdesc].
  intros i j b b' Hij Hb Hb'. apply kept_In in Hb, Hb'.
  destruct Hb as [_ Hb], Hb' as [_ Hb']. unfold desc. rewrite Hb, Hb'.
  exact Hij.
Qed.

(** The candidates of a lexical-only fusion are already ranked. *)
Lemma final_results_lexical_only (w : Q) (B : list bm25_item) :
  0 <= w <= 1 ->
  NoDup (bm25_doc_ids collection_get B) ->
  StronglySorted (desc raw_bm25_score) B ->
  let ranked := final_results w collection_get [] B in
  Forall (fun r => final_semantic_score r = 0
                   /\ hybrid_score r == (1 - w) * final_bm25_score r) ranked
  /\ StronglySorted (desc final_bm25_score) ranked
  /\ doc_ids ranked = bm25_doc_ids collection_get B.
Proof.
  intros Hw Hnd Hs ranked. subst ranked. unfold final_results.
  destruct (EngineFacts.combined_results_lexical_only collection_get B Hnd)
    as (mn & rg & -> & Hnorm).
  assert (StronglySorted (desc (fun bd => raw_bm25_score (fst bd)))
            (resolved collection_get B)) as Hres.
  { unfold resolved.
    apply EngineFacts.sorted_flat_map with (R := desc raw_bm25_score);
      [| |exact Hs].
    - intros b. destruct (bm25_doc_id collection_get b);
        [eexists (Some _) | exists None]; reflexivity.
    - intros b b' x x' Hbb Hx Hx'.
      destruct (bm25_doc_id collection_get b); [|destruct Hx].
      destruct (bm25_doc_id collection_get b'); [|destruct Hx'].
      destruct Hx as [<-|[]], Hx' as [<-|[]]. exact Hbb. }
  assert (forall bd, In bd (resolved collection_get B) -> In (fst bd) B)
    as Hin.
  { intros [b d] H. unfold resolved in H. apply in_flat_map in H.
    destruct H as (b' & Hb' & H).
    destruct (bm25_doc_id collection_get b'); [|destruct H].
    destruct H as [[= <- <-]|[]]. exact Hb'. }
  assert (forall bd, In bd (resolved collection_get B) ->
            bm25_score (snd (lexical_only collection_get mn rg bd))
            = normalize (List.map raw_bm25_score B)
                (raw_bm25_score (fst bd))) as Hval.
  { intros [b d] H. simpl. apply Hnorm. apply (Hin _ H). }
  assert (StronglySorted (desc final_bm25_score)
            (List.map (finalize w)
               (List.map (lexical_only collection_get mn rg)
                  (resolved collection_get B)))) as Hsorted.
  { rewrite map_map.
    apply EngineFacts.sorted_map
      with (R := desc (fun bd => raw_bm25_score (fst bd))); [|exact Hres].
    intros bd bd' Hbd Hbd' Hle. unfold desc in *.
    change (final_bm25_score (finalize w (lexical_only collection_get mn rg bd')))
      with (bm25_score (snd (lexical_only collection_get mn rg bd'))).
    change (final_bm25_score (finalize w (lexical_only collection_get mn rg bd)))
      with (bm25_score (snd (lexical_only collection_get mn rg bd))).
    rewrite !Hval by assumption.
    apply FusionFacts.normalize_le; try (apply in_map; apply Hin; assumption).
    exact Hle. }
  assert (Forall (fun r => final_semantic_score r = 0
                           /\ hybrid_score r == (1 - w) * final_bm25_score r)
            (List.map (finalize w)
               (List.map (lexical_only collection_get mn rg)
                  (resolved collection_get B)))) as Hzero.
  { apply Forall_forall. intros r Hr. rewrite map_map in Hr.
    apply in_map_iff in Hr. destruct Hr as ([b d] & <- & _). simpl.
    split; [reflexivity | ring]. }
  rewrite PyFacts.sort_desc_sorted_id.
  - split; [exact Hzero|]. split; [exact Hsorted|].
    unfold doc_ids. rewrite !map_map.
    rewrite EngineFacts.bm25_doc_ids_resolved.
    apply map_ext. intros [b d]. reflexivity.
  - revert Hsorted Hzero.
    generalize (List.map (finalize w)
                  (List.map (lexical_only collection_get mn rg)
                     (resolved collection_get B))).
    intros l Hsorted Hzero.
    induction Hsorted as [|x l Hl IH Hx]; [constructor|].
    inversion Hzero as [|? ? [_ Hx0] Hl0]; subst.
    constructor; [apply IH; exact Hl0|].
    rewrite Forall_forall in *. intros y Hy. unfold desc in *.
    destruct (Hl0 y Hy) as [_ Hy0]. rewrite Hx0, Hy0.
    specialize (Hx y Hy). nra.
Qed.

End Search.

End SearchFacts.

(* ================================================================== *)
(** ** Failure of the embedding provider *)
(* ================================================================== *)

Module FixtureFacts.

Import Lexical.

Lemma sorted_impl {A} (R R' : A -> A -> Prop) (l : list A) :
  (forall a b, R a b -> R' a b) -> StronglySorted R l -> StronglySorted R' l.
Proof.
  intros H Hs. rewrite <- (map_id l).
  apply EngineFacts.sorted_map with (R := R); [|exact Hs]. auto.
Qed.

(** The stand-in libraries keep the promises of numpy and rank_bm25. *)
Lemma lib_lawful : lawful Fixture.lib.
Proof.
  split.
  - intros scores. split; simpl; unfold Fixture.argsort_stable.
    + symmetry. apply PyFacts.sort_desc_perm.
    + eapply sorted_impl; [|apply PyFacts.sort_desc_sorted].
      unfold Ranking.desc. intros a b H. lra.
  - intros corpus q. simpl. unfold Fixture.overlap_scores.
    apply length_map.
Qed.

Lemma store_ids_NoDup : NoDup (FinalCode.ids Fixture.store).
Proof.
  simpl. repeat constructor; simpl; intuition discriminate.
Qed.

End FixtureFacts.

(** C4 fails on arxiv-search-engine: with the embedding endpoint down,
    its semantic channel still returns the rows that the store gives for
    the zero vector, and the search returns an item whose semantic score
    is not 0. *)
Lemma C4_arxiv_semantic_channel_not_empty :
  (forall text,
     @ArxivSearchEngine.embedding_fails Fixture.config Fixture.requests_down
       text)
  /\ List.length
       (@ArxivSearchEngine.semantic_search Fixture.config
          Fixture.requests_down Fixture.far_chroma (Py.lit "pruning") 20)
     = 2%nat
  /\ exists r,
       In r (@ArxivSearchEngine.hybrid_search Fixture.config
               Fixture.requests_down Fixture.far_chroma Fixture.lib
               Fixture.arxiv_engine (Py.lit "pruning") 10 true)
       /\ ~ ArxivSearchEngine.semantic_score
              (ArxivSearchEngine.scored_entry r) == 0.
Proof.
  split; [intros text; exact I|]. split; [vm_compute; reflexivity|].
  eexists. split; [vm_compute; left; reflexivity|].
  simpl. discriminate.
Qed.

(** C4, as the code has it.  In final_code, when the embedding provider
    fails, [VectorDatabase.search] returns the empty list and
    [hybrid_search] returns a list without raising: the lexical channel's
    documents in the channel's own order, cut at [top_k], each with the
    semantic score 0 and the hybrid score [(1 - w) * bm25], in
    descending order of normalised lexical score.  In
    arxiv-search-engine a failed embedding is replaced by the zero vector
    of length 768 and the vector query is still run; the semantic channel
    is empty only if that query raises. *)
Theorem C4_embedding_failure_is_absorbed :
  (forall (ollama : Provider.Ollama) (chroma : FinalCode.Chroma)
          (lib : Lexical.Lib) (self : FinalCode.engine) (query : Py.str)
          (top_k : Z) (expand : bool) (w : Q)
          (f : option FinalCode.filters),
     Lexical.lawful lib ->
     FinalCode.engine_wf self ->
     NoDup (FinalCode.ids FinalCode.collection_get) ->
     0 <= w <= 1 ->
     (forall text, FinalCode.embedding_fails text) ->
     (forall q n, FinalCode.search q n f = Py.Ok [])
     /\ exists bm25_results l,
          FinalCode.bm25_search self
            (if expand then FinalCode.expand_query query else query)
            (top_k * 2)%Z = Py.Ok bm25_results
          /\ FinalCode.hybrid_search self query top_k expand w f = Py.Ok l
          /\ Forall (fun r => FinalCode.final_semantic_score r = 0
                              /\ FinalCode.hybrid_score r
                                 == (1 - w) * FinalCode.final_bm25_score r) l
          /\ StronglySorted (Ranking.desc FinalCode.final_bm25_score) l
          /\ FinalCode.doc_ids l
             = Py.slice_to top_k
                 (FinalCode.bm25_doc_ids FinalCode.collection_get
                    bm25_results))
  /\
  (forall (config : ArxivSearchEngine.Config)
          (requests : Provider.Requests) (chroma : ArxivSearchEngine.Chroma)
          text n,
     ArxivSearchEngine.embedding_fails text ->
     ArxivSearchEngine.get_embedding text = repeat 0 768
     /\ ArxivSearchEngine.semantic_search text n
        = match ArxivSearchEngine.collection_query (repeat 0 768) n with
          | Py.Ok rows =>
              List.map ArxivSearchEngine.semantic_item_of_row rows
          | Py.Raise _ => []
          end).
Proof.
  split.
  - intros ollama chroma lib self query top_k expand w f
           Hlaw Hwf Hids Hw Hfail.
    split; [intros q n; apply SearchFacts.search_fails; apply Hfail|].
    set (q := if expand then FinalCode.expand_query query else query).
    destruct (SearchFacts.bm25_search_ok self q (top_k * 2) Hlaw Hwf)
      as (B & HB & Hsorted & Hidx).
    pose proof (EngineFacts.bm25_doc_ids_NoDup _ B Hids Hidx) as Hnd.
    destruct (SearchFacts.final_results_lexical_only w B Hw Hnd Hsorted)
      as (Hzero & Hdesc & Hdocs).
    exists B, (FinalCode.fuse top_k w FinalCode.collection_get [] B).
    split; [exact HB|]. split.
    { unfold FinalCode.hybrid_search. fold q.
      rewrite (SearchFacts.search_fails q _ f (Hfail q)). simpl.
      rewrite HB. reflexivity. }
    unfold FinalCode.fuse.
    destruct (PyFacts.slice_to_prefix top_k
                (FinalCode.final_results w FinalCode.collection_get [] B))
      as [rest Hrest].
    split; [|split].
    + rewrite Hrest in Hzero. apply Forall_app in Hzero. apply Hzero.
    + rewrite Hrest in Hdesc.
      apply EngineFacts.sorted_app_l in Hdesc. exact Hdesc.
    + unfold FinalCode.doc_ids in *. rewrite PyFacts.slice_to_map, Hdocs.
      reflexivity.
  - intros config requests chroma text n Hfail.
    assert (ArxivSearchEngine.get_embedding text = repeat 0 768) as He.
    { unfold ArxivSearchEngine.embedding_fails in Hfail.
      unfold ArxivSearchEngine.get_embedding, Provider.get_embedding_field.
      destruct (Provider.post _) as [response|e]; simpl; [|reflexivity].
      destruct (Provider.json response) as [b|e]; simpl; [|reflexivity].
      rewrite Hfail. reflexivity. }
    split; [exact He|].
    unfold ArxivSearchEngine.semantic_search. rewrite He.
    destruct (ArxivSearchEngine.collection_query _ n); reflexivity.
Qed.

(** C4, an instance: every provider call is refused, the query is
    [neural pruning] over the store of three papers. *)
Lemma C4_embedding_failure_is_absorbed_witness :
  exists l,
    @FinalCode.hybrid_search Fixture.ollama_down Fixture.chroma Fixture.lib
      Fixture.engine (Py.lit "neural pruning") 10 true (3 # 5) None
    = Py.Ok l
    /\ FinalCode.doc_ids l = [Py.lit "a"; Py.lit "b"]
    /\ Forall (fun r => FinalCode.final_semantic_score r = 0) l.
Proof.
  assert (FinalCode.engine_wf Fixture.engine) as Hwf by reflexivity.
  assert (0 <= 3 # 5 <= 1) as Hw by (split; discriminate).
  assert (forall text, @FinalCode.embedding_fails Fixture.ollama_down text)
    as Hfail by (intros text; exact I).
  destruct (proj1 C4_embedding_failure_is_absorbed
              Fixture.ollama_down Fixture.chroma Fixture.lib Fixture.engine
              (Py.lit "neural pruning") 10%Z true (3 # 5) None
              FixtureFacts.lib_lawful Hwf FixtureFacts.store_ids_NoDup
              Hw Hfail)
    as (_ & B & l & HB & Hl & Hzero & _ & Hdocs).
  exists l. split; [exact Hl|]. split.
  - rewrite Hdocs.
    assert (B = match @FinalCode.bm25_search Fixture.lib Fixture.engine
                        (Py.lit "neural pruning") 20 with
                | Py.Ok B' => B' | Py.Raise _ => [] end) as ->.
    { change (@FinalCode.expand_query Fixture.ollama_down
                (Py.lit "neural pruning")) with (Py.lit "neural pruning")
        in HB.
      change (10 * 2)%Z with 20%Z in HB. rewrite HB. reflexivity. }
    vm_compute. reflexivity.
  - eapply Forall_impl; [|exact Hzero]. intros r [H _]. exact H.
Defined.

(* ================================================================== *)
(** ** Query expansion *)
(* ================================================================== *)

Module ExpansionFacts.

Lemma final_code_fails_open {ollama : Provider.Ollama} query :
  FinalCode.generation_fails query -> FinalCode.expand_query query = query.
Proof.
  unfold FinalCode.generation_fails, FinalCode.expand_query,
    Provider.get_response_stripped, Provider.no_text.
  destruct (Provider.generate _ _ _) as [b|e]; simpl; [|reflexivity].
  intros [-> | ->]; reflexivity.
Qed.

Lemma backend_fails_open {requests : Provider.Requests} query :
  ArxIV.generation_fails query -> ArxIV.expand_query_with_gemma query = query.
Proof.
  unfold ArxIV.generation_fails, ArxIV.expand_query_with_gemma,
    Provider.get_response_stripped, Provider.no_text.
  destruct (Provider.post _) as [reply|e]; simpl; [|reflexivity].
  destruct (Z.eqb_spec (Provider.status_code reply) 200) as [E|E];
    [|reflexivity].
  intros [H|H]; [contradiction|].
  destruct (Provider.json reply) as [b|e]; simpl; [|reflexivity].
  destruct H as [-> | ->]; reflexivity.
Qed.

Lemma arxiv_fails_open {config : ArxivSearchEngine.Config}
    {requests : Provider.Requests} {lib : Lexical.Lib} query :
  ArxivSearchEngine.generation_fails query ->
  ArxivSearchEngine.expand_query query = query.
Proof.
  unfold ArxivSearchEngine.generation_fails, ArxivSearchEngine.expand_query,
    Provider.get_response_stripped, Provider.no_text.
  destruct (Provider.post _) as [reply|e]; simpl; [|reflexivity].
  destruct (Provider.json reply) as [b|e]; simpl; [|reflexivity].
  intros [-> | ->]; reflexivity.
Qed.

End ExpansionFacts.

(** C5.  In each of the three implementations, whenever the generation
    provider fails (the call raises, as a connection error or a timeout
    does; the status is not 200 where it is tested; the body cannot be
    decoded; the answer has no text), the expansion returns the original
    query.  The expansion is a total function to [str], so it never
    raises, and the caller is not affected: a search with expansion then
    returns what the search without expansion returns. *)
Theorem C5_expansion_fails_open :
  (forall (ollama : Provider.Ollama) query,
     FinalCode.generation_fails query ->
     FinalCode.expand_query query = query)
  /\ (forall (requests : Provider.Requests) query,
        ArxIV.generation_fails query ->
        ArxIV.expand_query_with_gemma query = query)
  /\ (forall (config : ArxivSearchEngine.Config)
             (requests : Provider.Requests) (lib : Lexical.Lib) query,
        ArxivSearchEngine.generation_fails query ->
        ArxivSearchEngine.expand_query query = query)
  /\ (forall (ollama : Provider.Ollama) (chroma : FinalCode.Chroma)
             (lib : Lexical.Lib) self query top_k w f,
        FinalCode.generation_fails query ->
        FinalCode.hybrid_search self query top_k true w f
        = FinalCode.hybrid_search self query top_k false w f)
  /\ (forall (config : ArxivSearchEngine.Config)
             (requests : Provider.Requests)
             (chroma : ArxivSearchEngine.Chroma) (lib : Lexical.Lib)
             self query n_results,
        ArxivSearchEngine.generation_fails query ->
        ArxivSearchEngine.hybrid_search self query n_results true
        = ArxivSearchEngine.hybrid_search self query n_results false).
Proof.
  split; [|split; [|split; [|split]]].
  - intros ollama query. apply ExpansionFacts.final_code_fails_open.
  - intros requests query. apply ExpansionFacts.backend_fails_open.
  - intros config requests lib query. apply ExpansionFacts.arxiv_fails_open.
  - intros ollama chroma lib self query top_k w f H.
    unfold FinalCode.hybrid_search.
    rewrite (ExpansionFacts.final_code_fails_open query H). reflexivity.
  - intros config requests chroma lib self query n H.
    unfold ArxivSearchEngine.hybrid_search.
    rewrite (ExpansionFacts.arxiv_fails_open query H). reflexivity.
Qed.

(** C5, an instance: with every call refused, [deep learning] comes back
    unchanged from each of the three expansions. *)
Lemma C5_expansion_fails_open_witness :
  @FinalCode.expand_query Fixture.ollama_down (Py.lit "deep learning")
  = Py.lit "deep learning"
  /\ @ArxIV.expand_query_with_gemma Fixture.requests_down
       (Py.lit "deep learning")
     = Py.lit "deep learning"
  /\ @ArxivSearchEngine.expand_query Fixture.config Fixture.requests_down
       Fixture.lib (Py.lit "deep learning")
     = Py.lit "deep learning".
Proof.
  destruct C5_expansion_fails_open as (H1 & H2 & H3 & _).
  split; [|split].
  - apply (H1 Fixture.ollama_down). exact I.
  - apply (H2 Fixture.requests_down). exact I.
  - apply (H3 Fixture.config Fixture.requests_down Fixture.lib). exact I.
Defined.

(** C6 fails on final_code: its expansion accepts the answer [dl], which
    is shorter than the query [deep learning]. *)
Lemma C6_final_code_accepts_shorter_expansion :
  @FinalCode.expand_query (Fixture.ollama_saying (Py.lit "dl"))
    (Py.lit "deep learning")
  = Py.lit "dl"
  /\ (Py.len (Py.lit "dl") <= Py.len (Py.lit "deep learning"))%Z
  /\ Py.lit "dl" <> Py.lit "deep learning".
Proof.
  split; [reflexivity|]. split; [vm_compute; discriminate | discriminate].
Qed.

(** C6, as the code has it.  In ArxIV/backend.py, for every query and
    every generated text, the expansion returns the cleaned text when it
    is strictly longer than the query and shorter than 100 characters,
    and the original query in every other case.  In final_code, the
    expansion returns the generated text (stripped, on one line) whenever
    it is not empty, whatever its length, and the original query when it
    is empty. *)
Theorem C6_expansion_acceptance :
  (forall (requests : Provider.Requests) query s,
     ArxIV.generation_says query s ->
     let expanded := ArxIV.clean (Py.strip s) in
     ((Py.len query < Py.len expanded)%Z /\ (Py.len expanded < 100)%Z ->
      ArxIV.expand_query_with_gemma query = expanded)
     /\ (~ ((Py.len query < Py.len expanded)%Z
            /\ (Py.len expanded < 100)%Z) ->
         ArxIV.expand_query_with_gemma query = query))
  /\ (forall (ollama : Provider.Ollama) query s,
        FinalCode.generation_says query s ->
        let expanded := Py.replace_newline_by_space (Py.strip s) in
        (expanded <> [] -> FinalCode.expand_query query = expanded)
        /\ (expanded = [] -> FinalCode.expand_query query = query)).
Proof.
  split.
  - intros requests query s (reply & b & Hp & Hs & Hj & Hr) expanded.
    assert (ArxIV.expand_query_with_gemma query
            = if ArxIV.accept expanded query then expanded else query) as ->.
    { unfold ArxIV.expand_query_with_gemma, Provider.get_response_stripped.
      rewrite Hp. simpl. rewrite Hs, Hj. simpl. rewrite Hr. reflexivity. }
    unfold ArxIV.accept.
    destruct (Z.ltb_spec (Py.len query) (Py.len expanded));
      destruct (Z.ltb_spec (Py.len expanded) 100); simpl;
      split; intros; try reflexivity; try lia; tauto.
  - intros ollama query s (b & Hg & Hr) expanded.
    assert (FinalCode.expand_query query
            = if Py.truthy expanded then expanded else query) as ->.
    { unfold FinalCode.expand_query, Provider.get_response_stripped.
      rewrite Hg. simpl. rewrite Hr. reflexivity. }
    destruct expanded as [|c r]; simpl; split; intros;
      try reflexivity; congruence.
Qed.

(** C6, an instance: a generated text wrapped in a bold label and quotes
    is cleaned and accepted by ArxIV/backend.py; the answer [dl] is
    refused there and accepted by final_code. *)
Lemma C6_expansion_acceptance_witness :
  @ArxIV.expand_query_with_gemma
    (Fixture.requests_saying 200
       (Py.lit "**Requete:** 'deep learning neural networks'"))
    (Py.lit "deep learning")
  = Py.lit "deep learning neural networks"
  /\ @ArxIV.expand_query_with_gemma
       (Fixture.requests_saying 200 (Py.lit "dl")) (Py.lit "deep learning")
     = Py.lit "deep learning"
  /\ @FinalCode.expand_query (Fixture.ollama_saying (Py.lit "dl"))
       (Py.lit "deep learning")
     = Py.lit "dl".
Proof.
  destruct C6_expansion_acceptance as (Ha & Hf).
  split; [|split].
  - apply (Ha (Fixture.requests_saying 200
                 (Py.lit "**Requete:** 'deep learning neural networks'"))
              (Py.lit "deep learning")
              (Py.lit "**Requete:** 'deep learning neural networks'")).
    + do 2 eexists. repeat split.
    + vm_compute. split; reflexivity.
  - apply (Ha (Fixture.requests_saying 200 (Py.lit "dl"))
              (Py.lit "deep learning") (Py.lit "dl")).
    + do 2 eexists. repeat split.
    + vm_compute. intros [H _]. discriminate H.
  - apply (Hf (Fixture.ollama_saying (Py.lit "dl"))
              (Py.lit "deep learning") (Py.lit "dl")).
    + eexists. split; reflexivity.
    + discriminate.
Defined.

(* ================================================================== *)
(** ** The extreme weights *)
(* ================================================================== *)

Module WeightFacts.

Import FinalCode Ranking.

(** When the hybrid score of every ranked item is one of its components,
    the ranked list is in descending order of that component. *)
Lemma ranked_by_component w docs vector_results bm25_results
    (component : final_result -> Q) :
  (forall kv, hybrid_score (finalize w kv) == component (finalize w kv)) ->
  StronglySorted (desc component)
    (final_results w docs vector_results bm25_results).
Proof.
  intros Hc.
  rewrite <- (map_id (final_results w docs vector_results bm25_results)).
  apply EngineFacts.sorted_map with (R := desc hybrid_score);
    [|apply PyFacts.sort_desc_sorted].
  intros a b Ha Hb. apply FusionFacts.final_results_In in Ha, Hb.
  destruct Ha as (ka & _ & ->), Hb as (kb & _ & ->).
  unfold desc. rewrite !Hc. auto.
Qed.

(** Of two candidates, the one with the strictly greater hybrid score is
    ranked first. *)
Lemma greater_hybrid_ranked_before w docs vector_results bm25_results
    k k' sc sc' :
  Py.get k (combined_results docs vector_results bm25_results) = Some sc ->
  Py.get k' (combined_results docs vector_results bm25_results) = Some sc' ->
  hybrid_score (finalize w (k', sc')) < hybrid_score (finalize w (k, sc)) ->
  ranked_before k k' (final_results w docs vector_results bm25_results).
Proof.
  intros G G' Hlt.
  pose proof (FusionFacts.combined_results_well_keyed
                docs vector_results bm25_results) as [_ Hid].
  rewrite Forall_forall in Hid.
  apply PyFacts.get_In in G, G'.
  exists (finalize w (k, sc)), (finalize w (k', sc')).
  split; [apply (Hid _ G)|]. split; [apply (Hid _ G')|].
  apply PyFacts.sorted_greater_before with (key := hybrid_score).
  - apply PyFacts.sort_desc_sorted.
  - apply FusionFacts.final_results_In. eauto.
  - apply FusionFacts.final_results_In. eauto.
  - exact Hlt.
Qed.

End WeightFacts.



(* ================================================================== *)
(** ** The weight is not validated; the filters reach one channel *)
(* ================================================================== *)

(** C9 fails: called with the weight 2, [hybrid_search] raises nothing,
    runs both channels and returns an item whose hybrid score is 2. *)
Lemma C9_weight_two_is_accepted :
  ~ (0 <= 2 <= 1)
  /\ exists l r,
       @FinalCode.hybrid_search Fixture.ollama_embedding_only Fixture.chroma
         Fixture.lib Fixture.engine (Py.lit "pruning") 10 true 2 None
       = Py.Ok l
       /\ In r l
       /\ FinalCode.hybrid_score r == 2
       /\ ~ Ranking.unit_interval (FinalCode.hybrid_score r).
Proof.
  split; [intros [_ H]; apply H; reflexivity|].
  eexists. eexists. split; [vm_compute; reflexivity|].
  split; [left; reflexivity|]. split; [reflexivity|].
  intros [_ H]. apply H. reflexivity.
Qed.

(** C9, as the code has it.  [hybrid_search] does not validate the
    weight: whether it raises does not depend on the weight (an error can
    only come from one of the two channels), and for every weight, in
    range or not, every returned item has the hybrid score
    [w * semantic + (1 - w) * bm25] with both components in [0, 1]. *)
Theorem C9_weight_is_not_validated :
  forall (ollama : Provider.Ollama) (chroma : FinalCode.Chroma)
         (lib : Lexical.Lib) (self : FinalCode.engine) (query : Py.str)
         (top_k : Z) (expand : bool) (f : option FinalCode.filters),
    (forall w w' e,
       FinalCode.hybrid_search self query top_k expand w f = Py.Raise e ->
       FinalCode.hybrid_search self query top_k expand w' f = Py.Raise e)
    /\ (forall w l r,
          FinalCode.hybrid_search self query top_k expand w f = Py.Ok l ->
          In r l ->
          FinalCode.hybrid_score r
            = w * FinalCode.final_semantic_score r
              + (1 - w) * FinalCode.final_bm25_score r
          /\ Ranking.unit_interval (FinalCode.final_semantic_score r)
          /\ Ranking.unit_interval (FinalCode.final_bm25_score r)).
Proof.
  intros ollama chroma lib self query top_k expand f.
  unfold FinalCode.hybrid_search.
  set (q := if expand then FinalCode.expand_query query else query).
  destruct (FinalCode.search q (top_k * 2) f) as [V|e1]; simpl.
  - destruct (FinalCode.bm25_search self q (top_k * 2)) as [B|e2]; simpl.
    + split; [intros w w' e H; discriminate H|].
      intros w l r [= <-] Hr.
      apply FusionFacts.fuse_In in Hr. destruct Hr as (kv & Hkv & ->).
      pose proof (FusionFacts.combined_results_unit
                    FinalCode.collection_get V B) as Hu.
      rewrite Forall_forall in Hu. destruct (Hu _ Hkv) as [Hs Hb].
      simpl. auto.
    + split; [intros w w' e H; exact H | intros w l r H; discriminate H].
  - split; [intros w w' e H; exact H | intros w l r H; discriminate H].
Qed.

(** C9, an instance: the search of the counterexample, at weight 2. *)
Lemma C9_weight_is_not_validated_witness :
  exists l,
    @FinalCode.hybrid_search Fixture.ollama_embedding_only Fixture.chroma
      Fixture.lib Fixture.engine (Py.lit "pruning") 10 true 2 None
    = Py.Ok l
    /\ Forall
         (fun r => FinalCode.hybrid_score r
                   = 2 * FinalCode.final_semantic_score r
                     + (1 - 2) * FinalCode.final_bm25_score r) l.
Proof.
  eexists. split; [vm_compute; reflexivity|].
  apply Forall_forall. intros r Hr.
  eapply (proj2 (C9_weight_is_not_validated Fixture.ollama_embedding_only
                   Fixture.chroma Fixture.lib Fixture.engine
                   (Py.lit "pruning") 10%Z true None) 2);
    [vm_compute; reflexivity | exact Hr].
Defined.

(** C10.  In final_code the filters reach [hybrid_search] only through
    the vector query of the semantic channel: two filter values for which
    [VectorDatabase.search] answers alike give the same result, and every
    document of the lexical channel is among the candidates whatever the
    filters are.  So a filtered search can return a document that does
    not satisfy the filter: over the store of three papers, the search
    for [pruning] restricted to the category [cs.CV] returns paper [a],
    whose category is [cs.LG], next to paper [b], the only one that the
    filtered vector query returned. *)
Theorem C10_filters_reach_the_semantic_channel_only :
  (forall (ollama : Provider.Ollama) (chroma : FinalCode.Chroma)
          (lib : Lexical.Lib) (self : FinalCode.engine) (query : Py.str)
          (top_k : Z) (expand : bool) (w : Q)
          (f f' : option FinalCode.filters),
     let q := if expand then FinalCode.expand_query query else query in
     (FinalCode.search q (top_k * 2) f = FinalCode.search q (top_k * 2) f' ->
      FinalCode.hybrid_search self query top_k expand w f
      = FinalCode.hybrid_search self query top_k expand w f')
     /\ (forall vector_results bm25_results b d,
           FinalCode.search q (top_k * 2) f = Py.Ok vector_results ->
           FinalCode.bm25_search self q (top_k * 2) = Py.Ok bm25_results ->
           In b bm25_results ->
           FinalCode.bm25_doc_id FinalCode.collection_get b = Some d ->
           FinalCode.hybrid_search self query top_k expand w f
           = Py.Ok (Py.slice_to top_k
                      (FinalCode.final_results w FinalCode.collection_get
                         vector_results bm25_results))
           /\ In d (FinalCode.doc_ids
                      (FinalCode.final_results w FinalCode.collection_get
                         vector_results bm25_results))))
  /\
  (let f := Some [(Py.lit "categories", Some (Py.lit "cs.CV"))] in
   let w := @FinalCode.where_clause f in
   w = [(Py.lit "categories", Py.lit "cs.CV")]
   /\ (exists vector_results,
         @FinalCode.search Fixture.ollama_embedding_only Fixture.chroma
           (Py.lit "pruning") 20 f = Py.Ok vector_results
         /\ FinalCode.vector_doc_ids vector_results = [Py.lit "b"]
         /\ Forall (fun h => Fixture.satisfies w (FinalCode.hit_metadata h)
                             = true) vector_results)
   /\ exists l r,
        @FinalCode.hybrid_search Fixture.ollama_embedding_only Fixture.chroma
          Fixture.lib Fixture.engine (Py.lit "pruning") 10 true (3 # 5) f
        = Py.Ok l
        /\ FinalCode.doc_ids l = [Py.lit "b"; Py.lit "a"]
        /\ In r l
        /\ FinalCode.id (FinalCode.final r) = Py.lit "a"
        /\ Fixture.satisfies w (FinalCode.result_metadata (FinalCode.final r))
           = false).
Proof.
  split.
  - intros ollama chroma lib self query top_k expand w f f' q. split.
    + intros H. unfold FinalCode.hybrid_search. fold q. rewrite H.
      reflexivity.
    + intros V B b d HV HB Hb Hd. split.
      * unfold FinalCode.hybrid_search. fold q. rewrite HV. simpl.
        rewrite HB. reflexivity.
      * apply (Permutation_in _
                 (FusionFacts.final_results_doc_ids w
                    FinalCode.collection_get V B)).
        apply FusionFacts.combined_results_keys. right.
        eapply FusionFacts.bm25_doc_id_in; eauto.
  - cbv zeta. split; [reflexivity|]. split.
    + eexists. split; [vm_compute; reflexivity|].
      split; [reflexivity|]. repeat constructor.
    + eexists. eexists. split; [vm_compute; reflexivity|].
      split; [reflexivity|]. split; [right; left; reflexivity|].
      split; reflexivity.
Qed.

(** C10, an instance: the filtered and the unfiltered search of a store
    whose embedding provider is down answer alike, and paper [a] of the
    lexical channel is among the candidates of the filtered search. *)
Lemma C10_filters_reach_the_semantic_channel_only_witness :
  @FinalCode.hybrid_search Fixture.ollama_down Fixture.chroma Fixture.lib
    Fixture.engine (Py.lit "pruning") 10 false (3 # 5)
    (Some [(Py.lit "categories", Some (Py.lit "cs.CV"))])
  = @FinalCode.hybrid_search Fixture.ollama_down Fixture.chroma Fixture.lib
      Fixture.engine (Py.lit "pruning") 10 false (3 # 5) None
  /\ In (Py.lit "a")
       (FinalCode.doc_ids
          (FinalCode.final_results (3 # 5) Fixture.store
             [Fixture.hit_b] [Fixture.pruning_item])).
Proof.
  destruct C10_filters_reach_the_semantic_channel_only as [H _].
  split.
  - apply (proj1 (H Fixture.ollama_down Fixture.chroma Fixture.lib
                    Fixture.engine (Py.lit "pruning") 10%Z false (3 # 5)
                    (Some [(Py.lit "categories", Some (Py.lit "cs.CV"))])
                    None)).
    reflexivity.
  - apply (proj2 (H Fixture.ollama_embedding_only Fixture.chroma Fixture.lib
                    Fixture.engine (Py.lit "pruning") 10%Z false (3 # 5)
                    (Some [(Py.lit "categories", Some (Py.lit "cs.CV"))])
                    None)
             [Fixture.hit_b] [Fixture.pruning_item] Fixture.pruning_item
             (Py.lit "a")).
    + vm_compute. reflexivity.
    + vm_compute. reflexivity.
    + left; reflexivity.
    + reflexivity.
Defined.

(* ================================================================== *)
(** ** final_code: the lexical channel *)
(* ================================================================== *)

Module LexicalChannel.

Import Provider Lexical FinalCode Ranking.

Lemma positive_iff (x : Q) : Py.positive x = true <-> 0 < x.
Proof.
  unfold Py.positive. destruct (Qle_bool x 0) eqn:E; simpl.
  - apply Qle_bool_iff in E. split; [discriminate | lra].
  - split; [intros _|reflexivity].
    destruct (Qlt_le_dec 0 x) as [H|H]; [exact H|].
    apply Qle_bool_iff in H. congruence.
Qed.

Lemma sorted_app_cross {A} (R : A -> A -> Prop) (l1 l2 : list A) a b :
  StronglySorted R (l1 ++ l2) -> In a l1 -> In b l2 -> R a b.
Proof.
  induction l1 as [|x l1 IH]; simpl; intros Hs Ha Hb; [destruct Ha|].
  inversion Hs as [|? ? Hl Hx]; subst. destruct Ha as [->|Ha].
  - rewrite Forall_forall in Hx. apply Hx. apply in_or_app. right. exact Hb.
  - apply IH; assumption.
Qed.

Lemma kept_full scores corpus i b :
  In b (kept scores corpus i) ->
  index b = i
  /\ raw_bm25_score b = nth i scores 0
  /\ bm25_document b = nth i corpus []
  /\ 0 < raw_bm25_score b.
Proof.
  unfold kept. destruct (Py.positive (nth i scores 0)) eqn:E; [|intros []].
  intros [<-|[]]. simpl. repeat split. apply positive_iff. exact E.
Qed.

Lemma kept_positive scores corpus i :
  0 < nth i scores 0 ->
  exists b, kept scores corpus i = [b] /\ index b = i.
Proof.
  intros H. apply positive_iff in H. unfold kept. rewrite H.
  eexists. split; reflexivity.
Qed.

Lemma kept_length scores corpus (idxs : list nat) :
  (List.length (flat_map (kept scores corpus) idxs) <= List.length idxs)%nat.
Proof.
  induction idxs as [|i l IH]; simpl; [lia|].
  rewrite length_app.
  destruct (SearchFacts.kept_cases scores corpus i) as [[b|] ->]; simpl; lia.
Qed.

Lemma slice_to_length {A} (k : Z) (l : list A) :
  (0 <= k)%Z -> (Z.of_nat (List.length (Py.slice_to k l)) <= k)%Z.
Proof.
  intros Hk. unfold Py.slice_to.
  destruct (Z.leb_spec 0 k); [|lia].
  rewrite length_firstn. lia.
Qed.

(** The properties of the list that [bm25_search] returns. *)
Lemma bm25_search_properties :
  forall (lib : Lib) (self : engine) (query : Py.str) (top_k : Z)
         (tokenized_corpus : list (list Py.str)),
    lawful lib -> engine_wf self ->
    bm25 self = Some tokenized_corpus ->
    documents_corpus self <> [] ->
    let scores := get_scores tokenized_corpus (Py.split (lower query)) in
    exists results,
      bm25_search self query top_k = Py.Ok results
      /\ StronglySorted (desc raw_bm25_score) results
      /\ NoDup (List.map index results)
      /\ Forall (fun b =>
                   0 < raw_bm25_score b
                   /\ nth_error scores (index b) = Some (raw_bm25_score b)
                   /\ nth_error (documents_corpus self) (index b)
                      = Some (bm25_document b)) results
      /\ ((0 <= top_k)%Z -> (Z.of_nat (List.length results) <= top_k)%Z)
      /\ (forall i s,
            nth_error scores i = Some s -> 0 < s ->
            ~ In i (List.map index results) ->
            forall b, In b results -> s <= raw_bm25_score b)
      /\ ((Z.of_nat (List.length (documents_corpus self)) <= top_k)%Z ->
          forall i s,
            nth_error scores i = Some s -> 0 < s ->
            In i (List.map index results)).
Proof.
  intros lib self query top_k corpus [Hsort Hlen] Hwf Hbm Hdocs scores.
  unfold engine_wf in Hwf. rewrite Hbm in Hwf.
  assert (List.length scores = List.length (documents_corpus self)) as Hn.
  { unfold scores. rewrite Hlen. exact Hwf. }
  destruct (Hsort scores) as [Hperm Hasc].
  destruct (PyFacts.slice_to_prefix top_k (rev (argsort scores)))
    as [rest Hrest].
  set (idxs := Py.slice_to top_k (rev (argsort scores))) in *.
  assert (forall i, In i (idxs ++ rest) <-> (i < List.length scores)%nat)
    as Hall.
  { intros i. rewrite <- Hrest, <- in_rev. split; intros H.
    - apply (Permutation_in _ Hperm) in H. apply in_seq in H. lia.
    - apply (Permutation_in _ (Permutation_sym Hperm)).
      apply in_seq. lia. }
  assert (StronglySorted (fun i j => nth j scores 0 <= nth i scores 0)
            (idxs ++ rest)) as Hdesc.
  { rewrite <- Hrest. apply (EngineFacts.sorted_rev _ _ Hasc). }
  assert (NoDup idxs) as Hnd.
  { apply NoDup_app_remove_r with (l' := rest). rewrite <- Hrest.
    apply NoDup_rev. apply (Permutation_NoDup (Permutation_sym Hperm)).
    apply seq_NoDup. }
  exists (flat_map (kept scores (documents_corpus self)) idxs).
  assert (bm25_search self query top_k
          = Py.Ok (flat_map (kept scores (documents_corpus self)) idxs))
    as Heq.
  { unfold bm25_search. rewrite Hbm.
    destruct (documents_corpus self) as [|d0 ds] eqn:Ed; [congruence|].
    simpl Py.truthy. cbv iota. simpl negb. cbv iota.
    apply SearchFacts.collect_bm25_ok.
    apply Forall_forall. intros i Hi.
    assert (i < List.length scores)%nat as H
      by (apply Hall; apply in_or_app; left; exact Hi).
    split; [exact H | rewrite <- Hn; exact H]. }
  split; [exact Heq|].
  split.
  { apply EngineFacts.sorted_flat_map
      with (R := fun i j => nth j scores 0 <= nth i scores 0);
      [apply SearchFacts.kept_cases | |
       apply (EngineFacts.sorted_app_l _ _ _ Hdesc)].
    intros i j b b' Hij Hb Hb'. apply kept_full in Hb, Hb'.
    destruct Hb as (_ & Hb & _), Hb' as (_ & Hb' & _).
    unfold desc. rewrite Hb, Hb'. exact Hij. }
  split; [apply SearchFacts.kept_indices; exact Hnd|].
  split.
  { apply Forall_forall. intros b Hb. apply in_flat_map in Hb.
    destruct Hb as (i & Hi & Hb). apply kept_full in Hb.
    destruct Hb as (Hidx & Hraw & Hdoc & Hpos).
    assert (i < List.length scores)%nat as H
      by (apply Hall; apply in_or_app; left; exact Hi).
    split; [exact Hpos|]. rewrite Hidx, Hraw, Hdoc. split.
    - apply nth_error_nth'. exact H.
    - apply nth_error_nth'. rewrite <- Hn. exact H. }
  split.
  { intros Hk. pose proof (slice_to_length top_k (rev (argsort scores)) Hk).
    pose proof (kept_length scores (documents_corpus self) idxs).
    fold idxs in H. lia. }
  assert (forall i, In i idxs -> 0 < nth i scores 0 ->
            In i (List.map index
                    (flat_map (kept scores (documents_corpus self)) idxs)))
    as Hin.
  { intros i Hi Hp.
    destruct (kept_positive scores (documents_corpus self) i Hp)
      as (b & Hk & Hb).
    apply in_map_iff. exists b. split; [exact Hb|].
    apply in_flat_map. exists i. split; [exact Hi|].
    rewrite Hk. left. reflexivity. }
  split.
  - intros i s Hi Hs Hout b Hb.
    assert (nth i scores 0 = s) as Hsi by (apply nth_error_nth; exact Hi).
    assert (In i (idxs ++ rest)) as Hi'.
    { apply Hall. apply nth_error_Some. congruence. }
    apply in_app_or in Hi'. destruct Hi' as [Hi'|Hi'].
    + elim Hout. apply Hin; [exact Hi' | rewrite Hsi; exact Hs].
    + apply in_flat_map in Hb. destruct Hb as (j & Hj & Hb).
      apply kept_full in Hb. destruct Hb as (_ & Hraw & _).
      rewrite Hraw, <- Hsi.
      apply (sorted_app_cross _ idxs rest j i Hdesc Hj Hi').
  - intros Hk i s Hi Hs.
    assert (nth i scores 0 = s) as Hsi by (apply nth_error_nth; exact Hi).
    apply Hin; [|rewrite Hsi; exact Hs].
    assert (idxs = rev (argsort scores)) as ->.
    { apply PyFacts.slice_to_all. rewrite length_rev.
      rewrite (Permutation_length Hperm), length_seq, Hn. exact Hk. }
    apply in_rev. rewrite rev_involutive.
    apply (Permutation_in _ (Permutation_sym Hperm)). apply in_seq.
    assert (i < List.length scores)%nat
      by (apply nth_error_Some; congruence).
    lia.
Qed.

End LexicalChannel.

(** X1.  [bm25_search].  With an index over a non-empty corpus and lawful
    libraries, the lexical channel never raises.  Its items are in
    descending order of score, have distinct indices and a strictly
    positive score, and carry the score and the document stored at their
    index.  There are at most [top_k] of them.  They are the best ones: a
    document of positive score that is left out scores no more than any
    returned item, and nothing of positive score is left out when
    [top_k] covers the corpus. *)
Theorem bm25_search_returns_the_best :
  forall (lib : Lexical.Lib) (self : FinalCode.engine) (query : Py.str) (top_k : Z)
         (tokenized_corpus : list (list Py.str)),
    Lexical.lawful lib -> FinalCode.engine_wf self ->
    FinalCode.bm25 self = Some tokenized_corpus ->
    FinalCode.documents_corpus self <> [] ->
    let scores := Lexical.get_scores tokenized_corpus (Py.split (Lexical.lower query)) in
    exists results,
      FinalCode.bm25_search self query top_k = Py.Ok results
      /\ StronglySorted (Ranking.desc FinalCode.raw_bm25_score) results
      /\ NoDup (List.map FinalCode.index results)
      /\ Forall (fun b =>
                   0 < FinalCode.raw_bm25_score b
                   /\ nth_error scores (FinalCode.index b) = Some (FinalCode.raw_bm25_score b)
                   /\ nth_error (FinalCode.documents_corpus self) (FinalCode.index b)
                      = Some (FinalCode.bm25_document b)) results
      /\ ((0 <= top_k)%Z -> (Z.of_nat (List.length results) <= top_k)%Z)
      /\ (forall i s,
            nth_error scores i = Some s -> 0 < s ->
            ~ In i (List.map FinalCode.index results) ->
            forall b, In b results -> s <= FinalCode.raw_bm25_score b)
      /\ ((Z.of_nat (List.length (FinalCode.documents_corpus self)) <= top_k)%Z ->
          forall i s,
            nth_error scores i = Some s -> 0 < s ->
            In i (List.map FinalCode.index results)).
Proof. exact LexicalChannel.bm25_search_properties. Qed.

(** X1, an instance: the two papers that share a word with [neural pruning],
    cut at one item. *)
Lemma bm25_search_returns_the_best_witness :
  exists results,
    @FinalCode.bm25_search Fixture.lib Fixture.engine
      (Py.lit "neural pruning") 1 = Py.Ok results
    /\ (Z.of_nat (List.length results) <= 1)%Z
    /\ Forall (fun b => 0 < FinalCode.raw_bm25_score b) results.
Proof.
  assert (FinalCode.documents_corpus Fixture.engine <> []) as Hne
    by discriminate.
  destruct (bm25_search_returns_the_best
              Fixture.lib Fixture.engine (Py.lit "neural pruning") 1%Z
              (List.map (fun doc => Py.split (Fixture.ascii_lower doc))
                 (FinalCode.documents Fixture.store))
              FixtureFacts.lib_lawful eq_refl eq_refl Hne)
    as (results & Heq & _ & _ & Hall & Hlen & _).
  exists results. split; [exact Heq|]. split; [apply Hlen; discriminate|].
  eapply Forall_impl; [|exact Hall]. intros b H. apply H.
Defined.

(* ================================================================== *)
(** ** final_code: the engine and its index *)
(* ================================================================== *)

Module IndexFacts.

Import Provider Lexical FinalCode.

Lemma split_from_tokens (s cur : Py.str) :
  Forall (fun c => Py.isspace c = false) cur ->
  Forall Text.token (Py.split_from cur s).
Proof.
  revert cur. induction s as [|c r IH]; intros cur Hcur; simpl.
  - destruct cur as [|x cur']; simpl; [constructor|].
    constructor; [|constructor]. split.
    + intros H. apply (f_equal (@List.length N)) in H.
      rewrite length_app in H. simpl in H. lia.
    + apply Forall_rev in Hcur. exact Hcur.
  - destruct (Py.isspace c) eqn:Ec.
    + destruct cur as [|x cur']; simpl; [apply IH; constructor|].
      constructor; [|apply IH; constructor]. split.
      * intros H. apply (f_equal (@List.length N)) in H.
        rewrite length_app in H. simpl in H. lia.
      * apply Forall_rev in Hcur. exact Hcur.
    + apply IH. constructor; assumption.
Qed.

Lemma split_tokens (s : Py.str) : Forall Text.token (Py.split s).
Proof. apply split_from_tokens. constructor. Qed.

End IndexFacts.

(** The facts about the engine built over a store. *)
Lemma build_bm25_index_facts :
  forall (chroma : FinalCode.Chroma) (lib : Lexical.Lib),
    let self := FinalCode._build_bm25_index in
    FinalCode.engine_wf self
    /\ FinalCode.documents_corpus self
       = FinalCode.documents FinalCode.collection_get
    /\ (forall tokenized_corpus,
          FinalCode.bm25 self = Some tokenized_corpus ->
          List.length tokenized_corpus
          = List.length (FinalCode.documents FinalCode.collection_get)
          /\ Forall (Forall Text.token) tokenized_corpus)
    /\ (FinalCode.documents FinalCode.collection_get = [] ->
        FinalCode.bm25 self = None
        /\ forall query top_k,
             FinalCode.bm25_search self query top_k = Py.Ok []).
Proof.
  intros chroma lib self. subst self.
  unfold FinalCode._build_bm25_index, FinalCode.engine_wf.
  destruct (FinalCode.documents FinalCode.collection_get) as [|d ds] eqn:E;
    simpl.
  - split; [exact I|]. split; [reflexivity|]. split; [discriminate|].
    intros _. split; [reflexivity|]. intros query top_k. reflexivity.
  - split; [rewrite length_map; reflexivity|]. split; [reflexivity|].
    split; [|discriminate].
    intros corpus [= <-]. split; [simpl; rewrite length_map; reflexivity|].
    constructor; [apply IndexFacts.split_tokens|].
    apply Forall_forall. intros toks H. apply in_map_iff in H.
    destruct H as (doc & <- & _). apply IndexFacts.split_tokens.
Qed.

(** X2.  [_build_bm25_index].  The engine built over a store is well formed:
    its corpus is the list of stored documents and its index holds one
    list of tokens per document, every token being non-empty and free of
    whitespace.  Over an empty store no index is built and the lexical
    channel answers every query with the empty list. *)
Theorem build_bm25_index_tokenizes_the_store :
  forall (chroma : FinalCode.Chroma) (lib : Lexical.Lib),
    let self := FinalCode._build_bm25_index in
    FinalCode.engine_wf self
    /\ FinalCode.documents_corpus self
       = FinalCode.documents FinalCode.collection_get
    /\ (forall tokenized_corpus,
          FinalCode.bm25 self = Some tokenized_corpus ->
          List.length tokenized_corpus
          = List.length (FinalCode.documents FinalCode.collection_get)
          /\ Forall (Forall Text.token) tokenized_corpus)
    /\ (FinalCode.documents FinalCode.collection_get = [] ->
        FinalCode.bm25 self = None
        /\ forall query top_k,
             FinalCode.bm25_search self query top_k = Py.Ok []).
Proof. exact build_bm25_index_facts. Qed.

(** X2, an instance: the store of three papers, and the empty store. *)
Lemma build_bm25_index_tokenizes_the_store_witness :
  (exists tokenized_corpus,
     FinalCode.bm25 Fixture.engine = Some tokenized_corpus
     /\ List.length tokenized_corpus = 3%nat
     /\ Forall (Forall Text.token) tokenized_corpus)
  /\ @FinalCode.bm25_search Fixture.lib
       (@FinalCode._build_bm25_index
          {| FinalCode.collection_get :=
               {| FinalCode.ids := []; FinalCode.documents := [];
                  FinalCode.metadatas := [] |};
             FinalCode.collection_query := Fixture.query |} Fixture.lib)
       (Py.lit "pruning") 10
     = Py.Ok [].
Proof.
  split.
  - destruct (build_bm25_index_tokenizes_the_store Fixture.chroma Fixture.lib)
      as (_ & _ & H & _).
    eexists. split; [reflexivity|]. apply (H _ eq_refl).
  - destruct (build_bm25_index_tokenizes_the_store
                {| FinalCode.collection_get :=
                     {| FinalCode.ids := []; FinalCode.documents := [];
                        FinalCode.metadatas := [] |};
                   FinalCode.collection_query := Fixture.query |}
                Fixture.lib) as (_ & _ & _ & H).
    apply (H eq_refl).
Defined.

(** X3.  [hybrid_search], shape of the answer.  Whenever the search returns,
    the list holds at most [top_k] items (none when [top_k] is 0), no
    document id twice, and no item stands before an item of greater
    hybrid score. *)
Theorem hybrid_search_result_shape :
  forall (ollama : Provider.Ollama) (chroma : FinalCode.Chroma)
         (lib : Lexical.Lib) (self : FinalCode.engine) (query : Py.str)
         (top_k : Z) (expand : bool) (w : Q)
         (f : option FinalCode.filters) l,
    FinalCode.hybrid_search self query top_k expand w f = Py.Ok l ->
    ((0 <= top_k)%Z -> (Z.of_nat (List.length l) <= top_k)%Z)
    /\ NoDup (FinalCode.doc_ids l)
    /\ StronglySorted (Ranking.desc FinalCode.hybrid_score) l.
Proof.
  intros ollama chroma lib self query top_k expand w f l.
  unfold FinalCode.hybrid_search.
  destruct (FinalCode.search _ _ f) as [V|e]; simpl; [|discriminate].
  destruct (FinalCode.bm25_search self _ _) as [B|e]; simpl; [|discriminate].
  intros [= <-]. unfold FinalCode.fuse.
  destruct (PyFacts.slice_to_prefix top_k
              (FinalCode.final_results w FinalCode.collection_get V B))
    as [rest Hrest].
  split; [apply LexicalChannel.slice_to_length|]. split.
  - pose proof (FusionFacts.final_results_doc_ids w
                  FinalCode.collection_get V B) as Hperm.
    pose proof (FusionFacts.combined_results_well_keyed
                  FinalCode.collection_get V B) as [Hnd _].
    apply (Permutation_NoDup Hperm) in Hnd.
    rewrite Hrest in Hnd. unfold FinalCode.doc_ids in Hnd.
    rewrite map_app in Hnd. apply NoDup_app_remove_r in Hnd. exact Hnd.
  - pose proof (PyFacts.sort_desc_sorted _ FinalCode.hybrid_score
                  (List.map (FinalCode.finalize w)
                     (FinalCode.combined_results FinalCode.collection_get
                        V B))) as Hs.
    fold (FinalCode.final_results w FinalCode.collection_get V B) in Hs.
    rewrite Hrest in Hs. apply EngineFacts.sorted_app_l in Hs. exact Hs.
Qed.

(** X3, an instance: the search for [neural pruning] cut at two items. *)
Lemma hybrid_search_result_shape_witness :
  exists l,
    @FinalCode.hybrid_search Fixture.ollama_embedding_only Fixture.chroma
      Fixture.lib Fixture.engine (Py.lit "neural pruning") 2 true (3 # 5) None
    = Py.Ok l
    /\ (Z.of_nat (List.length l) <= 2)%Z
    /\ NoDup (FinalCode.doc_ids l).
Proof.
  destruct (@FinalCode.hybrid_search Fixture.ollama_embedding_only
              Fixture.chroma Fixture.lib Fixture.engine
              (Py.lit "neural pruning") 2 true (3 # 5) None)
    as [l|e] eqn:E; [|vm_compute in E; discriminate E].
  exists l. split; [reflexivity|].
  destruct (hybrid_search_result_shape Fixture.ollama_embedding_only
              Fixture.chroma Fixture.lib Fixture.engine
              (Py.lit "neural pruning") 2%Z true (3 # 5) None l E)
    as (Hlen & Hnd & _).
  split; [apply Hlen; discriminate | exact Hnd].
Defined.



(** X5.  [_build_bm25_index] and [hybrid_search] together.  When the engine
    was built over the store as it is now, the store holding one id per
    document, every item of the lexical channel resolves to the id
    stored at its index, carries the document stored at that index, and
    is a candidate of the fusion. *)
Theorem fresh_engine_items_resolve :
  forall (chroma : FinalCode.Chroma)
         (lib : Lexical.Lib) (query : Py.str) (top_k : Z) (w : Q)
         vector_results bm25_results b,
    Lexical.lawful lib ->
    List.length (FinalCode.ids FinalCode.collection_get)
    = List.length (FinalCode.documents FinalCode.collection_get) ->
    FinalCode.bm25_search FinalCode._build_bm25_index query top_k
    = Py.Ok bm25_results ->
    In b bm25_results ->
    exists d,
      nth_error (FinalCode.ids FinalCode.collection_get) (FinalCode.index b)
      = Some d
      /\ nth_error (FinalCode.documents FinalCode.collection_get)
           (FinalCode.index b)
         = Some (FinalCode.bm25_document b)
      /\ In d (FinalCode.doc_ids
                 (FinalCode.final_results w FinalCode.collection_get
                    vector_results bm25_results)).
Proof.
  intros chroma lib query top_k w V B b Hlaw Hpar HB Hb.
  destruct (build_bm25_index_facts chroma lib)
    as (Hwf & Hdocs & _ & Hempty).
  destruct (FinalCode.bm25 FinalCode._build_bm25_index) as [corpus|] eqn:Ebm.
  - destruct (FinalCode.documents FinalCode.collection_get) as [|d0 ds] eqn:Ed.
    + destruct (Hempty eq_refl) as [Hn _]. congruence.
    + assert (FinalCode.documents_corpus FinalCode._build_bm25_index <> [])
        as Hne by (rewrite Hdocs; discriminate).
      destruct (LexicalChannel.bm25_search_properties lib
                  FinalCode._build_bm25_index query top_k corpus
                  Hlaw Hwf Ebm Hne) as (B' & HB' & _ & _ & Hall & _).
      rewrite HB in HB'. injection HB' as <-.
      rewrite Forall_forall in Hall.
      destruct (Hall b Hb) as (_ & _ & Hdoc). rewrite Hdocs in Hdoc.
      assert (FinalCode.index b
              < List.length (FinalCode.ids FinalCode.collection_get))%nat
        as Hlt.
      { rewrite Hpar. apply nth_error_Some. congruence. }
      destruct (nth_error (FinalCode.ids FinalCode.collection_get)
                  (FinalCode.index b)) as [d|] eqn:Eid;
        [|apply nth_error_None in Eid; lia].
      exists d. split; [reflexivity|]. split; [exact Hdoc|].
      apply (Permutation_in _
               (FusionFacts.final_results_doc_ids w
                  FinalCode.collection_get V B)).
      apply FusionFacts.combined_results_keys. right.
      apply (FusionFacts.bm25_doc_id_in _ B b d Hb Eid).
  - unfold FinalCode.bm25_search in HB. rewrite Ebm in HB.
    injection HB as <-. destruct Hb.
Qed.

(** X5, an instance: the store of three papers and the query [pruning]. *)
Lemma fresh_engine_items_resolve_witness :
  exists d,
    nth_error (FinalCode.ids Fixture.store) 0 = Some d
    /\ nth_error (FinalCode.documents Fixture.store) 0
       = Some (Py.lit "Neural Network Pruning")
    /\ In d (FinalCode.doc_ids
               (FinalCode.final_results (3 # 5) Fixture.store
                  [Fixture.hit_b] [Fixture.pruning_item])).
Proof.
  apply (fresh_engine_items_resolve
           Fixture.chroma Fixture.lib (Py.lit "pruning") 20%Z (3 # 5)
           [Fixture.hit_b] [Fixture.pruning_item] Fixture.pruning_item
           FixtureFacts.lib_lawful eq_refl).
  - vm_compute. reflexivity.
  - left. reflexivity.
Defined.

(* ================================================================== *)
(** ** database.py: the filters of [VectorDatabase.search] *)
(* ================================================================== *)

Module FilterFacts.

Import FinalCode.

#[local] Arguments filter_value_used : simpl never.

(** One iteration of the loop of lines 72-74. *)
Local Abbreviation step :=
  (fun (w : Py.dict Py.str) (kv : Py.str * option Py.str) =>
     match snd kv with
     | Some value =>
         if filter_value_used (Some value)
         then Py.set (fst kv) value w else w
     | None => w
     end).

Lemma used_iff (v : Py.str) :
  filter_value_used (Some v) = true <-> v <> [] /\ v <> Py.lit "Tous".
Proof.
  unfold filter_value_used. rewrite andb_true_iff, negb_true_iff.
  rewrite PyFacts.eqb_neq. destruct v; simpl; split.
  - intros [H _]. discriminate H.
  - intros [H _]. contradiction H. reflexivity.
  - intros [_ H]. split; [discriminate|exact H].
  - intros [_ H]. split; [reflexivity|exact H].
Qed.

Lemma unset_not_used (o : option Py.str) :
  o = None \/ o = Some [] \/ o = Some (Py.lit "Tous") ->
  filter_value_used o = false.
Proof. intros [->|[->| ->]]; reflexivity. Qed.

Lemma fold_step_get (items : filters) :
  NoDup (Py.keys items) ->
  forall acc k v,
    (forall k', In k' (Py.keys items) -> Py.get k' acc = None) ->
    (Py.get k (fold_left step items acc) = Some v <->
     Py.get k acc = Some v
     \/ (In (k, Some v) items /\ filter_value_used (Some v) = true)).
Proof.
  induction items as [|[k0 o] r IH]; intros Hnd acc k v Hfresh; simpl.
  - split; [intros H; left; exact H|intros [H|[[] _]]; exact H].
  - simpl in Hnd. apply NoDup_cons_iff in Hnd. destruct Hnd as [Hk0 Hnd].
    assert (forall k', In k' (Py.keys r) -> Py.get k' (step acc (k0, o)) = None)
      as Hfresh'.
    { intros k' Hk'. simpl.
      assert (k' <> k0) as Hne by (intros ->; exact (Hk0 Hk')).
      assert (Py.get k' acc = None) as Hacc
        by (apply Hfresh; right; exact Hk').
      destruct o as [v0|]; [|exact Hacc].
      destruct (filter_value_used (Some v0)); [|exact Hacc].
      rewrite PyFacts.get_set_other by exact Hne. exact Hacc. }
    rewrite (IH Hnd (step acc (k0, o)) k v Hfresh'). clear IH Hfresh'.
    assert (Py.get k0 acc = None) as Hk0acc
      by (apply Hfresh; left; reflexivity).
    simpl. split.
    + intros [H|[Hin Hu]]; [|right; split; [right; exact Hin|exact Hu]].
      destruct o as [v0|]; [|left; exact H].
      destruct (filter_value_used (Some v0)) eqn:Eu; [|left; exact H].
      destruct (Py.eqb k k0) eqn:Ek.
      * apply PyFacts.eqb_eq in Ek. subst k.
        rewrite PyFacts.get_set_same in H. injection H as ->.
        right. split; [left; reflexivity|exact Eu].
      * apply PyFacts.eqb_neq in Ek.
        rewrite PyFacts.get_set_other in H by exact Ek. left. exact H.
    + intros [H|[[Heq|Hin] Hu]].
      * left. destruct o as [v0|]; [|exact H].
        destruct (filter_value_used (Some v0)); [|exact H].
        assert (k <> k0) as Hne by (intros ->; congruence).
        rewrite PyFacts.get_set_other by exact Hne. exact H.
      * injection Heq as -> ->. left. rewrite Hu.
        apply PyFacts.get_set_same.
      * right. split; assumption.
Qed.

Lemma fold_step_unset (items : filters) :
  Forall (fun kv => filter_value_used (snd kv) = false) items ->
  forall acc, fold_left step items acc = acc.
Proof.
  induction 1 as [|[k o] r Hu _ IH]; intros acc; simpl; [reflexivity|].
  simpl in Hu. destruct o as [v|]; [rewrite Hu|]; apply IH.
Qed.

End FilterFacts.

(** X6.  [VectorDatabase.search], lines 70-79.  The [where] clause holds
    exactly the filters whose value is set: a text that is neither empty
    nor [Tous].  A filter dict without any set value makes the same
    search as no filter at all. *)
Theorem search_uses_the_set_filters_only :
  forall (ollama : Provider.Ollama) (chroma : FinalCode.Chroma)
         (items : FinalCode.filters),
    NoDup (Py.keys items) ->
    (forall k v,
       Py.get k (FinalCode.where_clause (Some items)) = Some v <->
       In (k, Some v) items /\ v <> [] /\ v <> Py.lit "Tous")
    /\ (Forall (fun kv => snd kv = None \/ snd kv = Some []
                          \/ snd kv = Some (Py.lit "Tous")) items ->
        forall query n,
          FinalCode.search query n (Some items)
          = FinalCode.search query n None).
Proof.
  intros ollama chroma items Hnd. split.
  - intros k v. unfold FinalCode.where_clause.
    rewrite (FilterFacts.fold_step_get items Hnd [] k v (fun _ _ => eq_refl)).
    rewrite <- FilterFacts.used_iff. simpl. split.
    + intros [H|H]; [discriminate H|exact H].
    + intros H. right. exact H.
  - intros Hun query n. unfold FinalCode.search, FinalCode.where_clause.
    rewrite FilterFacts.fold_step_unset; [reflexivity|].
    apply (Forall_impl _ (fun kv => FilterFacts.unset_not_used (snd kv))).
    exact Hun.
Qed.

(** X6, an instance: a filter dict as the interface sends it when nothing is
    selected. *)
Lemma search_uses_the_set_filters_only_witness :
  @FinalCode.search Fixture.ollama_embedding_only Fixture.chroma
    (Py.lit "pruning") 20
    (Some [(Py.lit "categories", Some (Py.lit "Tous"));
           (Py.lit "authors", Some []);
           (Py.lit "published", None)])
  = @FinalCode.search Fixture.ollama_embedding_only Fixture.chroma
      (Py.lit "pruning") 20 None.
Proof.
  apply (search_uses_the_set_filters_only Fixture.ollama_embedding_only
           Fixture.chroma
           [(Py.lit "categories", Some (Py.lit "Tous"));
            (Py.lit "authors", Some []);
            (Py.lit "published", None)]).
  - repeat constructor; simpl; intuition discriminate.
  - apply Forall_cons; [right; right; reflexivity|].
    apply Forall_cons; [right; left; reflexivity|].
    apply Forall_cons; [left; reflexivity|apply Forall_nil].
Defined.

(* ================================================================== *)
(** ** search_engine.py: the extremes of a channel *)
(* ================================================================== *)

Module ExtremeFacts.

Import FinalCode.

Lemma normalize_best (channel : list Q) (s : Q) :
  In s channel -> (forall x, In x channel -> x <= s) ->
  (exists x, In x channel /\ x < s) ->
  normalize channel s == 1.
Proof.
  intros Hs Hmax (x & Hx & Hlt).
  destruct channel as [|s0 ss]; [destruct Hs|]. unfold normalize.
  pose proof (Hmax _ (PyFacts.max_In ss s0)) as H1.
  pose proof (PyFacts.max_ge s0 ss s Hs) as H2.
  pose proof (PyFacts.min_le s0 ss x Hx) as H3.
  assert (Py.max s0 ss == s) as Hmx by (apply Qle_antisym; assumption).
  unfold range.
  destruct (Qeq_bool (Py.max s0 ss) (Py.min s0 ss)) eqn:E; simpl.
  - apply Qeq_bool_iff in E. lra.
  - rewrite Hmx. field. lra.
Qed.

Lemma normalize_worst (channel : list Q) (s : Q) :
  In s channel -> (forall x, In x channel -> s <= x) ->
  normalize channel s == 0.
Proof.
  intros Hs Hmin.
  destruct channel as [|s0 ss]; [destruct Hs|]. unfold normalize.
  pose proof (Hmin _ (PyFacts.min_In ss s0)) as H1.
  pose proof (PyFacts.min_le s0 ss s Hs) as H2.
  assert (Py.min s0 ss == s) as Hmn by (apply Qle_antisym; assumption).
  assert (s - Py.min s0 ss == 0) as Hz by lra.
  unfold Qdiv. rewrite Hz. ring.
Qed.

Lemma best_channel {A} (key : A -> Q) (l : list A) (x : A) :
  Channel.best key l x ->
  normalize (List.map key l) (key x) == 1.
Proof.
  intros (Hin & Hmax & y & Hy & Hlt). apply normalize_best.
  - apply in_map. exact Hin.
  - intros q Hq. apply in_map_iff in Hq. destruct Hq as (z & <- & Hz).
    apply Hmax. exact Hz.
  - exists (key y). split; [apply in_map; exact Hy|exact Hlt].
Qed.

Lemma worst_channel {A} (key : A -> Q) (l : list A) (x : A) :
  Channel.worst key l x ->
  normalize (List.map key l) (key x) == 0.
Proof.
  intros (Hin & Hmin). apply normalize_worst.
  - apply in_map. exact Hin.
  - intros q Hq. apply in_map_iff in Hq. destruct Hq as (z & <- & Hz).
    apply Hmin. exact Hz.
Qed.

(** The returned item of a key of [combined_results]. *)
Lemma returned_item w docs vector_results bm25_results k sc :
  Py.get k (combined_results docs vector_results bm25_results) = Some sc ->
  exists f,
    In f (final_results w docs vector_results bm25_results)
    /\ id (final f) = k
    /\ final_semantic_score f = semantic_score sc
    /\ final_bm25_score f = bm25_score sc
    /\ hybrid_score f
       = w * semantic_score sc + (1 - w) * bm25_score sc.
Proof.
  intros Hget. apply PyFacts.get_In in Hget.
  exists (finalize w (k, sc)). split.
  - apply FusionFacts.final_results_In. exists (k, sc). split;
      [exact Hget|reflexivity].
  - split; [|repeat split].
    destruct (FusionFacts.combined_results_well_keyed docs vector_results
                bm25_results) as [_ Hall].
    rewrite Forall_forall in Hall. exact (Hall _ Hget).
Qed.

End ExtremeFacts.

(** X7.  [hybrid_search], lines 86-126.  In a channel that holds two
    different raw scores, the document of the greatest raw score gets
    the channel score 1; the document of the smallest raw score of a
    channel gets the channel score 0, as a document that the channel did
    not find.  A document that is the best of both channels has the
    hybrid score 1 for every weight. *)
Theorem channel_extremes_score_one_and_zero :
  forall (w : Q) (docs : FinalCode.all_docs)
         (vector_results : list FinalCode.hit)
         (bm25_results : list FinalCode.bm25_item),
    NoDup (FinalCode.vector_doc_ids vector_results) ->
    NoDup (FinalCode.bm25_doc_ids docs bm25_results) ->
    let ranked :=
      FinalCode.final_results w docs vector_results bm25_results in
    (forall h,
       Channel.best FinalCode.hit_score vector_results h ->
       exists f, In f ranked
                 /\ FinalCode.id (FinalCode.final f) = FinalCode.hit_id h
                 /\ FinalCode.final_semantic_score f == 1)
    /\ (forall h,
          Channel.worst FinalCode.hit_score vector_results h ->
          exists f, In f ranked
                    /\ FinalCode.id (FinalCode.final f) = FinalCode.hit_id h
                    /\ FinalCode.final_semantic_score f == 0)
    /\ (forall b d,
          FinalCode.bm25_doc_id docs b = Some d ->
          Channel.best FinalCode.raw_bm25_score bm25_results b ->
          exists f, In f ranked
                    /\ FinalCode.id (FinalCode.final f) = d
                    /\ FinalCode.final_bm25_score f == 1)
    /\ (forall b d,
          FinalCode.bm25_doc_id docs b = Some d ->
          Channel.worst FinalCode.raw_bm25_score bm25_results b ->
          exists f, In f ranked
                    /\ FinalCode.id (FinalCode.final f) = d
                    /\ FinalCode.final_bm25_score f == 0)
    /\ (forall h b,
          Channel.best FinalCode.hit_score vector_results h ->
          Channel.best FinalCode.raw_bm25_score bm25_results b ->
          FinalCode.bm25_doc_id docs b = Some (FinalCode.hit_id h) ->
          exists f, In f ranked
                    /\ FinalCode.id (FinalCode.final f) = FinalCode.hit_id h
                    /\ FinalCode.hybrid_score f == 1).
Proof.
  intros w docs V B HV HB ranked. subst ranked.
  assert (forall h, In h V ->
            exists f, In f (FinalCode.final_results w docs V B)
              /\ FinalCode.id (FinalCode.final f) = FinalCode.hit_id h
              /\ FinalCode.final_semantic_score f
                 = FinalCode.normalize (List.map FinalCode.hit_score V)
                     (FinalCode.hit_score h)) as Hsem.
  { intros h Hh.
    destruct (FusionFacts.combined_semantic_value docs V B h HV Hh)
      as (sc & Hget & Hval).
    destruct (ExtremeFacts.returned_item w docs V B _ sc Hget)
      as (f & Hf & Hid & Hs & _).
    exists f. split; [exact Hf|]. split; [exact Hid|]. congruence. }
  assert (forall b d, In b B -> FinalCode.bm25_doc_id docs b = Some d ->
            exists f, In f (FinalCode.final_results w docs V B)
              /\ FinalCode.id (FinalCode.final f) = d
              /\ FinalCode.final_bm25_score f
                 = FinalCode.normalize
                     (List.map FinalCode.raw_bm25_score B)
                     (FinalCode.raw_bm25_score b)) as Hlex.
  { intros b d Hb Hd.
    destruct (FusionFacts.combined_bm25_value docs V B b d HB Hb Hd)
      as (sc & Hget & Hval).
    destruct (ExtremeFacts.returned_item w docs V B _ sc Hget)
      as (f & Hf & Hid & _ & Hs & _).
    exists f. split; [exact Hf|]. split; [exact Hid|]. congruence. }
  split; [|split; [|split; [|split]]].
  - intros h Hbest. destruct (Hsem h (proj1 Hbest)) as (f & Hf & Hid & Hs).
    exists f. split; [exact Hf|]. split; [exact Hid|]. rewrite Hs.
    apply ExtremeFacts.best_channel. exact Hbest.
  - intros h Hworst. destruct (Hsem h (proj1 Hworst)) as (f & Hf & Hid & Hs).
    exists f. split; [exact Hf|]. split; [exact Hid|]. rewrite Hs.
    apply ExtremeFacts.worst_channel. exact Hworst.
  - intros b d Hd Hbest.
    destruct (Hlex b d (proj1 Hbest) Hd) as (f & Hf & Hid & Hs).
    exists f. split; [exact Hf|]. split; [exact Hid|]. rewrite Hs.
    apply ExtremeFacts.best_channel. exact Hbest.
  - intros b d Hd Hworst.
    destruct (Hlex b d (proj1 Hworst) Hd) as (f & Hf & Hid & Hs).
    exists f. split; [exact Hf|]. split; [exact Hid|]. rewrite Hs.
    apply ExtremeFacts.worst_channel. exact Hworst.
  - intros h b Hh Hb Hd.
    destruct (FusionFacts.combined_semantic_value docs V B h HV (proj1 Hh))
      as (sc & Hget & Hval).
    destruct (FusionFacts.combined_bm25_value docs V B b _ HB (proj1 Hb) Hd)
      as (sc' & Hget' & Hval').
    rewrite Hget in Hget'. injection Hget' as <-.
    destruct (ExtremeFacts.returned_item w docs V B _ sc Hget)
      as (f & Hf & Hid & _ & _ & Hhy).
    exists f. split; [exact Hf|]. split; [exact Hid|].
    rewrite Hhy, Hval, Hval'.
    rewrite (ExtremeFacts.best_channel _ _ _ Hh).
    rewrite (ExtremeFacts.best_channel _ _ _ Hb). ring.
Qed.

(** X7, an instance: paper [a] is the nearest hit and has the greatest
    lexical score. *)
Lemma channel_extremes_score_one_and_zero_witness :
  exists f,
    In f (FinalCode.final_results (3 # 5) Fixture.store
            Fixture.vector_results Fixture.bm25_results)
    /\ FinalCode.id (FinalCode.final f) = Py.lit "a"
    /\ FinalCode.hybrid_score f == 1.
Proof.
  assert (NoDup (FinalCode.vector_doc_ids Fixture.vector_results)) as HV.
  { repeat constructor; simpl; intuition discriminate. }
  assert (NoDup (FinalCode.bm25_doc_ids Fixture.store Fixture.bm25_results))
    as HB.
  { repeat constructor; simpl; intuition discriminate. }
  destruct (channel_extremes_score_one_and_zero (3 # 5) Fixture.store
              Fixture.vector_results Fixture.bm25_results HV HB)
    as (_ & _ & _ & _ & H).
  apply (H Fixture.hit_a Fixture.item_a).
  - split; [left; reflexivity|]. split.
    + intros y [<-|[<-|[]]]; vm_compute; discriminate.
    + exists Fixture.hit_b. split; [right; left; reflexivity|reflexivity].
  - split; [left; reflexivity|]. split.
    + intros y [<-|[<-|[]]]; vm_compute; discriminate.
    + exists Fixture.item_c. split; [right; left; reflexivity|reflexivity].
  - reflexivity.
Defined.

(* ================================================================== *)
(** ** The text returned by the query expansions *)
(* ================================================================== *)

Module TextFacts.

Lemma lstrip_suffix (s : Py.str) :
  exists w, s = w ++ Py.lstrip s
            /\ Forall (fun c => Py.isspace c = true) w.
Proof.
  induction s as [|c r (w & Hw & Hall)]; simpl.
  - exists []. split; [reflexivity|constructor].
  - destruct (Py.isspace c) eqn:Ec.
    + exists (c :: w). split; [simpl; congruence|].
      constructor; assumption.
    + exists []. split; [reflexivity|constructor].
Qed.

Lemma lstrip_head (s : Py.str) (c : N) (r : Py.str) :
  Py.lstrip s = c :: r -> Py.isspace c = false.
Proof.
  induction s as [|x s IH]; simpl; [discriminate|].
  destruct (Py.isspace x) eqn:Ex; [exact IH|].
  intros [= <- _]. exact Ex.
Qed.

Lemma rstrip_prefix (s : Py.str) :
  exists w, s = Py.rstrip s ++ w
            /\ Forall (fun c => Py.isspace c = true) w.
Proof.
  unfold Py.rstrip. destruct (lstrip_suffix (rev s)) as (w & Hw & Hall).
  exists (rev w). split.
  - rewrite <- rev_app_distr, <- Hw, rev_involutive. reflexivity.
  - apply Forall_rev. exact Hall.
Qed.

Lemma rstrip_last (s r : Py.str) (c : N) :
  Py.rstrip s = r ++ [c] -> Py.isspace c = false.
Proof.
  unfold Py.rstrip. intros H. apply (f_equal (@rev N)) in H.
  rewrite rev_involutive, rev_app_distr in H. simpl in H.
  exact (lstrip_head _ _ _ H).
Qed.

Lemma strip_trimmed (s : Py.str) : Text.trimmed (Py.strip s).
Proof.
  unfold Py.strip. split.
  - intros c r H.
    destruct (rstrip_prefix (Py.lstrip s)) as (w & Hw & _).
    rewrite H in Hw. simpl in Hw. exact (lstrip_head _ _ _ Hw).
  - intros r c H. exact (rstrip_last _ _ _ H).
Qed.

Lemma strip_In (s : Py.str) (c : N) : In c (Py.strip s) -> In c s.
Proof.
  unfold Py.strip. intros H.
  destruct (rstrip_prefix (Py.lstrip s)) as (w & Hw & _).
  destruct (lstrip_suffix s) as (w' & Hw' & _).
  rewrite Hw'. apply in_or_app. right.
  rewrite Hw. apply in_or_app. left. exact H.
Qed.

Lemma strip_length (s : Py.str) :
  (List.length (Py.strip s) <= List.length s)%nat.
Proof.
  unfold Py.strip.
  destruct (rstrip_prefix (Py.lstrip s)) as (w & Hw & _).
  destruct (lstrip_suffix s) as (w' & Hw' & _).
  apply (f_equal (@List.length N)) in Hw, Hw'.
  rewrite length_app in Hw, Hw'. lia.
Qed.

Lemma first_line_single (s : Py.str) : Text.single_line (Py.first_line s).
Proof.
  unfold Text.single_line. induction s as [|c r IH]; simpl; [tauto|].
  destruct (N.eqb c Py.newline) eqn:E; simpl; [tauto|].
  apply N.eqb_neq in E. intros [H|H]; [congruence|exact (IH H)].
Qed.

Lemma replace_single (s : Py.str) :
  Text.single_line (Py.replace_newline_by_space s).
Proof.
  unfold Text.single_line, Py.replace_newline_by_space.
  intros H. apply in_map_iff in H. destruct H as (c & Hc & _).
  destruct (N.eqb c Py.newline) eqn:E; [discriminate Hc|].
  apply N.eqb_neq in E. congruence.
Qed.

Lemma replace_keeps_visible (c : N) :
  Py.isspace c = false ->
  (if N.eqb c Py.newline then Py.space else c) = c.
Proof.
  intros H. destruct (N.eqb c Py.newline) eqn:E; [|reflexivity].
  apply N.eqb_eq in E. subst c. discriminate H.
Qed.

Lemma replace_trimmed (s : Py.str) :
  Text.trimmed s -> Text.trimmed (Py.replace_newline_by_space s).
Proof.
  unfold Py.replace_newline_by_space. intros [Hh Hl]. split.
  - intros c r H. destruct s as [|c0 r0]; [discriminate H|].
    simpl in H. injection H as <- _.
    pose proof (Hh c0 r0 eq_refl) as Hc.
    rewrite (replace_keeps_visible _ Hc). exact Hc.
  - intros r c H.
    destruct (exists_last (l:=s)) as (r0 & c0 & ->).
    { intros ->. destruct r; discriminate H. }
    rewrite map_app in H. simpl in H.
    apply app_inj_tail in H. destruct H as [_ <-].
    pose proof (Hl r0 c0 eq_refl) as Hc.
    rewrite (replace_keeps_visible _ Hc). exact Hc.
Qed.

End TextFacts.

(** X8.  [HybridSearchEngine.expand_query].  Whatever the generation service
    does, the search query is the original one, or a non-empty text of a
    single line that neither starts nor ends with whitespace. *)
Theorem expand_query_returns_one_trimmed_line :
  forall (ollama : Provider.Ollama) (query : Py.str),
    let expanded := FinalCode.expand_query query in
    expanded = query
    \/ (expanded <> [] /\ Text.single_line expanded
        /\ Text.trimmed expanded).
Proof.
  intros ollama query. cbv zeta. unfold FinalCode.expand_query.
  destruct (Provider.generate _ _ _) as [b|e]; simpl; [|left; reflexivity].
  unfold Provider.get_response_stripped.
  destruct (Provider.response b) as [| |s]; simpl;
    [left; reflexivity|left; reflexivity|].
  destruct (Py.replace_newline_by_space (Py.strip s)) as [|c r] eqn:E;
    simpl; [left; reflexivity|].
  right. split; [discriminate|]. rewrite <- E. split.
  - apply TextFacts.replace_single.
  - apply TextFacts.replace_trimmed, TextFacts.strip_trimmed.
Qed.

(** X9.  [expand_query_with_gemma].  Whatever the generation service does,
    the search query is the original one, or a text of a single line
    that neither starts nor ends with whitespace, longer than the
    original and shorter than 100 characters. *)
Theorem backend_expansion_is_longer_and_bounded :
  forall (requests : Provider.Requests) (query : Py.str),
    let expanded := ArxIV.expand_query_with_gemma query in
    expanded = query
    \/ ((Py.len query < Py.len expanded < 100)%Z
        /\ Text.single_line expanded /\ Text.trimmed expanded).
Proof.
  intros requests query. cbv zeta. unfold ArxIV.expand_query_with_gemma.
  destruct (Provider.post _) as [reply|e]; simpl; [|left; reflexivity].
  destruct (Provider.status_code reply =? 200)%Z; simpl;
    [|left; reflexivity].
  destruct (Provider.json reply) as [b|e]; simpl; [|left; reflexivity].
  unfold Provider.get_response_stripped.
  destruct (Provider.response b) as [| |s]; simpl;
    [left; reflexivity|left; reflexivity|].
  destruct (ArxIV.accept (ArxIV.clean (Py.strip s)) query) eqn:E;
    [|left; reflexivity].
  right. unfold ArxIV.accept in E. apply andb_true_iff in E.
  destruct E as [E1 E2]. apply Z.ltb_lt in E1, E2.
  split; [split; assumption|]. unfold ArxIV.clean. split.
  - intros H. apply TextFacts.strip_In in H.
    exact (TextFacts.first_line_single _ H).
  - apply TextFacts.strip_trimmed.
Qed.

(* ================================================================== *)
(** ** arxiv-search-engine: the lexical channel *)
(* ================================================================== *)

Module ArxivLexicalFacts.

Import Lexical ArxivSearchEngine ArxivIndex Ranking.

Lemma slice_last_suffix {A} (k : Z) (l : list A) :
  exists pre, l = pre ++ Py.slice_last k l.
Proof.
  unfold Py.slice_last. destruct (0 <? k)%Z.
  - exists (firstn (List.length l - Z.to_nat k) l).
    symmetry. apply firstn_skipn.
  - exists (firstn (Z.to_nat (- k)) l). symmetry. apply firstn_skipn.
Qed.

Lemma slice_last_length {A} (k : Z) (l : list A) :
  (0 < k)%Z -> (Z.of_nat (List.length (Py.slice_last k l)) <= k)%Z.
Proof.
  intros Hk. unfold Py.slice_last.
  destruct (Z.ltb_spec 0 k); [|lia]. rewrite length_skipn. lia.
Qed.

Lemma slice_last_all {A} (k : Z) (l : list A) :
  k = 0%Z \/ (Z.of_nat (List.length l) <= k)%Z -> Py.slice_last k l = l.
Proof.
  unfold Py.slice_last. intros [->|Hk]; [reflexivity|].
  destruct (Z.ltb_spec 0 k).
  - replace (List.length l - Z.to_nat k)%nat with 0%nat by lia. reflexivity.
  - destruct l; [destruct (Z.to_nat (- k)); reflexivity|].
    simpl List.length in Hk. lia.
Qed.

Lemma sorted_app_r {A} (R : A -> A -> Prop) (l1 l2 : list A) :
  StronglySorted R (l1 ++ l2) -> StronglySorted R l2.
Proof.
  induction l1 as [|x l1 IH]; simpl; intros H; [exact H|].
  inversion H; subst. apply IH. assumption.
Qed.

Lemma collect_lexical_ok (self : engine) (scores : list Q)
    (idxs : list nat) :
  Forall (fun i => (i < List.length scores)%nat
                   /\ (i < List.length (ids self))%nat
                   /\ (i < List.length (documents self))%nat
                   /\ (i < List.length (metadatas self))%nat) idxs ->
  collect_lexical self scores idxs
  = Py.Ok (flat_map (kept self scores) idxs).
Proof.
  induction 1 as [|i l (H1 & H2 & H3 & H4) _ IH]; simpl; [reflexivity|].
  unfold Py.getitem, kept, item_at.
  rewrite (nth_error_nth' scores 0 H1). simpl.
  destruct (Py.positive (nth i scores 0)); [|exact IH].
  rewrite (nth_error_nth' (ids self) [] H2). simpl.
  rewrite (nth_error_nth' (documents self) [] H3). simpl.
  rewrite (nth_error_nth' (metadatas self) [] H4). simpl.
  rewrite IH. reflexivity.
Qed.

Lemma kept_spec self scores i r :
  In r (kept self scores i) <->
  r = item_at self scores i /\ 0 < nth i scores 0.
Proof.
  unfold kept. rewrite <- LexicalChannel.positive_iff.
  destruct (Py.positive (nth i scores 0)); simpl.
  - split; [intros [<-|[]]; split; reflexivity|intros [-> _]; left; reflexivity].
  - split; [intros []|intros [_ H]; discriminate H].
Qed.

Lemma kept_count self scores (idxs : list nat) :
  (List.length (flat_map (kept self scores) idxs) <= List.length idxs)%nat.
Proof.
  induction idxs as [|i l IH]; simpl; [lia|].
  rewrite length_app. unfold kept at 1.
  destruct (Py.positive (nth i scores 0)); simpl; lia.
Qed.

(** The properties of the list that [lexical_search] returns. *)
Lemma lexical_search_properties :
  forall (lib : Lib) (self : engine) (query : Py.str) (n_results : Z)
         (tokenized_docs : list (list Py.str)),
    lawful lib -> aligned self -> bm25 self = Some tokenized_docs ->
    let bm25_scores :=
      get_scores tokenized_docs (Py.split (lower query)) in
    let results := lexical_search self query n_results in
    StronglySorted (desc lex_lexical_score) results
    /\ Forall (fun r =>
                 0 < lex_bm25_score r
                 /\ exists idx,
                      (idx < List.length (documents self))%nat
                      /\ r = item_at self bm25_scores idx) results
    /\ ((0 < n_results)%Z ->
        (Z.of_nat (List.length results) <= n_results)%Z)
    /\ (forall idx,
          (idx < List.length (documents self))%nat ->
          0 < nth idx bm25_scores 0 ->
          In (item_at self bm25_scores idx) results
          \/ forall r, In r results ->
               nth idx bm25_scores 0 <= lex_bm25_score r)
    /\ (n_results = 0%Z
        \/ (Z.of_nat (List.length (documents self)) <= n_results)%Z ->
        forall idx,
          (idx < List.length (documents self))%nat ->
          0 < nth idx bm25_scores 0 ->
          In (item_at self bm25_scores idx) results).
Proof.
  intros lib self query n corpus [Hsort Hlen] (Hids & Hmetas & Hidx) Hbm
    scores results.
  rewrite Hbm in Hidx.
  assert (List.length scores = List.length (documents self)) as Hn.
  { unfold scores. rewrite Hlen. exact Hidx. }
  destruct (Hsort scores) as [Hperm Hasc].
  destruct (slice_last_suffix n (argsort scores)) as [pre Hpre].
  set (idxs := rev (Py.slice_last n (argsort scores))) in *.
  assert (rev (argsort scores) = idxs ++ rev pre) as Hrest.
  { unfold idxs. rewrite <- rev_app_distr, <- Hpre. reflexivity. }
  assert (forall i, In i (idxs ++ rev pre) <-> (i < List.length scores)%nat)
    as Hall.
  { intros i. rewrite <- Hrest, <- in_rev. split; intros H.
    - apply (Permutation_in _ Hperm) in H. apply in_seq in H. lia.
    - apply (Permutation_in _ (Permutation_sym Hperm)).
      apply in_seq. lia. }
  assert (StronglySorted (fun i j => nth j scores 0 <= nth i scores 0)
            (idxs ++ rev pre)) as Hdesc.
  { rewrite <- Hrest. apply (EngineFacts.sorted_rev _ _ Hasc). }
  assert (results = flat_map (kept self scores) idxs) as Heq.
  { unfold results, lexical_search. rewrite Hbm. fold scores. fold idxs.
    rewrite collect_lexical_ok; [reflexivity|].
    apply Forall_forall. intros i Hi.
    assert (i < List.length scores)%nat as H
      by (apply Hall; apply in_or_app; left; exact Hi).
    lia. }
  rewrite Heq. clear Heq results.
  assert (forall i, In i idxs -> 0 < nth i scores 0 ->
            In (item_at self scores i) (flat_map (kept self scores) idxs))
    as Hin.
  { intros i Hi Hp. apply in_flat_map. exists i. split; [exact Hi|].
    apply kept_spec. split; [reflexivity|exact Hp]. }
  split; [|split; [|split; [|split]]].
  - apply EngineFacts.sorted_flat_map
      with (R := fun i j => nth j scores 0 <= nth i scores 0);
      [| |apply (EngineFacts.sorted_app_l _ _ _ Hdesc)].
    + intros i. unfold kept.
      destruct (Py.positive (nth i scores 0));
        [eexists (Some _)|exists None]; reflexivity.
    + intros i j b b' Hij Hb Hb'. apply kept_spec in Hb, Hb'.
      destruct Hb as [-> _], Hb' as [-> _]. unfold desc. simpl. exact Hij.
  - apply Forall_forall. intros r Hr. apply in_flat_map in Hr.
    destruct Hr as (i & Hi & Hr). apply kept_spec in Hr.
    destruct Hr as [-> Hp]. split; [exact Hp|].
    exists i. split; [|reflexivity]. rewrite <- Hn. apply Hall.
    apply in_or_app. left. exact Hi.
  - intros Hk. pose proof (slice_last_length n (argsort scores) Hk) as H1.
    pose proof (kept_count self scores idxs) as H2.
    unfold idxs in H2 at 2. rewrite length_rev in H2. lia.
  - intros i Hi Hp.
    assert (In i (idxs ++ rev pre)) as Hi' by (apply Hall; lia).
    apply in_app_or in Hi'. destruct Hi' as [Hi'|Hi'].
    + left. apply Hin; assumption.
    + right. intros r Hr. apply in_flat_map in Hr.
      destruct Hr as (j & Hj & Hr). apply kept_spec in Hr.
      destruct Hr as [-> _]. simpl.
      apply (LexicalChannel.sorted_app_cross _ idxs (rev pre) j i
               Hdesc Hj Hi').
  - intros Hk i Hi Hp. apply Hin; [|exact Hp].
    unfold idxs. rewrite slice_last_all.
    + rewrite <- in_rev. apply (Permutation_in _ (Permutation_sym Hperm)).
      apply in_seq. lia.
    + destruct Hk as [Hk|Hk]; [left; exact Hk|right].
      rewrite (Permutation_length Hperm), length_seq, Hn. exact Hk.
Qed.

End ArxivLexicalFacts.

(** X10.  [SearchEngine.lexical_search].  Over an engine whose lists are
    parallel, with lawful libraries, the lexical channel returns items
    of positive score only, each built from one index of the store, in
    descending order of score.  A positive number of results bounds the
    length of the list, and a document of positive score that is left
    out scores no more than any returned one.  With 0 as the number of
    results, the slice [-0:] keeps every index: all the documents of
    positive score are returned. *)
Theorem lexical_search_returns_the_best :
  forall (lib : Lexical.Lib) (self : ArxivSearchEngine.engine)
         (query : Py.str) (n_results : Z)
         (tokenized_docs : list (list Py.str)),
    Lexical.lawful lib -> ArxivIndex.aligned self ->
    ArxivSearchEngine.bm25 self = Some tokenized_docs ->
    let bm25_scores :=
      Lexical.get_scores tokenized_docs (Py.split (Lexical.lower query)) in
    let results := ArxivSearchEngine.lexical_search self query n_results in
    StronglySorted (Ranking.desc ArxivSearchEngine.lex_lexical_score) results
    /\ Forall (fun r =>
                 0 < ArxivSearchEngine.lex_bm25_score r
                 /\ exists idx,
                      (idx < List.length (ArxivSearchEngine.documents self))%nat
                      /\ r = ArxivIndex.item_at self bm25_scores idx) results
    /\ ((0 < n_results)%Z ->
        (Z.of_nat (List.length results) <= n_results)%Z)
    /\ (forall idx,
          (idx < List.length (ArxivSearchEngine.documents self))%nat ->
          0 < nth idx bm25_scores 0 ->
          In (ArxivIndex.item_at self bm25_scores idx) results
          \/ forall r, In r results ->
               nth idx bm25_scores 0 <= ArxivSearchEngine.lex_bm25_score r)
    /\ (n_results = 0%Z
        \/ (Z.of_nat (List.length (ArxivSearchEngine.documents self))
            <= n_results)%Z ->
        forall idx,
          (idx < List.length (ArxivSearchEngine.documents self))%nat ->
          0 < nth idx bm25_scores 0 ->
          In (ArxivIndex.item_at self bm25_scores idx) results).
Proof. exact ArxivLexicalFacts.lexical_search_properties. Qed.

(** X10, an instance: asked for 0 results, the lexical channel returns the
    two papers that hold the word [neural]. *)
Lemma lexical_search_returns_the_best_witness :
  List.length
    (@ArxivSearchEngine.lexical_search Fixture.lib Fixture.arxiv_engine
       (Py.lit "neural") 0) = 2%nat
  /\ In (ArxivIndex.item_at Fixture.arxiv_engine
           (Fixture.overlap_scores
              (List.map (fun doc => Py.split (Fixture.ascii_lower doc))
                 (FinalCode.documents Fixture.store))
              (Py.split (Fixture.ascii_lower (Py.lit "neural")))) 1)
       (@ArxivSearchEngine.lexical_search Fixture.lib Fixture.arxiv_engine
          (Py.lit "neural") 0).
Proof.
  split; [vm_compute; reflexivity|].
  destruct (lexical_search_returns_the_best Fixture.lib Fixture.arxiv_engine
              (Py.lit "neural") 0%Z
              (List.map (fun doc => Py.split (Fixture.ascii_lower doc))
                 (FinalCode.documents Fixture.store))
              FixtureFacts.lib_lawful
              (conj eq_refl (conj eq_refl eq_refl)) eq_refl)
    as (_ & _ & _ & _ & H).
  apply (H (or_introl eq_refl) 1%nat).
  - simpl. lia.
  - vm_compute. reflexivity.
Defined.

(* ================================================================== *)
(** ** arxiv-search-engine: the index, the expansion and the fusion *)
(* ================================================================== *)

Module ArxivEngineFacts.

Import Lexical ArxivSearchEngine ArxivIndex.

Lemma split_from_token (t cur rest : Py.str) :
  Forall (fun c => Py.isspace c = false) t ->
  Py.split_from cur (t ++ rest) = Py.split_from (rev t ++ cur) rest.
Proof.
  revert cur. induction t as [|c t IH]; intros cur Ht; [reflexivity|].
  inversion Ht as [|? ? Hc Ht']; subst. simpl. rewrite Hc.
  rewrite (IH _ Ht'). rewrite <- app_assoc. reflexivity.
Qed.

Lemma truthy_rev (t : Py.str) : t <> [] -> Py.truthy (rev t) = true.
Proof.
  intros Hne. destruct (rev t) as [|x r] eqn:E; [|reflexivity].
  apply (f_equal (@rev N)) in E. rewrite rev_involutive in E.
  contradiction.
Qed.

Lemma split_token (t : Py.str) : Text.token t -> Py.split t = [t].
Proof.
  intros [Hne Ht]. unfold Py.split.
  rewrite <- (app_nil_r t) at 1. rewrite (split_from_token _ _ _ Ht).
  rewrite app_nil_r. cbn [Py.split_from].
  rewrite (truthy_rev _ Hne), rev_involutive. reflexivity.
Qed.

Lemma split_join (l : list Py.str) :
  Forall Text.token l -> Py.split (Py.join_space l) = l.
Proof.
  induction 1 as [|t l Ht Hl IH]; [reflexivity|].
  destruct l as [|t' l']; [apply split_token; exact Ht|].
  change (Py.join_space (t :: t' :: l'))
    with (t ++ Py.space :: Py.join_space (t' :: l')).
  destruct Ht as [Hne Ht]. unfold Py.split in *.
  rewrite (split_from_token _ _ _ Ht). rewrite app_nil_r.
  cbn [Py.split_from]. change (Py.isspace Py.space) with true. cbv iota.
  rewrite (truthy_rev _ Hne), rev_involutive. f_equal. exact IH.
Qed.

Lemma dedup_In (l : list Py.str) (t : Py.str) :
  In t (Fixture.dedup l) <-> In t l.
Proof.
  induction l as [|x r IH]; simpl; [tauto|].
  destruct (existsb (Py.eqb x) r) eqn:E; simpl.
  - rewrite IH. split; [intros H; right; exact H|].
    intros [<-|H]; [|exact H].
    apply existsb_exists in E. destruct E as (y & Hy & Heq).
    apply PyFacts.eqb_eq in Heq. subst y. exact Hy.
  - rewrite IH. tauto.
Qed.

Lemma dedup_NoDup (l : list Py.str) : NoDup (Fixture.dedup l).
Proof.
  induction l as [|x r IH]; simpl; [constructor|].
  destruct (existsb (Py.eqb x) r) eqn:E; [exact IH|].
  constructor; [|exact IH]. rewrite dedup_In. intros Hin.
  assert (existsb (Py.eqb x) r = true) as H; [|congruence].
  apply existsb_exists. exists x. split; [exact Hin|apply PyFacts.eqb_refl].
Qed.

Lemma fixture_words_lawful : words_lawful Fixture.lib.
Proof.
  split.
  - intros s. apply IndexFacts.split_tokens.
  - intros l. split; [apply dedup_NoDup|]. intros t. apply dedup_In.
Qed.

Lemma lex_score_monotone (x y : Q) : x <= y -> lex_score x <= lex_score y.
Proof.
  intros Hxy. pose proof (ArxivFacts.lex_score_unit y) as [Hy0 _].
  unfold lex_score in *.
  destruct (Py.positive x) eqn:Ex; [|exact Hy0].
  apply LexicalChannel.positive_iff in Ex.
  assert (Py.positive y = true) as Ey
    by (apply LexicalChannel.positive_iff; lra).
  rewrite Ey.
  destruct (Qle_bool (x / 10) 1) eqn:E1, (Qle_bool (y / 10) 1) eqn:E2.
  - apply Qmult_le_compat_r; [exact Hxy|]. discriminate.
  - apply Qle_bool_iff in E1. exact E1.
  - apply Qle_bool_iff in E2.
    assert (~ x / 10 <= 1) as H.
    { intros H. apply Qle_bool_iff in H. congruence. }
    elim H. apply Qle_trans with (y / 10); [|exact E2].
    apply Qmult_le_compat_r; [exact Hxy|]. discriminate.
  - apply Qle_refl.
Qed.

Lemma lex_score_saturated (x : Q) : 10 <= x -> lex_score x == 1.
Proof.
  intros Hx. unfold lex_score.
  assert (Py.positive x = true) as Ex
    by (apply LexicalChannel.positive_iff; lra).
  rewrite Ex. destruct (Qle_bool (x / 10) 1) eqn:E; [|reflexivity].
  apply Qle_bool_iff in E. apply Qle_antisym; [exact E|].
  apply Qle_shift_div_l; lra.
Qed.

End ArxivEngineFacts.

(** X11.  [SearchEngine._init_bm25].  When the store returns parallel lists,
    the engine is aligned.  Either an index was built, and then the
    engine holds the lists of the store and one list of tokens per
    document; or none was, and then the three lists are empty and the
    lexical channel answers every query with the empty list. *)
Theorem init_bm25_builds_an_aligned_engine :
  forall (store : ArxivIndex.Store) (lib : Lexical.Lib),
    (forall results,
       ArxivIndex.collection_get = Py.Ok results ->
       List.length (ArxivIndex.get_ids results)
       = List.length (ArxivIndex.get_documents results)
       /\ List.length (ArxivIndex.get_metadatas results)
          = List.length (ArxivIndex.get_documents results)) ->
    let self := ArxivIndex._init_bm25 in
    ArxivIndex.aligned self
    /\ (forall tokenized_docs,
          ArxivSearchEngine.bm25 self = Some tokenized_docs ->
          exists results,
            ArxivIndex.collection_get = Py.Ok results
            /\ ArxivSearchEngine.ids self = ArxivIndex.get_ids results
            /\ ArxivSearchEngine.documents self
               = ArxivIndex.get_documents results
            /\ ArxivSearchEngine.metadatas self
               = ArxivIndex.get_metadatas results
            /\ tokenized_docs
               = List.map (fun doc => Py.split (Lexical.lower doc))
                   (ArxivIndex.get_documents results)
            /\ Forall (Forall Text.token) tokenized_docs)
    /\ (ArxivSearchEngine.bm25 self = None ->
        ArxivSearchEngine.ids self = []
        /\ ArxivSearchEngine.documents self = []
        /\ ArxivSearchEngine.metadatas self = []
        /\ forall query n_results,
             ArxivSearchEngine.lexical_search self query n_results = []).
Proof.
  intros store lib Hpar self. subst self.
  unfold ArxivIndex._init_bm25, ArxivIndex.BM25Okapi, ArxivIndex.aligned.
  destruct ArxivIndex.collection_get as [results|e] eqn:Eget; simpl.
  - destruct (ArxivIndex.index_error _) as [e|] eqn:Eidx; simpl.
    + split; [auto|]. split; [discriminate|]. intros _. auto.
    + destruct (Hpar results eq_refl) as [H1 H2].
      split; [rewrite length_map; auto|]. split; [|discriminate].
      intros corpus [= <-]. exists results.
      repeat (split; [reflexivity|]).
      apply Forall_forall. intros toks H. apply in_map_iff in H.
      destruct H as (doc & <- & _). apply IndexFacts.split_tokens.
  - split; [auto|]. split; [discriminate|]. intros _. auto.
Qed.

(** X11, an instance: the store of three papers, and the empty store, on
    which the constructor of the index raises. *)
Lemma init_bm25_builds_an_aligned_engine_witness :
  ArxivIndex.aligned (@ArxivIndex._init_bm25 ArxivWorld.store Fixture.lib)
  /\ forall query n_results,
       @ArxivSearchEngine.lexical_search Fixture.lib
         (@ArxivIndex._init_bm25 ArxivWorld.empty_store Fixture.lib)
         query n_results = [].
Proof.
  split.
  - apply (init_bm25_builds_an_aligned_engine ArxivWorld.store Fixture.lib).
    intros results [= <-]. split; reflexivity.
  - apply (init_bm25_builds_an_aligned_engine ArxivWorld.empty_store
             Fixture.lib).
    + intros results [= <-]. split; reflexivity.
    + reflexivity.
Defined.

(** X12.  [SearchEngine.expand_query].  When the generation service answers
    with a text, the expanded query is the list of its terms joined by
    single spaces, no term occurs twice, and the terms are exactly the
    words of the lower-cased query and those of the lower-cased answer:
    no word of the query is lost. *)
Theorem arxiv_expansion_keeps_the_query_terms :
  forall (config : ArxivSearchEngine.Config) (requests : Provider.Requests)
         (lib : Lexical.Lib) (query s : Py.str),
    ArxivIndex.words_lawful lib ->
    ArxivIndex.generation_says query s ->
    let expanded := ArxivSearchEngine.expand_query query in
    let terms := Py.split expanded in
    expanded = Py.join_space terms
    /\ NoDup terms
    /\ forall t,
         In t terms <->
         In t (Lexical.findall_words (Lexical.lower query))
         \/ In t (Lexical.findall_words (Lexical.lower (Py.strip s))).
Proof.
  intros config requests lib query s [Hwords Hset]
    (reply & b & Hpost & Hjson & Hresp) expanded terms.
  assert (expanded
          = Py.join_space
              (Lexical.list_of_set
                 (Lexical.findall_words (Lexical.lower query)
                  ++ Lexical.findall_words (Lexical.lower (Py.strip s)))))
    as Hexp.
  { unfold expanded, ArxivSearchEngine.expand_query.
    rewrite Hpost. simpl. rewrite Hjson. simpl.
    unfold Provider.get_response_stripped. rewrite Hresp. reflexivity. }
  destruct (Hset (Lexical.findall_words (Lexical.lower query)
                  ++ Lexical.findall_words (Lexical.lower (Py.strip s))))
    as [Hnd Hin].
  assert (terms
          = Lexical.list_of_set
              (Lexical.findall_words (Lexical.lower query)
               ++ Lexical.findall_words (Lexical.lower (Py.strip s))))
    as Hterms.
  { unfold terms. rewrite Hexp. apply ArxivEngineFacts.split_join.
    apply Forall_forall. intros t Ht. apply Hin in Ht.
    apply in_app_or in Ht.
    destruct Ht as [Ht|Ht];
      [pose proof (Hwords (Lexical.lower query)) as H
      |pose proof (Hwords (Lexical.lower (Py.strip s))) as H];
      rewrite Forall_forall in H; exact (H t Ht). }
  rewrite Hterms. split; [exact Hexp|]. split; [exact Hnd|].
  intros t. rewrite Hin, in_app_iff. reflexivity.
Qed.

(** X12, an instance: the answer [Pruning sparsity] to the query
    [neural pruning]. *)
Lemma arxiv_expansion_keeps_the_query_terms_witness :
  In (Py.lit "neural")
    (Py.split
       (@ArxivSearchEngine.expand_query Fixture.config
          (Fixture.requests_saying 200 (Py.lit "Pruning sparsity"))
          Fixture.lib (Py.lit "neural pruning")))
  /\ NoDup
       (Py.split
          (@ArxivSearchEngine.expand_query Fixture.config
             (Fixture.requests_saying 200 (Py.lit "Pruning sparsity"))
             Fixture.lib (Py.lit "neural pruning"))).
Proof.
  destruct (arxiv_expansion_keeps_the_query_terms Fixture.config
              (Fixture.requests_saying 200 (Py.lit "Pruning sparsity"))
              Fixture.lib (Py.lit "neural pruning")
              (Py.lit "Pruning sparsity")
              ArxivEngineFacts.fixture_words_lawful)
    as (_ & Hnd & Hin).
  - eexists. eexists. repeat split; reflexivity.
  - split; [|exact Hnd]. apply Hin. left. left. reflexivity.
Defined.

(** The shape of the list that [hybrid_search] returns. *)
Lemma arxiv_hybrid_search_shape :
  forall (config : ArxivSearchEngine.Config) (requests : Provider.Requests)
         (chroma : ArxivSearchEngine.Chroma) (lib : Lexical.Lib)
         (self : ArxivSearchEngine.engine) (query : Py.str)
         (n_results : Z) (use_expansion : bool),
    let l :=
      ArxivSearchEngine.hybrid_search self query n_results use_expansion in
    ((0 <= n_results)%Z -> (Z.of_nat (List.length l) <= n_results)%Z)
    /\ NoDup (ArxivSearchEngine.doc_ids l)
    /\ StronglySorted (Ranking.desc ArxivSearchEngine.hybrid_score) l.
Proof.
  intros config requests chroma lib self query n use_expansion l.
  subst l. unfold ArxivSearchEngine.hybrid_search.
  set (S := ArxivSearchEngine.semantic_search _ _).
  set (L := ArxivSearchEngine.lexical_search self _ _).
  destruct (PyFacts.slice_to_prefix n (ArxivSearchEngine.sorted_results S L))
    as [rest Hrest].
  split; [apply LexicalChannel.slice_to_length|]. split.
  - pose proof (ArxivFacts.sorted_results_doc_ids S L) as Hperm.
    pose proof (ArxivFacts.arxiv_combined_results_well_keyed S L)
      as [Hnd _].
    apply (Permutation_NoDup Hperm) in Hnd.
    rewrite Hrest in Hnd. unfold ArxivSearchEngine.doc_ids in Hnd.
    rewrite map_app in Hnd. apply NoDup_app_remove_r in Hnd. exact Hnd.
  - pose proof (PyFacts.sort_desc_sorted _ ArxivSearchEngine.hybrid_score
                  (List.map ArxivSearchEngine.with_hybrid_score
                     (Py.values (ArxivSearchEngine.combined_results S L))))
      as Hs.
    fold (ArxivSearchEngine.sorted_results S L) in Hs.
    rewrite Hrest in Hs. apply EngineFacts.sorted_app_l in Hs. exact Hs.
Qed.

(** X13.  [SearchEngine.hybrid_search], shape of the answer.  The list holds
    at most [n_results] items when [n_results] is not negative, no
    document id twice, and no item stands before an item of greater
    hybrid score. *)
Theorem arxiv_hybrid_search_result_shape :
  forall (config : ArxivSearchEngine.Config) (requests : Provider.Requests)
         (chroma : ArxivSearchEngine.Chroma) (lib : Lexical.Lib)
         (self : ArxivSearchEngine.engine) (query : Py.str)
         (n_results : Z) (use_expansion : bool),
    let l :=
      ArxivSearchEngine.hybrid_search self query n_results use_expansion in
    ((0 <= n_results)%Z -> (Z.of_nat (List.length l) <= n_results)%Z)
    /\ NoDup (ArxivSearchEngine.doc_ids l)
    /\ StronglySorted (Ranking.desc ArxivSearchEngine.hybrid_score) l.
Proof. exact arxiv_hybrid_search_shape. Qed.

(** X14.  [SearchEngine.hybrid_search], lines 184-190.  With a lexical weight
    that is not negative, of two candidates with the same semantic score
    the one of greater lexical score has no smaller hybrid score; but a
    raw lexical score counts up to 10 only: two such candidates whose
    lexical scores are both 10 or more have equal hybrid scores. *)
Theorem lexical_score_counts_up_to_ten :
  forall (config : ArxivSearchEngine.Config) (e e' : ArxivSearchEngine.entry),
    0 <= ArxivSearchEngine.lexical_weight ->
    ArxivSearchEngine.semantic_score e = ArxivSearchEngine.semantic_score e' ->
    (ArxivSearchEngine.lexical_score e <= ArxivSearchEngine.lexical_score e' ->
     ArxivSearchEngine.hybrid_score (ArxivSearchEngine.with_hybrid_score e)
     <= ArxivSearchEngine.hybrid_score
          (ArxivSearchEngine.with_hybrid_score e'))
    /\ (10 <= ArxivSearchEngine.lexical_score e ->
        10 <= ArxivSearchEngine.lexical_score e' ->
        ArxivSearchEngine.hybrid_score (ArxivSearchEngine.with_hybrid_score e)
        == ArxivSearchEngine.hybrid_score
             (ArxivSearchEngine.with_hybrid_score e')).
Proof.
  intros config e e' Hw Hsem. unfold ArxivSearchEngine.with_hybrid_score.
  simpl. rewrite Hsem. split.
  - intros Hle. apply ArxivEngineFacts.lex_score_monotone in Hle.
    apply Qplus_le_r. apply Qmult_le_compat_nonneg.
    + split; [exact Hw|apply Qle_refl].
    + split; [apply ArxivFacts.lex_score_unit|exact Hle].
  - intros H1 H2.
    rewrite (ArxivEngineFacts.lex_score_saturated _ H1).
    rewrite (ArxivEngineFacts.lex_score_saturated _ H2). reflexivity.
Qed.

(** X14, an instance: the lexical scores 12 and 25. *)
Lemma lexical_score_counts_up_to_ten_witness :
  ArxivSearchEngine.hybrid_score
    (@ArxivSearchEngine.with_hybrid_score Fixture.config
       (ArxivWorld.candidate 12))
  == ArxivSearchEngine.hybrid_score
       (@ArxivSearchEngine.with_hybrid_score Fixture.config
          (ArxivWorld.candidate 25)).
Proof.
  apply (lexical_score_counts_up_to_ten Fixture.config
           (ArxivWorld.candidate 12) (ArxivWorld.candidate 25)).
  - discriminate.
  - reflexivity.
  - discriminate.
  - discriminate.
Defined.

(* ================================================================== *)
(** ** arxiv-search-engine: the faceted search *)
(* ================================================================== *)

Module FacetFacts.

Import Lexical ArxivSearchEngine Facets.

Lemma le_false (a b : datetime) :
  le a b = Py.Ok false <->
  aware a = aware b /\ (instant b < instant a)%Z.
Proof.
  unfold le. destruct (Bool.eqb (aware a) (aware b)) eqn:E.
  - apply Bool.eqb_prop in E. split.
    + intros [= H]. apply Z.leb_gt in H. split; assumption.
    + intros [_ H]. apply Z.leb_gt in H. rewrite H. reflexivity.
  - apply Bool.eqb_false_iff in E. split; [discriminate|].
    intros [H _]. contradiction.
Qed.

Lemma le_true (a b : datetime) :
  le a b = Py.Ok true <->
  aware a = aware b /\ (instant a <= instant b)%Z.
Proof.
  unfold le. destruct (Bool.eqb (aware a) (aware b)) eqn:E.
  - apply Bool.eqb_prop in E. split.
    + intros [= H]. apply Z.leb_le in H. split; assumption.
    + intros [_ H]. apply Z.leb_le in H. rewrite H. reflexivity.
  - apply Bool.eqb_false_iff in E. split; [discriminate|].
    intros [H _]. contradiction.
Qed.

Section Filtering.
Context {config : Config} {requests : Provider.Requests} {chroma : Chroma}
        {lib : Lib} {clock : Clock}.

Lemma filtered_results_In (fs : Py.dict facet) (results l : list scored) :
  filtered_results fs results = Py.Ok l ->
  forall r, In r l ->
    In r results
    /\ included (entry_metadata (scored_entry r)) fs = Py.Ok true.
Proof.
  revert l. induction results as [|x rest IH]; simpl; intros l.
  - intros [= <-] r [].
  - destruct (included (entry_metadata (scored_entry x)) fs) as [ok|e] eqn:E;
      simpl; [|discriminate].
    destruct (filtered_results fs rest) as [tail|e]; simpl; [|discriminate].
    intros [= <-] r Hr. specialize (IH tail eq_refl).
    destruct ok.
    + destruct Hr as [<-|Hr].
      * split; [left; reflexivity|exact E].
      * destruct (IH r Hr). split; [right|]; assumption.
    + destruct (IH r Hr). split; [right|]; assumption.
Qed.

Lemma filtered_results_sorted (R : scored -> scored -> Prop)
    (fs : Py.dict facet) (results l : list scored) :
  filtered_results fs results = Py.Ok l ->
  StronglySorted R results -> StronglySorted R l.
Proof.
  revert l. induction results as [|x rest IH]; simpl; intros l.
  - intros [= <-] _. constructor.
  - destruct (included (entry_metadata (scored_entry x)) fs) as [ok|e];
      simpl; [|discriminate].
    destruct (filtered_results fs rest) as [tail|e] eqn:E; simpl;
      [|discriminate].
    intros [= <-] Hs. inversion Hs as [|? ? Hrest Hx]; subst.
    specialize (IH tail eq_refl Hrest).
    destruct ok; [|exact IH]. constructor; [exact IH|].
    apply Forall_forall. intros r Hr.
    rewrite Forall_forall in Hx. apply Hx.
    apply (filtered_results_In fs rest tail E r Hr).
Qed.

Lemma filtered_results_NoDup (fs : Py.dict facet) (results l : list scored) :
  filtered_results fs results = Py.Ok l ->
  NoDup (doc_ids results) -> NoDup (doc_ids l).
Proof.
  revert l. induction results as [|x rest IH]; simpl; intros l.
  - intros [= <-] _. constructor.
  - destruct (included (entry_metadata (scored_entry x)) fs) as [ok|e];
      simpl; [|discriminate].
    destruct (filtered_results fs rest) as [tail|e] eqn:E; simpl;
      [|discriminate].
    intros [= <-] Hnd. apply NoDup_cons_iff in Hnd.
    destruct Hnd as [Hx Hnd]. specialize (IH tail eq_refl Hnd).
    destruct ok; [|exact IH]. simpl. constructor; [|exact IH].
    intros Hin. apply Hx. unfold doc_ids in *.
    apply in_map_iff in Hin. destruct Hin as (r & Hid & Hr).
    apply in_map_iff. exists r. split; [exact Hid|].
    apply (filtered_results_In fs rest tail E r Hr).
Qed.

Lemma passes_text (m : metadata) (fv : Py.str * facet) :
  ((fst fv = Py.lit "category" \/ fst fv = Py.lit "author") ->
   exists s, snd fv = Text s) ->
  exists ok, passes m fv = Py.Ok ok.
Proof.
  destruct fv as [field value]. simpl. intros H. unfold passes.
  destruct (Py.eqb field (Py.lit "date_range")); [eexists; reflexivity|].
  destruct (Py.eqb field (Py.lit "category")) eqn:E1.
  - apply PyFacts.eqb_eq in E1. destruct (H (or_introl E1)) as [s ->].
    eexists. reflexivity.
  - destruct (Py.eqb field (Py.lit "author")) eqn:E2;
      [|eexists; reflexivity].
    apply PyFacts.eqb_eq in E2. destruct (H (or_intror E2)) as [s ->].
    eexists. reflexivity.
Qed.

Lemma included_text (m : metadata) (fs : Py.dict facet) :
  text_valued fs -> exists ok, included m fs = Py.Ok ok.
Proof.
  induction 1 as [|fv rest Hfv _ IH]; simpl; [eexists; reflexivity|].
  destruct (passes_text m fv Hfv) as [ok ->]. simpl.
  destruct ok; [exact IH|eexists; reflexivity].
Qed.

Lemma filtered_results_text (fs : Py.dict facet) (results : list scored) :
  text_valued fs -> exists l, filtered_results fs results = Py.Ok l.
Proof.
  intros Hfs. induction results as [|x rest [tail IH]]; simpl;
    [eexists; reflexivity|].
  destruct (included_text (entry_metadata (scored_entry x)) fs Hfs)
    as [ok ->].
  simpl. rewrite IH. simpl. eexists. reflexivity.
Qed.

End Filtering.

End FacetFacts.

(** X15.  [SearchEngine._date_in_range].  The date filter answers [False] in
    one case only: the three dates are read, the start and the
    publication date are both naive or both aware, and the publication
    date lies before the start or, compared with an end date of its
    kind, after the end.  In every other case the answer is [True]: a
    date that cannot be read, and a publication date with an offset
    tested against a start without one, pass the filter. *)
Theorem date_filter_fails_open :
  forall (clock : Facets.Clock) (date_str : Py.str)
         (date_range : Facets.facet),
    (Facets._date_in_range date_str date_range = false <->
     exists pub_date start_date end_date s e,
       Facets.fromisoformat (Facets.replace_Z date_str) = Py.Ok pub_date
       /\ Facets.item date_range 0 = Py.Ok s
       /\ Facets.fromisoformat s = Py.Ok start_date
       /\ Facets.item date_range 1 = Py.Ok e
       /\ Facets.fromisoformat e = Py.Ok end_date
       /\ Facets.aware start_date = Facets.aware pub_date
       /\ ((Facets.instant pub_date < Facets.instant start_date)%Z
           \/ (Facets.aware pub_date = Facets.aware end_date
               /\ (Facets.instant end_date < Facets.instant pub_date)%Z)))
    /\ (forall x,
          Facets.fromisoformat (Facets.replace_Z date_str) = Py.Raise x ->
          Facets._date_in_range date_str date_range = true)
    /\ (forall pub_date start_date s,
          Facets.fromisoformat (Facets.replace_Z date_str) = Py.Ok pub_date ->
          Facets.item date_range 0 = Py.Ok s ->
          Facets.fromisoformat s = Py.Ok start_date ->
          Facets.aware start_date <> Facets.aware pub_date ->
          Facets._date_in_range date_str date_range = true).
Proof.
  intros clock date_str date_range.
  assert (Facets._date_in_range date_str date_range = false <->
     exists pub_date start_date end_date s e,
       Facets.fromisoformat (Facets.replace_Z date_str) = Py.Ok pub_date
       /\ Facets.item date_range 0 = Py.Ok s
       /\ Facets.fromisoformat s = Py.Ok start_date
       /\ Facets.item date_range 1 = Py.Ok e
       /\ Facets.fromisoformat e = Py.Ok end_date
       /\ Facets.aware start_date = Facets.aware pub_date
       /\ ((Facets.instant pub_date < Facets.instant start_date)%Z
           \/ (Facets.aware pub_date = Facets.aware end_date
               /\ (Facets.instant end_date < Facets.instant pub_date)%Z)))
    as Hiff.
  { unfold Facets._date_in_range. split.
    - destruct (Facets.fromisoformat (Facets.replace_Z date_str))
        as [pub|x] eqn:Ep; simpl; [|discriminate].
      destruct (Facets.item date_range 0) as [s|x] eqn:Es; simpl;
        [|discriminate].
      destruct (Facets.fromisoformat s) as [start|x] eqn:Est; simpl;
        [|discriminate].
      destruct (Facets.item date_range 1) as [e|x] eqn:Ee; simpl;
        [|discriminate].
      destruct (Facets.fromisoformat e) as [en|x] eqn:Een; simpl;
        [|discriminate].
      destruct (Facets.le start pub) as [[|]|x] eqn:E1; simpl;
        [| |discriminate].
      + destruct (Facets.le pub en) as [[|]|x] eqn:E2; simpl;
          [discriminate| |discriminate].
        intros _. apply FacetFacts.le_true in E1.
        apply FacetFacts.le_false in E2.
        exists pub, start, en, s, e.
        repeat (split; [first [reflexivity|assumption]|]).
        split; [apply E1|]. right. exact E2.
      + intros _. apply FacetFacts.le_false in E1.
        exists pub, start, en, s, e.
        repeat (split; [first [reflexivity|assumption]|]).
        split; [apply E1|]. left. apply E1.
    - intros (pub & start & en & s & e & -> & -> & Hs & He & Hen & Haw & H).
      simpl. rewrite Hs. simpl. rewrite He. simpl. rewrite Hen. simpl.
      destruct (Z.lt_ge_cases (Facets.instant pub) (Facets.instant start))
        as [Hlt|Hge].
      + rewrite (proj2 (FacetFacts.le_false start pub) (conj Haw Hlt)).
        reflexivity.
      + rewrite (proj2 (FacetFacts.le_true start pub) (conj Haw Hge)).
        simpl. destruct H as [H|[Haw' H]]; [lia|].
        rewrite (proj2 (FacetFacts.le_false pub en) (conj Haw' H)).
        reflexivity. }
  split; [exact Hiff|]. split.
  - intros x Hx. destruct (Facets._date_in_range date_str date_range) eqn:E;
      [reflexivity|].
    destruct (proj1 Hiff eq_refl) as (pub & _ & _ & _ & _ & Hp & _).
    congruence.
  - intros pub start s Hp Hs Hst Haw.
    destruct (Facets._date_in_range date_str date_range) eqn:E;
      [reflexivity|].
    destruct (proj1 Hiff eq_refl)
      as (pub' & start' & _ & s' & _ & Hp' & Hs' & Hst' & _ & _ & Haw' & _).
    congruence.
Qed.

(** X15, an instance: a paper published in 2021, the date ending in [Z],
    passes the filter of the years 2022 to 2023 written without offset;
    written as the paper writes its date, the filter rejects it. *)
Lemma date_filter_fails_open_witness :
  @Facets._date_in_range FacetWorld.clock (Py.lit "2021Z")
    (Facets.Range (Py.lit "2022") (Py.lit "2023")) = true
  /\ @Facets._date_in_range FacetWorld.clock (Py.lit "2021Z")
       (Facets.Range (Py.lit "2022+00:00") (Py.lit "2023+00:00")) = false.
Proof.
  split.
  - destruct (date_filter_fails_open FacetWorld.clock (Py.lit "2021Z")
                (Facets.Range (Py.lit "2022") (Py.lit "2023")))
      as (_ & _ & H).
    apply (H {| Facets.instant := 2021; Facets.aware := true |}
             {| Facets.instant := 2022; Facets.aware := false |}
             (Py.lit "2022")); try reflexivity.
    discriminate.
  - apply (date_filter_fails_open FacetWorld.clock).
    exists {| Facets.instant := 2021; Facets.aware := true |},
           {| Facets.instant := 2022; Facets.aware := true |},
           {| Facets.instant := 2023; Facets.aware := true |},
           (Py.lit "2022+00:00"), (Py.lit "2023+00:00").
    repeat (split; [reflexivity|]). left. reflexivity.
Defined.

(** X16.  [SearchEngine.faceted_search].  Whenever the faceted search returns,
    its list holds at most [n_results] items when [n_results] is not
    negative, no document id twice, in descending order of hybrid score;
    each item is one of the [2 * n_results] first results of the hybrid
    search with expansion, and passes every filter.  Without filters the
    answer is the [n_results] first results of that search.  The search
    returns whenever the [category] and [author] filters hold texts. *)
Theorem faceted_search_filters_the_hybrid_results :
  forall (config : ArxivSearchEngine.Config) (requests : Provider.Requests)
         (chroma : ArxivSearchEngine.Chroma) (lib : Lexical.Lib)
         (clock : Facets.Clock) (self : ArxivSearchEngine.engine)
         (query : Py.str) (filters : option (Py.dict Facets.facet))
         (n_results : Z),
    let results :=
      ArxivSearchEngine.hybrid_search self query (n_results * 2) true in
    (forall l,
       Facets.faceted_search self query filters n_results = Py.Ok l ->
       ((0 <= n_results)%Z -> (Z.of_nat (List.length l) <= n_results)%Z)
       /\ NoDup (ArxivSearchEngine.doc_ids l)
       /\ StronglySorted (Ranking.desc ArxivSearchEngine.hybrid_score) l
       /\ forall r, In r l ->
            In r results
            /\ forall fs, filters = Some fs ->
                 Facets.included
                   (ArxivSearchEngine.entry_metadata
                      (ArxivSearchEngine.scored_entry r)) fs
                 = Py.Ok true)
    /\ (filters = None \/ filters = Some [] ->
        Facets.faceted_search self query filters n_results
        = Py.Ok (Py.slice_to n_results results))
    /\ (forall fs,
          filters = Some fs -> Facets.text_valued fs ->
          exists l,
            Facets.faceted_search self query filters n_results = Py.Ok l).
Proof.
  intros config requests chroma lib clock self query filters n results.
  destruct (arxiv_hybrid_search_shape config requests chroma lib self query
              (n * 2)%Z true) as (_ & Hnd & Hsorted).
  fold results in Hnd, Hsorted.
  assert (forall l0 : list ArxivSearchEngine.scored,
            NoDup (ArxivSearchEngine.doc_ids l0) ->
            StronglySorted (Ranking.desc ArxivSearchEngine.hybrid_score) l0 ->
            ((0 <= n)%Z ->
             (Z.of_nat (List.length (Py.slice_to n l0)) <= n)%Z)
            /\ NoDup (ArxivSearchEngine.doc_ids (Py.slice_to n l0))
            /\ StronglySorted (Ranking.desc ArxivSearchEngine.hybrid_score)
                 (Py.slice_to n l0)) as Hcut.
  { intros l0 Hnd0 Hs0.
    destruct (PyFacts.slice_to_prefix n l0) as [rest Hrest].
    split; [apply LexicalChannel.slice_to_length|]. split.
    - rewrite Hrest in Hnd0. unfold ArxivSearchEngine.doc_ids in Hnd0.
      rewrite map_app in Hnd0. apply NoDup_app_remove_r in Hnd0.
      exact Hnd0.
    - rewrite Hrest in Hs0. apply EngineFacts.sorted_app_l in Hs0.
      exact Hs0. }
  split; [|split].
  - intros l. unfold Facets.faceted_search. fold results.
    destruct filters as [[|fv fs]|]; simpl.
    + intros [= <-]. destruct (Hcut results Hnd Hsorted) as (H1 & H2 & H3).
      repeat (split; [assumption|]). intros r Hr.
      split; [exact (PyFacts.slice_to_In _ _ _ Hr)|].
      intros fs [= <-]. reflexivity.
    + destruct (Facets.filtered_results (fv :: fs) results)
        as [filtered|e] eqn:E; simpl; [|discriminate].
      intros [= <-].
      destruct (Hcut filtered
                  (FacetFacts.filtered_results_NoDup _ _ _ E Hnd)
                  (FacetFacts.filtered_results_sorted _ _ _ _ E Hsorted))
        as (H1 & H2 & H3).
      repeat (split; [assumption|]). intros r Hr.
      apply PyFacts.slice_to_In in Hr.
      destruct (FacetFacts.filtered_results_In _ _ _ E r Hr) as [Hin Hok].
      split; [exact Hin|]. intros fs' [= <-]. exact Hok.
    + intros [= <-]. destruct (Hcut results Hnd Hsorted) as (H1 & H2 & H3).
      repeat (split; [assumption|]). intros r Hr.
      split; [exact (PyFacts.slice_to_In _ _ _ Hr)|]. discriminate.
  - intros [->| ->]; reflexivity.
  - intros fs -> Hfs. unfold Facets.faceted_search. fold results.
    destruct (Py.truthy fs); simpl; [|eexists; reflexivity].
    destruct (FacetFacts.filtered_results_text fs results Hfs) as [l ->].
    simpl. eexists. reflexivity.
Qed.

(** X16, an instance: of the two papers found, the filter on the category
    [cs.cv] keeps paper [b]. *)
Lemma faceted_search_filters_the_hybrid_results_witness :
  exists l,
    @Facets.faceted_search Fixture.config Fixture.requests_down
      FacetWorld.chroma Fixture.lib FacetWorld.clock FacetWorld.engine
      (Py.lit "pruning")
      (Some [(Py.lit "category", Facets.Text (Py.lit "cs.CV"))]) 10
    = Py.Ok l
    /\ NoDup (ArxivSearchEngine.doc_ids l)
    /\ ArxivSearchEngine.doc_ids l = [Py.lit "b"].
Proof.
  destruct (@Facets.faceted_search Fixture.config Fixture.requests_down
              FacetWorld.chroma Fixture.lib FacetWorld.clock
              FacetWorld.engine (Py.lit "pruning")
              (Some [(Py.lit "category", Facets.Text (Py.lit "cs.CV"))]) 10)
    as [l|e] eqn:E; [|vm_compute in E; discriminate E].
  exists l. split; [reflexivity|].
  destruct (faceted_search_filters_the_hybrid_results Fixture.config
              Fixture.requests_down FacetWorld.chroma Fixture.lib
              FacetWorld.clock FacetWorld.engine (Py.lit "pruning")
              (Some [(Py.lit "category", Facets.Text (Py.lit "cs.CV"))])
              10%Z) as (H & _).
  destruct (H l E) as (_ & Hnd & _). split; [exact Hnd|].
  vm_compute in E. injection E as <-. reflexivity.
Defined.

(* ================================================================== *)
(** ** The summaries of the results *)
(* ================================================================== *)

Module SummaryFacts.

Lemma context_of_titles (results : list FinalCode.final_result) :
  forall i,
    List.map (fun ir => FinalSummary.context_line (fst ir)
                          (FinalSummary.title_of (snd ir)))
      (PyText.enumerate_from i results)
    = List.map (fun it => FinalSummary.context_line (fst it) (snd it))
        (PyText.enumerate_from i (List.map FinalSummary.title_of results)).
Proof.
  induction results as [|r rest IH]; intros i; simpl; [reflexivity|].
  rewrite IH. reflexivity.
Qed.

Lemma stripped_trimmed (b : Provider.body) (s : Py.str) :
  Provider.get_response_stripped b = Py.Ok s -> Text.trimmed s.
Proof.
  unfold Provider.get_response_stripped.
  destruct (Provider.response b); try discriminate.
  intros [= <-]. apply TextFacts.strip_trimmed.
Qed.

End SummaryFacts.





(* ================================================================== *)
(** ** final_code: the ingestion of documents *)
(* ================================================================== *)

Module IngestionFacts.

Import Provider FinalCode PyText Ingestion.

Lemma lit_inj (s1 s2 : string) : Py.lit s1 = Py.lit s2 -> s1 = s2.
Proof.
  unfold Py.lit. intros H.
  rewrite <- (string_of_list_ascii_of_string s1).
  rewrite <- (string_of_list_ascii_of_string s2). f_equal.
  revert H. generalize (list_ascii_of_string s1) (list_ascii_of_string s2).
  induction l as [|a l IH]; intros [|a' l']; simpl; try discriminate;
    [reflexivity|].
  intros [= Ha Hl]. f_equal; [|exact (IH _ Hl)].
  rewrite <- (ascii_N_embedding a), <- (ascii_N_embedding a'), Ha.
  reflexivity.
Qed.

Lemma str_of_nat_inj (i j : nat) : str_of_nat i = str_of_nat j -> i = j.
Proof.
  unfold str_of_nat. intros H. apply lit_inj in H.
  assert (Some (Nat.to_uint i) = Some (Nat.to_uint j)) as Hu.
  { rewrite <- !NilEmpty.usu, H. reflexivity. }
  injection Hu as Hu. rewrite <- (DecimalNat.Unsigned.of_to i).
  rewrite <- (DecimalNat.Unsigned.of_to j), Hu. reflexivity.
Qed.

Lemma digits_of_uint (d : Decimal.uint) :
  ~ In 95%N (Py.lit (NilEmpty.string_of_uint d)).
Proof.
  induction d; simpl; intros H;
    try (destruct H as [H|H]; [discriminate H|exact (IHd H)]).
  exact H.
Qed.

Lemma str_of_nat_digits (i : nat) : ~ In 95%N (str_of_nat i).
Proof. apply digits_of_uint. Qed.

Lemma separator_unique (c : N) (l1 l2 x y : Py.str) :
  ~ In c l1 -> ~ In c l2 -> l1 ++ c :: x = l2 ++ c :: y -> l1 = l2.
Proof.
  revert l2. induction l1 as [|a l1 IH]; intros [|b l2] H1 H2; simpl.
  - reflexivity.
  - intros [= -> _]. elim H2. left. reflexivity.
  - intros [= -> _]. elim H1. left. reflexivity.
  - intros [= -> H]. f_equal. apply IH; [| |exact H].
    + intros Hin. apply H1. right. exact Hin.
    + intros Hin. apply H2. right. exact Hin.
Qed.

Lemma doc_id_inj (i j : nat) (doc doc' : paper) :
  doc_id i doc = doc_id j doc' -> i = j.
Proof.
  unfold doc_id. intros H. apply app_inv_head in H.
  apply str_of_nat_inj.
  apply (separator_unique 95%N _ _ _ _
           (str_of_nat_digits i) (str_of_nat_digits j) H).
Qed.

Lemma enumerate_from_nth {A} (l : list A) :
  forall i k x,
    In (k, x) (enumerate_from i l) <->
    (i <= k)%nat /\ nth_error l (k - i) = Some x.
Proof.
  induction l as [|a l IH]; intros i k x; simpl.
  - split; [intros []|]. intros [_ H]. destruct (k - i)%nat; discriminate.
  - rewrite IH. split.
    + intros [[= <- <-]|[Hle H]].
      * split; [lia|]. rewrite Nat.sub_diag. reflexivity.
      * split; [lia|]. replace (k - i)%nat with (S (k - S i)) by lia.
        exact H.
    + intros [Hle H]. destruct (Nat.eq_dec k i) as [->|Hne].
      * rewrite Nat.sub_diag in H. injection H as ->. left. reflexivity.
      * right. split; [lia|].
        replace (k - i)%nat with (S (k - S i)) in H by lia. exact H.
Qed.

Lemma enumerate_from_indices {A} (l : list A) :
  forall i, NoDup (List.map fst (enumerate_from i l)).
Proof.
  induction l as [|a l IH]; intros i; simpl; constructor; [|apply IH].
  intros H. apply in_map_iff in H. destruct H as ([k x] & Hk & Hin).
  simpl in Hk. subst k. apply enumerate_from_nth in Hin. lia.
Qed.

Lemma enumerate_from_length {A} (l : list A) :
  forall i, List.length (enumerate_from i l) = List.length l.
Proof. induction l as [|a l IH]; intros i; simpl; [|rewrite IH]; reflexivity. Qed.

Lemma enumerate_from_snd {A} (l : list A) :
  forall i, List.map snd (enumerate_from i l) = l.
Proof. induction l as [|a l IH]; intros i; simpl; [|rewrite IH]; reflexivity. Qed.

Lemma filter_length_all {A} (f : A -> bool) (l : list A) :
  List.length (filter f l) = List.length l <-> Forall (fun x => f x = true) l.
Proof.
  induction l as [|a l IH]; simpl; [split; [constructor|reflexivity]|].
  pose proof (filter_length_le f l) as Hle.
  destruct (f a) eqn:E; simpl; split.
  - intros [= H]. constructor; [exact E|apply IH; exact H].
  - intros H. inversion H; subst. f_equal. apply IH. assumption.
  - intros H. lia.
  - intros H. inversion H; subst. congruence.
Qed.

Lemma filter_none {A} (f : A -> bool) (l : list A) :
  Forall (fun x => f x = false) l -> filter f l = [].
Proof.
  induction 1 as [|a l Ha _ IH]; simpl; [reflexivity|].
  rewrite Ha. exact IH.
Qed.

Lemma NoDup_filter_map {A B} (f : A -> B) (p : A -> bool) (l : list A) :
  NoDup (List.map f l) -> NoDup (List.map f (filter p l)).
Proof.
  induction l as [|a l IH]; simpl; intros H; [constructor|].
  apply NoDup_cons_iff in H. destruct H as [Ha H].
  destruct (p a); simpl; [|exact (IH H)].
  constructor; [|exact (IH H)]. intros Hin. apply Ha.
  apply in_map_iff in Hin. destruct Hin as (x & Hx & Hin).
  apply filter_In in Hin. apply in_map_iff. exists x. tauto.
Qed.

Section Batch.
Context {ollama : Ollama} {json : Json}.

(** The documents that the loop keeps. *)
Local Abbreviation has_embedding :=
  (fun idoc : nat * paper =>
     Py.truthy (generate_embedding (text_content (snd idoc)))).

Lemma truthy_embedded (doc : paper) :
  Py.truthy (generate_embedding (text_content doc)) = true <-> embedded doc.
Proof.
  unfold embedded. destruct (generate_embedding (text_content doc)); simpl.
  - split; [discriminate|]. intros H. contradiction H. reflexivity.
  - split; [discriminate|reflexivity].
Qed.

Lemma fold_add_document (l : list (nat * paper)) :
  forall b,
    fold_left add_document l b
    = {| batch_ids :=
           batch_ids b
           ++ List.map (fun idoc => doc_id (fst idoc) (snd idoc))
                (filter has_embedding l);
         batch_embeddings :=
           batch_embeddings b
           ++ List.map (fun idoc => generate_embedding (text_content (snd idoc)))
                (filter has_embedding l);
         batch_documents :=
           batch_documents b
           ++ List.map (fun idoc => text_content (snd idoc))
                (filter has_embedding l);
         batch_metadatas :=
           batch_metadatas b
           ++ List.map (fun idoc => metadata_of (snd idoc))
                (filter has_embedding l) |}.
Proof.
  induction l as [|idoc l IH]; intros b; simpl.
  - rewrite !app_nil_r. destruct b. reflexivity.
  - rewrite IH. unfold add_document.
    destruct (Py.truthy (generate_embedding (text_content (snd idoc))));
      simpl; [|reflexivity].
    rewrite <- !app_assoc. reflexivity.
Qed.

Lemma collect_batch (documents : list paper) :
  let kept := filter has_embedding (enumerate_from 0 documents) in
  collect documents
  = {| batch_ids :=
         List.map (fun idoc => doc_id (fst idoc) (snd idoc)) kept;
       batch_embeddings :=
         List.map (fun idoc => generate_embedding (text_content (snd idoc)))
           kept;
       batch_documents :=
         List.map (fun idoc => text_content (snd idoc)) kept;
       batch_metadatas := List.map (fun idoc => metadata_of (snd idoc)) kept |}.
Proof. unfold collect. rewrite fold_add_document. reflexivity. Qed.

Lemma stored_le (documents : list paper) :
  (stored documents <= List.length documents)%nat.
Proof.
  unfold stored. rewrite collect_batch. simpl. rewrite length_map.
  etransitivity; [apply filter_length_le|].
  rewrite enumerate_from_length. reflexivity.
Qed.

Lemma stored_all (documents : list paper) :
  stored documents = List.length documents <-> Forall embedded documents.
Proof.
  unfold stored. rewrite collect_batch. simpl. rewrite length_map.
  transitivity (Forall (fun idoc : nat * paper => embedded (snd idoc))
                  (enumerate_from 0 documents)).
  - rewrite <- (enumerate_from_length documents 0).
    rewrite filter_length_all.
    split; apply Forall_impl; intros idoc H; apply truthy_embedded;
      exact H.
  - rewrite <- Forall_map, enumerate_from_snd. reflexivity.
Qed.

End Batch.

End IngestionFacts.

(** X19.  [VectorDatabase.add_documents].  The four lists handed to the store
    have the same length, the ids are pairwise distinct, and no
    embedding is empty.  The ids are those of the documents that have an
    embedding, each numbered by its place in the list given: a document
    without embedding is left out without a word.  When no document has
    an embedding, the store is not called. *)
Theorem add_documents_hands_over_a_consistent_batch :
  forall (ollama : Provider.Ollama) (json : Ingestion.Json)
         (documents : list Ingestion.paper),
    let b := Ingestion.collect documents in
    List.length (Ingestion.batch_embeddings b)
    = List.length (Ingestion.batch_ids b)
    /\ List.length (Ingestion.batch_documents b)
       = List.length (Ingestion.batch_ids b)
    /\ List.length (Ingestion.batch_metadatas b)
       = List.length (Ingestion.batch_ids b)
    /\ NoDup (Ingestion.batch_ids b)
    /\ Forall (fun embedding => embedding <> [])
         (Ingestion.batch_embeddings b)
    /\ (forall id,
          In id (Ingestion.batch_ids b) <->
          exists i doc,
            nth_error documents i = Some doc
            /\ Ingestion.embedded doc
            /\ id = Ingestion.doc_id i doc)
    /\ (forall collection : Ingestion.Collection,
          Forall (fun doc => ~ Ingestion.embedded doc) documents ->
          Ingestion.add_documents documents = Py.Ok None).
Proof.
  intros ollama json documents b. subst b.
  assert (forall collection : Ingestion.Collection,
            Forall (fun doc => ~ Ingestion.embedded doc) documents ->
            Ingestion.add_documents documents = Py.Ok None) as Hnone.
  { intros collection Hall. unfold Ingestion.add_documents.
    rewrite IngestionFacts.collect_batch. simpl.
    rewrite IngestionFacts.filter_none; [reflexivity|].
    rewrite <- (IngestionFacts.enumerate_from_snd documents 0) in Hall.
    rewrite Forall_map in Hall. revert Hall. apply Forall_impl.
    intros idoc Hno.
    destruct (Py.truthy _) eqn:E; [|reflexivity].
    apply IngestionFacts.truthy_embedded in E. contradiction. }
  rewrite IngestionFacts.collect_batch. simpl. rewrite !length_map.
  repeat (split; [reflexivity|]). split; [|split; [|split]].
  - assert (forall l : list (nat * Ingestion.paper),
              NoDup (List.map fst l) ->
              NoDup (List.map (fun idoc =>
                                 Ingestion.doc_id (fst idoc) (snd idoc)) l))
      as Hinj.
    { induction l as [|a l IH]; simpl; intros H; [constructor|].
      apply NoDup_cons_iff in H. destruct H as [Ha H].
      constructor; [|exact (IH H)]. intros Hin. apply Ha.
      apply in_map_iff in Hin. destruct Hin as (x & Hx & Hin).
      apply IngestionFacts.doc_id_inj in Hx. apply in_map_iff.
      exists x. split; assumption. }
    apply Hinj. apply IngestionFacts.NoDup_filter_map.
    apply IngestionFacts.enumerate_from_indices.
  - apply Forall_forall. intros e He. apply in_map_iff in He.
    destruct He as (idoc & <- & Hin). apply filter_In in Hin.
    apply IngestionFacts.truthy_embedded. apply Hin.
  - intros id. rewrite in_map_iff. split.
    + intros ([i doc] & <- & Hin). apply filter_In in Hin.
      destruct Hin as [Hin He]. apply IngestionFacts.enumerate_from_nth in Hin.
      exists i, doc. rewrite Nat.sub_0_r in Hin. split; [apply Hin|].
      split; [|reflexivity]. apply IngestionFacts.truthy_embedded. exact He.
    + intros (i & doc & Hnth & He & ->). exists (i, doc).
      split; [reflexivity|]. apply filter_In. split.
      * apply IngestionFacts.enumerate_from_nth. rewrite Nat.sub_0_r.
        split; [lia|exact Hnth].
      * apply IngestionFacts.truthy_embedded. exact He.
  - exact Hnone.
Qed.

(** X20.  [ArxivIngestion.ingest_documents].  The number returned is the
    number of documents given, not the number of documents handed to the
    store: the latter is no greater, and the two are equal exactly when
    every document has an embedding. *)
Theorem ingest_documents_counts_the_documents_given :
  forall (ollama : Provider.Ollama) (json : Ingestion.Json)
         (collection : Ingestion.Collection)
         (documents : list Ingestion.paper) (n : Z),
    Ingestion.ingest_documents documents = Py.Ok n ->
    n = Z.of_nat (List.length documents)
    /\ (Ingestion.stored documents <= List.length documents)%nat
    /\ (Ingestion.stored documents = List.length documents <->
        Forall Ingestion.embedded documents).
Proof.
  intros ollama json collection documents n H. split; [|split].
  - unfold Ingestion.ingest_documents in H.
    destruct documents as [|d ds]; [injection H as <-; reflexivity|].
    cbn [Py.truthy] in H.
    destruct (Ingestion.add_documents (d :: ds)); unfold Py.bind in H;
      [injection H as <-; reflexivity|discriminate].
  - apply IngestionFacts.stored_le.
  - apply IngestionFacts.stored_all.
Qed.

(** X20, an instance: three documents given, two handed to the store. *)
Lemma ingest_documents_counts_the_documents_given_witness :
  @Ingestion.ingest_documents IngestionWorld.ollama IngestionWorld.json
    IngestionWorld.collection IngestionWorld.documents = Py.Ok 3%Z
  /\ @Ingestion.stored IngestionWorld.ollama IngestionWorld.json
       IngestionWorld.documents = 2%nat
  /\ (@Ingestion.stored IngestionWorld.ollama IngestionWorld.json
        IngestionWorld.documents <= 3)%nat.
Proof.
  split; [vm_compute; reflexivity|]. split; [vm_compute; reflexivity|].
  apply (ingest_documents_counts_the_documents_given IngestionWorld.ollama
           IngestionWorld.json IngestionWorld.collection
           IngestionWorld.documents 3%Z).
  vm_compute. reflexivity.
Defined.

(* ================================================================== *)
(** ** ArxIV/backend.py: the store of papers and the hybrid search *)
(* ================================================================== *)

Module BackendFacts.

Import Provider Lexical Backend.

Lemma max_zero_nonneg (x : Q) : 0 <= max_zero x.
Proof.
  unfold max_zero. destruct (Qle_bool x 0) eqn:E; [apply Qle_refl|].
  destruct (Qlt_le_dec 0 x) as [H|H]; [apply Qlt_le_weak; exact H|].
  apply Qle_bool_iff in H. congruence.
Qed.

Lemma max_zero_le_one (x : Q) : x <= 1 -> max_zero x <= 1.
Proof.
  intros H. unfold max_zero. destruct (Qle_bool x 0); [discriminate|exact H].
Qed.

Lemma bm25_normalized_lt_one (bm25_scores : list Q) (i : nat) :
  bm25_normalized_at bm25_scores i < 1.
Proof.
  unfold bm25_normalized_at.
  destruct (Py.positive (max_bm25_of bm25_scores)) eqn:E; [|reflexivity].
  apply LexicalChannel.positive_iff in E.
  assert ((if (i <? List.length bm25_scores)%nat
           then nth i bm25_scores 0 else 0) <= max_bm25_of bm25_scores)
    as Hle.
  { destruct (Nat.ltb_spec i (List.length bm25_scores)) as [Hi|Hi];
      [|apply Qlt_le_weak; exact E].
    destruct bm25_scores as [|s ss]; [simpl in Hi; lia|].
    simpl max_bm25_of. apply PyFacts.max_ge. apply nth_In. exact Hi. }
  apply Qlt_shift_div_r; lra.
Qed.

Lemma bm25_normalized_nonneg (bm25_scores : list Q) (i : nat) :
  Forall (fun s => 0 <= s) bm25_scores ->
  0 <= bm25_normalized_at bm25_scores i.
Proof.
  intros Hall. unfold bm25_normalized_at.
  destruct (Py.positive (max_bm25_of bm25_scores)) eqn:E; [|apply Qle_refl].
  apply LexicalChannel.positive_iff in E.
  apply Qle_shift_div_l; [lra|]. rewrite Qmult_0_l.
  destruct (Nat.ltb_spec i (List.length bm25_scores)) as [Hi|Hi];
    [|apply Qle_refl].
  rewrite Forall_forall in Hall. apply Hall. apply nth_In. exact Hi.
Qed.

Section Search.
Context {requests : Requests} {codec : Json} {store : Store} {lib : Lib}
        {words : Words}.

Lemma semantic_score_nonneg (rows : list (Py.str * Q)) (paper_id : Py.str) :
  0 <= semantic_score_of rows paper_id.
Proof.
  unfold semantic_score_of. destruct (find _ rows);
    [apply max_zero_nonneg|apply Qle_refl].
Qed.

Lemma semantic_score_le_one (rows : list (Py.str * Q)) (paper_id : Py.str) :
  Forall (fun r => 0 <= snd r) rows ->
  semantic_score_of rows paper_id <= 1.
Proof.
  intros Hall. unfold semantic_score_of.
  destruct (find _ rows) as [r|] eqn:E; [|discriminate].
  apply find_some in E. destruct E as [Hin _].
  rewrite Forall_forall in Hall. specialize (Hall r Hin).
  apply max_zero_le_one. lra.
Qed.

Lemma semantic_rows_distances (st : state) (q : Py.str) (n : Z) :
  (forall e k rows, collection_query e k = Py.Ok rows ->
                    Forall (fun r => 0 <= snd r) rows) ->
  Forall (fun r => 0 <= snd r) (semantic_rows st q n).
Proof.
  intros Hstore. unfold semantic_rows.
  destruct (usable (get_ollama_embedding q)); [|constructor].
  destruct (get_ollama_embedding q) as [e|]; [|constructor].
  destruct (collection_query e _) as [rows|x] eqn:E; simpl;
    [exact (Hstore _ _ _ E)|constructor].
Qed.

(** What a returned paper holds. *)
Lemma paper_obj_fields rows bm25_scores category i p P :
  paper_obj rows bm25_scores category i p = Py.Ok (Some P) ->
  Paper_id P = cached_id p
  /\ Paper_title P = meta_title (cached_metadata p)
  /\ Paper_published P = meta_published (cached_metadata p)
  /\ bm25_score P = bm25_normalized_at bm25_scores i
  /\ semantic_score P = semantic_score_of rows (cached_id p)
  /\ score P = (1 # 2) * bm25_score P + (1 # 2) * semantic_score P
  /\ loads (meta_authors (cached_metadata p)) = Py.Ok (Paper_authors P)
  /\ loads (meta_categories (cached_metadata p))
     = Py.Ok (Paper_categories P)
  /\ (exists s, summary_of p = Py.Ok s /\ Paper_summary P = shorten s)
  /\ (forall c, category = Some c -> c <> [] ->
        In c (Paper_categories P)).
Proof.
  unfold paper_obj.
  assert (forall (la lc : Py.result (list Py.str)) Q0,
    (summary <- summary_of p ;;
     authors <- la ;;
     categories <- lc ;;
     Py.Ok (Some {| Paper_id := cached_id p;
                    Paper_title := meta_title (cached_metadata p);
                    Paper_authors := authors;
                    Paper_summary := shorten summary;
                    Paper_published := meta_published (cached_metadata p);
                    Paper_categories := categories;
                    score := (1 # 2) * bm25_normalized_at bm25_scores i
                             + (1 # 2) * semantic_score_of rows (cached_id p);
                    bm25_score := bm25_normalized_at bm25_scores i;
                    semantic_score := semantic_score_of rows (cached_id p) |}))
    = Py.Ok (Some Q0) ->
    Paper_id Q0 = cached_id p
    /\ Paper_title Q0 = meta_title (cached_metadata p)
    /\ Paper_published Q0 = meta_published (cached_metadata p)
    /\ bm25_score Q0 = bm25_normalized_at bm25_scores i
    /\ semantic_score Q0 = semantic_score_of rows (cached_id p)
    /\ score Q0 = (1 # 2) * bm25_score Q0 + (1 # 2) * semantic_score Q0
    /\ la = Py.Ok (Paper_authors Q0)
    /\ lc = Py.Ok (Paper_categories Q0)
    /\ (exists s, summary_of p = Py.Ok s /\ Paper_summary Q0 = shorten s))
    as Hbuild.
  { intros la lc Q0.
    destruct (summary_of p) as [s|x]; simpl; [|discriminate].
    destruct la as [a|x]; simpl; [|discriminate].
    destruct lc as [c|x]; simpl; [|discriminate].
    intros [= <-]. simpl. repeat (split; [reflexivity|]).
    exists s. split; reflexivity. }
  destruct category as [c|].
  - destruct (Py.truthy c) eqn:Ec.
    + destruct (loads (meta_categories (cached_metadata p))) as [cs|x] eqn:El;
        [|discriminate].
      unfold Py.bind at 1.
      destruct (existsb (Py.eqb c) cs) eqn:Ex; [|discriminate].
      intros H.
      apply (Hbuild (loads (meta_authors (cached_metadata p))) (Py.Ok cs))
        in H.
      destruct H as (H1 & H2 & H3 & H4 & H5 & H6 & H7 & H8 & H9).
      repeat (split; [assumption|]). intros c' [= <-] _.
      injection H8 as <-.
      apply existsb_exists in Ex. destruct Ex as (y & Hy & Heq).
      apply PyFacts.eqb_eq in Heq. subst y. exact Hy.
    + intros H. apply Hbuild in H.
      destruct H as (H1 & H2 & H3 & H4 & H5 & H6 & H7 & H8 & H9).
      repeat (split; [assumption|]). intros c' [= <-] Hne.
      destruct c; [contradiction|discriminate].
  - intros H. apply Hbuild in H.
    destruct H as (H1 & H2 & H3 & H4 & H5 & H6 & H7 & H8 & H9).
    repeat (split; [assumption|]). discriminate.
Qed.

Lemma collect_papers_In rows bm25_scores category cache l :
  collect_papers rows bm25_scores category cache = Py.Ok l ->
  forall P, In P l ->
    exists i p, In (i, p) cache
                /\ paper_obj rows bm25_scores category i p = Py.Ok (Some P).
Proof.
  revert l. induction cache as [|[i p] rest IH]; simpl; intros l.
  - intros [= <-] P [].
  - destruct (paper_obj rows bm25_scores category i p) as [o|x] eqn:E;
      simpl; [|discriminate].
    destruct (collect_papers rows bm25_scores category rest) as [tail|x];
      simpl; [|discriminate].
    intros [= <-] P HP. specialize (IH tail eq_refl).
    assert (In P tail ->
            exists i0 p0, ((i, p) = (i0, p0) \/ In (i0, p0) rest)
              /\ paper_obj rows bm25_scores category i0 p0 = Py.Ok (Some P))
      as Htail.
    { intros H. destruct (IH P H) as (i0 & p0 & Hin & Hobj).
      exists i0, p0. split; [right; exact Hin|exact Hobj]. }
    destruct o as [P0|]; [|exact (Htail HP)].
    destruct HP as [<-|HP]; [|exact (Htail HP)].
    exists i, p. split; [left; reflexivity|exact E].
Qed.

Lemma collect_papers_ok rows bm25_scores category cache :
  (forall i p, In (i, p) cache ->
     exists o, paper_obj rows bm25_scores category i p = Py.Ok o) ->
  exists l, collect_papers rows bm25_scores category cache = Py.Ok l.
Proof.
  induction cache as [|[i p] rest IH]; simpl; intros H;
    [eexists; reflexivity|].
  destruct (H i p (or_introl eq_refl)) as [o ->]. simpl.
  destruct IH as [l ->]; [intros; apply H; right; assumption|].
  simpl. eexists. reflexivity.
Qed.

(** The cache after [store_papers]. *)
Lemma store_papers_cache (st : state) (papers : list paper) :
  papers_cache (fst (store_papers st papers))
  = papers_cache st
    ++ List.map cache_entry (new_papers (papers_cache st) papers).
Proof.
  unfold store_papers.
  destruct (new_papers (papers_cache st) papers) as [|p news] eqn:E;
    [simpl; rewrite app_nil_r; reflexivity|].
  cbn [Py.truthy negb].
  destruct (embed_all _); [|reflexivity].
  destruct (collection_add _); [|reflexivity].
  destruct (Py.truthy _); [|reflexivity].
  destruct (index_error _); reflexivity.
Qed.

Lemma new_papers_absorbed (cache : list cached) (papers : list paper) :
  new_papers
    (cache ++ List.map cache_entry (new_papers cache papers)) papers = [].
Proof.
  unfold new_papers. apply IngestionFacts.filter_none.
  apply Forall_forall. intros p Hp. apply negb_false_iff.
  apply existsb_exists. exists (id p). split; [|apply PyFacts.eqb_refl].
  rewrite map_app, in_app_iff.
  destruct (existsb (Py.eqb (id p)) (List.map cached_id cache)) eqn:E.
  - left. apply existsb_exists in E. destruct E as (y & Hy & Heq).
    apply PyFacts.eqb_eq in Heq. subst y. exact Hy.
  - right. rewrite map_map. apply in_map_iff. exists p.
    split; [reflexivity|]. apply filter_In. split; [exact Hp|].
    rewrite E. reflexivity.
Qed.

Lemma store_papers_again (st : state) (papers : list paper) :
  let st' := fst (store_papers st papers) in
  store_papers st' papers = (st', Py.Ok Nothing).
Proof.
  intros st'. unfold store_papers at 1. subst st'.
  rewrite store_papers_cache, new_papers_absorbed. reflexivity.
Qed.

End Search.

End BackendFacts.

(** X21.  [store_papers], success.  When the call returns [True], the cache
    holds the former entries followed by one entry per paper whose id
    was not in the cache, and the index was rebuilt over the whole
    cache: one list of tokens per entry. *)
Theorem store_papers_success_rebuilds_the_index :
  forall (requests : Provider.Requests) (codec : Backend.Json)
         (store : Backend.Store) (lib : Lexical.Lib) (words : Backend.Words)
         (st st' : Backend.state) (papers : list Backend.paper),
    Backend.store_papers st papers = (st', Py.Ok (Backend.Done true)) ->
    Backend.papers_cache st'
    = Backend.papers_cache st
      ++ List.map Backend.cache_entry
           (Backend.new_papers (Backend.papers_cache st) papers)
    /\ Backend.new_papers (Backend.papers_cache st) papers <> []
    /\ Backend.bm25 st'
       = Some (List.map (fun p => Backend.preprocess_text (Backend.text p))
                 (Backend.papers_cache st'))
    /\ Backend.aligned st'.
Proof.
  intros requests codec store lib words st st' papers H.
  pose proof (BackendFacts.store_papers_cache st papers) as Hcache.
  rewrite H in Hcache. simpl in Hcache. split; [exact Hcache|].
  unfold Backend.store_papers in H.
  destruct (Backend.new_papers (Backend.papers_cache st) papers)
    as [|p news] eqn:E; [discriminate H|].
  split; [discriminate|]. cbn [Py.truthy negb] in H.
  destruct (Backend.embed_all _); [|discriminate H].
  destruct (Backend.collection_add _); [|discriminate H].
  destruct (Py.truthy _) eqn:Et.
  - destruct (Backend.index_error _); [discriminate H|].
    injection H as <-. split; [reflexivity|].
    unfold Backend.aligned. reflexivity.
  - simpl in Et. rewrite map_app in Et.
    destruct (List.map _ (Backend.papers_cache st)); discriminate Et.
Qed.

(** X21, an instance: one paper stored in the empty state. *)
Lemma store_papers_success_rebuilds_the_index_witness :
  exists st',
    @Backend.store_papers (Fixture.requests_saying 200 (Py.lit "ok"))
      BackendWorld.json BackendWorld.store Fixture.lib BackendWorld.words
      BackendWorld.empty_state [BackendWorld.pruning]
    = (st', Py.Ok (Backend.Done true))
    /\ @Backend.aligned Fixture.lib BackendWorld.words st'.
Proof.
  eexists. split; [vm_compute; reflexivity|].
  eapply (store_papers_success_rebuilds_the_index
            (Fixture.requests_saying 200 (Py.lit "ok"))
            BackendWorld.json BackendWorld.store Fixture.lib
            BackendWorld.words BackendWorld.empty_state _
            [BackendWorld.pruning]).
  vm_compute. reflexivity.
Defined.

(** X22.  [store_papers], failure.  When the call returns [False], or raises,
    the new papers are already in the cache, the index is the former
    one, and the same call made again returns [None] without any
    effect: the papers of a failed batch are never handed to the store
    again, and the index never covers them. *)
Theorem store_papers_failure_is_never_repaired :
  forall (requests : Provider.Requests) (codec : Backend.Json)
         (store : Backend.Store) (lib : Lexical.Lib) (words : Backend.Words)
         (st st' : Backend.state) (papers : list Backend.paper) r,
    Backend.store_papers st papers = (st', r) ->
    r <> Py.Ok (Backend.Done true) -> r <> Py.Ok Backend.Nothing ->
    Backend.papers_cache st'
    = Backend.papers_cache st
      ++ List.map Backend.cache_entry
           (Backend.new_papers (Backend.papers_cache st) papers)
    /\ Backend.new_papers (Backend.papers_cache st) papers <> []
    /\ Backend.bm25 st' = Backend.bm25 st
    /\ Backend.store_papers st' papers = (st', Py.Ok Backend.Nothing)
    /\ (forall corpus,
          Backend.bm25 st = Some corpus ->
          List.length corpus = List.length (Backend.papers_cache st) ->
          (List.length corpus < List.length (Backend.papers_cache st'))%nat).
Proof.
  intros requests codec store lib words st st' papers r H Hr Hn.
  pose proof (BackendFacts.store_papers_cache st papers) as Hcache.
  pose proof (BackendFacts.store_papers_again st papers) as Hagain.
  rewrite H in Hcache, Hagain. simpl in Hcache, Hagain.
  split; [exact Hcache|].
  assert (Backend.new_papers (Backend.papers_cache st) papers <> []
          /\ Backend.bm25 st' = Backend.bm25 st) as [Hne Hbm].
  { unfold Backend.store_papers in H.
    destruct (Backend.new_papers (Backend.papers_cache st) papers)
      as [|p news] eqn:E.
    - simpl in H. injection H as <- <-. contradiction Hn. reflexivity.
    - split; [discriminate|]. cbn [Py.truthy negb] in H.
      destruct (Backend.embed_all _);
        [|injection H as <- <-; reflexivity].
      destruct (Backend.collection_add _);
        [|injection H as <- <-; reflexivity].
      destruct (Py.truthy _).
      + destruct (Backend.index_error _);
          [injection H as <- <-; reflexivity|].
        injection H as <- <-. contradiction Hr. reflexivity.
      + injection H as <- <-. contradiction Hr. reflexivity. }
  split; [exact Hne|]. split; [exact Hbm|]. split; [exact Hagain|].
  intros corpus _ Hlen. rewrite Hcache, length_app, length_map, Hlen.
  destruct (Backend.new_papers (Backend.papers_cache st) papers);
    [contradiction|simpl; lia].
Qed.

(** X22, an instance: with the embedding service down, a paper enters the
    cache, and the second attempt does nothing. *)
Lemma store_papers_failure_is_never_repaired_witness :
  exists st',
    @Backend.store_papers Fixture.requests_down BackendWorld.json
      BackendWorld.store Fixture.lib BackendWorld.words
      BackendWorld.empty_state [BackendWorld.pruning]
    = (st', Py.Ok (Backend.Done false))
    /\ List.length (Backend.papers_cache st') = 1%nat
    /\ Backend.bm25 st' = None
    /\ @Backend.store_papers Fixture.requests_down BackendWorld.json
         BackendWorld.store Fixture.lib BackendWorld.words
         st' [BackendWorld.pruning]
       = (st', Py.Ok Backend.Nothing).
Proof.
  eexists. split; [vm_compute; reflexivity|].
  split; [reflexivity|].
  refine ((fun H => conj (proj1 (proj2 (proj2 H)))
                      (proj1 (proj2 (proj2 (proj2 H)))))
            (store_papers_failure_is_never_repaired Fixture.requests_down
               BackendWorld.json BackendWorld.store Fixture.lib
               BackendWorld.words BackendWorld.empty_state _
               [BackendWorld.pruning] (Py.Ok (Backend.Done false))
               _ _ _)).
  - vm_compute. reflexivity.
  - discriminate.
  - discriminate.
Defined.

(** X23.  [hybrid_search] of the backend, scores.  Whenever the search
    returns, every paper has as score the mean of its two channel
    scores; its semantic score is not negative and its lexical score is
    less than 1, the greatest raw score being divided by itself plus
    one millionth.  When the store reports no negative distance, the
    score of a paper is less than 1; when the index reports no negative
    score, it is not negative.  The list is in descending order of
    score and holds at most [max_results] papers. *)
Theorem backend_scores_stay_below_one :
  forall (requests : Provider.Requests) (codec : Backend.Json)
         (store : Backend.Store) (lib : Lexical.Lib) (words : Backend.Words)
         (st : Backend.state) (query : Py.str) (max_results : Z)
         (category : option Py.str) (l : list Backend.Paper),
    Backend.hybrid_search st query max_results category = Py.Ok l ->
    Forall (fun P =>
              Backend.score P
              = (1 # 2) * Backend.bm25_score P
                + (1 # 2) * Backend.semantic_score P
              /\ 0 <= Backend.semantic_score P
              /\ Backend.bm25_score P < 1) l
    /\ ((forall e k rows,
           Backend.collection_query e k = Py.Ok rows ->
           Forall (fun r => 0 <= snd r) rows) ->
        Forall (fun P => Backend.semantic_score P <= 1
                         /\ Backend.score P < 1) l)
    /\ ((forall corpus q,
           Forall (fun s => 0 <= s) (Lexical.get_scores corpus q)) ->
        Forall (fun P => 0 <= Backend.bm25_score P
                         /\ 0 <= Backend.score P) l)
    /\ StronglySorted (Ranking.desc Backend.score) l
    /\ ((0 <= max_results)%Z ->
        (Z.of_nat (List.length l) <= max_results)%Z).
Proof.
  intros requests codec store lib words st query n category l H.
  unfold Backend.hybrid_search in H.
  destruct (negb (Py.truthy (Backend.papers_cache st))).
  { injection H as <-. repeat split; try constructor. simpl. lia. }
  set (q := ArxIV.expand_query_with_gemma query) in H.
  destruct (Backend.collect_papers _ _ category _) as [papers|x] eqn:E;
    simpl in H; [|discriminate H].
  injection H as <-.
  assert (forall P, In P (Py.slice_to n (Py.sort_desc Backend.score papers)) ->
            exists i p,
              Backend.paper_obj (Backend.semantic_rows st q n)
                (Backend.bm25_scores_of st q) category i p
              = Py.Ok (Some P)) as Hobj.
  { intros P HP. apply PyFacts.slice_to_In in HP.
    apply PyFacts.sort_desc_In in HP.
    destruct (BackendFacts.collect_papers_In _ _ _ _ _ E P HP)
      as (i & p & _ & Hp).
    exists i, p. exact Hp. }
  split; [|split; [|split; [|split]]].
  - apply Forall_forall. intros P HP.
    destruct (Hobj P HP) as (i & p & Hp).
    apply BackendFacts.paper_obj_fields in Hp.
    destruct Hp as (_ & _ & _ & Hb & Hs & Hsc & _).
    split; [exact Hsc|]. rewrite Hb, Hs. split.
    + apply BackendFacts.semantic_score_nonneg.
    + apply BackendFacts.bm25_normalized_lt_one.
  - intros Hstore. apply Forall_forall. intros P HP.
    destruct (Hobj P HP) as (i & p & Hp).
    apply BackendFacts.paper_obj_fields in Hp.
    destruct Hp as (_ & _ & _ & Hb & Hs & Hsc & _).
    pose proof (BackendFacts.semantic_score_le_one _ (Backend.cached_id p)
                  (BackendFacts.semantic_rows_distances st q n Hstore))
      as H1.
    pose proof (BackendFacts.bm25_normalized_lt_one
                  (Backend.bm25_scores_of st q) i) as H2.
    rewrite Hsc, Hb, Hs. split; [exact H1|]. lra.
  - intros Hidx. apply Forall_forall. intros P HP.
    destruct (Hobj P HP) as (i & p & Hp).
    apply BackendFacts.paper_obj_fields in Hp.
    destruct Hp as (_ & _ & _ & Hb & Hs & Hsc & _).
    assert (0 <= Backend.bm25_normalized_at (Backend.bm25_scores_of st q) i)
      as H1.
    { apply BackendFacts.bm25_normalized_nonneg.
      unfold Backend.bm25_scores_of.
      destruct (Backend.bm25 st); [apply Hidx|constructor]. }
    pose proof (BackendFacts.semantic_score_nonneg
                  (Backend.semantic_rows st q n) (Backend.cached_id p))
      as H2.
    rewrite Hsc, Hb, Hs. split; [exact H1|]. lra.
  - destruct (PyFacts.slice_to_prefix n (Py.sort_desc Backend.score papers))
      as [rest Hrest].
    pose proof (PyFacts.sort_desc_sorted _ Backend.score papers) as Hs.
    rewrite Hrest in Hs. apply EngineFacts.sorted_app_l in Hs. exact Hs.
  - apply LexicalChannel.slice_to_length.
Qed.

(** X23, an instance: the paper stored in the empty state is found. *)
Lemma backend_scores_stay_below_one_witness :
  exists l,
    @Backend.hybrid_search (Fixture.requests_saying 200 (Py.lit "ok"))
      BackendWorld.json BackendWorld.store Fixture.lib BackendWorld.words
      (fst (@Backend.store_papers (Fixture.requests_saying 200 (Py.lit "ok"))
              BackendWorld.json BackendWorld.store Fixture.lib
              BackendWorld.words BackendWorld.empty_state
              [BackendWorld.pruning]))
      (Py.lit "pruning") 10 None
    = Py.Ok l
    /\ List.length l = 1%nat
    /\ Forall (fun P => Backend.bm25_score P < 1) l.
Proof.
  destruct (@Backend.hybrid_search
              (Fixture.requests_saying 200 (Py.lit "ok"))
              BackendWorld.json BackendWorld.store Fixture.lib
              BackendWorld.words
              (fst (@Backend.store_papers
                      (Fixture.requests_saying 200 (Py.lit "ok"))
                      BackendWorld.json BackendWorld.store Fixture.lib
                      BackendWorld.words BackendWorld.empty_state
                      [BackendWorld.pruning]))
              (Py.lit "pruning") 10 None) as [l|x] eqn:E;
    [|vm_compute in E; discriminate E].
  exists l. split; [reflexivity|].
  destruct (backend_scores_stay_below_one _ _ _ _ _ _ _ _ _ l E) as (H & _).
  split.
  - vm_compute in E. injection E as <-. reflexivity.
  - eapply Forall_impl; [|exact H]. intros P (_ & _ & HP). exact HP.
Defined.

Module RoundTripFacts.

Import Provider Lexical Backend.

Lemma startswith_app (p r : Py.str) : Facets.startswith p (p ++ r) = true.
Proof.
  induction p as [|c p IH]; simpl; [destruct r; reflexivity|].
  rewrite N.eqb_refl. exact IH.
Qed.

Lemma contains_prefix (p r : Py.str) : Facets.contains p (p ++ r) = true.
Proof.
  destruct (p ++ r) eqn:E; simpl; rewrite <- E, startswith_app; reflexivity.
Qed.

Lemma after_first_prefix (p r : Py.str) : after_first p (p ++ r) = Some r.
Proof.
  destruct (p ++ r) eqn:E; simpl; rewrite <- E, startswith_app;
    rewrite skipn_app, skipn_all, Nat.sub_diag; reflexivity.
Qed.

Lemma strip_leading_space (s : Py.str) :
  Py.strip (Py.space :: s) = Py.strip s.
Proof. reflexivity. Qed.

Lemma decode_from_text (s cur rest : Py.str) :
  BackendWorld.decode_from cur
    (flat_map (fun c => [1%N; c]) s ++ 0%N :: rest)
  = (l <- BackendWorld.decode_from [] rest ;;
     Py.Ok (rev (rev s ++ cur) :: l)).
Proof.
  revert cur. induction s as [|c s IH]; intros cur; [reflexivity|].
  simpl flat_map. cbn [app BackendWorld.decode_from N.eqb].
  rewrite IH. simpl rev. rewrite <- app_assoc. reflexivity.
Qed.

Lemma world_json_reads_back (l : list Py.str) :
  BackendWorld.decode_from [] (BackendWorld.encode l) = Py.Ok l.
Proof.
  induction l as [|s r IH]; [reflexivity|].
  simpl BackendWorld.encode. rewrite decode_from_text, IH. simpl.
  rewrite app_nil_r, rev_involutive. reflexivity.
Qed.

Section RoundTrip.
Context {requests : Requests} {codec : Json} {store : Store} {lib : Lib}
        {words : Words}.

Lemma summary_of_entry (p : paper) :
  title p <> [] ->
  summary_of (cache_entry p) = Py.Ok (Py.strip (summary p)).
Proof.
  intros Hne. unfold summary_of, cache_entry, text_of. simpl.
  rewrite contains_prefix, after_first_prefix.
  destruct (title p); [contradiction|reflexivity].
Qed.

(** The answer of one iteration on an entry built by [store_papers]. *)
Lemma paper_obj_entry rows bm25_scores category i (p : paper) :
  (forall l, loads (dumps l) = Py.Ok l) ->
  title p <> [] ->
  exists o,
    paper_obj rows bm25_scores category i (cache_entry p) = Py.Ok o
    /\ (forall P, o = Some P ->
          Paper_id P = id p
          /\ Paper_title P = title p
          /\ Paper_authors P = authors p
          /\ Paper_categories P = categories p
          /\ Paper_published P = published p
          /\ Paper_summary P = shorten (Py.strip (summary p)))
    /\ (o = None ->
        exists c, category = Some c /\ c <> [] /\ ~ In c (categories p))
    /\ (forall c, category = Some c -> c <> [] -> o <> None ->
          In c (categories p)).
Proof.
  intros Hjson Hne. unfold paper_obj.
  rewrite (summary_of_entry p Hne).
  cbn [cache_entry cached_metadata metadata_of meta_authors meta_categories
       meta_title meta_published cached_id Py.bind].
  rewrite !Hjson. cbn [Py.bind].
  assert (forall c, existsb (Py.eqb c) (categories p) = true
                    <-> In c (categories p)) as Hin.
  { intros c. rewrite existsb_exists. split.
    - intros (y & Hy & Heq). apply PyFacts.eqb_eq in Heq. subst y. exact Hy.
    - intros H. exists c. split; [exact H|apply PyFacts.eqb_refl]. }
  destruct category as [c|].
  - destruct c as [|x c]; cbn [Py.truthy].
    + eexists. split; [reflexivity|]. split; [|split].
      * intros P [= <-]. simpl. repeat split.
      * discriminate.
      * intros c [= <-] H. contradiction H. reflexivity.
    + destruct (existsb (Py.eqb (x :: c)) (categories p)) eqn:E.
      * eexists. split; [reflexivity|]. split; [|split].
        -- intros P [= <-]. simpl. repeat split.
        -- discriminate.
        -- intros c' [= <-] _ _. apply Hin. exact E.
      * exists None. split; [reflexivity|]. split; [|split].
        -- discriminate.
        -- intros _. exists (x :: c). split; [reflexivity|].
           split; [discriminate|]. intros H. apply Hin in H. congruence.
        -- intros c' _ _ H. contradiction H. reflexivity.
  - eexists. split; [reflexivity|]. split; [|split].
    + intros P [= <-]. simpl. repeat split.
    + discriminate.
    + discriminate.
Qed.

Lemma collect_papers_entries rows bm25_scores category (papers : list paper) :
  (forall l, loads (dumps l) = Py.Ok l) ->
  Forall (fun p => title p <> []) papers ->
  forall i,
  exists l,
    collect_papers rows bm25_scores category
      (PyText.enumerate_from i (List.map cache_entry papers)) = Py.Ok l
    /\ Forall (fun P =>
                 exists p,
                   In p papers
                   /\ Paper_id P = id p
                   /\ Paper_title P = title p
                   /\ Paper_authors P = authors p
                   /\ Paper_categories P = categories p
                   /\ Paper_published P = published p
                   /\ Paper_summary P = shorten (Py.strip (summary p))
                   /\ forall c, category = Some c -> c <> [] ->
                        In c (categories p)) l
    /\ ((forall c, category = Some c -> c = []) ->
        List.map Paper_id l = List.map id papers).
Proof.
  intros Hjson. induction 1 as [|p rest Hp _ IH]; intros i; simpl.
  - exists []. split; [reflexivity|]. split; [constructor|reflexivity].
  - destruct (paper_obj_entry rows bm25_scores category i p Hjson Hp)
      as (o & -> & Hsome & Hnone & Hcat).
    destruct (IH (S i)) as (tail & -> & Htail & Hids). simpl.
    assert (Forall (fun P =>
                 exists p0,
                   (p = p0 \/ In p0 rest)
                   /\ Paper_id P = id p0
                   /\ Paper_title P = title p0
                   /\ Paper_authors P = authors p0
                   /\ Paper_categories P = categories p0
                   /\ Paper_published P = published p0
                   /\ Paper_summary P = shorten (Py.strip (summary p0))
                   /\ forall c, category = Some c -> c <> [] ->
                        In c (categories p0)) tail) as Htail'.
    { revert Htail. apply Forall_impl. intros P (p0 & Hin & H).
      exists p0. split; [right; exact Hin|exact H]. }
    destruct o as [P|]; eexists; (split; [reflexivity|]).
    + split.
      * constructor; [|exact Htail'].
        destruct (Hsome P eq_refl) as (H1 & H2 & H3 & H4 & H5 & H6).
        exists p. split; [left; reflexivity|].
        repeat (split; [assumption|]).
        intros c Hc Hne. apply (Hcat c Hc Hne). discriminate.
      * intros Hno. simpl. rewrite (Hids Hno).
        destruct (Hsome P eq_refl) as (-> & _). reflexivity.
    + split; [exact Htail'|]. intros Hno.
      destruct (Hnone eq_refl) as (c & Hc & Hne & _).
      elim Hne. exact (Hno c Hc).
Qed.

End RoundTrip.

End RoundTripFacts.

(** X24.  [store_papers] and [hybrid_search] of the backend together.  Over
    a cache built by [store_papers] from papers with a title, with a
    JSON codec that reads back what it writes, the search returns, and
    every paper returned is a stored one: same id, title, authors,
    categories and date, and as summary the stored summary without
    whitespace around it, cut at 500 characters.  With a category, the
    papers returned are of that category.  Without one, every stored
    paper is returned when [max_results] allows, whatever its score. *)
Theorem backend_returns_the_stored_papers :
  forall (requests : Provider.Requests) (codec : Backend.Json)
         (store : Backend.Store) (lib : Lexical.Lib) (words : Backend.Words)
         (papers : list Backend.paper) (st : Backend.state)
         (query : Py.str) (max_results : Z) (category : option Py.str),
    (forall l, Backend.loads (Backend.dumps l) = Py.Ok l) ->
    Forall (fun p => Backend.title p <> []) papers ->
    Backend.papers_cache st = List.map Backend.cache_entry papers ->
    exists l,
      Backend.hybrid_search st query max_results category = Py.Ok l
      /\ Forall (fun P =>
                   exists p,
                     In p papers
                     /\ Backend.Paper_id P = Backend.id p
                     /\ Backend.Paper_title P = Backend.title p
                     /\ Backend.Paper_authors P = Backend.authors p
                     /\ Backend.Paper_categories P = Backend.categories p
                     /\ Backend.Paper_published P = Backend.published p
                     /\ Backend.Paper_summary P
                        = Backend.shorten (Py.strip (Backend.summary p))
                     /\ forall c, category = Some c -> c <> [] ->
                          In c (Backend.categories p)) l
      /\ ((forall c, category = Some c -> c = []) ->
          (Z.of_nat (List.length papers) <= max_results)%Z ->
          Permutation (List.map Backend.Paper_id l)
            (List.map Backend.id papers)).
Proof.
  intros requests codec store lib words papers st query n category
    Hjson Htitles Hcache.
  unfold Backend.hybrid_search. rewrite Hcache.
  destruct papers as [|p0 rest] eqn:Ep.
  { exists []. split; [reflexivity|]. split; [constructor|].
    intros _ _. constructor. }
  rewrite <- Ep in *. replace (Py.truthy (List.map Backend.cache_entry papers))
    with true by (rewrite Ep; reflexivity).
  cbn [negb].
  set (q := ArxIV.expand_query_with_gemma query).
  destruct (RoundTripFacts.collect_papers_entries
              (Backend.semantic_rows st q n) (Backend.bm25_scores_of st q)
              category papers Hjson Htitles 0)
    as (found & Hfound & Hall & Hids).
  rewrite Hfound. simpl Py.bind. eexists. split; [reflexivity|]. split.
  - apply Forall_forall. intros P HP. apply PyFacts.slice_to_In in HP.
    apply PyFacts.sort_desc_In in HP. rewrite Forall_forall in Hall.
    exact (Hall P HP).
  - intros Hno Hlen. rewrite PyFacts.slice_to_all.
    + rewrite <- (Hids Hno). apply Permutation_map, Permutation_sym.
      apply PyFacts.sort_desc_perm.
    + rewrite <- (Permutation_length
                    (PyFacts.sort_desc_perm _ Backend.score found)).
      rewrite <- (length_map Backend.Paper_id), (Hids Hno), length_map.
      exact Hlen.
Qed.

(** X24, an instance: the paper stored in the empty state comes back with
    its summary. *)
Lemma backend_returns_the_stored_papers_witness :
  exists l,
    @Backend.hybrid_search (Fixture.requests_saying 200 (Py.lit "ok"))
      BackendWorld.json BackendWorld.store Fixture.lib BackendWorld.words
      {| Backend.papers_cache :=
           [@Backend.cache_entry BackendWorld.json BackendWorld.pruning];
         Backend.bm25 := None |}
      (Py.lit "pruning") 10 None
    = Py.Ok l
    /\ Permutation (List.map Backend.Paper_id l) [Py.lit "2101.1"].
Proof.
  destruct (backend_returns_the_stored_papers
              (Fixture.requests_saying 200 (Py.lit "ok"))
              BackendWorld.json BackendWorld.store Fixture.lib
              BackendWorld.words [BackendWorld.pruning]
              {| Backend.papers_cache :=
                   [@Backend.cache_entry BackendWorld.json
                      BackendWorld.pruning];
                 Backend.bm25 := None |}
              (Py.lit "pruning") 10%Z None)
    as (l & Hl & _ & Hperm).
  - exact RoundTripFacts.world_json_reads_back.
  - repeat constructor. discriminate.
  - reflexivity.
  - exists l. split; [exact Hl|]. apply Hperm; [discriminate|].
    simpl. lia.
Defined.

(* ================================================================== *)
(** ** ArxIV/backend.py: the tokens and the indexing end point *)
(* ================================================================== *)

Module TokenFacts.

Lemma split_from_chars (s cur : Py.str) :
  forall t c, In t (Py.split_from cur s) -> In c t -> In c cur \/ In c s.
Proof.
  revert cur. induction s as [|x r IH]; intros cur t c;
    cbn [Py.split_from].
  - destruct (Py.truthy cur); [|intros []].
    intros [<-|[]] Hc. left. apply in_rev. exact Hc.
  - destruct (Py.isspace x).
    + assert (In t (Py.split_from [] r) -> In c t ->
              In c cur \/ In c (x :: r)) as Htail.
      { intros Ht Hc. destruct (IH [] t c Ht Hc) as [[]|H].
        right. right. exact H. }
      destruct (Py.truthy cur); [|exact Htail].
      intros [<-|Ht] Hc; [|exact (Htail Ht Hc)].
      left. apply in_rev. exact Hc.
    + intros Ht Hc. destruct (IH (x :: cur) t c Ht Hc) as [[<-|H]|H].
      * right. left. reflexivity.
      * left. exact H.
      * right. right. exact H.
Qed.

Lemma split_chars (s t : Py.str) (c : N) :
  In t (Py.split s) -> In c t -> In c s.
Proof.
  intros Ht Hc. destruct (split_from_chars s [] t c Ht Hc) as [[]|H].
  exact H.
Qed.

End TokenFacts.

(** X25.  [preprocess_text].  The tokens handed to the index are not empty
    and hold word characters only: no punctuation mark and no
    whitespace reaches the index or the lexical query. *)
Theorem preprocess_text_yields_words :
  forall (lib : Lexical.Lib) (words : Backend.Words) (text : Py.str),
    Forall (fun token =>
              token <> []
              /\ Forall (fun c => Backend.isword c = true
                                  /\ Py.isspace c = false) token)
      (Backend.preprocess_text text).
Proof.
  intros lib words text. unfold Backend.preprocess_text.
  set (cleaned := List.map _ (Lexical.lower text)).
  pose proof (IndexFacts.split_tokens cleaned) as Htok.
  rewrite Forall_forall in *. intros t Ht.
  destruct (Htok t Ht) as [Hne Hvis]. split; [exact Hne|].
  rewrite Forall_forall in *. intros c Hc.
  pose proof (Hvis c Hc) as Hsp. split; [|exact Hsp].
  pose proof (TokenFacts.split_chars cleaned t c Ht Hc) as Hin.
  unfold cleaned in Hin. apply in_map_iff in Hin.
  destruct Hin as (c0 & Hc0 & _).
  destruct (Backend.isword c0) eqn:Ew; simpl in Hc0.
  - subst c. exact Ew.
  - destruct (Py.isspace c0) eqn:Es; subst c; [congruence|].
    discriminate Hsp.
Qed.

(** X26.  [index_papers].  When the end point answers with its message, the
    number in the message is the number of papers fetched, and the same
    request made again is answered with the error 500, the state being
    left as it is: [store_papers] returns [None] for papers that are all
    in the cache, which the end point takes for a failure. *)
Theorem indexing_twice_answers_an_error :
  forall (requests : Provider.Requests) (codec : Backend.Json)
         (store : Backend.Store) (lib : Lexical.Lib) (words : Backend.Words)
         (arxiv : Indexing.Arxiv) (st st' : Backend.state)
         (query : Py.str) (max_results : Z) (text : Py.str),
    Indexing.index_papers st query max_results
    = (st', Indexing.Message text) ->
    (exists papers,
       Indexing.fetch_arxiv_papers query max_results = Py.Ok papers
       /\ text = Indexing.indexed_message (List.length papers)
       /\ Backend.store_papers st papers = (st', Py.Ok (Backend.Done true)))
    /\ Indexing.index_papers st' query max_results
       = (st', Indexing.HTTPException 500).
Proof.
  intros requests codec store lib words arxiv st st' query n text H.
  unfold Indexing.index_papers in *.
  destruct (Indexing.fetch_arxiv_papers query n) as [papers|x];
    [|discriminate H].
  pose proof (BackendFacts.store_papers_again st papers) as Hagain.
  destruct (Backend.store_papers st papers) as [st1 r] eqn:E.
  simpl in Hagain.
  destruct r as [[|[|]]|x]; try discriminate H.
  injection H as <- <-. split.
  - exists papers. split; [reflexivity|]. split; [reflexivity|exact E].
  - rewrite Hagain. reflexivity.
Qed.

(** X26, an instance: a first indexing of one paper succeeds, the second is
    answered with the error 500. *)
Lemma indexing_twice_answers_an_error_witness :
  exists st',
    @Indexing.index_papers (Fixture.requests_saying 200 (Py.lit "ok"))
      BackendWorld.json BackendWorld.store Fixture.lib BackendWorld.words
      IndexingWorld.arxiv BackendWorld.empty_state (Py.lit "pruning") 20
    = (st', Indexing.Message (Indexing.indexed_message 1))
    /\ @Indexing.index_papers (Fixture.requests_saying 200 (Py.lit "ok"))
         BackendWorld.json BackendWorld.store Fixture.lib BackendWorld.words
         IndexingWorld.arxiv st' (Py.lit "pruning") 20
       = (st', Indexing.HTTPException 500).
Proof.
  eexists. split; [vm_compute; reflexivity|].
  apply (indexing_twice_answers_an_error
           (Fixture.requests_saying 200 (Py.lit "ok"))
           BackendWorld.json BackendWorld.store Fixture.lib
           BackendWorld.words IndexingWorld.arxiv BackendWorld.empty_state
           _ (Py.lit "pruning") 20%Z (Indexing.indexed_message 1)).
  vm_compute. reflexivity.
Defined.

(* ================================================================== *)
(** ** final_code/database.py: the facets of the store *)
(* ================================================================== *)

Module OrderOnStr.

Import Ranking.

Lemma ltb_irrefl (a : Py.str) : str_ltb a a = false.
Proof.
  induction a as [|x a IH]; simpl; [reflexivity|].
  rewrite N.ltb_irrefl, N.eqb_refl, IH. reflexivity.
Qed.

Lemma ltb_cons (x y : N) (a b : Py.str) :
  str_ltb (x :: a) (y :: b) = true <->
  (x < y)%N \/ (x = y /\ str_ltb a b = true).
Proof.
  simpl. rewrite orb_true_iff, andb_true_iff, N.ltb_lt, N.eqb_eq.
  reflexivity.
Qed.

Lemma ltb_trans (a b c : Py.str) :
  str_ltb a b = true -> str_ltb b c = true -> str_ltb a c = true.
Proof.
  revert b c. induction a as [|x a IH]; intros [|y b] [|z c];
    try discriminate; try reflexivity.
  rewrite !ltb_cons. intros [H1|[-> H1]] [H2|[-> H2]].
  - left. lia.
  - left. exact H1.
  - left. exact H2.
  - right. split; [reflexivity|]. exact (IH b c H1 H2).
Qed.

Lemma ltb_total (a b : Py.str) :
  str_ltb a b = false -> Py.eqb a b = false -> str_ltb b a = true.
Proof.
  revert b. induction a as [|x a IH]; intros [|y b]; simpl;
    try discriminate; try reflexivity.
  rewrite !orb_false_iff, !andb_false_iff, orb_true_iff, andb_true_iff.
  rewrite !N.ltb_ge, N.ltb_lt, !N.eqb_neq, N.eqb_eq.
  intros [H1 H2] H3.
  destruct (N.eq_dec x y) as [->|Hne].
  - right. split; [reflexivity|]. apply IH.
    + destruct H2 as [H2|H2]; [contradiction H2; reflexivity|exact H2].
    + destruct H3 as [H3|H3]; [contradiction H3; reflexivity|exact H3].
  - left. lia.
Qed.

End OrderOnStr.

Module StoreFacetsFacts.

Import FinalCode StoreFacets.

Lemma insert_In (x z : Py.str) (l : list Py.str) :
  In z (insert x l) <-> z = x \/ In z l.
Proof.
  induction l as [|y r IH]; simpl; [intuition congruence|].
  destruct (Ranking.str_ltb x y); [simpl; intuition congruence|].
  destruct (Py.eqb x y) eqn:E.
  - apply PyFacts.eqb_eq in E. subst y. simpl. intuition congruence.
  - simpl. rewrite IH. intuition congruence.
Qed.

Lemma insert_sorted (x : Py.str) (l : list Py.str) :
  StronglySorted lt l -> StronglySorted lt (insert x l).
Proof.
  induction 1 as [|y r Hr IH Hy]; simpl; [repeat constructor|].
  destruct (Ranking.str_ltb x y) eqn:E1.
  - constructor; [constructor; assumption|].
    constructor; [exact E1|]. revert Hy. apply Forall_impl.
    intros z Hz. exact (OrderOnStr.ltb_trans _ _ _ E1 Hz).
  - destruct (Py.eqb x y) eqn:E2; [constructor; assumption|].
    constructor; [exact IH|]. apply Forall_forall. intros z Hz.
    apply insert_In in Hz. destruct Hz as [->|Hz].
    + exact (OrderOnStr.ltb_total _ _ E1 E2).
    + rewrite Forall_forall in Hy. exact (Hy z Hz).
Qed.

Lemma sorted_set_In (items : list Py.str) (z : Py.str) :
  In z (sorted_set items) <-> In z items.
Proof.
  induction items as [|x r IH]; simpl; [tauto|].
  rewrite insert_In, IH. intuition congruence.
Qed.

Lemma sorted_set_sorted (items : list Py.str) :
  StronglySorted lt (sorted_set items).
Proof.
  induction items as [|x r IH]; simpl; [constructor|].
  apply insert_sorted. exact IH.
Qed.

Lemma listed_In {tables : Tables} (key : string) (m : metadata) (a : Py.str) :
  In a (listed key m) <->
  exists value l,
    Py.get (Py.lit key) m = Some value /\ value <> []
    /\ loads value = Py.Ok l /\ In a l.
Proof.
  unfold listed. destruct (Py.get (Py.lit key) m) as [value|].
  - destruct value as [|c value]; simpl.
    + split; [intros []|]. intros (v & l & [= <-] & H & _).
      contradiction H. reflexivity.
    + destruct (loads (c :: value)) as [l|x] eqn:E; simpl.
      * split.
        -- intros H. exists (c :: value), l. repeat split; try assumption.
           discriminate.
        -- intros (v & l' & [= <-] & _ & Hl & H). congruence.
      * split; [intros []|]. intros (v & l' & [= <-] & _ & Hl & _).
        congruence.
  - split; [intros []|]. intros (v & l & H & _). discriminate H.
Qed.

Lemma year_of_In {tables : Tables} (m : metadata) (y : Py.str) :
  In y (year_of m) <->
  exists value,
    Py.get (Py.lit "published") m = Some value
    /\ y = Py.slice_to 4 value
    /\ y <> [] /\ forallb isdigit y = true.
Proof.
  unfold year_of, isdigit_str.
  destruct (Py.get (Py.lit "published") m) as [value|].
  - destruct (Py.truthy value) eqn:Ev.
    + destruct (Py.truthy (Py.slice_to 4 value)) eqn:Et; simpl.
      * destruct (forallb isdigit (Py.slice_to 4 value)) eqn:Ed; simpl.
        -- split.
           ++ intros [<-|[]]. exists value. repeat split; try assumption.
              intros H. rewrite H in Et. discriminate Et.
           ++ intros (v & [= <-] & -> & _). left. reflexivity.
        -- split; [intros []|]. intros (v & [= <-] & -> & _ & H).
           congruence.
      * split; [intros []|]. intros (v & [= <-] & -> & H & _).
        destruct (Py.slice_to 4 value); [contradiction|discriminate Et].
    + split; [intros []|]. intros (v & [= <-] & -> & H & _).
      destruct value; [|discriminate Ev]. contradiction H. reflexivity.
  - split; [intros []|]. intros (v & H & _). discriminate H.
Qed.

End StoreFacetsFacts.

(** X27.  [VectorDatabase.get_all_metadata].  The authors and the categories
    come in strictly ascending order and the years in strictly
    descending order, so that no item comes twice.  An author, or a
    category, is listed exactly when the list stored in some metadata
    under that key can be read and holds it.  A year is listed exactly
    when it is the text of the four first characters of some publication
    date, and these are digits. *)
Theorem facets_are_sorted_and_complete :
  forall (chroma : FinalCode.Chroma) (tables : StoreFacets.Tables),
    let found := StoreFacets.get_all_metadata in
    let stored := FinalCode.metadatas FinalCode.collection_get in
    StronglySorted StoreFacets.lt (StoreFacets.authors found)
    /\ StronglySorted StoreFacets.lt (StoreFacets.categories found)
    /\ StronglySorted (fun a b => StoreFacets.lt b a)
         (StoreFacets.years found)
    /\ (forall a,
          In a (StoreFacets.authors found) <->
          exists m value l,
            In m stored
            /\ Py.get (Py.lit "authors") m = Some value /\ value <> []
            /\ StoreFacets.loads value = Py.Ok l /\ In a l)
    /\ (forall c,
          In c (StoreFacets.categories found) <->
          exists m value l,
            In m stored
            /\ Py.get (Py.lit "categories") m = Some value /\ value <> []
            /\ StoreFacets.loads value = Py.Ok l /\ In c l)
    /\ (forall y,
          In y (StoreFacets.years found) <->
          exists m value,
            In m stored
            /\ Py.get (Py.lit "published") m = Some value
            /\ y = Py.slice_to 4 value
            /\ y <> [] /\ forallb StoreFacets.isdigit y = true).
Proof.
  intros chroma tables found stored. subst found stored.
  unfold StoreFacets.get_all_metadata. simpl.
  split; [apply StoreFacetsFacts.sorted_set_sorted|].
  split; [apply StoreFacetsFacts.sorted_set_sorted|].
  split; [apply EngineFacts.sorted_rev,
            StoreFacetsFacts.sorted_set_sorted|].
  split; [|split].
  - intros a. rewrite StoreFacetsFacts.sorted_set_In, in_flat_map. split.
    + intros (m & Hm & Ha). apply StoreFacetsFacts.listed_In in Ha.
      destruct Ha as (value & l & H). exists m, value, l. tauto.
    + intros (m & value & l & Hm & H). exists m. split; [exact Hm|].
      apply StoreFacetsFacts.listed_In. exists value, l. exact H.
  - intros c. rewrite StoreFacetsFacts.sorted_set_In, in_flat_map. split.
    + intros (m & Hm & Hc). apply StoreFacetsFacts.listed_In in Hc.
      destruct Hc as (value & l & H). exists m, value, l. tauto.
    + intros (m & value & l & Hm & H). exists m. split; [exact Hm|].
      apply StoreFacetsFacts.listed_In. exists value, l. exact H.
  - intros y. rewrite <- in_rev, StoreFacetsFacts.sorted_set_In, in_flat_map.
    split.
    + intros (m & Hm & Hy). apply StoreFacetsFacts.year_of_In in Hy.
      destruct Hy as (value & H). exists m, value. tauto.
    + intros (m & value & Hm & H). exists m. split; [exact Hm|].
      apply StoreFacetsFacts.year_of_In. exists value. exact H.
Qed.

(** X27, an instance: a store of three papers, one of them without a
    readable date. *)
Lemma facets_are_sorted_and_complete_witness :
  StoreFacets.years
    (@StoreFacets.get_all_metadata FacetTables.chroma FacetTables.tables)
  = [Py.lit "2023"; Py.lit "2021"]
  /\ In (Py.lit "cs.CV")
       (StoreFacets.categories
          (@StoreFacets.get_all_metadata FacetTables.chroma
             FacetTables.tables)).
Proof.
  split; [vm_compute; reflexivity|].
  apply (facets_are_sorted_and_complete FacetTables.chroma
           FacetTables.tables).
  exists (FacetTables.dated "2023-07-15" [Py.lit "cs.CV"; Py.lit "cs.LG"]),
         (BackendWorld.encode [Py.lit "cs.CV"; Py.lit "cs.LG"]),
         [Py.lit "cs.CV"; Py.lit "cs.LG"].
  split; [right; left; reflexivity|].
  split; [reflexivity|]. split; [discriminate|].
  split; [reflexivity|left; reflexivity].
Defined.

(* ================================================================== *)
(** ** arxiv-search-engine/src/data_ingestion.py: the chunks *)
(* ================================================================== *)

Module ChunkingFacts.

Import Chunking.

Lemma bound_inside (i : Z) (n : nat) :
  (0 <= i <= Z.of_nat n)%Z -> bound i n = Z.to_nat i.
Proof.
  intros H. unfold bound. destruct (Z.ltb_spec i 0); [lia|]. lia.
Qed.

Lemma slice_inside {A} (a b : Z) (l : list A) :
  (0 <= a <= b)%Z -> (b <= Z.of_nat (List.length l))%Z ->
  slice a b l = firstn (Z.to_nat (b - a)) (skipn (Z.to_nat a) l).
Proof.
  intros H1 H2. unfold slice.
  rewrite !bound_inside by lia. f_equal. lia.
Qed.

Section Loop.
Context {config : Config}.

Lemma chunks_from_step (text : Py.str) (fuel : nat) (start : Z) :
  chunks_from (S fuel) text start
  = if (start <? Py.len text)%Z then
      match chunks_from fuel text (start + (chunk_size - chunk_overlap)) with
      | Some chunks =>
          Some (slice start (Z.min (start + chunk_size) (Py.len text)) text
                  :: chunks)
      | None => None
      end
    else Some [].
Proof. reflexivity. Qed.

Lemma chunks_from_more (text : Py.str) (fuel : nat) :
  forall start chunks,
    chunks_from fuel text start = Some chunks ->
    chunks_from (S fuel) text start = Some chunks.
Proof.
  induction fuel as [|fuel IH]; intros start chunks; [discriminate|].
  intros H. rewrite chunks_from_step in H.
  rewrite (chunks_from_step text (S fuel)).
  destruct (start <? Py.len text)%Z; [|exact H].
  destruct (chunks_from fuel text (start + (chunk_size - chunk_overlap)))
    as [rest|] eqn:E; [|discriminate H].
  rewrite (IH _ _ E). exact H.
Qed.

Lemma chunks_from_enough (text : Py.str) (fuel fuel' : nat) start chunks :
  chunks_from fuel text start = Some chunks -> (fuel <= fuel')%nat ->
  chunks_from fuel' text start = Some chunks.
Proof.
  intros H Hle. induction Hle as [|m _ IH]; [exact H|].
  apply chunks_from_more. exact IH.
Qed.

Lemma chunks_from_covers (text : Py.str) :
  (0 <= chunk_overlap < chunk_size)%Z ->
  forall fuel start,
    (0 <= start)%Z ->
    (Z.of_nat (List.length text) - start <= Z.of_nat fuel)%Z ->
    exists chunks,
      chunks_from (S fuel) text start = Some chunks
      /\ Forall (fun chunk => chunk <> []
                              /\ (Py.len chunk <= chunk_size)%Z) chunks
      /\ List.concat (List.map
                   (firstn (Z.to_nat (chunk_size - chunk_overlap))) chunks)
         = skipn (Z.to_nat start) text.
Proof.
  intros Hcfg.
  assert (forall fuel start,
            (Z.of_nat (List.length text) <= start)%Z ->
            exists chunks,
              chunks_from (S fuel) text start = Some chunks
              /\ Forall (fun chunk => chunk <> []
                                      /\ (Py.len chunk <= chunk_size)%Z)
                   chunks
              /\ List.concat
                   (List.map
                      (firstn (Z.to_nat (chunk_size - chunk_overlap)))
                      chunks)
                 = skipn (Z.to_nat start) text) as Hend.
  { intros fuel start Hge. exists []. rewrite chunks_from_step.
    unfold Py.len.
    destruct (Z.ltb_spec start (Z.of_nat (List.length text))); [lia|].
    split; [reflexivity|]. split; [constructor|].
    simpl. symmetry. apply skipn_all2. lia. }
  induction fuel as [|fuel IH]; intros start Hstart Hfuel.
  - apply Hend. lia.
  - destruct (Z_lt_ge_dec start (Z.of_nat (List.length text))) as [Hlt|Hge];
      [|apply Hend; lia].
    rewrite chunks_from_step. unfold Py.len.
    destruct (Z.ltb_spec start (Z.of_nat (List.length text))); [|lia].
    destruct (IH (start + (chunk_size - chunk_overlap))%Z)
      as (rest & -> & Hall & Hcat); [lia|lia|].
    eexists. split; [reflexivity|].
    set (e := Z.min (start + chunk_size) (Z.of_nat (List.length text))).
    assert (slice start e text
            = firstn (Z.to_nat (e - start)) (skipn (Z.to_nat start) text))
      as Hslice by (apply slice_inside; unfold e; lia).
    rewrite Hslice. split.
    + constructor; [|exact Hall]. split.
      * intros Hnil. apply (f_equal (@List.length N)) in Hnil.
        rewrite length_firstn, length_skipn in Hnil. simpl in Hnil.
        unfold e in Hnil. lia.
      * unfold Py.len. rewrite length_firstn, length_skipn.
        unfold e. lia.
    + simpl. rewrite Hcat. rewrite firstn_firstn.
      set (step := Z.to_nat (chunk_size - chunk_overlap)).
      replace (Z.to_nat (start + (chunk_size - chunk_overlap)))
        with (step + Z.to_nat start)%nat by (unfold step; lia).
      rewrite <- skipn_skipn.
      destruct (Z_le_gt_dec (start + (chunk_size - chunk_overlap))
                  (Z.of_nat (List.length text))) as [Hin|Hout].
      * replace (Nat.min step (Z.to_nat (e - start))) with step
          by (unfold step, e; lia).
        apply firstn_skipn.
      * rewrite (skipn_all2 (n := step));
          [|rewrite length_skipn; unfold step; lia].
        rewrite app_nil_r. apply firstn_all2.
        rewrite length_skipn. unfold step, e. lia.
Qed.

Lemma chunks_from_stuck (text : Py.str) :
  (chunk_size <= chunk_overlap)%Z -> text <> [] ->
  forall fuel start, (start <= 0)%Z -> chunks_from fuel text start = None.
Proof.
  intros Hcfg Hne. induction fuel as [|fuel IH]; intros start Hstart;
    [reflexivity|].
  rewrite chunks_from_step. unfold Py.len.
  destruct (Z.ltb_spec start (Z.of_nat (List.length text))) as [Hlt|Hge].
  - rewrite IH; [reflexivity|lia].
  - destruct text; [contradiction|simpl in Hge; lia].
Qed.

End Loop.

End ChunkingFacts.

(** X28.  [DataIngestion.chunk_text], with an overlap that is not negative
    and smaller than the chunk size.  The loop ends, within as many
    iterations as the cleaned text has characters, plus one.  No chunk
    is empty or longer than the chunk size, and the chunks cover the
    cleaned text: the parts of the chunks that do not overlap the next
    one, put end to end, make the cleaned text. *)
Theorem chunk_text_covers_the_text :
  forall (config : Chunking.Config) (text : Py.str),
    (0 <= Chunking.chunk_overlap < Chunking.chunk_size)%Z ->
    exists chunks,
      (forall fuel,
         (List.length (Chunking.cleaned text) < fuel)%nat ->
         Chunking.chunk_text fuel text = Some chunks)
      /\ Forall (fun chunk =>
                   chunk <> []
                   /\ (Py.len chunk <= Chunking.chunk_size)%Z) chunks
      /\ List.concat (List.map
                   (firstn (Z.to_nat (Chunking.chunk_size
                                      - Chunking.chunk_overlap))) chunks)
         = Chunking.cleaned text.
Proof.
  intros config text Hcfg.
  destruct (ChunkingFacts.chunks_from_covers (Chunking.cleaned text) Hcfg
              (List.length (Chunking.cleaned text)) 0%Z)
    as (chunks & Hrun & Hall & Hcat); [lia|lia|].
  exists chunks. split; [|split; [exact Hall|exact Hcat]].
  intros fuel Hfuel. unfold Chunking.chunk_text.
  apply (ChunkingFacts.chunks_from_enough _ _ _ _ _ Hrun). lia.
Qed.

(** X28, an instance: a text cleaned to 13 characters, in chunks of 4 that
    overlap by 1. *)
Lemma chunk_text_covers_the_text_witness :
  exists chunks,
    @Chunking.chunk_text ChunkingWorld.sane 20 (Py.lit "  deep  learning ")
    = Some chunks
    /\ List.concat (List.map (firstn 3) chunks) = Py.lit "deep learning".
Proof.
  destruct (chunk_text_covers_the_text ChunkingWorld.sane
              (Py.lit "  deep  learning ")) as (chunks & Hrun & _ & Hcat).
  - simpl. lia.
  - exists chunks. split; [apply Hrun; vm_compute; lia|exact Hcat].
Defined.

(** X29.  [DataIngestion.chunk_text], with an overlap that is no smaller than
    the chunk size.  On every text that holds a character other than
    whitespace, the loop does not end: [start] never grows, and no
    number of iterations gives a result. *)
Theorem chunk_text_never_returns :
  forall (config : Chunking.Config) (text : Py.str),
    (Chunking.chunk_size <= Chunking.chunk_overlap)%Z ->
    Chunking.cleaned text <> [] ->
    forall fuel, Chunking.chunk_text fuel text = None.
Proof.
  intros config text Hcfg Hne fuel. unfold Chunking.chunk_text.
  apply ChunkingFacts.chunks_from_stuck; [exact Hcfg|exact Hne|lia].
Qed.

(** X29, an instance: chunks of 4 characters with an overlap of 4, run for
    a thousand iterations. *)
Lemma chunk_text_never_returns_witness :
  @Chunking.chunk_text ChunkingWorld.stuck 1000 (Py.lit "deep learning")
  = None.
Proof.
  apply (chunk_text_never_returns ChunkingWorld.stuck (Py.lit "deep learning")).
  - simpl. lia.
  - discriminate.
Defined.
